(** * kdbus: the message-dispatch core (connection.c, bus.c, endpoint.c)

    A shallow embedding of the connection send/receive path, the reply
    trackers, the per-user queue quota, connection disconnect and bus
    creation, followed by the properties the specification states about
    them; then further parts of the core (active references, the timeout
    worker, the move of messages between connections, the parameters of a
    new bus) and properties read off the code.

    Conventions of the embedding.
    - Kernel integers are [Z]; where the C type can wrap, the wrap-around is
      written out with [Z.modulo].
    - Objects that C code shares through pointers live in stores keyed by
      their identity: connections by their id, endpoints by their id, reply
      trackers by their address.  A pointer is the key.
    - A function returns [Return v] when the C function returns, and
      [Oops f] when it would dereference an invalid pointer or hit a
      [BUG_ON].
    - A function that can sleep returns a status: the value the C function
      has returned, or the place where its caller is asleep together with
      the state it sleeps in ([send_status], [disconnect_status]).
    - Calls into collaborators whose sources are not part of the core
      (pool, metadata, policy database, match database, notifications,
      device model) are either results supplied by the [Collaborators]
      interface or entries appended to the event log of the bus. *)

From Stdlib Require Import ZArith String Ascii DecimalString Lia Sorted.
From stdpp Require Import base numbers option list gmap strings.

Local Open Scope Z_scope.

(** ** errno values (include/uapi/asm-generic/errno-base.h, errno.h) *)

Definition EPERM : Z := 1.
Definition ENOENT : Z := 2.
Definition ESRCH : Z := 3.
Definition ENXIO : Z := 6.
Definition EAGAIN : Z := 11.
Definition ENOMEM : Z := 12.
Definition EBUSY : Z := 16.
Definition EEXIST : Z := 17.
Definition EINVAL : Z := 22.
Definition EMFILE : Z := 24.
Definition EMLINK : Z := 31.
Definition EPIPE : Z := 32.
Definition ENOMSG : Z := 42.
Definition ECOMM : Z := 70.
Definition EREMCHG : Z := 78.
Definition EADDRNOTAVAIL : Z := 99.
Definition ECONNRESET : Z := 104.
Definition ENOBUFS : Z := 105.
Definition ESHUTDOWN : Z := 108.
Definition ETIMEDOUT : Z := 110.
Definition EALREADY : Z := 114.
Definition ECANCELED : Z := 125.

(** ** Pointers and faults *)

(** A C pointer: [NULL], an [ERR_PTR] carrying a negative errno, or a valid
    pointer to an object. *)
Inductive ptr (A : Type) : Type :=
| NULL
| ERR_PTR (e : Z)
| Ptr (a : A).
Arguments NULL {A}.
Arguments ERR_PTR {A} e.
Arguments Ptr {A} a.

Definition IS_ERR {A} (p : ptr A) : bool :=
  match p with ERR_PTR _ => true | _ => false end.

Definition PTR_ERR {A} (p : ptr A) : Z :=
  match p with ERR_PTR e => e | _ => 0 end.

Inductive fault : Type :=
| NullPointerDereference
| InvalidPointerDereference
| BugOn.

Inductive outcome (A : Type) : Type :=
| Return (a : A)
| Oops (f : fault).
Arguments Return {A} a.
Arguments Oops {A} f.

#[global] Instance outcome_ret : MRet outcome := fun _ a => Return a.
#[global] Instance outcome_bind : MBind outcome := fun _ _ k m =>
  match m with Return a => k a | Oops f => Oops f end.

(** ** Constants declared in headers outside the core (limits.h, kdbus.h) *)

Class Limits := {
  KDBUS_CONN_MAX_MSGS : Z;
  KDBUS_CONN_MAX_MSGS_PER_USER : Z;
  KDBUS_CONN_MAX_REQUESTS_PENDING : Z;
  KDBUS_USER_MAX_BUSES : Z;
}.

Class Uapi := {
  KDBUS_DST_ID_NAME : Z;
  KDBUS_DST_ID_BROADCAST : Z;
  KDBUS_SRC_ID_KERNEL : Z;
  KDBUS_MSG_FLAGS_EXPECT_REPLY : Z;
  KDBUS_MSG_FLAGS_SYNC_REPLY : Z;
  KDBUS_MSG_FLAGS_NO_AUTO_START : Z;
  KDBUS_RECV_PEEK : Z;
  KDBUS_RECV_DROP : Z;
  KDBUS_RECV_USE_PRIORITY : Z;
  KDBUS_HELLO_ACCEPT_FD : Z;
  KDBUS_HELLO_ACTIVATOR : Z;
  KDBUS_HELLO_POLICY_HOLDER : Z;
  KDBUS_HELLO_MONITOR : Z;
  KDBUS_ATTACH_NAMES : Z;
  KDBUS_ATTACH_CONN_DESCRIPTION : Z;
  KDBUS_ITEM_ID_REMOVE : Z;
  KDBUS_ITEM_NAME_ADD : Z;
  KDBUS_ITEM_NAME_REMOVE : Z;
  KDBUS_ITEM_NAME_CHANGE : Z;
}.

(** [flags & mask] used as a C truth value. *)
Definition has_flag (flags mask : Z) : bool := negb (Z.land flags mask =? 0).

Definition KDBUS_ALIGN8 (val : Z) : Z := Z.land (val + 7) (Z.lnot 7).

Definition INT_MIN : Z := - 2 ^ 31.
Definition KDBUS_CONN_ACTIVE_BIAS : Z := INT_MIN + 1.

(** ** Data model *)

(** struct kdbus_queue_entry (queue.h), the fields the core reads. *)
Record kdbus_queue_entry := {
  e_slice : Z;          (* kdbus_pool_slice_offset(entry->slice) *)
  e_src_id : Z;
  e_cookie : Z;
  e_dst_name_id : Z;
  e_priority : Z;
  e_fds_count : Z;
  e_reply : option Z;   (* entry->reply: address of the tracker, or NULL *)
  e_user : Z;           (* entry->user, negative when not accounted *)
}.

(** struct kdbus_conn_reply.  [r_reply_dst] is the id of the connection the
    pointer [reply_dst] refers to. *)
Record kdbus_conn_reply := {
  r_kref : Z;
  r_reply_dst : Z;
  r_queue_entry : option kdbus_queue_entry;
  r_deadline_ns : Z;
  r_cookie : Z;
  r_name_id : Z;
  r_sync : bool;
  r_waiting : bool;
  r_interrupted : bool;
  r_err : Z;
}.

(** struct kdbus_conn, with the fields of struct kdbus_queue inlined
    ([msg_list], [msg_count]) and [conn->user->idr], [conn->cred->uid],
    [conn->cred->fsuid] read through. *)
Record kdbus_conn := {
  c_id : Z;
  c_flags : Z;
  c_attach_flags : Z;
  c_active : Z;
  c_ep : Z;
  c_user_idr : Z;
  c_cred_uid : Z;
  c_cred_fsuid : Z;
  c_owner_meta : bool;
  c_msg_list : list kdbus_queue_entry;
  c_msg_count : Z;
  c_reply_list : list Z;
  c_reply_count : Z;
  c_name_count : Z;
  c_names_list : list string;
  c_msg_users : list Z;
  c_msg_users_max : Z;
}.

Record kdbus_msg := {
  m_flags : Z;
  m_priority : Z;
  m_dst_id : Z;
  m_src_id : Z;
  m_cookie : Z;
  m_cookie_reply : Z;
  m_timeout_ns : Z;
  m_offset_reply : Z;
}.

Record kdbus_kmsg := {
  k_msg : kdbus_msg;
  k_seq : Z;
  k_dst_name : option string;
  k_dst_name_id : Z;
  k_fds_count : Z;
  k_meta : ptr unit;
  k_notify_type : Z;
  k_notify_name : string;
}.

Record kdbus_name_entry := {
  n_name : string;
  n_name_id : Z;
  n_conn : option Z;
  n_activator : option Z;
}.

Record kdbus_ep := {
  ep_name : string;
  ep_id : Z;
  ep_mode : Z;
  ep_uid : Z;
  ep_gid : Z;
  ep_conn_list : list Z;
  ep_disconnected : bool;
  ep_has_policy : bool;
}.

(** What the core asks of its collaborators, in the order it asks. *)
Inductive event : Type :=
| EvWakeUp (conn : Z)
| EvScheduleWork (conn : Z)
| EvCancelWork (conn : Z)
| EvEntryInstall (conn : Z) (e : kdbus_queue_entry)
| EvSliceMakePublic (off : Z)
| EvSliceFlush (off : Z)
| EvSliceFree (off : Z)
| EvEntryFree (off : Z)
| EvNameRemoveByConn (conn : Z)
| EvNotifyReplyDead (id cookie : Z)
| EvNotifyIdChange (type id flags : Z)
| EvNotifyFlush
| EvDeviceDel (ep : Z).

(** struct kdbus_bus together with the objects reachable from it. *)
Record kdbus_bus := {
  b_name : string;
  b_id : Z;
  b_uid_owner : Z;
  b_bus_flags : Z;
  b_bloom : Z * Z;
  b_disconnected : bool;
  b_ep : ptr Z;
  b_ep_list : list Z;
  b_ep_seq_last : Z;
  b_user : ptr Z;
  b_conn_hash : list Z;
  b_monitors_list : list Z;
  b_name_registry : list kdbus_name_entry;
  b_conns : gmap Z kdbus_conn;
  b_eps : gmap Z kdbus_ep;
  b_replies : gmap Z kdbus_conn_reply;
  b_events : list event;
}.

Record kdbus_domain_user := {
  u_idr : Z;
  u_buses : Z;
  u_connections : Z;
}.

(** struct kdbus_domain; [d_bus_list] keeps the names of the linked buses,
    the one field kdbus_bus_find() reads. *)
Record kdbus_domain := {
  d_disconnected : bool;
  d_bus_seq_last : Z;
  d_msg_seq_last : Z;
  d_bus_list : list string;
  d_users : gmap Z kdbus_domain_user;
}.

(** The calling thread ([current]). *)
Record task := {
  t_cap_ipc_owner : bool;   (* ns_capable(&init_user_ns, CAP_IPC_OWNER) *)
  t_fsuid : Z;
}.

(** struct kdbus_cmd_recv *)
Record kdbus_cmd_recv := {
  recv_flags : Z;
  recv_priority : Z;
  recv_offset : Z;
}.

(** The two policy databases a talk check may consult. *)
Inductive policy_db : Type :=
| EpPolicyDb (ep : Z)
| BusPolicyDb.

(** ** Interface of the collaborators

    Results of functions defined in pool.c, queue.c, metadata.c, policy.c,
    match.c and of the slab allocator.  Each result may depend on the state
    it is asked in. *)
Class Collaborators := {
  (* slab allocator *)
  krealloc_ok : kdbus_conn → bool;
  krealloc_fresh : Z → Z;
  kzalloc_ok : kdbus_bus → bool;
  (* queue.c, pool.c *)
  kdbus_queue_entry_alloc : kdbus_conn → kdbus_kmsg → Z * kdbus_queue_entry;
  kdbus_queue_entry_install : kdbus_queue_entry → Z;
  (* metadata.c *)
  kdbus_meta_new_ok : kdbus_kmsg → bool;
  kdbus_meta_append : kdbus_kmsg → kdbus_conn → Z → Z → Z;
  (* policy.c *)
  kdbus_policy_check_talk_access : policy_db → kdbus_conn → kdbus_conn → Z;
  kdbus_policy_check_see_access_unlocked : Z → kdbus_conn → string → Z;
  (* match.c *)
  kdbus_match_db_match_kmsg : kdbus_conn → option kdbus_conn → kdbus_kmsg → bool;
  (* names.c *)
  kdbus_name_remove_by_conn : kdbus_bus → Z → kdbus_bus;
  (* timekeeping *)
  ktime_get_ns : kdbus_bus → Z;
}.

(** ** Field updates *)

Definition conn_set_active (v : Z) (c : kdbus_conn) : kdbus_conn :=
  {| c_id := c_id c; c_flags := c_flags c; c_attach_flags := c_attach_flags c;
     c_active := v; c_ep := c_ep c; c_user_idr := c_user_idr c;
     c_cred_uid := c_cred_uid c; c_cred_fsuid := c_cred_fsuid c;
     c_owner_meta := c_owner_meta c; c_msg_list := c_msg_list c;
     c_msg_count := c_msg_count c; c_reply_list := c_reply_list c;
     c_reply_count := c_reply_count c; c_name_count := c_name_count c;
     c_names_list := c_names_list c; c_msg_users := c_msg_users c;
     c_msg_users_max := c_msg_users_max c |}.

Definition conn_set_queue (l : list kdbus_queue_entry) (n : Z) (c : kdbus_conn)
  : kdbus_conn :=
  {| c_id := c_id c; c_flags := c_flags c; c_attach_flags := c_attach_flags c;
     c_active := c_active c; c_ep := c_ep c; c_user_idr := c_user_idr c;
     c_cred_uid := c_cred_uid c; c_cred_fsuid := c_cred_fsuid c;
     c_owner_meta := c_owner_meta c; c_msg_list := l;
     c_msg_count := n; c_reply_list := c_reply_list c;
     c_reply_count := c_reply_count c; c_name_count := c_name_count c;
     c_names_list := c_names_list c; c_msg_users := c_msg_users c;
     c_msg_users_max := c_msg_users_max c |}.

Definition conn_set_reply_list (l : list Z) (c : kdbus_conn) : kdbus_conn :=
  {| c_id := c_id c; c_flags := c_flags c; c_attach_flags := c_attach_flags c;
     c_active := c_active c; c_ep := c_ep c; c_user_idr := c_user_idr c;
     c_cred_uid := c_cred_uid c; c_cred_fsuid := c_cred_fsuid c;
     c_owner_meta := c_owner_meta c; c_msg_list := c_msg_list c;
     c_msg_count := c_msg_count c; c_reply_list := l;
     c_reply_count := c_reply_count c; c_name_count := c_name_count c;
     c_names_list := c_names_list c; c_msg_users := c_msg_users c;
     c_msg_users_max := c_msg_users_max c |}.

Definition conn_set_reply_count (n : Z) (c : kdbus_conn) : kdbus_conn :=
  {| c_id := c_id c; c_flags := c_flags c; c_attach_flags := c_attach_flags c;
     c_active := c_active c; c_ep := c_ep c; c_user_idr := c_user_idr c;
     c_cred_uid := c_cred_uid c; c_cred_fsuid := c_cred_fsuid c;
     c_owner_meta := c_owner_meta c; c_msg_list := c_msg_list c;
     c_msg_count := c_msg_count c; c_reply_list := c_reply_list c;
     c_reply_count := n; c_name_count := c_name_count c;
     c_names_list := c_names_list c; c_msg_users := c_msg_users c;
     c_msg_users_max := c_msg_users_max c |}.

Definition conn_set_msg_users (l : list Z) (n : Z) (c : kdbus_conn) : kdbus_conn :=
  {| c_id := c_id c; c_flags := c_flags c; c_attach_flags := c_attach_flags c;
     c_active := c_active c; c_ep := c_ep c; c_user_idr := c_user_idr c;
     c_cred_uid := c_cred_uid c; c_cred_fsuid := c_cred_fsuid c;
     c_owner_meta := c_owner_meta c; c_msg_list := c_msg_list c;
     c_msg_count := c_msg_count c; c_reply_list := c_reply_list c;
     c_reply_count := c_reply_count c; c_name_count := c_name_count c;
     c_names_list := c_names_list c; c_msg_users := l;
     c_msg_users_max := n |}.

Definition entry_set_user (u : Z) (e : kdbus_queue_entry) : kdbus_queue_entry :=
  {| e_slice := e_slice e; e_src_id := e_src_id e; e_cookie := e_cookie e;
     e_dst_name_id := e_dst_name_id e; e_priority := e_priority e;
     e_fds_count := e_fds_count e; e_reply := e_reply e; e_user := u |}.

Definition entry_set_reply (r : option Z) (e : kdbus_queue_entry) : kdbus_queue_entry :=
  {| e_slice := e_slice e; e_src_id := e_src_id e; e_cookie := e_cookie e;
     e_dst_name_id := e_dst_name_id e; e_priority := e_priority e;
     e_fds_count := e_fds_count e; e_reply := r; e_user := e_user e |}.

Definition reply_set_kref (n : Z) (r : kdbus_conn_reply) : kdbus_conn_reply :=
  {| r_kref := n; r_reply_dst := r_reply_dst r; r_queue_entry := r_queue_entry r;
     r_deadline_ns := r_deadline_ns r; r_cookie := r_cookie r;
     r_name_id := r_name_id r; r_sync := r_sync r; r_waiting := r_waiting r;
     r_interrupted := r_interrupted r; r_err := r_err r |}.

Definition reply_set_waiting (w : bool) (e : Z) (r : kdbus_conn_reply)
  : kdbus_conn_reply :=
  {| r_kref := r_kref r; r_reply_dst := r_reply_dst r;
     r_queue_entry := r_queue_entry r; r_deadline_ns := r_deadline_ns r;
     r_cookie := r_cookie r; r_name_id := r_name_id r; r_sync := r_sync r;
     r_waiting := w; r_interrupted := r_interrupted r; r_err := e |}.

Definition reply_set_interrupted (i : bool) (r : kdbus_conn_reply)
  : kdbus_conn_reply :=
  {| r_kref := r_kref r; r_reply_dst := r_reply_dst r;
     r_queue_entry := r_queue_entry r; r_deadline_ns := r_deadline_ns r;
     r_cookie := r_cookie r; r_name_id := r_name_id r; r_sync := r_sync r;
     r_waiting := r_waiting r; r_interrupted := i; r_err := r_err r |}.

Definition reply_set_queue_entry (q : option kdbus_queue_entry)
  (r : kdbus_conn_reply) : kdbus_conn_reply :=
  {| r_kref := r_kref r; r_reply_dst := r_reply_dst r; r_queue_entry := q;
     r_deadline_ns := r_deadline_ns r; r_cookie := r_cookie r;
     r_name_id := r_name_id r; r_sync := r_sync r; r_waiting := r_waiting r;
     r_interrupted := r_interrupted r; r_err := r_err r |}.

Definition bus_set_conns (m : gmap Z kdbus_conn) (b : kdbus_bus) : kdbus_bus :=
  {| b_name := b_name b; b_id := b_id b; b_uid_owner := b_uid_owner b;
     b_bus_flags := b_bus_flags b; b_bloom := b_bloom b;
     b_disconnected := b_disconnected b; b_ep := b_ep b;
     b_ep_list := b_ep_list b; b_ep_seq_last := b_ep_seq_last b;
     b_user := b_user b; b_conn_hash := b_conn_hash b;
     b_monitors_list := b_monitors_list b;
     b_name_registry := b_name_registry b; b_conns := m; b_eps := b_eps b;
     b_replies := b_replies b; b_events := b_events b |}.

Definition bus_set_replies (m : gmap Z kdbus_conn_reply) (b : kdbus_bus)
  : kdbus_bus :=
  {| b_name := b_name b; b_id := b_id b; b_uid_owner := b_uid_owner b;
     b_bus_flags := b_bus_flags b; b_bloom := b_bloom b;
     b_disconnected := b_disconnected b; b_ep := b_ep b;
     b_ep_list := b_ep_list b; b_ep_seq_last := b_ep_seq_last b;
     b_user := b_user b; b_conn_hash := b_conn_hash b;
     b_monitors_list := b_monitors_list b;
     b_name_registry := b_name_registry b; b_conns := b_conns b;
     b_eps := b_eps b; b_replies := m; b_events := b_events b |}.

Definition bus_set_events (l : list event) (b : kdbus_bus) : kdbus_bus :=
  {| b_name := b_name b; b_id := b_id b; b_uid_owner := b_uid_owner b;
     b_bus_flags := b_bus_flags b; b_bloom := b_bloom b;
     b_disconnected := b_disconnected b; b_ep := b_ep b;
     b_ep_list := b_ep_list b; b_ep_seq_last := b_ep_seq_last b;
     b_user := b_user b; b_conn_hash := b_conn_hash b;
     b_monitors_list := b_monitors_list b;
     b_name_registry := b_name_registry b; b_conns := b_conns b;
     b_eps := b_eps b; b_replies := b_replies b; b_events := l |}.

Definition bus_set_eps (m : gmap Z kdbus_ep) (b : kdbus_bus) : kdbus_bus :=
  {| b_name := b_name b; b_id := b_id b; b_uid_owner := b_uid_owner b;
     b_bus_flags := b_bus_flags b; b_bloom := b_bloom b;
     b_disconnected := b_disconnected b; b_ep := b_ep b;
     b_ep_list := b_ep_list b; b_ep_seq_last := b_ep_seq_last b;
     b_user := b_user b; b_conn_hash := b_conn_hash b;
     b_monitors_list := b_monitors_list b;
     b_name_registry := b_name_registry b; b_conns := b_conns b;
     b_eps := m; b_replies := b_replies b; b_events := b_events b |}.

Definition bus_set_links (hash monitors : list Z) (b : kdbus_bus) : kdbus_bus :=
  {| b_name := b_name b; b_id := b_id b; b_uid_owner := b_uid_owner b;
     b_bus_flags := b_bus_flags b; b_bloom := b_bloom b;
     b_disconnected := b_disconnected b; b_ep := b_ep b;
     b_ep_list := b_ep_list b; b_ep_seq_last := b_ep_seq_last b;
     b_user := b_user b; b_conn_hash := hash;
     b_monitors_list := monitors;
     b_name_registry := b_name_registry b; b_conns := b_conns b;
     b_eps := b_eps b; b_replies := b_replies b; b_events := b_events b |}.

Definition bus_set_ep_list (l : list Z) (seq : Z) (b : kdbus_bus) : kdbus_bus :=
  {| b_name := b_name b; b_id := b_id b; b_uid_owner := b_uid_owner b;
     b_bus_flags := b_bus_flags b; b_bloom := b_bloom b;
     b_disconnected := b_disconnected b; b_ep := b_ep b;
     b_ep_list := l; b_ep_seq_last := seq;
     b_user := b_user b; b_conn_hash := b_conn_hash b;
     b_monitors_list := b_monitors_list b;
     b_name_registry := b_name_registry b; b_conns := b_conns b;
     b_eps := b_eps b; b_replies := b_replies b; b_events := b_events b |}.

Definition bus_log (e : event) (b : kdbus_bus) : kdbus_bus :=
  bus_set_events (b_events b ++ [e]) b.

Definition bus_put_conn (c : kdbus_conn) (b : kdbus_bus) : kdbus_bus :=
  bus_set_conns (<[c_id c := c]> (b_conns b)) b.

Definition bus_put_reply (a : Z) (r : kdbus_conn_reply) (b : kdbus_bus) : kdbus_bus :=
  bus_set_replies (<[a := r]> (b_replies b)) b.

(** Dereferencing a connection, endpoint or tracker pointer. *)
Definition conn_deref (b : kdbus_bus) (p : Z) : outcome kdbus_conn :=
  match b_conns b !! p with
  | Some c => Return c
  | None => Oops InvalidPointerDereference
  end.

Definition reply_deref (b : kdbus_bus) (p : Z) : outcome kdbus_conn_reply :=
  match b_replies b !! p with
  | Some r => Return r
  | None => Oops InvalidPointerDereference
  end.

Definition ep_deref (b : kdbus_bus) (p : Z) : outcome kdbus_ep :=
  match b_eps b !! p with
  | Some e => Return e
  | None => Oops InvalidPointerDereference
  end.

(** Arrays of [unsigned int] on the heap: an access outside the allocated
    cells (or through a NULL array, which has none) faults. *)
Definition array_load (a : list Z) (i : Z) : outcome Z :=
  match a !! Z.to_nat i with
  | Some v => Return v
  | None => Oops InvalidPointerDereference
  end.

Definition array_store (a : list Z) (i v : Z) : outcome (list Z) :=
  if decide (Z.to_nat i < length a)%nat
  then Return (<[Z.to_nat i := v]> a)
  else Oops InvalidPointerDereference.

Definition UINT_MOD : Z := 2 ^ 32.
Definition U64_MOD : Z := 2 ^ 64.

(** An [atomic_t] holds an int; the arithmetic on it wraps around. *)
Definition int_wrap (v : Z) : Z := (v - INT_MIN) `mod` UINT_MOD + INT_MIN.
Definition atomic_inc_return (v : Z) : Z := int_wrap (v + 1).
Definition atomic_dec_return (v : Z) : Z := int_wrap (v - 1).

Section Connection.
Context `{Limits, Uapi, Collaborators}.

(** krealloc(old, n * sizeof(unsigned int), GFP_KERNEL): the old cells are
    kept, the added cells are not initialised. *)
Definition krealloc (old : list Z) (n : Z) : list Z :=
  take (Z.to_nat n) old
  ++ (krealloc_fresh <$> seqZ (Z.of_nat (length old)) (n - Z.of_nat (length old))).

(** ** connection.h *)

Definition kdbus_conn_active (conn : kdbus_conn) : bool := 0 <=? c_active conn.

(** Modelled from the spec: kdbus_conn_is_activator(), _is_monitor(),
    _is_policy_holder() and _is_ordinary() of connection.h, which is not
    part of the sources at hand.  The kind of a connection is the flag
    declared at hello; an ordinary connection is none of the three
    special-purpose kinds. *)
Definition kdbus_conn_is_activator (conn : kdbus_conn) : bool :=
  has_flag (c_flags conn) KDBUS_HELLO_ACTIVATOR.
Definition kdbus_conn_is_policy_holder (conn : kdbus_conn) : bool :=
  has_flag (c_flags conn) KDBUS_HELLO_POLICY_HOLDER.
Definition kdbus_conn_is_monitor (conn : kdbus_conn) : bool :=
  has_flag (c_flags conn) KDBUS_HELLO_MONITOR.
Definition kdbus_conn_is_ordinary (conn : kdbus_conn) : bool :=
  negb (kdbus_conn_is_activator conn || kdbus_conn_is_policy_holder conn
        || kdbus_conn_is_monitor conn).

(** ** queue.c *)

(** Modelled from the spec: kdbus_queue_entry_add() of queue.c, which is not
    part of the sources at hand.  [c_msg_list] keeps the entries in arrival
    order; priorities are honoured when peeking, so that entries of equal
    priority leave in the order they arrived. *)
Definition kdbus_queue_entry_add (entry : kdbus_queue_entry) (conn : kdbus_conn)
  : kdbus_conn :=
  conn_set_queue (c_msg_list conn ++ [entry]) (c_msg_count conn + 1) conn.

Fixpoint queue_highest (i : nat) (best : nat * kdbus_queue_entry)
  (l : list kdbus_queue_entry) : nat * kdbus_queue_entry :=
  match l with
  | [] => best
  | e :: l' =>
      queue_highest (S i)
        (if e_priority e <? e_priority (snd best) then (i, e) else best) l'
  end.

(** Modelled from the spec: kdbus_queue_entry_peek() of queue.c, which is not
    part of the sources at hand: with [use_priority] the entry of highest
    priority (lowest number, oldest first) if its priority is within the
    caller's bound, else the head of the list.  The entry comes with its
    position in the list, which stands for the pointer. *)
Definition kdbus_queue_entry_peek (conn : kdbus_conn) (priority : Z)
  (use_priority : bool) : Z * option (nat * kdbus_queue_entry) :=
  match c_msg_list conn with
  | [] => (- EAGAIN, None)
  | e :: l =>
      if use_priority then
        let best := queue_highest 1 (0%nat, e) l in
        if e_priority (snd best) >? priority then (- ENOMSG, None)
        else (0, Some best)
      else (0, Some (0%nat, e))
  end.

(** Modelled from the spec: kdbus_queue_entry_remove() of queue.c, which is
    not part of the sources at hand: the entry is unlinked and the counter of
    the user recorded in it, if any, is decremented. *)
Definition kdbus_queue_entry_remove (i : nat) (entry : kdbus_queue_entry)
  (conn : kdbus_conn) : kdbus_conn :=
  let conn := conn_set_queue (delete i (c_msg_list conn)) (c_msg_count conn - 1) conn in
  if 0 <=? e_user entry then
    conn_set_msg_users
      (alter (λ v, (v - 1) `mod` UINT_MOD) (Z.to_nat (e_user entry))
         (c_msg_users conn))
      (c_msg_users_max conn) conn
  else conn.

(** ** connection.c: reply trackers *)

Definition kdbus_conn_reply_new (bus : kdbus_bus) (reply_dst : Z)
  (msg : kdbus_msg) (name_entry : option kdbus_name_entry)
  : outcome (ptr Z * kdbus_bus) :=
  dst ← conn_deref bus reply_dst;
  let sync := has_flag (m_flags msg) KDBUS_MSG_FLAGS_SYNC_REPLY in
  let count := atomic_inc_return (c_reply_count dst) in
  if count >? KDBUS_CONN_MAX_REQUESTS_PENDING then
    Return (ERR_PTR (- EMLINK), bus)
  else if negb (kzalloc_ok bus) then
    Return (ERR_PTR (- ENOMEM), bus)
  else
    let a := fresh (dom (b_replies bus)) in
    let r := {| r_kref := 1;
                r_reply_dst := reply_dst;
                r_queue_entry := None;
                r_deadline_ns := m_timeout_ns msg;
                r_cookie := m_cookie msg;
                r_name_id := from_option n_name_id 0 name_entry;
                r_sync := sync;
                r_waiting := sync;
                r_interrupted := false;
                r_err := 0 |} in
    Return (Ptr a,
            bus_put_reply a r (bus_put_conn (conn_set_reply_count count dst) bus)).

Definition kdbus_conn_reply_ref (bus : kdbus_bus) (r : Z) : outcome kdbus_bus :=
  t ← reply_deref bus r;
  Return (bus_put_reply r (reply_set_kref (r_kref t + 1) t) bus).

(** kdbus_conn_reply_unref() with __kdbus_conn_reply_free() when the last
    reference goes. *)
Definition kdbus_conn_reply_unref (bus : kdbus_bus) (r : option Z)
  : outcome kdbus_bus :=
  match r with
  | None => Return bus
  | Some a =>
      t ← reply_deref bus a;
      if r_kref t =? 1 then
        dst ← conn_deref bus (r_reply_dst t);
        Return (bus_set_replies (delete a (b_replies bus))
                  (bus_put_conn
                     (conn_set_reply_count (atomic_dec_return (c_reply_count dst)) dst)
                     bus))
      else
        Return (bus_put_reply a (reply_set_kref (r_kref t - 1) t) bus)
  end.

(** list_del_init(&reply->entry): the tracker leaves the reply list it is
    linked on, whichever connection that list belongs to. *)
Definition list_del_init (a : Z) (bus : kdbus_bus) : kdbus_bus :=
  bus_set_conns
    ((λ c, conn_set_reply_list (filter (λ x, x ≠ a) (c_reply_list c)) c)
       <$> b_conns bus) bus.

Definition kdbus_conn_reply_sync (bus : kdbus_bus) (reply : Z) (err : Z)
  : outcome kdbus_bus :=
  r ← reply_deref bus reply;
  if negb (r_sync r) then Oops BugOn
  else
    let bus := list_del_init reply bus in
    let bus := bus_put_reply reply (reply_set_waiting false err r) bus in
    Return (bus_log (EvWakeUp (r_reply_dst r)) bus).

(** ** connection.c: per-user quota *)

Definition kdbus_conn_queue_user_quota (current : task) (conn : kdbus_conn)
  (conn_src : option kdbus_conn) (entry : kdbus_queue_entry)
  : outcome (Z * kdbus_conn * kdbus_queue_entry) :=
  match conn_src with
  | None => Return (0, conn, entry)
  | Some conn_src =>
    if t_cap_ipc_owner current then Return (0, conn, entry)
    else if c_msg_count conn <? KDBUS_CONN_MAX_MSGS_PER_USER then
      Return (0, conn, entry)
    else
      let user := c_user_idr conn_src in
      (* extend array to store the user message counters *)
      grown ←
        (if user >=? c_msg_users_max conn then
           let i := (8 + KDBUS_ALIGN8 user) `mod` UINT_MOD in
           if krealloc_ok conn then
             let arr := krealloc (c_msg_users conn) i in
             arr ← (if c_msg_users_max conn =? 0
                    then array_store arr user (c_msg_count conn `mod` UINT_MOD)
                    else Return arr);
             Return (inl (conn_set_msg_users arr i conn))
           else
             Return (inr (conn_set_msg_users [] (c_msg_users_max conn) conn))
         else Return (inl conn));
      match grown with
      | inr conn => Return (- ENOMEM, conn, entry)
      | inl conn =>
          n ← array_load (c_msg_users conn) user;
          if n >? KDBUS_CONN_MAX_MSGS_PER_USER then
            Return (- ENOBUFS, conn, entry)
          else
            arr ← array_store (c_msg_users conn) user ((n + 1) `mod` UINT_MOD);
            Return (0, conn_set_msg_users arr (c_msg_users_max conn) conn,
                    entry_set_user user entry)
      end
  end.

(** ** connection.c: enqueue a message into the receiver's pool *)

Definition kdbus_conn_entry_insert (current : task) (bus : kdbus_bus)
  (conn : Z) (conn_src : option Z) (kmsg : kdbus_kmsg) (reply : option Z)
  : outcome (Z * kdbus_bus) :=
  c ← conn_deref bus conn;
  (* limit the maximum number of queued messages *)
  if negb (t_cap_ipc_owner current) && (c_msg_count c >? KDBUS_CONN_MAX_MSGS)
  then Return (- ENOBUFS, bus)
  else if negb (kdbus_conn_active c) then Return (- ECONNRESET, bus)
  (* The connection does not accept file descriptors *)
  else if negb (has_flag (c_flags c) KDBUS_HELLO_ACCEPT_FD)
          && (k_fds_count kmsg >? 0)
  then Return (- ECOMM, bus)
  else
    let '(ret, entry) := kdbus_queue_entry_alloc c kmsg in
    if ret <? 0 then Return (ret, bus)
    else
      (* limit the number of queued messages from the same individual user;
         conn_src is looked up here, kdbus_conn_queue_user_quota() reads
         conn_src->user->idr *)
      src ← match conn_src with
            | None => Return None
            | Some s => s ← conn_deref bus s; Return (Some s)
            end;
      '(ret, c, entry) ← kdbus_conn_queue_user_quota current c src entry;
      if ret <? 0 then
        Return (ret, bus_log (EvEntryFree (e_slice entry)) (bus_put_conn c bus))
      else
        let entry := entry_set_reply reply entry in
        '(c, evs) ←
          match reply with
          | None => Return (c, [])
          | Some a =>
              r ← reply_deref bus a;
              Return (conn_set_reply_list (a :: c_reply_list c) c,
                      if r_sync r then [] else [EvScheduleWork conn])
          end;
        (* link the message into the receiver's entry *)
        let c := kdbus_queue_entry_add entry c in
        (* wake up poll() *)
        Return (0, bus_set_events (b_events bus ++ evs ++ [EvWakeUp conn])
                     (bus_put_conn c bus))
  .

(** [n] calls of kdbus_conn_entry_insert() in a row, with their results. *)
Fixpoint conn_entry_insert_n (current : task) (bus : kdbus_bus) (conn : Z)
  (conn_src : option Z) (kmsg : kdbus_kmsg) (n : nat)
  : outcome (list Z * kdbus_bus) :=
  match n with
  | O => Return ([], bus)
  | S n' =>
      '(ret, bus) ← kdbus_conn_entry_insert current bus conn conn_src kmsg None;
      '(rets, bus) ← conn_entry_insert_n current bus conn conn_src kmsg n';
      Return (ret :: rets, bus)
  end.

(** ** bus.c: privilege *)

Definition kdbus_bus_cred_is_privileged (current : task) (bus : kdbus_bus)
  (cred_fsuid : Z) : bool :=
  if t_cap_ipc_owner current then true
  else b_uid_owner bus =? cred_fsuid.

Definition kdbus_bus_uid_is_privileged (current : task) (bus : kdbus_bus) : bool :=
  kdbus_bus_cred_is_privileged current bus (t_fsuid current).

(** ** endpoint.c: policy checks *)

Definition kdbus_ep_policy_check_see_access_unlocked (ep : kdbus_ep)
  (conn : kdbus_conn) (name : string) : Z :=
  if negb (ep_has_policy ep) then 0
  else
    let ret := kdbus_policy_check_see_access_unlocked (ep_id ep) conn name in
    (* don't leak hints whether a name exists on a custom endpoint. *)
    if ret =? - EPERM then - ENOENT else ret.

Definition kdbus_ep_policy_check_see_access (ep : kdbus_ep) (conn : kdbus_conn)
  (name : string) : Z :=
  kdbus_ep_policy_check_see_access_unlocked ep conn name.

Definition kdbus_ep_policy_check_notification (ep : kdbus_ep)
  (conn : kdbus_conn) (kmsg : kdbus_kmsg) : Z :=
  if negb (m_src_id (k_msg kmsg) =? KDBUS_SRC_ID_KERNEL)
     || negb (ep_has_policy ep)
  then 0
  else if (k_notify_type kmsg =? KDBUS_ITEM_NAME_ADD)
          || (k_notify_type kmsg =? KDBUS_ITEM_NAME_REMOVE)
          || (k_notify_type kmsg =? KDBUS_ITEM_NAME_CHANGE)
  then kdbus_ep_policy_check_see_access ep conn (k_notify_name kmsg)
  else 0.

Fixpoint check_src_names_loop (ep : kdbus_ep) (conn_dst : kdbus_conn)
  (names : list string) (ret : Z) : Z :=
  match names with
  | [] => ret
  | e :: names' =>
      let ret := kdbus_ep_policy_check_see_access_unlocked ep conn_dst e in
      if ret =? 0 then ret else check_src_names_loop ep conn_dst names' ret
  end.

Definition kdbus_ep_policy_check_src_names (ep : kdbus_ep)
  (conn_src conn_dst : kdbus_conn) : Z :=
  if negb (ep_has_policy ep) then 0
  else check_src_names_loop ep conn_dst (c_names_list conn_src) (- ENOENT).

Definition kdbus_custom_ep_check_talk_access (ep : kdbus_ep)
  (conn_src conn_dst : kdbus_conn) : Z :=
  if negb (ep_has_policy ep) then 0
  else
    (* Custom endpoints have stricter policies *)
    let ret := kdbus_policy_check_talk_access (EpPolicyDb (ep_id ep))
                 conn_src conn_dst in
    if ret =? - EPERM then - ENOENT else ret.

Definition kdbus_ep_has_default_talk_access (current : task) (bus : kdbus_bus)
  (conn_src conn_dst : kdbus_conn) : bool :=
  if kdbus_bus_cred_is_privileged current bus (c_cred_fsuid conn_src) then true
  else if c_cred_fsuid conn_src =? c_cred_uid conn_dst then true
  else false.

Definition kdbus_ep_policy_check_talk_access (current : task) (bus : kdbus_bus)
  (ep : kdbus_ep) (conn_src conn_dst : kdbus_conn) : Z :=
  (* First check the custom endpoint with its policies *)
  let ret := kdbus_custom_ep_check_talk_access ep conn_src conn_dst in
  if ret <? 0 then ret
  (* Then check if it satisfies the implicit policies *)
  else if kdbus_ep_has_default_talk_access current bus conn_src conn_dst then 0
  else
    (* Fallback to the default endpoint policy *)
    let ret := kdbus_policy_check_talk_access BusPolicyDb conn_src conn_dst in
    if ret <? 0 then ret else 0.

Definition kdbus_ep_policy_check_broadcast (current : task) (bus : kdbus_bus)
  (ep : kdbus_ep) (conn_src conn_dst : kdbus_conn) : Z :=
  let ret := kdbus_custom_ep_check_talk_access ep conn_src conn_dst in
  if ret <? 0 then ret
  else if kdbus_ep_has_default_talk_access current bus conn_src conn_dst then 0
  else if (c_name_count conn_src >? 0) && (c_name_count conn_dst =? 0) then 0
  else
    let ret := kdbus_policy_check_talk_access BusPolicyDb conn_src conn_dst in
    if ret <? 0 then ret else 0.

(** ** connection.c: finding, cancelling and consuming reply trackers *)

Fixpoint find_reply_loop (replies : gmap Z kdbus_conn_reply) (l : list Z)
  (conn_reply_dst cookie : Z) : outcome (option Z) :=
  match l with
  | [] => Return None
  | a :: l' =>
      match replies !! a with
      | None => Oops InvalidPointerDereference
      | Some r =>
          if (r_reply_dst r =? conn_reply_dst) && (r_cookie r =? cookie)
          then Return (Some a)
          else find_reply_loop replies l' conn_reply_dst cookie
      end
  end.

(** Returns the errno and the tracker stored through [reply] (none when the
    function leaves [*reply] alone). *)
Definition kdbus_conn_find_reply (bus : kdbus_bus)
  (conn_replying conn_reply_dst : Z) (cookie : Z) : outcome (Z * option Z) :=
  dst ← conn_deref bus conn_reply_dst;
  if c_reply_count dst =? 0 then Return (- ENOENT, None)
  else
    c ← conn_deref bus conn_replying;
    r ← find_reply_loop (b_replies bus) (c_reply_list c) conn_reply_dst cookie;
    match r with
    | Some a => Return (0, Some a)
    | None => Return (- ENOENT, None)
    end.

Fixpoint msg_cancel_loop (bus : kdbus_bus) (conn cookie : Z) (found : bool)
  (hash : list Z) : outcome (bool * kdbus_bus) :=
  match hash with
  | [] => Return (found, bus)
  | c :: hash' =>
      if c =? conn then msg_cancel_loop bus conn cookie found hash'
      else
        '(ret, reply) ← kdbus_conn_find_reply bus c conn cookie;
        match reply with
        | Some r =>
            bus ← kdbus_conn_reply_sync bus r (- ECANCELED);
            msg_cancel_loop bus conn cookie true hash'
        | None => msg_cancel_loop bus conn cookie found hash'
        end
  end.

Definition kdbus_cmd_msg_cancel (bus : kdbus_bus) (conn : Z) (cookie : Z)
  : outcome (Z * kdbus_bus) :=
  c ← conn_deref bus conn;
  if c_reply_count c =? 0 then Return (- ENOENT, bus)
  else
    '(found, bus) ← msg_cancel_loop bus conn cookie false (b_conn_hash bus);
    Return (if found : bool then 0 else - ENOENT, bus).

(** [want_wake] tells whether the caller passed a place for [reply_wake];
    the second component of the result is what is stored there. *)
Definition kdbus_conn_check_access (current : task) (bus : kdbus_bus) (ep : Z)
  (msg : kdbus_msg) (conn_src conn_dst : Z) (want_wake : bool)
  : outcome (Z * option Z * kdbus_bus) :=
  (* Walk the conn_src's list of expected replies. If there's any
     matching entry, allow the message to be sent, and remove it. *)
  '(allowed, reply_wake, bus) ←
    (if want_wake && (m_cookie_reply msg >? 0) then
       '(ret, r) ← kdbus_conn_find_reply bus conn_src conn_dst
                      (m_cookie_reply msg);
       match r with
       | Some a =>
           t ← reply_deref bus a;
           let bus := list_del_init a bus in
           if r_sync t then
             bus ← kdbus_conn_reply_ref bus a;
             Return (true, Some a, bus)
           else
             bus ← kdbus_conn_reply_unref bus (Some a);
             Return (true, None, bus)
       | None => Return (false, None, bus)
       end
     else Return (false, None, bus));
  if allowed : bool then Return (0, reply_wake, bus)
  else
    (* ... otherwise, ask the policy DBs for permission *)
    e ← ep_deref bus ep;
    src ← conn_deref bus conn_src;
    dst ← conn_deref bus conn_dst;
    let ret := kdbus_ep_policy_check_talk_access current bus e src dst in
    if ret <? 0 then Return (ret, reply_wake, bus)
    else Return (0, reply_wake, bus).

(** ** connection.c: receive *)

Definition recv_set_offset (off : Z) (recv : kdbus_cmd_recv) : kdbus_cmd_recv :=
  {| recv_flags := recv_flags recv; recv_priority := recv_priority recv;
     recv_offset := off |}.

Definition kdbus_cmd_msg_recv (bus : kdbus_bus) (conn : Z)
  (recv : kdbus_cmd_recv) : outcome (Z * kdbus_cmd_recv * kdbus_bus) :=
  if recv_offset recv >? 0 then Return (- EINVAL, recv, bus)
  else
    c ← conn_deref bus conn;
    let '(ret, entry) :=
      kdbus_queue_entry_peek c (recv_priority recv)
        (has_flag (recv_flags recv) KDBUS_RECV_USE_PRIORITY) in
    if ret <? 0 then Return (ret, recv, bus_log EvNotifyFlush bus)
    else
      match entry with
      | None => Oops BugOn
      | Some (i, entry) =>
        if has_flag (recv_flags recv) KDBUS_RECV_DROP then
          (* just drop the message *)
          bus ←
            match e_reply entry with
            | Some a =>
                if bool_decide (a ∈ c_reply_list c) then
                  r ← reply_deref bus a;
                  if r_sync r then kdbus_conn_reply_sync bus a (- EPIPE)
                  else
                    bus ← kdbus_conn_reply_unref (list_del_init a bus) (Some a);
                    Return (bus_log (EvNotifyReplyDead (e_src_id entry)
                                       (e_cookie entry)) bus)
                else Return bus
            | None => Return bus
            end;
          c ← conn_deref bus conn;
          let bus := bus_put_conn (kdbus_queue_entry_remove i entry c) bus in
          let bus := bus_log (EvSliceFree (e_slice entry)) bus in
          let bus := bus_log (EvEntryFree (e_slice entry)) bus in
          Return (ret, recv, bus_log EvNotifyFlush bus)
        else
          (* Give the offset back to the caller. *)
          let recv := recv_set_offset (e_slice entry) recv in
          if has_flag (recv_flags recv) KDBUS_RECV_PEEK then
            Return (ret, recv,
                    bus_log EvNotifyFlush (bus_log (EvSliceFlush (e_slice entry)) bus))
          else
            let ret := kdbus_queue_entry_install entry in
            let bus := bus_log (EvEntryInstall conn entry) bus in
            let bus := bus_log (EvSliceMakePublic (e_slice entry)) bus in
            let bus := bus_put_conn (kdbus_queue_entry_remove i entry c) bus in
            let bus := bus_log (EvEntryFree (e_slice entry)) bus in
            Return (ret, recv, bus_log EvNotifyFlush bus)
      end.

(** ** connection.c: the send path *)

Definition kmsg_set_seq (seq : Z) (k : kdbus_kmsg) : kdbus_kmsg :=
  {| k_msg := k_msg k; k_seq := seq; k_dst_name := k_dst_name k;
     k_dst_name_id := k_dst_name_id k; k_fds_count := k_fds_count k;
     k_meta := k_meta k; k_notify_type := k_notify_type k;
     k_notify_name := k_notify_name k |}.

Definition kmsg_set_meta (m : ptr unit) (k : kdbus_kmsg) : kdbus_kmsg :=
  {| k_msg := k_msg k; k_seq := k_seq k; k_dst_name := k_dst_name k;
     k_dst_name_id := k_dst_name_id k; k_fds_count := k_fds_count k;
     k_meta := m; k_notify_type := k_notify_type k;
     k_notify_name := k_notify_name k |}.

Definition kmsg_set_dst_name_id (n : Z) (k : kdbus_kmsg) : kdbus_kmsg :=
  {| k_msg := k_msg k; k_seq := k_seq k; k_dst_name := k_dst_name k;
     k_dst_name_id := n; k_fds_count := k_fds_count k;
     k_meta := k_meta k; k_notify_type := k_notify_type k;
     k_notify_name := k_notify_name k |}.

Definition msg_set_offset_reply (off : Z) (m : kdbus_msg) : kdbus_msg :=
  {| m_flags := m_flags m; m_priority := m_priority m; m_dst_id := m_dst_id m;
     m_src_id := m_src_id m; m_cookie := m_cookie m;
     m_cookie_reply := m_cookie_reply m; m_timeout_ns := m_timeout_ns m;
     m_offset_reply := off |}.

Definition domain_set_msg_seq_last (v : Z) (d : kdbus_domain) : kdbus_domain :=
  {| d_disconnected := d_disconnected d; d_bus_seq_last := d_bus_seq_last d;
     d_msg_seq_last := v; d_bus_list := d_bus_list d; d_users := d_users d |}.

(** atomic64_inc_return(): the counter is incremented and its new value is
    returned. *)
Definition atomic64_inc_return (v : Z) : Z := (v + 1) `mod` U64_MOD.

Definition kdbus_kmsg_attach_metadata (kmsg : kdbus_kmsg)
  (conn_src conn_dst : kdbus_conn) : Z :=
  let attach_flags := c_attach_flags conn_dst in
  let attach_flags :=
    if c_owner_meta conn_src
    then Z.land attach_flags
           (Z.lor KDBUS_ATTACH_NAMES KDBUS_ATTACH_CONN_DESCRIPTION)
    else attach_flags in
  kdbus_meta_append kmsg conn_src (k_seq kmsg) attach_flags.

(** Modelled from the spec: kdbus_name_lock() of names.c, which is not part
    of the sources at hand: the lookup of a well-known name in the registry
    of the bus. *)
Definition kdbus_name_lock (bus : kdbus_bus) (name : string)
  : option kdbus_name_entry :=
  snd <$> list_find (λ e, n_name e = name) (b_name_registry bus).

(** bus.c *)
Fixpoint find_conn_by_id_loop (bus : kdbus_bus) (id : Z) (hash : list Z)
  : outcome (option Z) :=
  match hash with
  | [] => Return None
  | p :: hash' =>
      conn ← conn_deref bus p;
      if c_id conn =? id then Return (Some p)
      else find_conn_by_id_loop bus id hash'
  end.

Definition kdbus_bus_find_conn_by_id (bus : kdbus_bus) (id : Z)
  : outcome (option Z) :=
  find_conn_by_id_loop bus id (b_conn_hash bus).

Fixpoint conn_broadcast_loop (current : task) (bus : kdbus_bus)
  (conn_src : option Z) (kmsg : kdbus_kmsg) (hash : list Z)
  : outcome kdbus_bus :=
  match hash with
  | [] => Return bus
  | d :: hash' =>
      conn_dst ← conn_deref bus d;
      if c_id conn_dst =? m_src_id (k_msg kmsg) then
        conn_broadcast_loop current bus conn_src kmsg hash'
      else if negb (kdbus_conn_is_ordinary conn_dst)
              && negb (kdbus_conn_is_monitor conn_dst) then
        conn_broadcast_loop current bus conn_src kmsg hash'
      else if negb (kdbus_match_db_match_kmsg conn_dst
                      (conn_src ≫= λ s, b_conns bus !! s) kmsg) then
        conn_broadcast_loop current bus conn_src kmsg hash'
      else
        dst_ep ← ep_deref bus (c_ep conn_dst);
        if kdbus_ep_policy_check_notification dst_ep conn_dst kmsg <? 0 then
          conn_broadcast_loop current bus conn_src kmsg hash'
        else
          match conn_src with
          | Some s =>
              src ← conn_deref bus s;
              (* Check if conn_src is allowed to signal *)
              if kdbus_ep_policy_check_broadcast current bus dst_ep src conn_dst <? 0
              then conn_broadcast_loop current bus conn_src kmsg hash'
              else if kdbus_ep_policy_check_src_names dst_ep src conn_dst <? 0
              then conn_broadcast_loop current bus conn_src kmsg hash'
              else if kdbus_kmsg_attach_metadata kmsg src conn_dst <? 0
              then Return bus
              else
                '(_, bus) ← kdbus_conn_entry_insert current bus d conn_src kmsg None;
                conn_broadcast_loop current bus conn_src kmsg hash'
          | None =>
              '(_, bus) ← kdbus_conn_entry_insert current bus d conn_src kmsg None;
              conn_broadcast_loop current bus conn_src kmsg hash'
          end
  end.

Definition kdbus_conn_broadcast (current : task) (bus : kdbus_bus)
  (conn_src : option Z) (kmsg : kdbus_kmsg) : outcome kdbus_bus :=
  conn_broadcast_loop current bus conn_src kmsg (b_conn_hash bus).

Fixpoint conn_eavesdrop_loop (current : task) (bus : kdbus_bus)
  (conn : option Z) (kmsg : kdbus_kmsg) (monitors : list Z)
  : outcome kdbus_bus :=
  match monitors with
  | [] => Return bus
  | c :: monitors' =>
      stop ← match conn with
             | Some s =>
                 src ← conn_deref bus s;
                 m ← conn_deref bus c;
                 Return (kdbus_kmsg_attach_metadata kmsg src m <? 0)
             | None => Return false
             end;
      if stop : bool then Return bus
      else
        '(_, bus) ← kdbus_conn_entry_insert current bus c None kmsg None;
        conn_eavesdrop_loop current bus conn kmsg monitors'
  end.

Definition kdbus_conn_eavesdrop (current : task) (bus : kdbus_bus)
  (conn : option Z) (kmsg : kdbus_kmsg) : outcome kdbus_bus :=
  conn_eavesdrop_loop current bus conn kmsg (b_monitors_list bus).

(** How kdbus_conn_kmsg_send() leaves the caller: returned with an errno, or
    suspended in kdbus_conn_wait_reply() on [reply_wait]. *)
Inductive send_status : Type :=
| SendReturned (ret : Z)
| SendWaiting (reply_wait conn_dst timeout : Z).

(** kdbus_conn_wait_reply() from the point where
    wait_event_interruptible_timeout() has returned [r], in the state [bus]
    the waiter wakes up in. *)
Definition kdbus_conn_wait_reply (bus : kdbus_bus) (conn_src conn_dst : Z)
  (msg : kdbus_msg) (reply_wait : Z) (r : Z)
  : outcome (Z * kdbus_msg * kdbus_bus) :=
  if r <? 0 then
    (* Interrupted system call. *)
    t ← reply_deref bus reply_wait;
    let bus := bus_put_reply reply_wait (reply_set_interrupted true t) bus in
    Return (r, msg, bus_log (EvScheduleWork conn_dst) bus)
  else
    src ← conn_deref bus conn_src;
    t ← reply_deref bus reply_wait;
    let ret := if r =? 0 then - ETIMEDOUT
               else if negb (kdbus_conn_active src) then - ECONNRESET
               else r_err t in
    let bus := list_del_init reply_wait bus in
    let bus := bus_put_reply reply_wait (reply_set_waiting false (r_err t) t) bus in
    '(ret, msg, bus) ←
      match r_queue_entry t with
      | Some entry =>
          let installed := ret =? 0 in
          let ret := if installed then kdbus_queue_entry_install entry else ret in
          let bus := if installed
                     then bus_log (EvEntryInstall conn_src entry) bus else bus in
          let bus := bus_log (EvSliceMakePublic (e_slice entry)) bus in
          Return (ret, msg_set_offset_reply (e_slice entry) msg,
                  bus_log (EvEntryFree (e_slice entry)) bus)
      | None => Return (ret, msg, bus)
      end;
    bus ← kdbus_conn_reply_unref bus (Some reply_wait);
    Return (ret, msg, bus).

(** The destination of a unicast message: an errno, or the destination
    connection with the name entry that was locked on the way. *)
Definition kmsg_send_resolve (bus : kdbus_bus) (kmsg : kdbus_kmsg)
  : outcome (Z + Z * option kdbus_name_entry) :=
  let msg := k_msg kmsg in
  match k_dst_name kmsg with
  | Some dst_name =>
      match kdbus_name_lock bus dst_name with
      | None => Return (inl (- ESRCH))
      | Some name_entry =>
          (* If both a name and a connection ID are given as destination
             of a message, check that the currently owning connection of
             the name matches the specified ID. *)
          changed ←
            (if negb (m_dst_id msg =? KDBUS_DST_ID_NAME) then
               match n_conn name_entry with
               | None => Oops NullPointerDereference
               | Some owner =>
                   o ← conn_deref bus owner;
                   Return (negb (m_dst_id msg =? c_id o))
               end
             else Return false);
          if changed : bool then Return (inl (- EREMCHG))
          else
            conn_dst ←
              match n_conn name_entry, n_activator name_entry with
              | None, Some activator => Return activator
              | Some owner, _ => Return owner
              | None, None => Oops NullPointerDereference
              end;
            d ← conn_deref bus conn_dst;
            if has_flag (m_flags msg) KDBUS_MSG_FLAGS_NO_AUTO_START
               && kdbus_conn_is_activator d
            then Return (inl (- EADDRNOTAVAIL))
            else Return (inr (conn_dst, Some name_entry))
      end
  | None =>
      (* unicast message to unique name *)
      found ← kdbus_bus_find_conn_by_id bus (m_dst_id msg);
      match found with
      | None => Return (inl (- ENXIO))
      | Some conn_dst =>
          d ← conn_deref bus conn_dst;
          (* Special-purpose connections are not allowed to be addressed
             via their unique IDs. *)
          if negb (kdbus_conn_is_ordinary d) then Return (inl (- ENXIO))
          else Return (inr (conn_dst, None))
      end
  end.

(** From the label [wait_sync] to the return. *)
Definition kmsg_send_wait_sync (bus : kdbus_bus) (kmsg : kdbus_kmsg)
  (conn_dst : Z) (reply_wait : option Z) (ret : Z)
  : outcome (send_status * kdbus_bus) :=
  if has_flag (m_flags (k_msg kmsg)) KDBUS_MSG_FLAGS_SYNC_REPLY then
    match reply_wait with
    | None => Oops BugOn
    | Some a =>
        let now := ktime_get_ns bus in
        let timeout := if m_timeout_ns (k_msg kmsg) <=? now then 0
                       else m_timeout_ns (k_msg kmsg) - now in
        Return (SendWaiting a conn_dst timeout, bus)
    end
  else Return (SendReturned ret, bus).

(** Hand-over of the message: to the waiter of [reply_wake], or into the
    queue of [conn_dst]; then the monitors. *)
Definition kmsg_send_enqueue (current : task) (bus : kdbus_bus)
  (conn_src : option Z) (kmsg : kdbus_kmsg) (conn_dst : Z)
  (reply_wait reply_wake : option Z) : outcome (send_status * kdbus_bus) :=
  '(ret, bus) ←
    match reply_wake with
    | Some w =>
        (* If we're synchronously responding to a message, allocate a
           queue item and attach it to the reply tracking object. *)
        t ← reply_deref bus w;
        d ← conn_deref bus conn_dst;
        let '(ret, bus) :=
          if r_waiting t && kdbus_conn_active d then
            let '(ret, entry) := kdbus_queue_entry_alloc d kmsg in
            if ret <? 0 then (ret, bus)
            else (ret, bus_put_reply w (reply_set_queue_entry (Some entry) t) bus)
          else (- ECONNRESET, bus) in
        bus ← kdbus_conn_reply_sync bus w ret;
        bus ← kdbus_conn_reply_unref bus (Some w);
        Return (ret, bus)
    | None =>
        '(ret, bus) ← kdbus_conn_entry_insert current bus conn_dst conn_src
                         kmsg reply_wait;
        if ret <? 0 then
          bus ← kdbus_conn_reply_unref bus reply_wait;
          Return (ret, bus)
        else Return (ret, bus)
    end;
  if ret <? 0 then Return (SendReturned ret, bus)
  else
    (* forward to monitors *)
    bus ← kdbus_conn_eavesdrop current bus conn_src kmsg;
    kmsg_send_wait_sync bus kmsg conn_dst reply_wait ret.

(** From the resolved destination on. *)
Definition kmsg_send_dispatch (current : task) (bus : kdbus_bus) (ep : Z)
  (conn_src : option Z) (kmsg : kdbus_kmsg) (conn_dst : Z)
  (name_entry : option kdbus_name_entry) : outcome (send_status * kdbus_bus) :=
  let msg := k_msg kmsg in
  match conn_src with
  | Some s =>
      (* If we got here due to an interrupted system call, our reply
         wait object is still queued on conn_dst, with the former cookie. *)
      '(reply_wait, bus) ←
        (if has_flag (m_flags msg) KDBUS_MSG_FLAGS_SYNC_REPLY then
           '(ret, r) ← kdbus_conn_find_reply bus conn_dst s (m_cookie msg);
           match r with
           | Some a =>
               t ← reply_deref bus a;
               if r_interrupted t
               then Return (Some a,
                            bus_put_reply a (reply_set_interrupted false t) bus)
               else Return (None, bus)
           | None => Return (None, bus)
           end
         else Return (None, bus));
      match reply_wait with
      | Some _ => kmsg_send_wait_sync bus kmsg conn_dst reply_wait 0
      | None =>
          src ← conn_deref bus s;
          d ← conn_deref bus conn_dst;
          let ret := kdbus_kmsg_attach_metadata kmsg src d in
          if ret <? 0 then Return (SendReturned ret, bus)
          else if has_flag (m_flags msg) KDBUS_MSG_FLAGS_EXPECT_REPLY then
            '(ret, _, bus) ← kdbus_conn_check_access current bus ep msg s
                                conn_dst false;
            if ret <? 0 then Return (SendReturned ret, bus)
            else
              '(reply_wait, bus) ← kdbus_conn_reply_new bus s msg name_entry;
              match reply_wait with
              | Ptr a =>
                  kmsg_send_enqueue current bus conn_src kmsg conn_dst
                    (Some a) None
              | _ => Return (SendReturned (PTR_ERR reply_wait), bus)
              end
          else
            '(ret, reply_wake, bus) ← kdbus_conn_check_access current bus ep
                                         msg s conn_dst true;
            if ret <? 0 then Return (SendReturned ret, bus)
            else kmsg_send_enqueue current bus conn_src kmsg conn_dst
                   None reply_wake
      end
  | None => kmsg_send_enqueue current bus conn_src kmsg conn_dst None None
  end.

Definition kdbus_conn_kmsg_send (current : task) (dom : kdbus_domain)
  (bus : kdbus_bus) (ep : Z) (conn_src : option Z) (kmsg : kdbus_kmsg)
  : outcome (send_status * kdbus_kmsg * kdbus_domain * kdbus_bus) :=
  (* assign domain-global message sequence number *)
  if k_seq kmsg >? 0 then Oops BugOn
  else
    let seq := atomic64_inc_return (d_msg_seq_last dom) in
    let dom := domain_set_msg_seq_last seq dom in
    let kmsg := kmsg_set_seq seq kmsg in
    (* non-kernel senders append credentials/metadata *)
    '(kmsg, meta_failed) ←
      match conn_src with
      | Some s =>
          src ← conn_deref bus s;
          let kmsg := kmsg_set_meta
                        (if kdbus_meta_new_ok kmsg then Ptr ()
                         else ERR_PTR (- ENOMEM)) kmsg in
          Return (kmsg, IS_ERR (k_meta kmsg))
      | None => Return (kmsg, false)
      end;
    if meta_failed : bool then
      Return (SendReturned (PTR_ERR (k_meta kmsg)), kmsg, dom, bus)
    else if m_dst_id (k_msg kmsg) =? KDBUS_DST_ID_BROADCAST then
      bus ← kdbus_conn_broadcast current bus conn_src kmsg;
      Return (SendReturned 0, kmsg, dom, bus)
    else
      resolved ← kmsg_send_resolve bus kmsg;
      match resolved with
      | inl err => Return (SendReturned err, kmsg, dom, bus)
      | inr (conn_dst, name_entry) =>
          (* Record the sequence number of the registered name *)
          let kmsg := match name_entry with
                      | Some n => kmsg_set_dst_name_id (n_name_id n) kmsg
                      | None => kmsg
                      end in
          '(st, bus) ← kmsg_send_dispatch current bus ep conn_src kmsg
                          conn_dst name_entry;
          Return (st, kmsg, dom, bus)
      end.

(** A send fails when it returns a negative errno. *)
Definition send_failed (st : send_status) : bool :=
  match st with
  | SendReturned ret => ret <? 0
  | SendWaiting _ _ _ => false
  end.

(** A run of sends in one domain, on whichever of its buses, with the
    sequence numbers they assign. *)
Inductive send_trace : kdbus_domain → list Z → kdbus_domain → Prop :=
| send_trace_nil dom : send_trace dom [] dom
| send_trace_cons dom current bus ep conn_src kmsg st kmsg' dom1 bus' seqs dom2 :
    kdbus_conn_kmsg_send current dom bus ep conn_src kmsg
      = Return (st, kmsg', dom1, bus') →
    send_trace dom1 seqs dom2 →
    send_trace dom (k_seq kmsg' :: seqs) dom2.

(** Modelled on the words of the spec: the sequence number taken by
    [fetch_add(1)], which returns the value the counter had and stores that
    value plus one. *)
Definition spec_fetch_add (counter : Z) : Z * Z :=
  (counter, (counter + 1) `mod` U64_MOD).

(** ** connection.c: disconnect *)

Definition ep_set_conn_list (l : list Z) (e : kdbus_ep) : kdbus_ep :=
  {| ep_name := ep_name e; ep_id := ep_id e; ep_mode := ep_mode e;
     ep_uid := ep_uid e; ep_gid := ep_gid e; ep_conn_list := l;
     ep_disconnected := ep_disconnected e; ep_has_policy := ep_has_policy e |}.

Definition ep_set_disconnected (d : bool) (e : kdbus_ep) : kdbus_ep :=
  {| ep_name := ep_name e; ep_id := ep_id e; ep_mode := ep_mode e;
     ep_uid := ep_uid e; ep_gid := ep_gid e; ep_conn_list := ep_conn_list e;
     ep_disconnected := d; ep_has_policy := ep_has_policy e |}.

Definition bus_put_ep (e : kdbus_ep) (b : kdbus_bus) : kdbus_bus :=
  bus_set_eps (<[ep_id e := e]> (b_eps b)) b.

(** The loop over [conn->queue.msg_list]. *)
Fixpoint conn_disconnect_drain (c : kdbus_conn) (l : list kdbus_queue_entry)
  : kdbus_conn * list event :=
  match l with
  | [] => (c, [])
  | entry :: l' =>
      let dead := match e_reply entry with
                  | Some _ => [EvNotifyReplyDead (e_src_id entry) (e_cookie entry)]
                  | None => []
                  end in
      let c := kdbus_queue_entry_remove 0 entry c in
      let '(c, evs) := conn_disconnect_drain c l' in
      (c, dead ++ [EvSliceFree (e_slice entry); EvEntryFree (e_slice entry)] ++ evs)
  end.

(** The loop over the spliced-off [reply_list]. *)
Fixpoint conn_disconnect_replies (bus : kdbus_bus) (l : list Z)
  : outcome kdbus_bus :=
  match l with
  | [] => Return bus
  | reply :: l' =>
      r ← reply_deref bus reply;
      if r_sync r then
        bus ← kdbus_conn_reply_sync bus reply (- EPIPE);
        conn_disconnect_replies bus l'
      else
        (* send a 'connection dead' notification *)
        dst ← conn_deref bus (r_reply_dst r);
        let bus := bus_log (EvNotifyReplyDead (c_id dst) (r_cookie r)) bus in
        bus ← kdbus_conn_reply_unref bus (Some reply);
        conn_disconnect_replies bus l'
  end.

(** atomic_add(KDBUS_CONN_ACTIVE_BIAS, &conn->active), the step of
    kdbus_conn_disconnect() that closes the connection to new active
    references. *)
Definition conn_add_active_bias (c : kdbus_conn) : kdbus_conn :=
  conn_set_active (int_wrap (c_active c + KDBUS_CONN_ACTIVE_BIAS)) c.

(** How kdbus_conn_disconnect() leaves the caller: returned with a result,
    or asleep in wait_event() until the holders of active references have
    released them. *)
Inductive disconnect_status : Type :=
| DisconnectReturned (ret : Z)
| DisconnectWaiting.

(** kdbus_conn_disconnect() from the point where wait_event() has returned,
    in the state [bus] the caller wakes up in. *)
Definition conn_disconnect_finish (bus : kdbus_bus) (conn : Z)
  : outcome (Z * kdbus_bus) :=
  c ← conn_deref bus conn;
  let bus := bus_log (EvCancelWork conn) bus in
  (* remove from bus and endpoint *)
  e ← ep_deref bus (c_ep c);
  let bus := bus_set_links (filter (λ x, x ≠ conn) (b_conn_hash bus))
               (filter (λ x, x ≠ conn) (b_monitors_list bus)) bus in
  let bus := bus_put_ep
               (ep_set_conn_list (filter (λ x, x ≠ conn) (ep_conn_list e)) e)
               bus in
  (* Remove all names associated with this connection *)
  let bus := kdbus_name_remove_by_conn bus conn in
  (* if we die while other connections wait for our reply, notify them *)
  c ← conn_deref bus conn;
  let '(c, evs) := conn_disconnect_drain c (c_msg_list c) in
  let reply_list := c_reply_list c in
  let bus := bus_set_events (b_events bus ++ evs)
               (bus_put_conn (conn_set_reply_list [] c) bus) in
  bus ← conn_disconnect_replies bus reply_list;
  let bus := bus_log (EvNotifyIdChange KDBUS_ITEM_ID_REMOVE (c_id c) (c_flags c))
               bus in
  Return (0, bus_log EvNotifyFlush bus).

(** kdbus_conn_disconnect().  The condition of wait_event() is tested once,
    after the bias is added: when the counter equals the bias already (no
    active reference is outstanding) the call goes on; otherwise the caller
    sleeps, to be woken by the kdbus_conn_release() that brings the counter
    down to the bias, and [conn_disconnect_finish] is what it does then. *)
Definition kdbus_conn_disconnect (bus : kdbus_bus) (conn : Z)
  (ensure_queue_empty : bool) : outcome (disconnect_status * kdbus_bus) :=
  c ← conn_deref bus conn;
  if negb (kdbus_conn_active c) then Return (DisconnectReturned (- EALREADY), bus)
  else if ensure_queue_empty && negb (bool_decide (c_msg_list c = [])) then
    Return (DisconnectReturned (- EBUSY), bus)
  else
    let c := conn_add_active_bias c in
    let bus := bus_log (EvWakeUp conn) (bus_put_conn c bus) in
    if negb (c_active c =? KDBUS_CONN_ACTIVE_BIAS) then
      Return (DisconnectWaiting, bus)
    else
      '(ret, bus) ← conn_disconnect_finish bus conn;
      Return (DisconnectReturned ret, bus).

(** ** endpoint.c: endpoints *)

(** The disconnect loop of kdbus_ep_disconnect(): it takes the first
    connection of the list until the list is empty, so it spins for ever on
    a connection that kdbus_conn_disconnect() leaves linked, and it sleeps
    where kdbus_conn_disconnect() sleeps. *)
Fixpoint ep_disconnect_conns (bus : kdbus_bus) (l : list Z)
  : outcome (bool * kdbus_bus) :=
  match l with
  | [] => Return (true, bus)
  | conn :: l' =>
      '(st, bus) ← kdbus_conn_disconnect bus conn false;
      match st with
      | DisconnectReturned ret =>
          if ret =? 0 then ep_disconnect_conns bus l'
          else Return (false, bus)
      | DisconnectWaiting => Return (false, bus)
      end
  end.

(** The boolean tells whether the function returns (it does not when the
    loop above spins or sleeps). *)
Definition kdbus_ep_disconnect (bus : kdbus_bus) (ep : Z)
  : outcome (bool * kdbus_bus) :=
  e ← ep_deref bus ep;
  if ep_disconnected e then Return (true, bus)
  else
    let bus := bus_put_ep (ep_set_disconnected true e) bus in
    (* disconnect from bus *)
    let bus := bus_set_ep_list (filter (λ x, x ≠ ep) (b_ep_list bus))
                 (b_ep_seq_last bus) bus in
    let bus := bus_log (EvDeviceDel ep) bus in
    (* disconnect all connections to this endpoint *)
    ep_disconnect_conns bus (ep_conn_list e).

(** What the allocator and the device model answer during one call of
    kdbus_ep_new(). *)
Record ep_new_env := {
  epn_kzalloc_ok : bool;
  epn_kstrdup_ok : bool;
  epn_dev_set_name : Z;
  epn_minor_alloc : Z;
  epn_device_add : Z;
}.

Definition kdbus_ep_find (bus : kdbus_bus) (name : string) : bool :=
  bool_decide (Exists (λ p, ep_name <$> b_eps bus !! p = Some name) (b_ep_list bus)).

Definition kdbus_ep_new (env : ep_new_env) (bus : kdbus_bus) (name : string)
  (mode uid gid : Z) (policy : bool) : outcome (ptr Z * kdbus_bus) :=
  if negb (epn_kzalloc_ok env) then Return (ERR_PTR (- ENOMEM), bus)
  else if negb (epn_kstrdup_ok env) then Return (ERR_PTR (- ENOMEM), bus)
  else if epn_dev_set_name env <? 0 then
    Return (ERR_PTR (epn_dev_set_name env), bus)
  else if epn_minor_alloc env <? 0 then
    Return (ERR_PTR (epn_minor_alloc env), bus)
  else if b_disconnected bus then Return (ERR_PTR (- ESHUTDOWN), bus)
  else if kdbus_ep_find bus name then Return (ERR_PTR (- EEXIST), bus)
  else
    let id := (b_ep_seq_last bus + 1) `mod` U64_MOD in
    let e := {| ep_name := name; ep_id := id; ep_mode := mode; ep_uid := uid;
                ep_gid := gid; ep_conn_list := []; ep_disconnected := false;
                ep_has_policy := policy |} in
    let bus := bus_put_ep e (bus_set_ep_list (b_ep_list bus ++ [id]) id bus) in
    let ret := epn_device_add env in
    if ret <? 0 then
      '(_, bus) ← kdbus_ep_disconnect bus id;
      Return (ERR_PTR ret, bus_set_eps (delete id (b_eps bus)) bus)
    else Return (Ptr id, bus).

End Connection.

(** ** bus.c: bus creation *)

(** strncmp() of lib/string.c on NUL-terminated strings. *)
Fixpoint strncmp (cs ct : string) (count : nat) {struct count} : Z :=
  match count with
  | O => 0
  | S count' =>
      match cs, ct with
      | EmptyString, EmptyString => 0
      | EmptyString, String _ _ => -1
      | String _ _, EmptyString => 1
      | String c1 cs', String c2 ct' =>
          if Ascii.eqb c1 c2 then strncmp cs' ct' count'
          else if (N_of_ascii c1 <? N_of_ascii c2)%N then -1 else 1
      end
  end.

Definition strlen (s : string) : nat := String.length s.

(** snprintf(buf, size, "%u-", u): the decimal digits of [u] and a dash, cut
    to what fits in [size] bytes with the terminating NUL. *)
Definition snprintf_u_dash (size : nat) (u : Z) : string :=
  substring 0 (size - 1)
    (NilZero.string_of_uint (N.to_uint (Z.to_N u)) ++ "-").

(** What the allocator, the metadata collector and the device model answer
    during one call of kdbus_bus_new(). *)
Record bus_new_env := {
  bn_kzalloc_ok : bool;
  bn_meta_new_ok : bool;
  bn_meta_append : Z;
  bn_kstrdup_ok : bool;
  bn_name_registry_new_ok : bool;
  bn_ep_new : ep_new_env;
  bn_get_user_ok : bool;
  bn_capable : bool;             (* capable(CAP_IPC_OWNER) *)
}.

Definition bus_set_ep (p : ptr Z) (b : kdbus_bus) : kdbus_bus :=
  {| b_name := b_name b; b_id := b_id b; b_uid_owner := b_uid_owner b;
     b_bus_flags := b_bus_flags b; b_bloom := b_bloom b;
     b_disconnected := b_disconnected b; b_ep := p;
     b_ep_list := b_ep_list b; b_ep_seq_last := b_ep_seq_last b;
     b_user := b_user b; b_conn_hash := b_conn_hash b;
     b_monitors_list := b_monitors_list b;
     b_name_registry := b_name_registry b; b_conns := b_conns b;
     b_eps := b_eps b; b_replies := b_replies b; b_events := b_events b |}.

Definition bus_set_user_id (u : ptr Z) (id : Z) (b : kdbus_bus) : kdbus_bus :=
  {| b_name := b_name b; b_id := id; b_uid_owner := b_uid_owner b;
     b_bus_flags := b_bus_flags b; b_bloom := b_bloom b;
     b_disconnected := b_disconnected b; b_ep := b_ep b;
     b_ep_list := b_ep_list b; b_ep_seq_last := b_ep_seq_last b;
     b_user := u; b_conn_hash := b_conn_hash b;
     b_monitors_list := b_monitors_list b;
     b_name_registry := b_name_registry b; b_conns := b_conns b;
     b_eps := b_eps b; b_replies := b_replies b; b_events := b_events b |}.

Definition domain_set_users (m : gmap Z kdbus_domain_user) (d : kdbus_domain)
  : kdbus_domain :=
  {| d_disconnected := d_disconnected d; d_bus_seq_last := d_bus_seq_last d;
     d_msg_seq_last := d_msg_seq_last d; d_bus_list := d_bus_list d;
     d_users := m |}.

Definition domain_link_bus (id : Z) (name : string) (d : kdbus_domain)
  : kdbus_domain :=
  {| d_disconnected := d_disconnected d; d_bus_seq_last := id;
     d_msg_seq_last := d_msg_seq_last d; d_bus_list := d_bus_list d ++ [name];
     d_users := d_users d |}.

Definition user_set_buses (n : Z) (u : kdbus_domain_user) : kdbus_domain_user :=
  {| u_idr := u_idr u; u_buses := n; u_connections := u_connections u |}.

(** Modelled from the spec: kdbus_domain_get_user_unlocked() of domain.c,
    which is not part of the sources at hand: the accounting record of a
    user in the domain, created with zeroed counters when the user has
    none. *)
Definition kdbus_domain_get_user_unlocked (ok : bool) (domain : kdbus_domain)
  (uid : Z) : ptr Z * kdbus_domain :=
  if negb ok then (ERR_PTR (- ENOMEM), domain)
  else
    match d_users domain !! uid with
    | Some _ => (Ptr uid, domain)
    | None =>
        (Ptr uid,
         domain_set_users
           (<[uid := {| u_idr := Z.of_nat (size (d_users domain));
                        u_buses := 0; u_connections := 0 |}]> (d_users domain))
           domain)
    end.

Definition kdbus_bus_find (domain : kdbus_domain) (name : string) : bool :=
  bool_decide (name ∈ d_bus_list domain).

(** The bus object of kdbus_bus_new() after kzalloc() and the
    initialisation of its fields, before the default endpoint exists. *)
Definition bus_new_init (make_flags : Z) (name : string) (bloom : Z * Z)
  (uid : Z) : kdbus_bus :=
  {| b_name := name; b_id := 0; b_uid_owner := uid;
     b_bus_flags := make_flags; b_bloom := bloom;
     b_disconnected := false; b_ep := NULL; b_ep_list := [];
     b_ep_seq_last := 0; b_user := NULL; b_conn_hash := [];
     b_monitors_list := []; b_name_registry := [];
     b_conns := ∅; b_eps := ∅; b_replies := ∅; b_events := [] |}.

Section Bus.
Context `{Limits, Uapi, Collaborators}.

(** The label [exit_unref_user_unlock] of kdbus_bus_new(). *)
Definition bus_new_exit_unref_user (b : kdbus_bus) (domain : kdbus_domain)
  (ret : Z) : outcome (ptr kdbus_bus * kdbus_domain) :=
  match b_ep b with
  | Ptr ep =>
      _ ← kdbus_ep_disconnect b ep;
      Return (ERR_PTR ret, domain)
  | ERR_PTR _ => Oops InvalidPointerDereference
  | NULL => Oops NullPointerDereference
  end.

(** [uid] is the creator's uid as a number (from_kuid() applied). *)
Definition kdbus_bus_new (env : bus_new_env) (domain : kdbus_domain)
  (make_flags : Z) (name : string) (bloom : Z * Z) (mode uid gid : Z)
  : outcome (ptr kdbus_bus * kdbus_domain) :=
  (* enforce "$UID-" prefix *)
  let prefix := snprintf_u_dash 16 uid in
  if negb (strncmp name prefix
             (Nat.b2n (negb (Nat.eqb (strlen prefix) 0))) =? 0)
  then Return (ERR_PTR (- EINVAL), domain)
  else if kdbus_bus_find domain name then Return (ERR_PTR (- EEXIST), domain)
  else if negb (bn_kzalloc_ok env) then Return (ERR_PTR (- ENOMEM), domain)
  else
    let b := bus_new_init make_flags name bloom uid in
    (* cache the metadata/credentials of the creator *)
    if negb (bn_meta_new_ok env) then Return (ERR_PTR (- ENOMEM), domain)
    else if bn_meta_append env <? 0 then
      Return (ERR_PTR (bn_meta_append env), domain)
    else if negb (bn_kstrdup_ok env) then Return (ERR_PTR (- ENOMEM), domain)
    else if negb (bn_name_registry_new_ok env) then
      Return (ERR_PTR (- ENOMEM), domain)
    else
      '(ep, b) ← kdbus_ep_new (bn_ep_new env) b "bus" mode uid gid false;
      let b := bus_set_ep ep b in
      if Z.b2z (IS_ERR (b_ep b)) <? 0 then
        Return (ERR_PTR (PTR_ERR (b_ep b)), domain)
      (* link into domain *)
      else if d_disconnected domain then
        bus_new_exit_unref_user b domain (- ESHUTDOWN)
      else
        (* account the bus against the user *)
        let '(user, domain) :=
          kdbus_domain_get_user_unlocked (bn_get_user_ok env) domain uid in
        let b := bus_set_user_id user (b_id b) b in
        match user with
        | Ptr u =>
            let rec := default {| u_idr := 0; u_buses := 0; u_connections := 0 |}
                         (d_users domain !! u) in
            let buses := atomic_inc_return (u_buses rec) in
            if negb (bn_capable env) && (buses >? KDBUS_USER_MAX_BUSES) then
              bus_new_exit_unref_user b domain (- EMFILE)
            else
              let domain :=
                if bn_capable env then domain
                else domain_set_users
                       (<[u := user_set_buses buses rec]> (d_users domain))
                       domain in
              let id := (d_bus_seq_last domain + 1) `mod` U64_MOD in
              Return (Ptr (bus_set_user_id user id b),
                      domain_link_bus id name domain)
        | _ => bus_new_exit_unref_user b domain (PTR_ERR user)
        end.

End Bus.

(** * Consistent states *)

(** The stores of a bus are consistent: a connection is filed under its id,
    its endpoint exists, the trackers on its reply list exist and are
    linked once, and the connection a tracker answers to exists. *)
Record bus_wf (bus : kdbus_bus) : Prop := {
  wf_conn_id : ∀ k c, b_conns bus !! k = Some c → c_id c = k;
  wf_conn_ep : ∀ k c, b_conns bus !! k = Some c → is_Some (b_eps bus !! c_ep c);
  wf_reply_list : ∀ k c, b_conns bus !! k = Some c →
    NoDup (c_reply_list c) ∧ ∀ a, a ∈ c_reply_list c → is_Some (b_replies bus !! a);
  wf_reply_dst : ∀ a t, b_replies bus !! a = Some t →
    is_Some (b_conns bus !! r_reply_dst t);
}.

(** * Conditions on the environment of a call *)

Section Conditions.
Context `{Limits, Uapi, Collaborators}.

(** Every call in kdbus_bus_new() that may fail succeeds, up to the creation
    of the default endpoint. *)
Definition bus_new_env_ok_before_ep (env : bus_new_env) : Prop :=
  bn_kzalloc_ok env = true ∧ bn_meta_new_ok env = true
  ∧ 0 ≤ bn_meta_append env ∧ bn_kstrdup_ok env = true
  ∧ bn_name_registry_new_ok env = true.

(** The accounting of the new bus against its creator succeeds. *)
Definition bus_new_accounting_ok (env : bus_new_env) (domain : kdbus_domain)
  (uid : Z) : Prop :=
  d_disconnected domain = false ∧ bn_get_user_ok env = true
  ∧ (bn_capable env = true
     ∨ atomic_inc_return (from_option u_buses 0 (d_users domain !! uid))
       ≤ KDBUS_USER_MAX_BUSES).

(** The default endpoint of a fresh bus is created when nothing fails. *)
Definition ep_new_env_ok (env : ep_new_env) : Prop :=
  epn_kzalloc_ok env = true ∧ epn_kstrdup_ok env = true
  ∧ 0 ≤ epn_dev_set_name env ∧ 0 ≤ epn_minor_alloc env
  ∧ 0 ≤ epn_device_add env.

(** The invariant of the loop over the spliced-off reply list. *)
Definition replies_loop_inv (conn : Z) (bus : kdbus_bus) (l : list Z) : Prop :=
  (∀ k c, b_conns bus !! k = Some c → c_id c = k)
  ∧ (∀ a t, b_replies bus !! a = Some t → is_Some (b_conns bus !! r_reply_dst t))
  ∧ (∀ a, a ∈ l → is_Some (b_replies bus !! a))
  ∧ NoDup l
  ∧ (∃ c, b_conns bus !! conn = Some c ∧ c_active c = KDBUS_CONN_ACTIVE_BIAS
          ∧ c_reply_list c = [] ∧ c_msg_list c = []).

(** What kdbus_conn_disconnect() relies on from kdbus_name_remove_by_conn()
    of names.c: it keeps the stores consistent and does not touch the
    active counter of any connection. *)
Definition name_remove_by_conn_ok : Prop :=
  (∀ bus conn, bus_wf bus → bus_wf (kdbus_name_remove_by_conn bus conn))
  ∧ (∀ bus conn k c, b_conns bus !! k = Some c →
       ∃ c', b_conns (kdbus_name_remove_by_conn bus conn) !! k = Some c'
             ∧ c_active c' = c_active c).

End Conditions.

(** * Further parts of the core

    Functions of connection.c and bus.c next to the ones above, and the
    vocabulary of the properties stated about them. *)

(** ** connection.c: active references *)

Section ActiveReferences.
Context `{Limits, Uapi, Collaborators}.

(** kdbus_conn_acquire(): atomic_inc_unless_negative() on the active
    counter. *)
Definition kdbus_conn_acquire (bus : kdbus_bus) (conn : Z)
  : outcome (Z * kdbus_bus) :=
  c ← conn_deref bus conn;
  if c_active c <? 0 then Return (- ECONNRESET, bus)
  else
    Return (0, bus_put_conn (conn_set_active (atomic_inc_return (c_active c)) c)
                 bus).

(** kdbus_conn_release(): the waiter of kdbus_conn_disconnect() is woken
    when the last active reference goes. *)
Definition kdbus_conn_release (bus : kdbus_bus) (conn : Z) : outcome kdbus_bus :=
  c ← conn_deref bus conn;
  let v := atomic_dec_return (c_active c) in
  let bus := bus_put_conn (conn_set_active v c) bus in
  if negb (v =? KDBUS_CONN_ACTIVE_BIAS) then Return bus
  else Return (bus_log (EvWakeUp conn) bus).

(** [n] holders of an active reference release it, one after the other. *)
Fixpoint conn_release_n (n : nat) (bus : kdbus_bus) (conn : Z)
  : outcome kdbus_bus :=
  match n with
  | O => Return bus
  | S n' =>
      bus ← kdbus_conn_release bus conn;
      conn_release_n n' bus conn
  end.

End ActiveReferences.

(** ** connection.c: the timeout worker *)

(** What kdbus_conn_work() asks of the notification code and of the timer:
    kdbus_notify_reply_timeout(), and schedule_delayed_work() with the delay
    in nanoseconds that nsecs_to_jiffies() is given. *)
Inductive work_event : Type :=
| WorkNotifyReplyTimeout (id cookie : Z)
| WorkScheduleDelayed (delay_ns : Z).

Section Work.
Context `{Limits, Uapi, Collaborators}.

(** The loop of kdbus_conn_work() over [conn->reply_list]; [deadline] is the
    earliest deadline met so far. *)
Fixpoint conn_work_loop (bus : kdbus_bus) (now deadline : Z) (l : list Z)
  : outcome (Z * list work_event * kdbus_bus) :=
  match l with
  | [] => Return (deadline, [], bus)
  | reply :: l' =>
      r ← reply_deref bus reply;
      (* If the reply block is waiting for synchronous I/O, the timeout is
         handled by wait_event_*_timeout() *)
      if r_sync r && negb (r_interrupted r) then
        conn_work_loop bus now deadline l'
      else if r_deadline_ns r >? now then
        (* remember next timeout *)
        conn_work_loop bus now
          (if deadline >? r_deadline_ns r then r_deadline_ns r else deadline) l'
      else
        notes ←
          (if negb (r_deadline_ns r =? 0) && negb (r_interrupted r) then
             dst ← conn_deref bus (r_reply_dst r);
             Return [WorkNotifyReplyTimeout (c_id dst) (r_cookie r)]
           else Return []);
        bus ← kdbus_conn_reply_unref (list_del_init reply bus) (Some reply);
        '(deadline, evs, bus) ← conn_work_loop bus now deadline l';
        Return (deadline, notes ++ evs, bus)
  end.

(** kdbus_conn_work() for the connection [conn] that owns the work item.
    The result lists the notifications sent and the rearming of the worker,
    in the order they are asked for. *)
Definition kdbus_conn_work (bus : kdbus_bus) (conn : Z)
  : outcome (list work_event * kdbus_bus) :=
  let now := ktime_get_ns bus in
  c ← conn_deref bus conn;
  if negb (kdbus_conn_active c) then Return ([], bus)
  else
    '(deadline, evs, bus) ←
      conn_work_loop bus now (U64_MOD - 1) (c_reply_list c);
    (* rearm delayed work with next timeout *)
    let rearm := if negb (deadline =? U64_MOD - 1)
                 then [WorkScheduleDelayed (deadline - now)] else [] in
    Return (evs ++ rearm, bus_log EvNotifyFlush bus).

End Work.

(** A tracker whose timeout lies with the sleeping caller, not with the
    worker. *)
Definition reply_sync_waiter (t : kdbus_conn_reply) : bool :=
  r_sync t && negb (r_interrupted t).

(** A tracker the worker drops at time [now]. *)
Definition reply_expired (now : Z) (t : kdbus_conn_reply) : bool :=
  negb (reply_sync_waiter t) && negb (r_deadline_ns t >? now).

(** A tracker the worker keeps and whose deadline it waits for. *)
Definition reply_pending (now : Z) (t : kdbus_conn_reply) : bool :=
  negb (reply_sync_waiter t) && (r_deadline_ns t >? now).

(** ** connection.c: moving messages between connections *)

(** [*slice = new] in kdbus_pool_move_slice(). *)
Definition entry_set_slice (off : Z) (e : kdbus_queue_entry) : kdbus_queue_entry :=
  {| e_slice := off; e_src_id := e_src_id e; e_cookie := e_cookie e;
     e_dst_name_id := e_dst_name_id e; e_priority := e_priority e;
     e_fds_count := e_fds_count e; e_reply := e_reply e; e_user := e_user e |}.

Section MoveMessages.
Context `{Limits, Uapi, Collaborators}.

(** pool.c: what kdbus_pool_move_slice() returns for the slice of an entry,
    and the offset of the slice it leaves in [q->slice] when it succeeds. *)
Variable kdbus_pool_move_slice : kdbus_queue_entry → Z * Z.

(** The loop over [conn_src->reply_list]: the trackers that stay, and the
    local [reply_list]. *)
Fixpoint move_replies_loop (bus : kdbus_bus) (name_id : Z) (l : list Z)
  : outcome (list Z * list Z) :=
  match l with
  | [] => Return ([], [])
  | r :: l' =>
      t ← reply_deref bus r;
      '(kept, moved) ← move_replies_loop bus name_id l';
      (* filter messages for a specific name *)
      if (name_id >? 0) && negb (r_name_id t =? name_id)
      then Return (r :: kept, moved)
      else Return (kept, r :: moved)
  end.

(** The loop over [conn_src->queue.msg_list]; [i] is the position of the
    entry at hand in the queue as it is by now.  It gives the local
    [msg_list]. *)
Fixpoint move_msgs_loop (name_id : Z) (i : nat) (l : list kdbus_queue_entry)
  (src : kdbus_conn) : kdbus_conn * list kdbus_queue_entry :=
  match l with
  | [] => (src, [])
  | q :: l' =>
      (* filter messages for a specific name *)
      if (name_id >? 0) && negb (e_dst_name_id q =? name_id)
      then move_msgs_loop name_id (S i) l' src
      else
        let src := kdbus_queue_entry_remove i q src in
        let '(src, moved) := move_msgs_loop name_id i l' src in
        (src, q :: moved)
  end.

(** The trackers dropped with a dead destination. *)
Fixpoint move_unref_loop (bus : kdbus_bus) (l : list Z) : outcome kdbus_bus :=
  match l with
  | [] => Return bus
  | r :: l' =>
      bus ← kdbus_conn_reply_unref bus (Some r);
      move_unref_loop bus l'
  end.

(** The loop that inserts into the destination; [ret] is the local of that
    name. *)
Fixpoint move_insert_loop (ret : Z) (dst : kdbus_conn)
  (l : list kdbus_queue_entry) : Z * kdbus_conn * list event :=
  match l with
  | [] => (ret, dst, [])
  | q :: l' =>
      let '(ret, off) := kdbus_pool_move_slice q in
      if ret <? 0 then
        let '(ret, dst, evs) := move_insert_loop ret dst l' in
        (ret, dst, EvEntryFree (e_slice q) :: evs)
      else
        move_insert_loop ret (kdbus_queue_entry_add (entry_set_slice off q) dst) l'
  end.

(** kdbus_conn_move_messages(), called with the bus lock held.  The local
    lists [reply_list] and [msg_list] are values; list_splice() puts the
    trackers in front of the reply list of the destination, and
    kdbus_queue_entry_free() is an entry of the event log. *)
Definition kdbus_conn_move_messages (bus : kdbus_bus)
  (conn_dst conn_src name_id : Z) : outcome (Z * kdbus_bus) :=
  if conn_src =? conn_dst then Oops BugOn
  else
    (* remove all messages from the source *)
    src ← conn_deref bus conn_src;
    '(kept, reply_list) ← move_replies_loop bus name_id (c_reply_list src);
    let src := conn_set_reply_list kept src in
    let '(src, msg_list) := move_msgs_loop name_id 0 (c_msg_list src) src in
    let bus := bus_put_conn src bus in
    (* insert messages into destination *)
    dst ← conn_deref bus conn_dst;
    if negb (kdbus_conn_active dst) then
      (* our destination connection died, just drop all messages *)
      let bus := bus_set_events
                   (b_events bus ++ ((λ q, EvEntryFree (e_slice q)) <$> msg_list))
                   bus in
      bus ← move_unref_loop bus reply_list;
      Return (- ECONNRESET, bus)
    else
      let '(ret, dst, evs) := move_insert_loop 0 dst msg_list in
      let dst := conn_set_reply_list (reply_list ++ c_reply_list dst) dst in
      let bus := bus_set_events (b_events bus ++ evs) (bus_put_conn dst bus) in
      (* wake up poll() *)
      Return (ret, bus_log (EvWakeUp conn_dst) bus).

End MoveMessages.

(** The filter of kdbus_conn_move_messages(): a name id of 0 lets every
    message and tracker pass. *)
Definition move_passes (name_id id : Z) : bool :=
  negb ((name_id >? 0) && negb (id =? name_id)).

Definition reply_passes (bus : kdbus_bus) (name_id a : Z) : bool :=
  from_option (λ t, move_passes name_id (r_name_id t)) false (b_replies bus !! a).

(** The entries of [l] as they reach the destination: those whose slice could
    be moved, with the new slice. *)
Definition moved_entries (move : kdbus_queue_entry → Z * Z)
  (l : list kdbus_queue_entry) : list kdbus_queue_entry :=
  omap (λ q, if fst (move q) <? 0 then None
             else Some (entry_set_slice (snd (move q)) q)) l.

(** The state after one reference of a tracker is dropped. *)
Definition reply_after_unref (t : kdbus_conn_reply) : option kdbus_conn_reply :=
  if r_kref t =? 1 then None else Some (reply_set_kref (r_kref t - 1) t).

(** ** bus.c: the parameters of a new bus *)

Definition EBADMSG : Z := 74.

(** The items of a KDBUS_CMD_BUS_MAKE command as the switch of
    kdbus_bus_make_user() tells them apart.  A command is the list of its
    items in the order KDBUS_ITEMS_FOREACH (item.h) visits them. *)
Inductive kdbus_make_item : Type :=
| KDBUS_ITEM_MAKE_NAME (str : string)
| KDBUS_ITEM_BLOOM_PARAMETER (size n_hash : Z)
| KDBUS_ITEM_OTHER (type : Z).

Section MakeUser.
(** limits.h *)
Variable KDBUS_BUS_BLOOM_MAX_SIZE : Z.
(** util.h: whether a size is a multiple of 8 *)
Variable KDBUS_IS_ALIGNED8 : Z → bool.

(** The loop of kdbus_bus_make_user() with its locals [n] and [bl]; [inl]
    is an early return. *)
Fixpoint bus_make_user_loop (items : list kdbus_make_item)
  (n : option string) (bl : option (Z * Z))
  : Z + option string * option (Z * Z) :=
  match items with
  | [] => inr (n, bl)
  | KDBUS_ITEM_MAKE_NAME str :: items' =>
      match n with
      | Some _ => inl (- EEXIST)
      | None => bus_make_user_loop items' (Some str) bl
      end
  | KDBUS_ITEM_BLOOM_PARAMETER size n_hash :: items' =>
      match bl with
      | Some _ => inl (- EEXIST)
      | None => bus_make_user_loop items' n (Some (size, n_hash))
      end
  | KDBUS_ITEM_OTHER _ :: items' => bus_make_user_loop items' n bl
  end.

(** The result comes with what is stored through [name] and [bloom]. *)
Definition kdbus_bus_make_user (items : list kdbus_make_item)
  : Z * option (string * (Z * Z)) :=
  match bus_make_user_loop items None None with
  | inl ret => (ret, None)
  | inr (Some n, Some (size, n_hash)) =>
      if (size <? 8) || (size >? KDBUS_BUS_BLOOM_MAX_SIZE) then (- EINVAL, None)
      else if negb (KDBUS_IS_ALIGNED8 size) then (- EINVAL, None)
      else if n_hash <? 1 then (- EINVAL, None)
      else (0, Some (n, (size, n_hash)))
  | inr _ => (- EBADMSG, None)
  end.

End MakeUser.

Definition make_item_names (items : list kdbus_make_item) : list string :=
  omap (λ i, match i with KDBUS_ITEM_MAKE_NAME s => Some s | _ => None end) items.

Definition make_item_blooms (items : list kdbus_make_item) : list (Z * Z) :=
  omap (λ i, match i with
             | KDBUS_ITEM_BLOOM_PARAMETER s h => Some (s, h)
             | _ => None
             end) items.

(** ** Vocabulary of the properties *)

(** A tracker answers the lookup of kdbus_conn_find_reply(). *)
Definition reply_matches (bus : kdbus_bus) (conn_reply_dst cookie a : Z) : Prop :=
  ∃ t, b_replies bus !! a = Some t
       ∧ r_reply_dst t = conn_reply_dst ∧ r_cookie t = cookie.

(** The array of per-user counters has [msg_users_max] cells. *)
Definition msg_users_ok (c : kdbus_conn) : Prop :=
  0 ≤ c_msg_users_max c
  ∧ length (c_msg_users c) = Z.to_nat (c_msg_users_max c).

(** Every connection is filed under its id. *)
Definition conns_by_id (bus : kdbus_bus) : Prop :=
  ∀ k c, b_conns bus !! k = Some c → c_id c = k.

Section MoreDefinitions.
Context `{Limits, Uapi, Collaborators}.

(** A connection that a broadcast passes over: the sender, or an activator
    or policy holder. *)
Definition broadcast_skips (kmsg : kdbus_kmsg) (c : kdbus_conn) : Prop :=
  c_id c = m_src_id (k_msg kmsg)
  ∨ (kdbus_conn_is_ordinary c = false ∧ kdbus_conn_is_monitor c = false).

End MoreDefinitions.

(** * A sample configuration

    Values for the constants of kdbus.h and limits.h and answers for the
    collaborators, used to run the model on concrete inputs. *)

#[export] Instance sample_limits : Limits :=
  {| KDBUS_CONN_MAX_MSGS := 256;
     KDBUS_CONN_MAX_MSGS_PER_USER := 16;
     KDBUS_CONN_MAX_REQUESTS_PENDING := 128;
     KDBUS_USER_MAX_BUSES := 16 |}.

#[export] Instance sample_uapi : Uapi :=
  {| KDBUS_DST_ID_NAME := 0;
     KDBUS_DST_ID_BROADCAST := 2 ^ 64 - 1;
     KDBUS_SRC_ID_KERNEL := 0;
     KDBUS_MSG_FLAGS_EXPECT_REPLY := 1;
     KDBUS_MSG_FLAGS_SYNC_REPLY := 2;
     KDBUS_MSG_FLAGS_NO_AUTO_START := 4;
     KDBUS_RECV_PEEK := 1;
     KDBUS_RECV_DROP := 2;
     KDBUS_RECV_USE_PRIORITY := 4;
     KDBUS_HELLO_ACCEPT_FD := 1;
     KDBUS_HELLO_ACTIVATOR := 2;
     KDBUS_HELLO_POLICY_HOLDER := 4;
     KDBUS_HELLO_MONITOR := 8;
     KDBUS_ATTACH_NAMES := 8;
     KDBUS_ATTACH_CONN_DESCRIPTION := 1024;
     KDBUS_ITEM_ID_REMOVE := 32772;
     KDBUS_ITEM_NAME_ADD := 32768;
     KDBUS_ITEM_NAME_REMOVE := 32769;
     KDBUS_ITEM_NAME_CHANGE := 32770 |}.

(** A queue entry as kdbus_queue_entry_alloc() fills it from the message;
    the slice sits behind the slices of the entries already queued. *)
Definition sample_queue_entry_alloc (c : kdbus_conn) (k : kdbus_kmsg)
  : Z * kdbus_queue_entry :=
  (0, {| e_slice := 64 * c_msg_count c;
         e_src_id := m_src_id (k_msg k);
         e_cookie := m_cookie (k_msg k);
         e_dst_name_id := k_dst_name_id k;
         e_priority := m_priority (k_msg k);
         e_fds_count := k_fds_count k;
         e_reply := None;
         e_user := -1 |}).

(** No allocation fails, fresh memory reads as zero, the policy databases
    hold no rule (so they deny), every match database matches, and the name
    registry forgets the names of a connection that leaves. *)
#[export] Instance sample_collaborators : Collaborators :=
  {| krealloc_ok := λ _, true;
     krealloc_fresh := λ _, 0;
     kzalloc_ok := λ _, true;
     kdbus_queue_entry_alloc := sample_queue_entry_alloc;
     kdbus_queue_entry_install := λ _, 0;
     kdbus_meta_new_ok := λ _, true;
     kdbus_meta_append := λ _ _ _ _, 0;
     kdbus_policy_check_talk_access := λ _ _ _, - EPERM;
     kdbus_policy_check_see_access_unlocked := λ _ _ _, - EPERM;
     kdbus_match_db_match_kmsg := λ _ _ _, true;
     kdbus_name_remove_by_conn := λ bus conn,
       bus_log (EvNameRemoveByConn conn) bus;
     ktime_get_ns := λ _, 0 |}.

Definition sample_ep_new_env : ep_new_env :=
  {| epn_kzalloc_ok := true; epn_kstrdup_ok := true; epn_dev_set_name := 0;
     epn_minor_alloc := 0; epn_device_add := 0 |}.

Definition sample_bus_new_env : bus_new_env :=
  {| bn_kzalloc_ok := true; bn_meta_new_ok := true; bn_meta_append := 0;
     bn_kstrdup_ok := true; bn_name_registry_new_ok := true;
     bn_ep_new := sample_ep_new_env; bn_get_user_ok := true;
     bn_capable := false |}.

(** The same, except that the allocation of the endpoint object fails. *)
Definition sample_bus_new_env_no_ep : bus_new_env :=
  {| bn_kzalloc_ok := true; bn_meta_new_ok := true; bn_meta_append := 0;
     bn_kstrdup_ok := true; bn_name_registry_new_ok := true;
     bn_ep_new := {| epn_kzalloc_ok := false; epn_kstrdup_ok := true;
                     epn_dev_set_name := 0; epn_minor_alloc := 0;
                     epn_device_add := 0 |};
     bn_get_user_ok := true; bn_capable := false |}.

Definition sample_domain : kdbus_domain :=
  {| d_disconnected := false; d_bus_seq_last := 0; d_msg_seq_last := 0;
     d_bus_list := []; d_users := ∅ |}.

(** A connection that has just said hello on endpoint 1. *)
Definition sample_conn (id flags user uid : Z) : kdbus_conn :=
  {| c_id := id; c_flags := flags; c_attach_flags := 0; c_active := 0;
     c_ep := 1; c_user_idr := user; c_cred_uid := uid; c_cred_fsuid := uid;
     c_owner_meta := false; c_msg_list := []; c_msg_count := 0;
     c_reply_list := []; c_reply_count := 0; c_name_count := 0;
     c_names_list := []; c_msg_users := []; c_msg_users_max := 0 |}.

(** The default endpoint of the sample bus. *)
Definition sample_ep (conns : list kdbus_conn) : kdbus_ep :=
  {| ep_name := "bus"; ep_id := 1; ep_mode := 384; ep_uid := 0; ep_gid := 0;
     ep_conn_list := c_id <$> conns; ep_disconnected := false;
     ep_has_policy := false |}.

(** A bus owned by root with its default endpoint and the given
    connections, names and reply trackers. *)
Definition sample_bus_on (id : Z) (name : string) (conns : list kdbus_conn)
  (names : list kdbus_name_entry) (replies : list (Z * kdbus_conn_reply))
  : kdbus_bus :=
  {| b_name := name; b_id := id; b_uid_owner := 0; b_bus_flags := 0;
     b_bloom := (64, 1); b_disconnected := false; b_ep := Ptr 1;
     b_ep_list := [1]; b_ep_seq_last := 1; b_user := Ptr 0;
     b_conn_hash := c_id <$> conns;
     b_monitors_list := [];
     b_name_registry := names;
     b_conns := list_to_map ((λ c, (c_id c, c)) <$> conns);
     b_eps := {[ 1 := sample_ep conns ]};
     b_replies := list_to_map replies;
     b_events := [] |}.

Definition sample_bus := sample_bus_on 1 "0-system".

Definition sample_msg (flags dst_id src_id cookie cookie_reply : Z) : kdbus_msg :=
  {| m_flags := flags; m_priority := 0; m_dst_id := dst_id; m_src_id := src_id;
     m_cookie := cookie; m_cookie_reply := cookie_reply; m_timeout_ns := 0;
     m_offset_reply := 0 |}.

Definition sample_kmsg (msg : kdbus_msg) (dst_name : option string) : kdbus_kmsg :=
  {| k_msg := msg; k_seq := 0; k_dst_name := dst_name; k_dst_name_id := 0;
     k_fds_count := 0; k_meta := NULL; k_notify_type := 0;
     k_notify_name := "" |}.

(** A thread of an ordinary user. *)
Definition sample_task (uid : Z) : task :=
  {| t_cap_ipc_owner := false; t_fsuid := uid |}.

(** An outstanding call of connection [dst] with the given cookie. *)
Definition sample_reply (dst cookie : Z) (sync : bool) : kdbus_conn_reply :=
  {| r_kref := 1; r_reply_dst := dst; r_queue_entry := None;
     r_deadline_ns := 0; r_cookie := cookie; r_name_id := 0; r_sync := sync;
     r_waiting := sync; r_interrupted := false; r_err := 0 |}.

(** Connection 1 (the caller) has sent a call with cookie 7 and
    EXPECT_REPLY to connection 2 (the replier), which runs as [uid]; the
    tracker of the call sits at address 100 on the replier's list. *)
Definition sample_caller : kdbus_conn :=
  conn_set_reply_count 1 (sample_conn 1 1 0 1000).

Definition sample_replier (uid : Z) : kdbus_conn :=
  conn_set_reply_list [100] (sample_conn 2 1 1 uid).

Definition sample_bus_one_call (uid : Z) (sync : bool) : kdbus_bus :=
  sample_bus [sample_caller; sample_replier uid]
    [] [(100, sample_reply 1 7 sync)].

(** The reply of connection 2 to that call. *)
Definition sample_reply_kmsg : kdbus_kmsg :=
  sample_kmsg (sample_msg 0 1 2 8 7) None.

(** Two ordinary connections of uid 1000 on the sample bus. *)
Definition sample_bus_two_peers : kdbus_bus :=
  sample_bus [sample_conn 1 1 0 1000; sample_conn 2 1 1 1000] [] [].

(** A call of connection 1 to connection 2 with cookie 7: asynchronous
    (EXPECT_REPLY) or synchronous (EXPECT_REPLY | SYNC_REPLY). *)
Definition sample_call_async : kdbus_kmsg :=
  sample_kmsg (sample_msg 1 2 1 7 0) None.

Definition sample_call_sync : kdbus_kmsg :=
  sample_kmsg (sample_msg 3 2 1 7 0) None.

(** A second bus of the sample domain, with two peers of its own. *)
Definition sample_bus_other : kdbus_bus :=
  sample_bus_on 2 "0-other" [sample_conn 1 1 0 1000; sample_conn 2 1 1 1000]
    [] [].

(** An ordinary message of connection 1 to connection 2. *)
Definition sample_plain_kmsg : kdbus_kmsg :=
  sample_kmsg (sample_msg 0 2 1 9 0) None.

(** The name com.example.service, owned by connection 2. *)
Definition sample_name_owned : kdbus_name_entry :=
  {| n_name := "com.example.service"; n_name_id := 1; n_conn := Some 2;
     n_activator := None |}.

Definition sample_bus_service : kdbus_bus :=
  sample_bus [sample_conn 1 1 0 1000; sample_conn 2 1 1 1000]
    [sample_name_owned] [].

(** The same name, held by the activator connection 3 alone. *)
Definition sample_name_activated : kdbus_name_entry :=
  {| n_name := "com.example.service"; n_name_id := 1; n_conn := None;
     n_activator := Some 3 |}.

Definition sample_bus_activator : kdbus_bus :=
  sample_bus [sample_conn 1 1 0 1000; sample_conn 3 3 1 0]
    [sample_name_activated] [].

(** A message of connection 1 to com.example.service and to the id
    [dst_id]. *)
Definition sample_named_kmsg (dst_id : Z) : kdbus_kmsg :=
  sample_kmsg (sample_msg 0 dst_id 1 9 0) (Some "com.example.service").

(** Connection 2 with one message of connection 1 in its queue. *)
Definition sample_entry : kdbus_queue_entry :=
  {| e_slice := 128; e_src_id := 1; e_cookie := 9; e_dst_name_id := 0;
     e_priority := 0; e_fds_count := 0; e_reply := None; e_user := -1 |}.

Definition sample_conn_queued : kdbus_conn :=
  conn_set_queue [sample_entry] 1 (sample_conn 2 1 1 1000).

Definition sample_bus_queued : kdbus_bus :=
  sample_bus [sample_conn 1 1 0 1000; sample_conn_queued] [] [].

Definition sample_recv (flags : Z) : kdbus_cmd_recv :=
  {| recv_flags := flags; recv_priority := 0; recv_offset := 0 |}.

(** The sample bus while two threads hold an active reference of
    connection 2. *)
Definition sample_bus_held : kdbus_bus :=
  sample_bus [sample_conn 1 1 0 1000; conn_set_active 2 (sample_conn 2 1 1 1000)]
    [] [].

(** ** Further sample states *)

(** The sample collaborators with an allocator that has run out of memory. *)
Definition sample_collaborators_no_memory : Collaborators :=
  {| krealloc_ok := λ _, false;
     krealloc_fresh := λ _, 0;
     kzalloc_ok := λ _, false;
     kdbus_queue_entry_alloc := sample_queue_entry_alloc;
     kdbus_queue_entry_install := λ _, 0;
     kdbus_meta_new_ok := λ _, true;
     kdbus_meta_append := λ _ _ _ _, 0;
     kdbus_policy_check_talk_access := λ _ _ _, - EPERM;
     kdbus_policy_check_see_access_unlocked := λ _ _ _, - EPERM;
     kdbus_match_db_match_kmsg := λ _ _ _, true;
     kdbus_name_remove_by_conn := λ bus conn,
       bus_log (EvNameRemoveByConn conn) bus;
     ktime_get_ns := λ _, 0 |}.

(** Connection 2 with sixteen queued messages and counters for the users
    0 to 7. *)
Definition sample_conn_counted : kdbus_conn :=
  conn_set_msg_users (replicate 8 0) 8
    (conn_set_queue (replicate 16 sample_entry) 16 (sample_conn 2 1 1 1000)).

(** A message of connection 1 to the id 5, which no connection has. *)
Definition sample_stray_kmsg : kdbus_kmsg :=
  sample_kmsg (sample_msg 0 5 1 9 0) None.

(** A broadcast of connection 1. *)
Definition sample_broadcast_kmsg : kdbus_kmsg :=
  sample_kmsg (sample_msg 0 (2 ^ 64 - 1) 1 9 0) None.

(** The sample bus with connection 1 disconnected and one message queued on
    connection 2. *)
Definition sample_bus_dead_peer : kdbus_bus :=
  sample_bus [conn_set_active KDBUS_CONN_ACTIVE_BIAS (sample_conn 1 1 0 1000);
              sample_conn_queued] [] [].

(** A pool that moves every slice to the offset it had. *)
Definition sample_pool_move_slice (q : kdbus_queue_entry) : Z * Z :=
  (0, e_slice q).

(** The sample collaborators with the clock at 100 ns. *)
Definition sample_collaborators_later : Collaborators :=
  {| krealloc_ok := λ _, true;
     krealloc_fresh := λ _, 0;
     kzalloc_ok := λ _, true;
     kdbus_queue_entry_alloc := sample_queue_entry_alloc;
     kdbus_queue_entry_install := λ _, 0;
     kdbus_meta_new_ok := λ _, true;
     kdbus_meta_append := λ _ _ _ _, 0;
     kdbus_policy_check_talk_access := λ _ _ _, - EPERM;
     kdbus_policy_check_see_access_unlocked := λ _ _ _, - EPERM;
     kdbus_match_db_match_kmsg := λ _ _ _, true;
     kdbus_name_remove_by_conn := λ bus conn,
       bus_log (EvNameRemoveByConn conn) bus;
     ktime_get_ns := λ _, 100 |}.

(** An outstanding asynchronous call of connection [dst] that is due at
    [deadline]. *)
Definition sample_reply_due (dst cookie deadline : Z) : kdbus_conn_reply :=
  {| r_kref := 1; r_reply_dst := dst; r_queue_entry := None;
     r_deadline_ns := deadline; r_cookie := cookie; r_name_id := 0;
     r_sync := false; r_waiting := false; r_interrupted := false; r_err := 0 |}.

(** Connection 1 waits for two replies of connection 2: to the call with
    cookie 7, due at 50 ns, and to the call with cookie 8, due at 500 ns. *)
Definition sample_bus_two_calls : kdbus_bus :=
  sample_bus [conn_set_reply_count 2 (sample_conn 1 1 0 1000);
              conn_set_reply_list [100; 101] (sample_conn 2 1 1 1000)]
    [] [(100, sample_reply_due 1 7 50); (101, sample_reply_due 1 8 500)].

(** * Properties *)

(** ** Proof tools *)

(** Decide a comparison that [lia] can settle from the context. *)
Ltac zcmp :=
  match goal with
  | |- context [?a <? ?b] =>
      first [ rewrite (proj2 (Z.ltb_lt a b)) by lia
            | rewrite (proj2 (Z.ltb_ge a b)) by lia ]
  | |- context [?a >? ?b] =>
      rewrite (Z.gtb_ltb a b);
      first [ rewrite (proj2 (Z.ltb_lt b a)) by lia
            | rewrite (proj2 (Z.ltb_ge b a)) by lia ]
  | |- context [?a <=? ?b] =>
      first [ rewrite (proj2 (Z.leb_le a b)) by lia
            | rewrite (proj2 (Z.leb_gt a b)) by lia ]
  | |- context [?a >=? ?b] =>
      rewrite (Z.geb_leb a b);
      first [ rewrite (proj2 (Z.leb_le b a)) by lia
            | rewrite (proj2 (Z.leb_gt b a)) by lia ]
  | |- context [?a =? ?b] =>
      first [ rewrite (proj2 (Z.eqb_eq a b)) by lia
            | rewrite (proj2 (Z.eqb_neq a b)) by lia ]
  end.

Lemma bind_Return {A B} (a : A) (k : A → outcome B) : Return a ≫= k = k a.
Proof. done. Qed.

Lemma bind_Oops {A B} (f : fault) (k : A → outcome B) : Oops f ≫= k = Oops f.
Proof. done. Qed.

(** An [int] that does not leave its range is not wrapped. *)
Lemma int_wrap_small v : INT_MIN ≤ v < 2 ^ 31 → int_wrap v = v.
Proof.
  intros Hv. unfold int_wrap, UINT_MOD, INT_MIN in *.
  rewrite Z.mod_small by lia. lia.
Qed.

(** ** Bus creation (bus.c) *)

Section BusProperties.
Context `{Limits, Uapi, Collaborators}.

Lemma strncmp_first_char c cs ct : strncmp (String c cs) (String c ct) 1 = 0.
Proof. cbn [strncmp]. by rewrite Ascii.eqb_refl. Qed.

Lemma strncmp_first_char_inv cs ct :
  ct ≠ EmptyString → strncmp cs ct 1 = 0 →
  ∃ c cs' ct', cs = String c cs' ∧ ct = String c ct'.
Proof.
  intros Hct. destruct cs as [|c1 cs], ct as [|c2 ct]; cbn [strncmp]; try done.
  destruct (Ascii.eqb c1 c2) eqn:E.
  - apply Ascii.eqb_eq in E as ->. eauto.
  - by destruct (_ <? _)%N.
Qed.

Lemma string_of_uint_nonempty d : NilZero.string_of_uint d ≠ EmptyString.
Proof.
  by destruct d.
Qed.

Lemma snprintf_u_dash_nonempty uid :
  ∃ c rest, snprintf_u_dash 16 uid = String c rest.
Proof.
  unfold snprintf_u_dash.
  pose proof (string_of_uint_nonempty (N.to_uint (Z.to_N uid))) as Hne.
  destruct (NilZero.string_of_uint _) as [|c s]; [done|].
  simpl. eauto.
Qed.

(** The count handed to strncmp() is the truth value of
    [strlen(prefix) != 0], that is 1. *)
Lemma bus_new_strncmp_count uid :
  Nat.b2n (negb (Nat.eqb (strlen (snprintf_u_dash 16 uid)) 0)) = 1%nat.
Proof. by destruct (snprintf_u_dash_nonempty uid) as (c & rest & ->). Qed.

Lemma get_user_lookup domain uid :
  ∃ domain' rec,
    kdbus_domain_get_user_unlocked true domain uid = (Ptr uid, domain')
    ∧ d_users domain' !! uid = Some rec
    ∧ u_buses rec = from_option u_buses 0 (d_users domain !! uid)
    ∧ d_bus_seq_last domain' = d_bus_seq_last domain.
Proof.
  unfold kdbus_domain_get_user_unlocked. simpl.
  destruct (d_users domain !! uid) as [rec|] eqn:E.
  - exists domain, rec. by rewrite E.
  - eexists _, _. split; [done|]. simpl. by rewrite lookup_insert_eq.
Qed.

(** kdbus_bus_new() from the creation of the default endpoint on, once the
    name check and the allocations before it have passed. *)
Lemma kdbus_bus_new_after_ep env domain flags name bloom mode uid gid ep b' :
  strncmp name (snprintf_u_dash 16 uid) 1 = 0 →
  kdbus_bus_find domain name = false →
  bus_new_env_ok_before_ep env →
  bus_new_accounting_ok env domain uid →
  kdbus_ep_new (bn_ep_new env) (bus_new_init flags name bloom uid)
    "bus" mode uid gid false = Return (ep, b') →
  ∃ b domain',
    kdbus_bus_new env domain flags name bloom mode uid gid
      = Return (Ptr b, domain')
    ∧ b_ep b = ep ∧ b_name b = b_name b'.
Proof.
  intros Hcmp Hfind (Hk & Hm & Ha & Hs & Hr) (Hd & Hu & Hq) Hep.
  unfold kdbus_bus_new.
  rewrite bus_new_strncmp_count, Hcmp, Hfind, Hk, Hm, Hs, Hr. simpl.
  destruct (bn_meta_append env <? 0) eqn:E; [lia|].
  rewrite Hep. simpl.
  replace (Z.b2z (IS_ERR ep) <? 0) with false
    by (symmetry; apply Z.ltb_ge; by destruct (IS_ERR ep)).
  rewrite Hd, Hu.
  destruct (get_user_lookup domain uid) as (domain' & rec & -> & Hrec & Hb & Hseq).
  rewrite Hrec. simpl.
  destruct Hq as [Hcap|Hq].
  - rewrite Hcap. simpl. eauto.
  - destruct (bn_capable env); simpl; [eauto|].
    rewrite <- Hb in Hq.
    destruct (atomic_inc_return (u_buses rec) >? KDBUS_USER_MAX_BUSES) eqn:E';
      [apply Z.gtb_lt in E'; lia|].
    eauto.
Qed.

Lemma kdbus_ep_new_fresh_bus env flags name bloom mode uid gid :
  ep_new_env_ok env →
  ∃ b', kdbus_ep_new env (bus_new_init flags name bloom uid)
          "bus" mode uid gid false = Return (Ptr 1, b')
        ∧ b_name b' = name.
Proof.
  intros (Hk & Hs & Hd & Hm & Ha). unfold kdbus_ep_new.
  rewrite Hk, Hs. simpl.
  destruct (epn_dev_set_name env <? 0) eqn:E1; [lia|].
  destruct (epn_minor_alloc env <? 0) eqn:E2; [lia|].
  destruct (epn_device_add env <? 0) eqn:E3; [lia|].
  eauto.
Qed.

(** C2 (the code departs from the claim).  kdbus_bus_new() compares the
    requested name with the prefix "<uid>-" over one character only: the
    length it hands to strncmp() is the truth value of
    [strlen(prefix) != 0].  Any name that starts with the first digit of the
    creator's uid passes the check, and the bus is created under that name
    when nothing else fails. *)
Theorem kdbus_bus_new_compares_first_character_only
  env domain flags bloom mode uid gid c name_rest prefix_rest :
  snprintf_u_dash 16 uid = String c prefix_rest →
  kdbus_bus_find domain (String c name_rest) = false →
  bus_new_env_ok_before_ep env →
  ep_new_env_ok (bn_ep_new env) →
  bus_new_accounting_ok env domain uid →
  ∃ b domain',
    kdbus_bus_new env domain flags (String c name_rest) bloom mode uid gid
      = Return (Ptr b, domain')
    ∧ b_name b = String c name_rest.
Proof.
  intros Hp Hfind Henv Hep Hacc.
  destruct (kdbus_ep_new_fresh_bus (bn_ep_new env) flags (String c name_rest)
              bloom mode uid gid Hep) as (b' & Hnew & Hname).
  destruct (kdbus_bus_new_after_ep env domain flags (String c name_rest) bloom
              mode uid gid (Ptr 1) b') as (b & domain' & Hb & _ & Hn);
    try done.
  - rewrite Hp. apply strncmp_first_char.
  - exists b, domain'. by rewrite Hn, Hname.
Qed.

(** C10 (the code departs from the claim).  The test after kdbus_ep_new()
    reads [IS_ERR(b->ep) < 0], which is never true.  When the creation of
    the default endpoint fails with error [e] and the rest of
    kdbus_bus_new() succeeds, the caller gets a bus whose [ep] field is
    [ERR_PTR e]. *)
Theorem kdbus_bus_new_returns_bus_with_error_ep
  env domain flags name bloom mode uid gid e b' :
  strncmp name (snprintf_u_dash 16 uid) 1 = 0 →
  kdbus_bus_find domain name = false →
  bus_new_env_ok_before_ep env →
  bus_new_accounting_ok env domain uid →
  kdbus_ep_new (bn_ep_new env) (bus_new_init flags name bloom uid)
    "bus" mode uid gid false = Return (ERR_PTR e, b') →
  ∃ b domain',
    kdbus_bus_new env domain flags name bloom mode uid gid
      = Return (Ptr b, domain')
    ∧ b_ep b = ERR_PTR e.
Proof.
  intros Hcmp Hfind Henv Hacc Hep.
  destruct (kdbus_bus_new_after_ep env domain flags name bloom mode uid gid
              (ERR_PTR e) b') as (b & domain' & Hb & Hbep & _); try done.
  eauto.
Qed.

End BusProperties.

Lemma sample_bus_new_env_ok : bus_new_env_ok_before_ep sample_bus_new_env.
Proof. unfold bus_new_env_ok_before_ep. simpl. repeat split; lia. Defined.

Lemma sample_bus_new_accounting_ok env :
  bn_get_user_ok env = true →
  bus_new_accounting_ok env sample_domain 1000.
Proof.
  intros Hu. unfold bus_new_accounting_ok. repeat split; [done|].
  right. vm_compute. discriminate.
Defined.

(** A creator with uid 1000 obtains the bus "10-bus", a name in the
    namespace of uid 10 that does not begin with "1000-". *)
Lemma kdbus_bus_new_compares_first_character_only_witness :
  String.prefix "1000-" "10-bus" = false
  ∧ ∃ b domain',
      kdbus_bus_new sample_bus_new_env sample_domain 0 "10-bus" (64, 1)
        384 1000 1000 = Return (Ptr b, domain')
      ∧ b_name b = "10-bus".
Proof.
  split; [reflexivity|].
  apply (kdbus_bus_new_compares_first_character_only
           sample_bus_new_env sample_domain 0 (64, 1) 384 1000 1000
           "1"%char "0-bus" "000-").
  - reflexivity.
  - reflexivity.
  - apply sample_bus_new_env_ok.
  - unfold ep_new_env_ok. simpl. repeat split; lia.
  - by apply sample_bus_new_accounting_ok.
Defined.

(** kzalloc() fails inside kdbus_ep_new(): the caller of kdbus_bus_new()
    receives a bus whose [ep] is [ERR_PTR(-ENOMEM)]. *)
Lemma kdbus_bus_new_returns_bus_with_error_ep_witness :
  ∃ b domain',
    kdbus_bus_new sample_bus_new_env_no_ep sample_domain 0 "1000-bus" (64, 1)
      384 1000 1000 = Return (Ptr b, domain')
    ∧ b_ep b = ERR_PTR (- ENOMEM).
Proof.
  apply (kdbus_bus_new_returns_bus_with_error_ep
           sample_bus_new_env_no_ep sample_domain 0 "1000-bus" (64, 1)
           384 1000 1000 (- ENOMEM)
           (bus_new_init 0 "1000-bus" (64, 1) 1000)).
  - reflexivity.
  - reflexivity.
  - unfold bus_new_env_ok_before_ep. simpl. repeat split; lia.
  - by apply sample_bus_new_accounting_ok.
  - reflexivity.
Defined.

(** ** The per-user quota of the receive queue (connection.c) *)

Section QuotaProperties.
Context `{Limits, Uapi, Collaborators}.

Lemma KDBUS_ALIGN8_spec val : KDBUS_ALIGN8 val = 8 * ((val + 7) `div` 8).
Proof.
  unfold KDBUS_ALIGN8.
  rewrite <- Z.ldiff_land.
  change 7 with (Z.ones 3) at 2.
  rewrite Z.ldiff_ones_r by lia.
  rewrite Z.shiftr_div_pow2, Z.shiftl_mul_pow2 by lia.
  change (2 ^ 3) with 8. lia.
Qed.

Lemma KDBUS_ALIGN8_bounds val : val ≤ KDBUS_ALIGN8 val ≤ val + 7.
Proof.
  rewrite KDBUS_ALIGN8_spec.
  pose proof (Z.div_mod (val + 7) 8). pose proof (Z.mod_pos_bound (val + 7) 8).
  lia.
Qed.

Lemma length_krealloc_nil n : 0 ≤ n → length (krealloc [] n) = Z.to_nat n.
Proof.
  intros Hn. unfold krealloc. rewrite take_nil. simpl.
  rewrite length_fmap, length_seqZ. lia.
Qed.

Lemma array_store_load a i v :
  0 ≤ i → (Z.to_nat i < length a)%nat →
  ∃ a', array_store a i v = Return a' ∧ array_load a' i = Return v
        ∧ length a' = length a.
Proof.
  intros Hi Hlen. unfold array_store, array_load.
  rewrite decide_True by done. eexists. split; [done|].
  rewrite list_lookup_insert_eq by done. by rewrite length_insert.
Qed.

(** The sender is not privileged and the receiver's queue is below the
    per-user bound: nothing is counted. *)
Lemma quota_below_bound current conn src entry :
  t_cap_ipc_owner current = false →
  c_msg_count conn < KDBUS_CONN_MAX_MSGS_PER_USER →
  kdbus_conn_queue_user_quota current conn (Some src) entry
    = Return (0, conn, entry).
Proof.
  intros Hcap Hlt. unfold kdbus_conn_queue_user_quota. rewrite Hcap.
  by zcmp.
Qed.

(** The enqueue that makes the counters appear. *)
Lemma quota_first_allocation current conn src entry :
  t_cap_ipc_owner current = false →
  KDBUS_CONN_MAX_MSGS_PER_USER + 1 < UINT_MOD →
  c_msg_count conn = KDBUS_CONN_MAX_MSGS_PER_USER →
  0 ≤ c_msg_count conn →
  c_msg_users conn = [] → c_msg_users_max conn = 0 →
  krealloc_ok conn = true →
  0 ≤ c_user_idr src < 2 ^ 31 →
  ∃ arr,
    kdbus_conn_queue_user_quota current conn (Some src) entry
      = Return (0, conn_set_msg_users arr
                     (8 + KDBUS_ALIGN8 (c_user_idr src)) conn,
                entry_set_user (c_user_idr src) entry)
    ∧ array_load arr (c_user_idr src)
      = Return (KDBUS_CONN_MAX_MSGS_PER_USER + 1).
Proof.
  intros Hcap Hmod Hcount Hpos Husers Hmax Hre Hu.
  unfold kdbus_conn_queue_user_quota. rewrite Hcap.
  zcmp. rewrite Hmax, Hre, Husers. zcmp.
  pose proof (KDBUS_ALIGN8_bounds (c_user_idr src)) as Hal.
  assert (Hi : (8 + KDBUS_ALIGN8 (c_user_idr src)) `mod` UINT_MOD
               = 8 + KDBUS_ALIGN8 (c_user_idr src)).
  { apply Z.mod_small. unfold UINT_MOD. lia. }
  rewrite Hi. simpl.
  destruct (array_store_load (krealloc [] (8 + KDBUS_ALIGN8 (c_user_idr src)))
              (c_user_idr src) (c_msg_count conn `mod` UINT_MOD))
    as (arr1 & -> & Hload1 & Hlen1); [lia| |].
  { rewrite length_krealloc_nil by lia. lia. }
  simpl. rewrite Hload1. simpl.
  rewrite Z.mod_small by (unfold UINT_MOD in *; lia).
  zcmp.
  destruct (array_store_load arr1 (c_user_idr src)
              ((c_msg_count conn + 1) `mod` UINT_MOD))
    as (arr2 & -> & Hload2 & Hlen2); [lia| |].
  { rewrite Hlen1, length_krealloc_nil by lia. lia. }
  simpl. exists arr2. split; [done|].
  rewrite Hload2, Z.mod_small by (unfold UINT_MOD in *; lia).
  by rewrite Hcount.
Qed.

(** One enqueue that passes the checks ahead of the quota and whose quota
    check returns 0. *)
Lemma entry_insert_accepted current bus R S r s kmsg entry r' entry' :
  b_conns bus !! R = Some r → b_conns bus !! S = Some s →
  t_cap_ipc_owner current = false →
  c_msg_count r ≤ KDBUS_CONN_MAX_MSGS →
  kdbus_conn_active r = true →
  k_fds_count kmsg ≤ 0 →
  kdbus_queue_entry_alloc r kmsg = (0, entry) →
  kdbus_conn_queue_user_quota current r (Some s) entry
    = Return (0, r', entry') →
  kdbus_conn_entry_insert current bus R (Some S) kmsg None
    = Return (0, bus_set_events (b_events bus ++ [EvWakeUp R])
                   (bus_put_conn
                      (kdbus_queue_entry_add (entry_set_reply None entry') r')
                      bus)).
Proof.
  intros HR HS Hcap Hmax Hact Hfds Halloc Hquota.
  unfold kdbus_conn_entry_insert, conn_deref.
  rewrite HR, bind_Return, Hcap, Hact, Halloc, HS, !bind_Return.
  cbn [negb andb]. repeat zcmp. rewrite andb_false_r, Hquota, bind_Return.
  zcmp. by rewrite bind_Return.
Qed.

Section Flood.
Variables (current : task) (R S : Z) (s : kdbus_conn) (kmsg : kdbus_kmsg).
Hypothesis Hcap : t_cap_ipc_owner current = false.
Hypothesis Hbound : 0 ≤ KDBUS_CONN_MAX_MSGS_PER_USER ≤ KDBUS_CONN_MAX_MSGS.
Hypothesis Hmod : KDBUS_CONN_MAX_MSGS_PER_USER + 1 < UINT_MOD.
Hypothesis Hrealloc : ∀ c, krealloc_ok c = true.
Hypothesis Halloc : ∀ c, (kdbus_queue_entry_alloc c kmsg).1 = 0.
Hypothesis Hfds : k_fds_count kmsg ≤ 0.
Hypothesis HRS : R ≠ S.
Hypothesis Huser : 0 ≤ c_user_idr s < 2 ^ 31.

Lemma flood_all_accepted n : ∀ bus r,
  b_conns bus !! R = Some r → b_conns bus !! S = Some s →
  c_id r = R → kdbus_conn_active r = true →
  c_msg_users r = [] → c_msg_users_max r = 0 →
  0 ≤ c_msg_count r →
  c_msg_count r + Z.of_nat n = KDBUS_CONN_MAX_MSGS_PER_USER →
  ∃ bus' r',
    conn_entry_insert_n current bus R (Some S) kmsg (Datatypes.S n)
      = Return (replicate (Datatypes.S n) 0, bus')
    ∧ b_conns bus' !! R = Some r'
    ∧ c_msg_count r' = KDBUS_CONN_MAX_MSGS_PER_USER + 1
    ∧ length (c_msg_list r') = (length (c_msg_list r) + Datatypes.S n)%nat
    ∧ array_load (c_msg_users r') (c_user_idr s)
      = Return (KDBUS_CONN_MAX_MSGS_PER_USER + 1).
Proof.
  induction n as [|n IH]; intros bus r HR HS Hid Hact Husers Hmax Hpos Hcount.
  - destruct (kdbus_queue_entry_alloc r kmsg) as [ret entry] eqn:Ha.
    pose proof (Halloc r) as Hret. rewrite Ha in Hret. simpl in Hret. subst ret.
    destruct (quota_first_allocation current r s entry) as (arr & Hq & Hload);
      try done; try lia.
    cbn [conn_entry_insert_n].
    rewrite (entry_insert_accepted _ _ _ _ _ _ _ _ _ _ HR HS Hcap ltac:(lia)
               Hact Hfds Ha Hq).
    simpl. eexists _, _. split; [done|]. simpl.
    rewrite Hid, lookup_insert_eq. split; [done|]. simpl.
    rewrite length_app. simpl. split_and!; try done; try lia.
  - destruct (kdbus_queue_entry_alloc r kmsg) as [ret entry] eqn:Ha.
    pose proof (Halloc r) as Hret. rewrite Ha in Hret. simpl in Hret. subst ret.
    pose proof (quota_below_bound current r s entry Hcap ltac:(lia)) as Hq.
    cbn [conn_entry_insert_n].
    rewrite (entry_insert_accepted _ _ _ _ _ _ _ _ _ _ HR HS Hcap ltac:(lia)
               Hact Hfds Ha Hq).
    set (r1 := kdbus_queue_entry_add (entry_set_reply None entry) r).
    set (bus1 := bus_set_events _ _).
    destruct (IH bus1 r1) as (bus' & r' & Hins & HR' & Hc' & Hlen & Hload).
    + subst bus1 r1. simpl. by rewrite Hid, lookup_insert_eq.
    + subst bus1 r1. simpl. by rewrite Hid, lookup_insert_ne.
    + done.
    + done.
    + done.
    + done.
    + subst r1. simpl. lia.
    + subst r1. simpl. lia.
    + change (Return (0, bus1) ≫= _) with
        ('(rets, bus) ← conn_entry_insert_n current bus1 R (Some S) kmsg
                          (Datatypes.S n);
         Return (0 :: rets, bus)).
      rewrite Hins. simpl. exists bus', r'. repeat split; try done.
      rewrite Hlen. subst r1. simpl. rewrite length_app. simpl. lia.
Qed.

(** C1 (the code departs from the claim).  The quota check rejects a
    sender only when its counter is already above
    KDBUS_CONN_MAX_MSGS_PER_USER, and the sender that makes the counters
    appear is charged the queue length before that test.  On an empty
    queue, KDBUS_CONN_MAX_MSGS_PER_USER + 1 enqueues in a row from one
    unprivileged user are all accepted; the queue then holds that many
    entries and the counter of the user stands at
    KDBUS_CONN_MAX_MSGS_PER_USER + 1. *)
Theorem kdbus_conn_entry_insert_admits_one_over_the_user_limit bus r :
  b_conns bus !! R = Some r → b_conns bus !! S = Some s →
  c_id r = R → kdbus_conn_active r = true →
  c_msg_list r = [] → c_msg_count r = 0 →
  c_msg_users r = [] → c_msg_users_max r = 0 →
  let n := Datatypes.S (Z.to_nat KDBUS_CONN_MAX_MSGS_PER_USER) in
  ∃ bus' r',
    conn_entry_insert_n current bus R (Some S) kmsg n
      = Return (replicate n 0, bus')
    ∧ b_conns bus' !! R = Some r'
    ∧ length (c_msg_list r') = n
    ∧ c_msg_count r' = KDBUS_CONN_MAX_MSGS_PER_USER + 1
    ∧ array_load (c_msg_users r') (c_user_idr s)
      = Return (KDBUS_CONN_MAX_MSGS_PER_USER + 1).
Proof.
  intros HR HS Hid Hact Hlist Hcount Husers Hmax n.
  destruct (flood_all_accepted (Z.to_nat KDBUS_CONN_MAX_MSGS_PER_USER) bus r)
    as (bus' & r' & Hins & HR' & Hc & Hlen & Hload); try done; try lia.
  exists bus', r'. split_and!; try done.
  rewrite Hlen, Hlist. done.
Qed.

End Flood.

(** What the claim says of the mechanism does hold: a privileged sender is
    not counted, *)
Lemma quota_privileged_bypass current conn conn_src entry :
  t_cap_ipc_owner current = true →
  kdbus_conn_queue_user_quota current conn conn_src entry
    = Return (0, conn, entry).
Proof.
  intros Hcap. unfold kdbus_conn_queue_user_quota. rewrite Hcap.
  by destruct conn_src.
Qed.

(** a sender whose counter exceeds the bound is refused, *)
Lemma quota_counter_above_bound current conn src entry n :
  t_cap_ipc_owner current = false →
  KDBUS_CONN_MAX_MSGS_PER_USER ≤ c_msg_count conn →
  c_user_idr src < c_msg_users_max conn →
  array_load (c_msg_users conn) (c_user_idr src) = Return n →
  KDBUS_CONN_MAX_MSGS_PER_USER < n →
  kdbus_conn_queue_user_quota current conn (Some src) entry
    = Return (- ENOBUFS, conn, entry).
Proof.
  intros Hcap Hcount Hmax Hload Hn.
  unfold kdbus_conn_queue_user_quota. rewrite Hcap. repeat zcmp.
  rewrite bind_Return, Hload, bind_Return. by zcmp.
Qed.

(** and so is every unprivileged sender once the queue holds more than
    KDBUS_CONN_MAX_MSGS entries. *)
Lemma entry_insert_queue_above_bound current bus conn c conn_src kmsg reply :
  b_conns bus !! conn = Some c →
  t_cap_ipc_owner current = false →
  KDBUS_CONN_MAX_MSGS < c_msg_count c →
  kdbus_conn_entry_insert current bus conn conn_src kmsg reply
    = Return (- ENOBUFS, bus).
Proof.
  intros Hc Hcap Hcount. unfold kdbus_conn_entry_insert, conn_deref.
  rewrite Hc, bind_Return, Hcap. by zcmp.
Qed.

End QuotaProperties.

(** Seventeen messages from uid 1001 to a connection that has just said
    hello, with the per-user limit at 16. *)
Lemma kdbus_conn_entry_insert_admits_one_over_the_user_limit_witness :
  let bus := sample_bus [sample_conn 1 1 0 1000; sample_conn 2 1 3 1001] [] [] in
  let kmsg := sample_kmsg (sample_msg 0 1 2 7 0) None in
  ∃ bus' r',
    conn_entry_insert_n (sample_task 1001) bus 1 (Some 2) kmsg 17
      = Return (replicate 17 0, bus')
    ∧ b_conns bus' !! 1 = Some r'
    ∧ length (c_msg_list r') = 17%nat
    ∧ c_msg_count r' = 17
    ∧ array_load (c_msg_users r') 3 = Return 17.
Proof.
  intros bus kmsg.
  refine (kdbus_conn_entry_insert_admits_one_over_the_user_limit
            (sample_task 1001) 1 2 (sample_conn 2 1 3 1001) kmsg
            _ _ _ _ _ _ _ _ bus (sample_conn 1 1 0 1000) _ _ _ _ _ _ _ _);
    try reflexivity.
  - simpl. lia.
  - done.
  - simpl. lia.
Defined.

(** The entries that carry their user in the [user] field pass the bound as
    well.  After the seventeen messages of uid 1001 above, a second user
    (idr 4), whose counter starts from memory that reads as zero, floods the
    same connection: seventeen of its messages are accepted, each of them
    tagged with the user, and the eighteenth is refused. *)
Lemma quota_second_user_tagged_entries :
  let bus := sample_bus [sample_conn 1 1 0 1000; sample_conn 2 1 3 1001;
                         sample_conn 3 1 4 1002] [] [] in
  let kmsg2 := sample_kmsg (sample_msg 0 1 2 7 0) None in
  let kmsg3 := sample_kmsg (sample_msg 0 1 3 7 0) None in
  ('(rets2, bus) ← conn_entry_insert_n (sample_task 1001) bus 1 (Some 2) kmsg2 17;
   '(rets3, bus) ← conn_entry_insert_n (sample_task 1002) bus 1 (Some 3) kmsg3 18;
   r ← conn_deref bus 1;
   Return (rets2, rets3,
           length (filter (λ e, e_user e = 4) (c_msg_list r)),
           length (filter (λ e, e_user e = 3) (c_msg_list r))))
  = Return (replicate 17 0, replicate 17 0 ++ [- ENOBUFS], 17%nat, 1%nat).
Proof. vm_compute. reflexivity. Qed.

(** ** Reply trackers and the access check (connection.c) *)

Section ReplyProperties.
Context `{Limits, Uapi, Collaborators}.

Lemma find_reply_loop_ext m m' l dst cookie :
  (∀ x, x ∈ l → m !! x = m' !! x) →
  find_reply_loop m l dst cookie = find_reply_loop m' l dst cookie.
Proof.
  induction l as [|a l IH]; intros Hext; [done|].
  cbn [find_reply_loop]. rewrite <- (Hext a) by (rewrite elem_of_cons; auto).
  destruct (m !! a) as [r|]; [|done].
  destruct (_ && _); [done|]. apply IH. intros x Hx. apply Hext.
  rewrite elem_of_cons; auto.
Qed.

Lemma find_reply_loop_Some m l dst cookie a :
  find_reply_loop m l dst cookie = Return (Some a) →
  a ∈ l ∧ ∃ t, m !! a = Some t ∧ r_reply_dst t = dst ∧ r_cookie t = cookie.
Proof.
  induction l as [|b l IH]; cbn [find_reply_loop]; [done|].
  destruct (m !! b) as [r|] eqn:Hb; [|done].
  destruct (_ && _) eqn:E.
  - intros [= <-]. split; [rewrite elem_of_cons; auto|]. exists r.
    apply andb_true_iff in E as [E1 E2]. split_and!; [done|lia|lia].
  - intros Hf. destruct (IH Hf) as [Hin Ht].
    split; [rewrite elem_of_cons; auto|done].
Qed.

Lemma find_reply_Some bus src dst cookie a :
  kdbus_conn_find_reply bus src dst cookie = Return (0, Some a) →
  ∃ s d t, b_conns bus !! src = Some s ∧ b_conns bus !! dst = Some d
    ∧ c_reply_count d ≠ 0
    ∧ find_reply_loop (b_replies bus) (c_reply_list s) dst cookie
      = Return (Some a)
    ∧ a ∈ c_reply_list s
    ∧ b_replies bus !! a = Some t ∧ r_reply_dst t = dst ∧ r_cookie t = cookie.
Proof.
  unfold kdbus_conn_find_reply, conn_deref.
  destruct (b_conns bus !! dst) as [d|]; [|done]. rewrite bind_Return.
  destruct (c_reply_count d =? 0) eqn:E; [done|].
  destruct (b_conns bus !! src) as [s|]; [|done]. rewrite bind_Return.
  destruct (find_reply_loop _ _ _ _) as [[b|]|] eqn:Hl; try done.
  rewrite bind_Return. intros [= <-].
  destruct (find_reply_loop_Some _ _ _ _ _ Hl) as (Hin & t & Ht & Hd & Hc).
  exists s, d, t. split_and!; try done. lia.
Qed.

(** The connections and trackers after list_del_init(). *)
Lemma list_del_init_conns a bus x :
  b_conns (list_del_init a bus) !! x
  = (λ c, conn_set_reply_list (filter (λ y, y ≠ a) (c_reply_list c)) c)
      <$> b_conns bus !! x.
Proof. unfold list_del_init. simpl. by rewrite lookup_fmap. Qed.

(** Without a matching tracker the verdict is the policy's. *)
Lemma check_access_no_tracker current bus ep msg src dst s d e :
  b_conns bus !! src = Some s → b_conns bus !! dst = Some d →
  b_eps bus !! ep = Some e →
  kdbus_conn_find_reply bus src dst (m_cookie_reply msg)
    = Return (- ENOENT, None) →
  kdbus_conn_check_access current bus ep msg src dst true
  = Return (let ret := kdbus_ep_policy_check_talk_access current bus e s d in
            if ret <? 0 then ret else 0, None, bus).
Proof.
  intros Hs Hd He Hfind. unfold kdbus_conn_check_access.
  rewrite Hfind, bind_Return.
  replace (Return (false, None, bus)) with
    (if true && (m_cookie_reply msg >? 0)
     then Return (false, None, bus) else Return (false, @None Z, bus))
    by (by destruct (_ && _)).
  assert (∀ b : bool, (if b then Return (false, @None Z, bus)
                       else Return (false, None, bus))
                      = Return (false, None, bus)) as Hif by (by intros []).
  rewrite !Hif, bind_Return.
  unfold ep_deref, conn_deref. rewrite He, Hs, Hd, !bind_Return.
  cbv zeta. by destruct (_ <? 0).
Qed.

(** After the tracker [a] has left the reply list of [src], and when no
    other tracker on that list answers the lookup, the lookup fails. *)
Lemma find_reply_consumed bus bus1 src dst cookie s s1 d1 a :
  b_conns bus1 !! src = Some s1 → b_conns bus1 !! dst = Some d1 →
  c_reply_list s1 = filter (λ x, x ≠ a) (c_reply_list s) →
  (∀ x, x ≠ a → b_replies bus1 !! x = b_replies bus !! x) →
  find_reply_loop (b_replies bus) (filter (λ x, x ≠ a) (c_reply_list s))
    dst cookie = Return None →
  kdbus_conn_find_reply bus1 src dst cookie = Return (- ENOENT, None).
Proof.
  intros Hs1 Hd1 Hlist Hrep Huniq. unfold kdbus_conn_find_reply, conn_deref.
  rewrite Hd1, bind_Return. destruct (_ =? 0); [done|].
  rewrite Hs1, bind_Return, Hlist.
  rewrite (find_reply_loop_ext (b_replies bus1) (b_replies bus)), Huniq; [done|].
  intros x Hx. apply Hrep. by apply list_elem_of_filter in Hx as [? _].
Qed.

(** A matching tracker on the sender's reply list lets the check pass
    without the policy, and leaves the list.  When no other tracker on that
    list answers the same lookup, the next check consumes nothing and gives
    the verdict of the talk policy. *)
Lemma check_access_consumes_tracker
  current current' bus ep msg src dst s d e a :
  b_conns bus !! src = Some s → b_conns bus !! dst = Some d →
  b_eps bus !! ep = Some e →
  c_id s = src → c_id d = dst →
  0 < m_cookie_reply msg →
  kdbus_conn_find_reply bus src dst (m_cookie_reply msg) = Return (0, Some a) →
  find_reply_loop (b_replies bus) (filter (λ x, x ≠ a) (c_reply_list s))
    dst (m_cookie_reply msg) = Return None →
  ∃ reply_wake bus1 s1 d1,
    kdbus_conn_check_access current bus ep msg src dst true
      = Return (0, reply_wake, bus1)
    ∧ b_conns bus1 !! src = Some s1 ∧ b_conns bus1 !! dst = Some d1
    ∧ (a ∉ c_reply_list s1)
    ∧ kdbus_conn_check_access current' bus1 ep msg src dst true
      = Return (let ret := kdbus_ep_policy_check_talk_access current' bus1
                             e s1 d1 in
                if ret <? 0 then ret else 0, None, bus1).
Proof.
  intros Hs Hd He Hids Hidd Hcookie Hfind Huniq.
  destruct (find_reply_Some _ _ _ _ _ Hfind)
    as (s' & d' & t & Hs' & Hd' & Hcnt & Hloop & Hin & Ht & Htd & Htc).
  rewrite Hs in Hs'. rewrite Hd in Hd'. injection Hs' as <-. injection Hd' as <-.
  set (unlink := λ c, conn_set_reply_list
                        (filter (λ y, y ≠ a) (c_reply_list c)) c).
  assert (Hs0 : b_conns (list_del_init a bus) !! src = Some (unlink s))
    by (by rewrite list_del_init_conns, Hs).
  assert (Hd0 : b_conns (list_del_init a bus) !! dst = Some (unlink d))
    by (by rewrite list_del_init_conns, Hd).
  assert (Hnotin : a ∉ filter (λ y, y ≠ a) (c_reply_list s)).
  { intros Hx. by apply list_elem_of_filter in Hx as [? _]. }
  unfold kdbus_conn_check_access at 1.
  rewrite Hfind. cbn [andb]. zcmp. rewrite bind_Return.
  unfold reply_deref at 1. rewrite Ht, bind_Return.
  destruct (r_sync t) eqn:Hsync.
  - (* a synchronous waiter: the tracker is handed over with a reference *)
    unfold kdbus_conn_reply_ref, reply_deref.
    change (b_replies (list_del_init a bus)) with (b_replies bus).
    rewrite Ht, !bind_Return.
    eexists _, _, (unlink s), (unlink d). split; [done|].
    split_and!; try done.
    eapply check_access_no_tracker; try done.
    eapply (find_reply_consumed bus); try done.
    intros x Hx. simpl. by rewrite lookup_insert_ne.
  - unfold kdbus_conn_reply_unref, reply_deref.
    change (b_replies (list_del_init a bus)) with (b_replies bus).
    rewrite Ht, bind_Return.
    destruct (r_kref t =? 1).
    + (* the last reference: the tracker is freed *)
      unfold conn_deref. rewrite Htd, Hd0, !bind_Return.
      remember (conn_set_reply_count (atomic_dec_return (c_reply_count (unlink d)))
                  (unlink d))
        as d1 eqn:Hd1.
      assert (Hkey : c_id d1 = dst) by (by subst d1).
      assert (Hl1 : c_reply_list d1 = filter (λ x, x ≠ a) (c_reply_list d))
        by (by subst d1).
      destruct (decide (src = dst)) as [->|Hne].
      * assert (s = d) as -> by congruence.
        eexists _, _, d1, d1. split; [done|]. simpl.
        rewrite Hkey, lookup_insert_eq. split_and!; try done.
        { by rewrite Hl1. }
        eapply check_access_no_tracker; try done; simpl;
          try (by rewrite Hkey, lookup_insert_eq).
        eapply (find_reply_consumed bus _ _ _ _ d d1 d1); try done; simpl;
          try (by rewrite Hkey, lookup_insert_eq).
        intros x Hx. by rewrite lookup_delete_ne.
      * eexists _, _, (unlink s), d1. split; [done|]. simpl.
        rewrite Hkey, lookup_insert_eq, lookup_insert_ne by done.
        split_and!; try done.
        eapply check_access_no_tracker; try done; simpl;
          try (by rewrite Hkey, ?lookup_insert_eq, ?lookup_insert_ne).
        eapply (find_reply_consumed bus _ _ _ _ s (unlink s) d1); try done;
          simpl; try (by rewrite Hkey, ?lookup_insert_eq, ?lookup_insert_ne).
        intros x Hx. by rewrite lookup_delete_ne.
    + (* somebody else still holds the tracker *)
      rewrite !bind_Return.
      eexists _, _, (unlink s), (unlink d). split; [done|].
      split_and!; try done.
      eapply check_access_no_tracker; try done.
      eapply (find_reply_consumed bus); try done.
      intros x Hx. simpl. by rewrite lookup_insert_ne.
Qed.

End ReplyProperties.

(** ** Cancelling pending calls (connection.c) *)

Section CancelProperties.
Context `{Limits, Uapi, Collaborators}.

(** Where no other connection holds a tracker for [conn] and [cookie], the
    scan finds nothing and changes nothing. *)
Lemma msg_cancel_loop_nothing bus conn cookie found hash :
  (∀ c, c ∈ hash → c ≠ conn →
        kdbus_conn_find_reply bus c conn cookie = Return (- ENOENT, None)) →
  msg_cancel_loop bus conn cookie found hash = Return (found, bus).
Proof.
  induction hash as [|c hash IH]; intros Hnone; [done|].
  cbn [msg_cancel_loop].
  assert (Hrest : msg_cancel_loop bus conn cookie found hash
                  = Return (found, bus)).
  { apply IH. intros c' Hin. apply Hnone. rewrite elem_of_cons; auto. }
  destruct (c =? conn) eqn:E; [done|].
  rewrite Hnone, bind_Return; [done| |lia].
  rewrite elem_of_cons; auto.
Qed.

Lemma kdbus_cmd_msg_cancel_nothing bus conn cookie c :
  b_conns bus !! conn = Some c →
  (∀ c, c ∈ b_conn_hash bus → c ≠ conn →
        kdbus_conn_find_reply bus c conn cookie = Return (- ENOENT, None)) →
  kdbus_cmd_msg_cancel bus conn cookie = Return (- ENOENT, bus).
Proof.
  intros Hc Hnone. unfold kdbus_cmd_msg_cancel, conn_deref.
  rewrite Hc, bind_Return. destruct (_ =? 0); [done|].
  by rewrite msg_cancel_loop_nothing.
Qed.

End CancelProperties.

(** One synchronous call is pending: the cancel returns 0, the waiter comes
    back with -ECANCELED, and a second cancel returns -ENOENT. *)
Lemma cancel_wakes_the_sync_waiter :
  ∃ b1 m b2,
    kdbus_cmd_msg_cancel (sample_bus_one_call 1000 true) 1 7 = Return (0, b1)
    ∧ kdbus_conn_wait_reply b1 1 2 (k_msg sample_call_sync) 100 1
      = Return (- ECANCELED, m, b2)
    ∧ kdbus_cmd_msg_cancel b1 1 7 = Return (- ENOENT, b1)
    ∧ kdbus_cmd_msg_cancel b2 1 7 = Return (- ENOENT, b2).
Proof.
  do 3 eexists. split; [vm_compute; reflexivity|].
  split; [vm_compute; reflexivity|].
  split; [vm_compute; reflexivity|].
  vm_compute; reflexivity.
Qed.

(** C4 (the code departs from the claim).  kdbus_cmd_msg_cancel() takes
    from each connection the first tracker kdbus_conn_find_reply() returns
    and hands it to kdbus_conn_reply_sync(), which asserts that the tracker
    is synchronous.
    - After an asynchronous call (EXPECT_REPLY alone) with cookie 7, the
      cancel of cookie 7 runs into that assertion.
    - After two synchronous calls with cookie 7 to the same peer, the first
      cancel returns 0 and leaves the second waiter asleep; the second
      cancel returns 0 as well, and only the third returns -ENOENT. *)
Theorem kdbus_cmd_msg_cancel_first_match_only :
  (∃ k d b,
      kdbus_conn_kmsg_send (sample_task 1000) sample_domain
        sample_bus_two_peers 1 (Some 1) sample_call_async
        = Return (SendReturned 0, k, d, b)
      ∧ kdbus_cmd_msg_cancel b 1 7 = Oops BugOn)
  ∧ (∃ w1 w2 k1 d1 b1 k2 d2 b2 b3 b4 t,
        kdbus_conn_kmsg_send (sample_task 1000) sample_domain
          sample_bus_two_peers 1 (Some 1) sample_call_sync
          = Return (SendWaiting w1 2 0, k1, d1, b1)
        ∧ kdbus_conn_kmsg_send (sample_task 1000) d1 b1 1 (Some 1)
            sample_call_sync
          = Return (SendWaiting w2 2 0, k2, d2, b2)
        ∧ w1 ≠ w2
        ∧ kdbus_cmd_msg_cancel b2 1 7 = Return (0, b3)
        ∧ b_replies b3 !! w1 = Some t
        ∧ r_waiting t = true ∧ r_reply_dst t = 1 ∧ r_cookie t = 7
        ∧ kdbus_cmd_msg_cancel b3 1 7 = Return (0, b4)
        ∧ kdbus_cmd_msg_cancel b4 1 7 = Return (- ENOENT, b4)).
Proof.
  split.
  - do 3 eexists. split; [vm_compute; reflexivity|].
    vm_compute; reflexivity.
  - do 11 eexists. split; [vm_compute; reflexivity|].
    split; [vm_compute; reflexivity|].
    split; [vm_compute; discriminate|].
    split; [vm_compute; reflexivity|].
    split; [vm_compute; reflexivity|].
    split; [vm_compute; reflexivity|].
    split; [vm_compute; reflexivity|].
    split; [vm_compute; reflexivity|].
    split; [vm_compute; reflexivity|].
    vm_compute; reflexivity.
Qed.

(** ** The send path: sequence numbers and destinations (connection.c) *)

Section SendProperties.
Context `{Limits, Uapi, Collaborators}.

(** Inversion of the monadic bind. *)
Lemma bind_Return_inv {A B} (m : outcome A) (k : A → outcome B) b :
  m ≫= k = Return b → ∃ a, m = Return a ∧ k a = Return b.
Proof. destruct m as [a|f]; [eauto|done]. Qed.

(** The sequence number is assigned first, whatever happens afterwards. *)
Lemma kmsg_send_seq current dom bus ep conn_src kmsg st kmsg' dom' bus' :
  kdbus_conn_kmsg_send current dom bus ep conn_src kmsg
    = Return (st, kmsg', dom', bus') →
  k_seq kmsg ≤ 0
  ∧ k_seq kmsg' = atomic64_inc_return (d_msg_seq_last dom)
  ∧ dom' = domain_set_msg_seq_last (atomic64_inc_return (d_msg_seq_last dom)) dom.
Proof.
  unfold kdbus_conn_kmsg_send.
  destruct (k_seq kmsg >? 0) eqn:Hseq; [done|].
  intros Hsend. split; [lia|].
  apply bind_Return_inv in Hsend as ([k1 failed] & Hmeta & Hsend).
  assert (Hk1 : k_seq k1 = atomic64_inc_return (d_msg_seq_last dom)).
  { destruct conn_src as [s|].
    - apply bind_Return_inv in Hmeta as (src & _ & Hmeta).
      by injection Hmeta as <- _.
    - by injection Hmeta as <- _. }
  destruct failed; [by injection Hsend as _ <- <- _|].
  destruct (_ =? KDBUS_DST_ID_BROADCAST).
  { apply bind_Return_inv in Hsend as (b1 & _ & Hsend).
    by injection Hsend as _ <- <- _. }
  apply bind_Return_inv in Hsend as (resolved & _ & Hsend).
  destruct resolved as [err|[conn_dst name_entry]].
  { by injection Hsend as _ <- <- _. }
  apply bind_Return_inv in Hsend as ([st1 b1] & _ & Hsend).
  injection Hsend as _ <- <- _. split; [|done].
  by destruct name_entry.
Qed.

Lemma atomic64_inc_return_no_wrap v :
  0 ≤ v → v + 1 < U64_MOD → atomic64_inc_return v = v + 1.
Proof. intros. unfold atomic64_inc_return. apply Z.mod_small. lia. Qed.

Lemma send_trace_consecutive dom seqs dom' :
  send_trace dom seqs dom' →
  0 ≤ d_msg_seq_last dom →
  d_msg_seq_last dom + Z.of_nat (length seqs) < U64_MOD →
  seqs = seqZ (d_msg_seq_last dom + 1) (Z.of_nat (length seqs)).
Proof.
  induction 1 as [dom|dom current bus ep conn_src kmsg st kmsg' dom1 bus' seqs
                      dom2 Hsend Htrace IH]; intros Hpos Hwrap; [done|].
  apply kmsg_send_seq in Hsend as (_ & Hseq & ->).
  cbn [length] in *.
  rewrite atomic64_inc_return_no_wrap in Hseq by lia.
  rewrite Nat2Z.inj_succ, seqZ_cons, Hseq by lia. f_equal.
  rewrite IH at 1.
  - simpl. rewrite atomic64_inc_return_no_wrap by lia. f_equal. lia.
  - simpl. rewrite atomic64_inc_return_no_wrap by lia. lia.
  - simpl. rewrite atomic64_inc_return_no_wrap by lia. lia.
Qed.

(** C6 (amended).  Every send that returns has given the message the new
    value of the domain's counter, incremented by one (modulo 2^64) at the
    very start, whether or not the send succeeds; the numbers given by a run
    of sends in a domain, on any of its buses, are strictly increasing as
    long as the counter does not wrap. *)
Theorem kdbus_conn_kmsg_send_seq_inc_return_strictly_increasing
  dom seqs dom' :
  send_trace dom seqs dom' →
  0 ≤ d_msg_seq_last dom →
  d_msg_seq_last dom + Z.of_nat (length seqs) < U64_MOD →
  (∀ current bus ep conn_src kmsg st kmsg1 dom1 bus1,
      kdbus_conn_kmsg_send current dom bus ep conn_src kmsg
        = Return (st, kmsg1, dom1, bus1) →
      k_seq kmsg1 = atomic64_inc_return (d_msg_seq_last dom)
      ∧ d_msg_seq_last dom1 = k_seq kmsg1)
  ∧ StronglySorted Z.lt seqs
  ∧ Forall (λ seq, d_msg_seq_last dom < seq) seqs.
Proof.
  intros Htrace Hpos Hwrap. split.
  { intros * Hsend. apply kmsg_send_seq in Hsend as (_ & -> & ->). done. }
  rewrite (send_trace_consecutive _ _ _ Htrace Hpos Hwrap).
  generalize (d_msg_seq_last dom). generalize (length seqs).
  clear. intros n. induction n as [|n IH]; intros v.
  - split; constructor.
  - rewrite Nat2Z.inj_succ, seqZ_cons by lia.
    replace (Z.pred (Z.succ (Z.of_nat n))) with (Z.of_nat n) by lia.
    destruct (IH (Z.succ v)) as [Hs Hf]. split.
    + constructor; [done|].
      eapply Forall_impl; [exact Hf|]. simpl. intros. lia.
    + constructor; [lia|].
      eapply Forall_impl; [exact Hf|]. simpl. intros. lia.
Qed.

(** What kmsg_send_resolve() can answer for a message addressed by name and
    id: a negative errno, or the owner of the name, whose id is the one of
    the message. *)
Lemma kmsg_send_resolve_name_and_id bus kmsg name res :
  k_dst_name kmsg = Some name →
  m_dst_id (k_msg kmsg) ≠ KDBUS_DST_ID_NAME →
  kmsg_send_resolve bus kmsg = Return res →
  (∃ err, res = inl err ∧ err < 0)
  ∨ (∃ entry owner o,
        res = inr (owner, Some entry)
        ∧ kdbus_name_lock bus name = Some entry
        ∧ n_conn entry = Some owner
        ∧ b_conns bus !! owner = Some o
        ∧ c_id o = m_dst_id (k_msg kmsg)).
Proof.
  intros Hname Hid. unfold kmsg_send_resolve. rewrite Hname.
  destruct (kdbus_name_lock bus name) as [entry|]; [|intros [= <-]; left; eexists; split; reflexivity].
  zcmp. cbn [negb].
  destruct (n_conn entry) as [owner|] eqn:Hconn; [|done].
  unfold conn_deref.
  destruct (b_conns bus !! owner) as [o|] eqn:Ho; [|by rewrite !bind_Oops].
  rewrite !bind_Return.
  destruct (m_dst_id (k_msg kmsg) =? c_id o) eqn:E; cbn [negb].
  - rewrite ?bind_Return, ?Ho, ?bind_Return.
    destruct (_ && _); intros [= <-]; [left; eexists; split; reflexivity|].
    apply Z.eqb_eq in E. right. exists entry, owner, o. by split_and!.
  - intros [= <-]. left. by eexists.
Qed.

(** The same function when the owner of the name has another id. *)
Lemma kmsg_send_resolve_changed bus kmsg name entry owner o :
  k_dst_name kmsg = Some name →
  kdbus_name_lock bus name = Some entry →
  n_conn entry = Some owner → b_conns bus !! owner = Some o →
  m_dst_id (k_msg kmsg) ≠ KDBUS_DST_ID_NAME →
  m_dst_id (k_msg kmsg) ≠ c_id o →
  kmsg_send_resolve bus kmsg = Return (inl (- EREMCHG)).
Proof.
  intros Hname Hlock Hconn Ho Hid Hne. unfold kmsg_send_resolve, conn_deref.
  rewrite Hname, Hlock, Hconn, Ho. zcmp. cbn [negb].
  rewrite !bind_Return. by zcmp.
Qed.

(** ... and when the name has no owner. *)
Lemma kmsg_send_resolve_null_owner bus kmsg name entry :
  k_dst_name kmsg = Some name →
  kdbus_name_lock bus name = Some entry →
  n_conn entry = None →
  m_dst_id (k_msg kmsg) ≠ KDBUS_DST_ID_NAME →
  kmsg_send_resolve bus kmsg = Oops NullPointerDereference.
Proof.
  intros Hname Hlock Hconn Hid. unfold kmsg_send_resolve.
  rewrite Hname, Hlock, Hconn. by zcmp.
Qed.

(** The walk over the hash of the bus that looks for an id. *)
Lemma find_conn_by_id_loop_None bus id hash :
  (∀ p, p ∈ hash → ∃ c, b_conns bus !! p = Some c ∧ c_id c ≠ id) →
  find_conn_by_id_loop bus id hash = Return None.
Proof.
  induction hash as [|p hash IH]; intros Hno; [done|].
  cbn [find_conn_by_id_loop]. unfold conn_deref.
  destruct (Hno p) as (c & -> & Hne); [rewrite elem_of_cons; auto|].
  rewrite bind_Return. zcmp. apply IH.
  intros q Hq. apply Hno. rewrite elem_of_cons; auto.
Qed.

Lemma find_conn_by_id_loop_Some bus id hash :
  (∀ k c, b_conns bus !! k = Some c → c_id c = k) →
  (∀ p, p ∈ hash → is_Some (b_conns bus !! p)) →
  id ∈ hash →
  find_conn_by_id_loop bus id hash = Return (Some id).
Proof.
  intros Hids. induction hash as [|p hash IH]; intros Hex Hin.
  { by apply elem_of_nil in Hin. }
  cbn [find_conn_by_id_loop]. unfold conn_deref.
  destruct (Hex p) as [c Hc]; [rewrite elem_of_cons; auto|].
  rewrite Hc, bind_Return. pose proof (Hids _ _ Hc) as Hcid.
  destruct (c_id c =? id) eqn:E.
  - f_equal. f_equal. lia.
  - apply IH.
    + intros q Hq. apply Hex. rewrite elem_of_cons; auto.
    + apply elem_of_cons in Hin as [->|Hin]; [lia|done].
Qed.

(** kdbus_conn_kmsg_send() up to the resolution of the destination of a
    unicast message. *)
Lemma kmsg_send_until_resolve current dom bus ep conn_src kmsg :
  k_seq kmsg ≤ 0 →
  (∀ s, conn_src = Some s → is_Some (b_conns bus !! s)) →
  (∀ k, kdbus_meta_new_ok k = true) →
  m_dst_id (k_msg kmsg) ≠ KDBUS_DST_ID_BROADCAST →
  ∃ kmsg1,
    k_msg kmsg1 = k_msg kmsg ∧ k_dst_name kmsg1 = k_dst_name kmsg
    ∧ kdbus_conn_kmsg_send current dom bus ep conn_src kmsg
      = (resolved ← kmsg_send_resolve bus kmsg;
         match resolved with
         | inl err =>
             Return (SendReturned err, kmsg1,
                     domain_set_msg_seq_last
                       (atomic64_inc_return (d_msg_seq_last dom)) dom, bus)
         | inr (conn_dst, name_entry) =>
             let kmsg2 := match name_entry with
                          | Some n => kmsg_set_dst_name_id (n_name_id n) kmsg1
                          | None => kmsg1
                          end in
             '(st, bus) ← kmsg_send_dispatch current bus ep conn_src kmsg2
                             conn_dst name_entry;
             Return (st, kmsg2,
                     domain_set_msg_seq_last
                       (atomic64_inc_return (d_msg_seq_last dom)) dom, bus)
         end).
Proof.
  intros Hseq Hsrc Hmeta Hb. unfold kdbus_conn_kmsg_send. zcmp.
  destruct conn_src as [s|].
  - destruct (Hsrc s eq_refl) as [c Hc]. unfold conn_deref at 1.
    rewrite Hc, !bind_Return, Hmeta.
    cbn [IS_ERR k_meta k_msg kmsg_set_meta kmsg_set_seq].
    zcmp. eexists. split_and!; [| |reflexivity]; done.
  - rewrite bind_Return. cbn [k_msg kmsg_set_seq].
    zcmp. eexists. split_and!; [| |reflexivity]; done.
Qed.

(** A send that does not fail has resolved its destination. *)
Lemma kmsg_send_resolved current dom bus ep conn_src kmsg st kmsg' dom' bus' :
  kdbus_conn_kmsg_send current dom bus ep conn_src kmsg
    = Return (st, kmsg', dom', bus') →
  send_failed st = false →
  m_dst_id (k_msg kmsg) ≠ KDBUS_DST_ID_BROADCAST →
  ∃ conn_dst name_entry,
    kmsg_send_resolve bus kmsg = Return (inr (conn_dst, name_entry)).
Proof.
  unfold kdbus_conn_kmsg_send. intros Hsend Hok Hb.
  destruct (k_seq kmsg >? 0); [done|].
  apply bind_Return_inv in Hsend as ([k1 failed] & Hmeta & Hsend).
  assert (Hk1 : k_msg k1 = k_msg kmsg ∧ k_dst_name k1 = k_dst_name kmsg
                ∧ (failed = true → PTR_ERR (k_meta k1) = - ENOMEM)).
  { destruct conn_src as [s|].
    - apply bind_Return_inv in Hmeta as (src & _ & Hmeta).
      injection Hmeta as <- <-. split_and!; try done.
      cbn [k_meta kmsg_set_meta]. by destruct (kdbus_meta_new_ok _).
    - by injection Hmeta as <- <-. }
  destruct Hk1 as (Hmsg & Hname & Hfailed).
  destruct failed.
  { injection Hsend as <- _ _ _. by rewrite Hfailed in Hok. }
  rewrite Hmsg in Hsend.
  destruct (_ =? KDBUS_DST_ID_BROADCAST) eqn:E; [lia|].
  apply bind_Return_inv in Hsend as (resolved & Hres & Hsend).
  assert (Hsame : kmsg_send_resolve bus k1 = kmsg_send_resolve bus kmsg).
  { unfold kmsg_send_resolve. by rewrite Hmsg, Hname. }
  rewrite Hsame in Hres.
  destruct resolved as [err|[conn_dst name_entry]]; [|eauto].
  injection Hsend as <- _ _ _. simpl in Hok.
  (* every errno of the resolution is negative *)
  exfalso. revert Hres. unfold kmsg_send_resolve.
  assert (Hneg : ∀ e, e < 0 →
            @Return (Z + Z * option kdbus_name_entry) (inl e)
            = Return (inl err) → False).
  { intros e He [= ->]. lia. }
  destruct (k_dst_name kmsg) as [dst_name|].
  - destruct (kdbus_name_lock bus dst_name) as [entry|];
      [|by apply Hneg].
    intros Hres.
    apply bind_Return_inv in Hres as ([] & _ & Hres); [by apply Hneg in Hres|].
    apply bind_Return_inv in Hres as (c & _ & Hres).
    apply bind_Return_inv in Hres as (d & _ & Hres).
    destruct (_ && _); [by apply Hneg in Hres|done].
  - intros Hres.
    apply bind_Return_inv in Hres as ([c|] & _ & Hres); [|by apply Hneg in Hres].
    apply bind_Return_inv in Hres as (d & _ & Hres).
    destruct (negb _); [by apply Hneg in Hres|done].
Qed.

(** C5 (amended).  A unicast send that gives both a destination name and
    a destination id does not fail only if the name is registered and owned
    by a connection with exactly that id.  When the name is not registered
    the send returns -ESRCH; when the owner of the name has another id it
    returns -EREMCHG; in both cases the bus is left as it was: nothing has
    been enqueued.  When the name is registered without an owner, the
    comparison with the id of the owner dereferences a null pointer (this is
    the code path of C9). *)
Theorem kdbus_conn_kmsg_send_name_and_id
  current dom bus ep conn_src kmsg name :
  k_dst_name kmsg = Some name →
  m_dst_id (k_msg kmsg) ≠ KDBUS_DST_ID_NAME →
  m_dst_id (k_msg kmsg) ≠ KDBUS_DST_ID_BROADCAST →
  (∀ st kmsg' dom' bus',
      kdbus_conn_kmsg_send current dom bus ep conn_src kmsg
        = Return (st, kmsg', dom', bus') →
      send_failed st = false →
      ∃ entry owner o,
        kdbus_name_lock bus name = Some entry
        ∧ n_conn entry = Some owner
        ∧ b_conns bus !! owner = Some o
        ∧ c_id o = m_dst_id (k_msg kmsg))
  ∧ (∀ entry owner o,
        k_seq kmsg ≤ 0 →
        (∀ s, conn_src = Some s → is_Some (b_conns bus !! s)) →
        (∀ k, kdbus_meta_new_ok k = true) →
        kdbus_name_lock bus name = Some entry →
        n_conn entry = Some owner →
        b_conns bus !! owner = Some o →
        c_id o ≠ m_dst_id (k_msg kmsg) →
        ∃ kmsg' dom',
          kdbus_conn_kmsg_send current dom bus ep conn_src kmsg
            = Return (SendReturned (- EREMCHG), kmsg', dom', bus))
  ∧ (k_seq kmsg ≤ 0 →
     (∀ s, conn_src = Some s → is_Some (b_conns bus !! s)) →
     (∀ k, kdbus_meta_new_ok k = true) →
     kdbus_name_lock bus name = None →
     ∃ kmsg' dom',
       kdbus_conn_kmsg_send current dom bus ep conn_src kmsg
         = Return (SendReturned (- ESRCH), kmsg', dom', bus))
  ∧ (∀ entry,
        k_seq kmsg ≤ 0 →
        (∀ s, conn_src = Some s → is_Some (b_conns bus !! s)) →
        (∀ k, kdbus_meta_new_ok k = true) →
        kdbus_name_lock bus name = Some entry →
        n_conn entry = None →
        kdbus_conn_kmsg_send current dom bus ep conn_src kmsg
          = Oops NullPointerDereference).
Proof.
  intros Hname Hid Hb. split_and!.
  - intros st kmsg' dom' bus' Hsend Hok.
    destruct (kmsg_send_resolved _ _ _ _ _ _ _ _ _ _ Hsend Hok Hb)
      as (conn_dst & name_entry & Hres).
    destruct (kmsg_send_resolve_name_and_id _ _ _ _ Hname Hid Hres)
      as [(err & [=] & _)|(entry & owner & o & _ & Hrest)].
    eauto.
  - intros entry owner o Hseq Hsrc Hmeta Hlock Hconn Ho Hne.
    destruct (kmsg_send_until_resolve current dom bus ep conn_src kmsg
                Hseq Hsrc Hmeta Hb) as (kmsg1 & _ & _ & ->).
    rewrite (kmsg_send_resolve_changed bus kmsg name entry owner o)
      by (try done; lia).
    rewrite bind_Return. eauto.
  - intros Hseq Hsrc Hmeta Hlock.
    destruct (kmsg_send_until_resolve current dom bus ep conn_src kmsg
                Hseq Hsrc Hmeta Hb) as (kmsg1 & _ & _ & ->).
    unfold kmsg_send_resolve. rewrite Hname, Hlock, bind_Return. eauto.
  - intros entry Hseq Hsrc Hmeta Hlock Hconn.
    destruct (kmsg_send_until_resolve current dom bus ep conn_src kmsg
                Hseq Hsrc Hmeta Hb) as (kmsg1 & _ & _ & ->).
    by rewrite (kmsg_send_resolve_null_owner bus kmsg name entry).
Qed.

(** C9 (the code departs from the claim).  The comparison
    [msg->dst_id != name_entry->conn->id] is evaluated whenever the message
    carries an id besides the name, also when the name entry has no owner:
    addressing by name and id a name that only an activator holds
    dereferences the null owner pointer. *)
Theorem kdbus_conn_kmsg_send_null_owner
  current dom bus ep conn_src kmsg name entry :
  k_seq kmsg ≤ 0 →
  (∀ s, conn_src = Some s → is_Some (b_conns bus !! s)) →
  (∀ k, kdbus_meta_new_ok k = true) →
  k_dst_name kmsg = Some name →
  m_dst_id (k_msg kmsg) ≠ KDBUS_DST_ID_NAME →
  m_dst_id (k_msg kmsg) ≠ KDBUS_DST_ID_BROADCAST →
  kdbus_name_lock bus name = Some entry →
  n_conn entry = None →
  kdbus_conn_kmsg_send current dom bus ep conn_src kmsg
    = Oops NullPointerDereference.
Proof.
  intros Hseq Hsrc Hmeta Hname Hid Hb Hlock Hconn.
  destruct (kmsg_send_until_resolve current dom bus ep conn_src kmsg
              Hseq Hsrc Hmeta Hb) as (kmsg1 & _ & _ & ->).
  by rewrite (kmsg_send_resolve_null_owner bus kmsg name entry).
Qed.

End SendProperties.

(** C6 (as stated, refuted).  On a domain whose counter is 0 the first send
    gives its message the number 1, where fetch-and-increment gives 0; and
    the first send on another bus of the domain gets the number 2: the
    counter is the domain's, not the bus's. *)
Lemma seq_is_not_fetch_and_increment_of_a_bus_counter :
  ∃ st1 k1 d1 b1 st2 k2 d2 b2,
    kdbus_conn_kmsg_send (sample_task 1000) sample_domain
      sample_bus_two_peers 1 (Some 1) sample_plain_kmsg
      = Return (st1, k1, d1, b1)
    ∧ k_seq k1 = 1
    ∧ (spec_fetch_add (d_msg_seq_last sample_domain)).1 = 0
    ∧ kdbus_conn_kmsg_send (sample_task 1000) d1
        sample_bus_other 1 (Some 1) sample_plain_kmsg
      = Return (st2, k2, d2, b2)
    ∧ k_seq k2 = 2.
Proof.
  do 8 eexists. split; [vm_compute; reflexivity|].
  split; [vm_compute; reflexivity|].
  split; [vm_compute; reflexivity|].
  split; [vm_compute; reflexivity|].
  vm_compute; reflexivity.
Qed.

(** Two sends in the sample domain, one on each bus. *)
Lemma sample_send_trace :
  ∃ seqs dom', send_trace sample_domain seqs dom' ∧ seqs = [1; 2].
Proof.
  do 2 eexists. split.
  - eapply (send_trace_cons sample_domain (sample_task 1000)
              sample_bus_two_peers 1 (Some 1) sample_plain_kmsg).
    { vm_compute. reflexivity. }
    eapply (send_trace_cons _ (sample_task 1000)
              sample_bus_other 1 (Some 1) sample_plain_kmsg).
    { vm_compute. reflexivity. }
    apply send_trace_nil.
  - vm_compute. reflexivity.
Defined.

Lemma kdbus_conn_kmsg_send_seq_inc_return_strictly_increasing_witness :
  (∀ current bus ep conn_src kmsg st kmsg1 dom1 bus1,
      kdbus_conn_kmsg_send current sample_domain bus ep conn_src kmsg
        = Return (st, kmsg1, dom1, bus1) →
      k_seq kmsg1 = atomic64_inc_return (d_msg_seq_last sample_domain)
      ∧ d_msg_seq_last dom1 = k_seq kmsg1)
  ∧ StronglySorted Z.lt [1; 2]
  ∧ Forall (λ seq, d_msg_seq_last sample_domain < seq) [1; 2].
Proof.
  destruct sample_send_trace as (seqs & dom' & Htrace & Hseqs).
  rewrite <- Hseqs.
  apply (kdbus_conn_kmsg_send_seq_inc_return_strictly_increasing
           sample_domain seqs dom' Htrace).
  - simpl. lia.
  - rewrite Hseqs. vm_compute. reflexivity.
Defined.

(** Connection 1 writes to com.example.service and to the id 5, while the
    name belongs to connection 2. *)
Lemma kdbus_conn_kmsg_send_name_and_id_witness :
  ∃ kmsg' dom',
    kdbus_conn_kmsg_send (sample_task 1000) sample_domain sample_bus_service
      1 (Some 1) (sample_named_kmsg 5)
    = Return (SendReturned (- EREMCHG), kmsg', dom', sample_bus_service).
Proof.
  refine (proj1 (proj2 (kdbus_conn_kmsg_send_name_and_id (sample_task 1000)
                          sample_domain sample_bus_service 1 (Some 1)
                          (sample_named_kmsg 5) "com.example.service" _ _ _))
            sample_name_owned 2 (sample_conn 2 1 1 1000) _ _ _ _ _ _ _);
    try (vm_compute; reflexivity); try (vm_compute; discriminate);
    try (intros s [= <-]; eexists; vm_compute; reflexivity).
Defined.

(** C5 (as stated, refuted).  Connection 1 writes to com.example.service
    and to the id 2 on a bus where nobody has registered that name: the
    send fails with -ESRCH, which is not -EREMCHG. *)
Lemma send_by_name_and_id_to_unregistered_name :
  ∃ kmsg' dom',
    k_dst_name (sample_named_kmsg 2) = Some "com.example.service"
    ∧ m_dst_id (k_msg (sample_named_kmsg 2)) = 2
    ∧ kdbus_name_lock sample_bus_two_peers "com.example.service" = None
    ∧ kdbus_conn_kmsg_send (sample_task 1000) sample_domain
        sample_bus_two_peers 1 (Some 1) (sample_named_kmsg 2)
      = Return (SendReturned (- ESRCH), kmsg', dom', sample_bus_two_peers)
    ∧ - ESRCH ≠ - EREMCHG.
Proof.
  do 2 eexists. split; [reflexivity|]. split; [reflexivity|].
  split; [vm_compute; reflexivity|].
  split; [vm_compute; reflexivity|]. vm_compute. discriminate.
Qed.

(** Connection 1 writes to com.example.service and to the id 3, while only
    the activator (connection 3) holds the name. *)
Lemma kdbus_conn_kmsg_send_null_owner_witness :
  kdbus_conn_kmsg_send (sample_task 1000) sample_domain sample_bus_activator
    1 (Some 1) (sample_named_kmsg 3)
  = Oops NullPointerDereference.
Proof.
  refine (kdbus_conn_kmsg_send_null_owner (sample_task 1000) sample_domain
            sample_bus_activator 1 (Some 1) (sample_named_kmsg 3)
            "com.example.service" sample_name_activated _ _ _ _ _ _ _ _);
    try (vm_compute; reflexivity); try (vm_compute; discriminate);
    try (intros s [= <-]; eexists; vm_compute; reflexivity).
Defined.

(** ** A reply sent twice (connection.c) *)

Section SecondReplyProperties.
Context `{Limits, Uapi, Collaborators}.

(** The access check touches trackers, reply lists and reply counters
    only: the hash of the bus, its endpoints, and the id and the flags of
    every connection stay. *)
Lemma check_access_same_peers current bus ep msg src dst want_wake ret wake bus1 :
  (∀ k c, b_conns bus !! k = Some c → c_id c = k) →
  kdbus_conn_check_access current bus ep msg src dst want_wake
    = Return (ret, wake, bus1) →
  b_conn_hash bus1 = b_conn_hash bus ∧ b_eps bus1 = b_eps bus
  ∧ ∀ k, (λ c, (c_id c, c_flags c)) <$> b_conns bus1 !! k
         = (λ c, (c_id c, c_flags c)) <$> b_conns bus !! k.
Proof.
  intros Hids Hrun. unfold kdbus_conn_check_access in Hrun.
  apply bind_Return_inv in Hrun as ([[allowed w] busA] & Hfirst & Hrest).
  assert (bus1 = busA) as ->.
  { destruct allowed; [by injection Hrest as _ _ <-|].
    unfold ep_deref, conn_deref in Hrest.
    destruct (b_eps busA !! ep); [|done].
    destruct (b_conns busA !! src); [|done].
    destruct (b_conns busA !! dst); [|done].
    rewrite !bind_Return in Hrest. cbv zeta in Hrest.
    destruct (_ <? 0); by injection Hrest as _ _ <-. }
  clear Hrest.
  destruct (want_wake && _); [|by injection Hfirst as _ _ <-].
  apply bind_Return_inv in Hfirst as ([r0 r] & _ & Hrest).
  destruct r as [a0|]; [|by injection Hrest as _ _ <-].
  apply bind_Return_inv in Hrest as (t & _ & Hrest).
  destruct (r_sync t).
  - apply bind_Return_inv in Hrest as (b' & Href & [= _ _ <-]).
    unfold kdbus_conn_reply_ref in Href.
    apply bind_Return_inv in Href as (t' & _ & [= <-]).
    split_and!; try done. intros k. simpl. rewrite lookup_fmap.
    by destruct (b_conns bus !! k).
  - apply bind_Return_inv in Hrest as (b' & Hun & [= _ _ <-]).
    unfold kdbus_conn_reply_unref in Hun.
    apply bind_Return_inv in Hun as (t' & _ & Hun).
    destruct (r_kref t' =? 1).
    + apply bind_Return_inv in Hun as (dd & Hdd & [= <-]).
      unfold conn_deref in Hdd. rewrite list_del_init_conns in Hdd.
      destruct (b_conns bus !! r_reply_dst t') as [d0|] eqn:Hd0; [|done].
      injection Hdd as <-. pose proof (Hids _ _ Hd0) as Hid.
      split_and!; try done. intros k. simpl.
      destruct (decide (k = c_id d0)) as [->|Hk].
      * rewrite lookup_insert_eq. rewrite Hid, Hd0. done.
      * rewrite lookup_insert_ne by done. rewrite lookup_fmap.
        by destruct (b_conns bus !! k).
    + injection Hun as <-.
      split_and!; try done. intros k. simpl. rewrite lookup_fmap.
      by destruct (b_conns bus !! k).
Qed.

(** A message to the id of an ordinary connection that is in the hash of
    the bus finds that connection. *)
Lemma kmsg_send_resolve_by_id bus kmsg d :
  k_dst_name kmsg = None →
  (∀ k c, b_conns bus !! k = Some c → c_id c = k) →
  (∀ p, p ∈ b_conn_hash bus → is_Some (b_conns bus !! p)) →
  m_dst_id (k_msg kmsg) ∈ b_conn_hash bus →
  b_conns bus !! m_dst_id (k_msg kmsg) = Some d →
  kdbus_conn_is_ordinary d = true →
  kmsg_send_resolve bus kmsg = Return (inr (m_dst_id (k_msg kmsg), None)).
Proof.
  intros Hname Hids Hex Hin Hd Hord.
  unfold kmsg_send_resolve, kdbus_bus_find_conn_by_id. rewrite Hname.
  rewrite find_conn_by_id_loop_Some by done. rewrite bind_Return.
  unfold conn_deref. by rewrite Hd, bind_Return, Hord.
Qed.

(** C3 (amended).  The access check of a send without EXPECT_REPLY whose
    [cookie_reply] finds a tracker on the sender's reply list passes without
    asking the policy, and the tracker leaves the list.  When no other
    tracker on that list answers the same lookup, a second send with the
    same [cookie_reply] is not taken for a reply and is not refused for
    coming twice: its access check consumes nothing and gives the verdict of
    the talk policy.  Sent to the id of the caller, without SYNC_REPLY, the
    second send returns that verdict and leaves the bus as it is when the
    policy denies it; otherwise it goes on like any unicast message, into
    kdbus_conn_entry_insert() without a tracker and to the monitors. *)
Theorem kdbus_conn_check_access_consumes_tracker_then_asks_policy
  current current' bus ep msg src dst s d e a :
  b_conns bus !! src = Some s → b_conns bus !! dst = Some d →
  b_eps bus !! ep = Some e →
  c_id s = src → c_id d = dst →
  0 < m_cookie_reply msg →
  kdbus_conn_find_reply bus src dst (m_cookie_reply msg) = Return (0, Some a) →
  find_reply_loop (b_replies bus) (filter (λ x, x ≠ a) (c_reply_list s))
    dst (m_cookie_reply msg) = Return None →
  ∃ reply_wake bus1 s1 d1,
    kdbus_conn_check_access current bus ep msg src dst true
      = Return (0, reply_wake, bus1)
    ∧ b_conns bus1 !! src = Some s1 ∧ b_conns bus1 !! dst = Some d1
    ∧ (a ∉ c_reply_list s1)
    ∧ kdbus_conn_check_access current' bus1 ep msg src dst true
      = Return (let ret := kdbus_ep_policy_check_talk_access current' bus1
                             e s1 d1 in
                if ret <? 0 then ret else 0, None, bus1)
    ∧ ∀ dom kmsg,
        k_msg kmsg = msg → k_seq kmsg ≤ 0 → k_dst_name kmsg = None →
        m_dst_id msg = dst → dst ≠ KDBUS_DST_ID_BROADCAST →
        has_flag (m_flags msg) KDBUS_MSG_FLAGS_EXPECT_REPLY = false →
        has_flag (m_flags msg) KDBUS_MSG_FLAGS_SYNC_REPLY = false →
        (∀ k c, b_conns bus !! k = Some c → c_id c = k) →
        (∀ p, p ∈ b_conn_hash bus → is_Some (b_conns bus !! p)) →
        dst ∈ b_conn_hash bus → kdbus_conn_is_ordinary d = true →
        (∀ k, kdbus_meta_new_ok k = true) →
        (∀ k c seq flags, 0 ≤ kdbus_meta_append k c seq flags) →
        let seq := atomic64_inc_return (d_msg_seq_last dom) in
        let kmsg' := kmsg_set_meta (Ptr ()) (kmsg_set_seq seq kmsg) in
        let dom' := domain_set_msg_seq_last seq dom in
        kdbus_conn_kmsg_send current' dom bus1 ep (Some src) kmsg
        = (let ret := kdbus_ep_policy_check_talk_access current' bus1
                        e s1 d1 in
           if ret <? 0 then Return (SendReturned ret, kmsg', dom', bus1)
           else
             '(st, bus2) ← kmsg_send_enqueue current' bus1 (Some src)
                              kmsg' dst None None;
             Return (st, kmsg', dom', bus2)).
Proof.
  intros Hs Hd He Hids Hidd Hcookie Hfind Huniq.
  destruct (check_access_consumes_tracker current current' bus ep msg src dst
              s d e a Hs Hd He Hids Hidd Hcookie Hfind Huniq)
    as (reply_wake & bus1 & s1 & d1 & Hfirst & Hs1 & Hd1 & Hnotin & Hsecond).
  exists reply_wake, bus1, s1, d1. split_and!; try done.
  intros dom kmsg Hmsg Hseq Hname Hdst Hb Hexpect Hsync Hwf Hex Hin Hord
    Hmeta Happ.
  destruct (check_access_same_peers _ _ _ _ _ _ _ _ _ _ Hwf Hfirst)
    as (Hhash & Heps & Hpeers).
  assert (Hwf1 : ∀ k c, b_conns bus1 !! k = Some c → c_id c = k).
  { intros k c Hc. specialize (Hpeers k). rewrite Hc in Hpeers.
    destruct (b_conns bus !! k) as [c0|] eqn:Hc0; [|done].
    injection Hpeers as -> _. by eapply Hwf. }
  assert (Hex1 : ∀ p, p ∈ b_conn_hash bus1 → is_Some (b_conns bus1 !! p)).
  { intros p Hp. rewrite Hhash in Hp. destruct (Hex p Hp) as [c0 Hc0].
    specialize (Hpeers p). rewrite Hc0 in Hpeers.
    destruct (b_conns bus1 !! p); [by eexists|done]. }
  assert (Hord1 : kdbus_conn_is_ordinary d1 = true).
  { specialize (Hpeers dst). rewrite Hd1, Hd in Hpeers.
    injection Hpeers as _ Hflags. revert Hord.
    unfold kdbus_conn_is_ordinary, kdbus_conn_is_activator,
      kdbus_conn_is_policy_holder, kdbus_conn_is_monitor.
    by rewrite Hflags. }
  intros seq kmsg' dom'.
  assert (Hmsg' : k_msg kmsg' = msg) by done.
  unfold kdbus_conn_kmsg_send. zcmp.
  unfold conn_deref at 1. rewrite Hs1, !bind_Return, Hmeta.
  fold seq. fold kmsg'. fold dom'.
  assert (IS_ERR (k_meta kmsg') = false) as -> by done.
  rewrite Hmsg', Hdst. zcmp.
  rewrite (kmsg_send_resolve_by_id bus1 kmsg' d1); try done;
    try (by rewrite Hmsg', Hdst); try (by rewrite Hmsg', Hdst, Hhash).
  rewrite bind_Return, Hmsg', Hdst.
  unfold kmsg_send_dispatch. rewrite Hmsg', Hsync, bind_Return.
  unfold conn_deref at 1 2. rewrite Hs1, Hd1, !bind_Return.
  assert ((kdbus_kmsg_attach_metadata kmsg' s1 d1 <? 0) = false) as ->.
  { apply Z.ltb_ge. unfold kdbus_kmsg_attach_metadata. apply Happ. }
  rewrite Hexpect, Hsecond. cbv zeta.
  destruct (kdbus_ep_policy_check_talk_access current' bus1 e s1 d1 <? 0)
    eqn:Hpol.
  - rewrite bind_Return, Hpol. by rewrite bind_Return.
  - rewrite bind_Return. zcmp. done.
Qed.

End SecondReplyProperties.

(** The replier answers the call of the sample bus twice.  Running as
    another user than the caller, with no policy entry that lets it talk,
    its first reply passes the check and its second send is refused with
    -EPERM, the bus untouched.  Running as the caller's user, its second send
    is queued for the caller. *)
Lemma kdbus_conn_check_access_consumes_tracker_then_asks_policy_witness :
  (∃ reply_wake bus1 kmsg' dom',
     kdbus_conn_check_access (sample_task 1001)
       (sample_bus_one_call 1001 false) 1 (k_msg sample_reply_kmsg) 2 1 true
       = Return (0, reply_wake, bus1)
     ∧ kdbus_conn_check_access (sample_task 1001) bus1 1
         (k_msg sample_reply_kmsg) 2 1 true
       = Return (- EPERM, None, bus1)
     ∧ kdbus_conn_kmsg_send (sample_task 1001) sample_domain bus1 1 (Some 2)
         sample_reply_kmsg
       = Return (SendReturned (- EPERM), kmsg', dom', bus1))
  ∧ (∃ reply_wake bus1 kmsg' dom' bus2 caller,
       kdbus_conn_check_access (sample_task 1000)
         (sample_bus_one_call 1000 false) 1 (k_msg sample_reply_kmsg) 2 1 true
         = Return (0, reply_wake, bus1)
       ∧ kdbus_conn_kmsg_send (sample_task 1000) sample_domain bus1 1 (Some 2)
           sample_reply_kmsg
         = Return (SendReturned 0, kmsg', dom', bus2)
       ∧ b_conns bus2 !! 1 = Some caller
       ∧ e_cookie <$> c_msg_list caller = [8]).
Proof.
  split.
  - destruct (kdbus_conn_check_access_consumes_tracker_then_asks_policy
                (sample_task 1001) (sample_task 1001)
                (sample_bus_one_call 1001 false) 1 (k_msg sample_reply_kmsg)
                2 1 (sample_replier 1001) sample_caller
                (sample_ep [sample_caller; sample_replier 1001]) 100)
      as (w & bus1 & s1 & d1 & H1 & Hs1 & Hd1 & _ & H2 & Hsend);
      [vm_compute; reflexivity ..|].
    assert (Hrun : kdbus_conn_check_access (sample_task 1001)
                     (sample_bus_one_call 1001 false) 1
                     (k_msg sample_reply_kmsg) 2 1 true
                   = Return (0, _, _)) by (vm_compute; reflexivity).
    rewrite H1 in Hrun. injection Hrun as -> ->.
    vm_compute in Hs1. injection Hs1 as <-.
    vm_compute in Hd1. injection Hd1 as <-.
    assert (Hrun2 := Hsend sample_domain sample_reply_kmsg).
    cbv zeta in Hrun2.
    eexists _, _, _, _. split; [exact H1|].
    split; [rewrite H2; vm_compute; reflexivity|].
    rewrite Hrun2.
    + vm_compute. reflexivity.
    + reflexivity.
    + simpl; lia.
    + reflexivity.
    + reflexivity.
    + vm_compute. discriminate.
    + vm_compute. reflexivity.
    + vm_compute. reflexivity.
    + change (map_Forall (λ k c, c_id c = k)
                (b_conns (sample_bus_one_call 1001 false))).
      apply (bool_decide_unpack _). vm_compute. reflexivity.
    + apply Forall_forall. apply (bool_decide_unpack _). vm_compute.
      reflexivity.
    + apply (bool_decide_unpack _). vm_compute. reflexivity.
    + vm_compute. reflexivity.
    + intros k. reflexivity.
    + intros k c seq flags. simpl. lia.
  - destruct (kdbus_conn_check_access_consumes_tracker_then_asks_policy
                (sample_task 1000) (sample_task 1000)
                (sample_bus_one_call 1000 false) 1 (k_msg sample_reply_kmsg)
                2 1 (sample_replier 1000) sample_caller
                (sample_ep [sample_caller; sample_replier 1000]) 100)
      as (w & bus1 & s1 & d1 & H1 & Hs1 & Hd1 & _ & _ & Hsend);
      [vm_compute; reflexivity ..|].
    assert (Hrun : kdbus_conn_check_access (sample_task 1000)
                     (sample_bus_one_call 1000 false) 1
                     (k_msg sample_reply_kmsg) 2 1 true
                   = Return (0, _, _)) by (vm_compute; reflexivity).
    rewrite H1 in Hrun. injection Hrun as -> ->.
    vm_compute in Hs1. injection Hs1 as <-.
    vm_compute in Hd1. injection Hd1 as <-.
    assert (Hrun2 := Hsend sample_domain sample_reply_kmsg).
    cbv zeta in Hrun2.
    eexists _, _, _, _, _, _. split; [exact H1|].
    split.
    { rewrite Hrun2.
      + vm_compute. reflexivity.
      + reflexivity.
      + simpl; lia.
      + reflexivity.
      + reflexivity.
      + vm_compute. discriminate.
      + vm_compute. reflexivity.
      + vm_compute. reflexivity.
      + change (map_Forall (λ k c, c_id c = k)
                  (b_conns (sample_bus_one_call 1000 false))).
        apply (bool_decide_unpack _). vm_compute. reflexivity.
      + apply Forall_forall. apply (bool_decide_unpack _). vm_compute.
        reflexivity.
      + apply (bool_decide_unpack _). vm_compute. reflexivity.
      + vm_compute. reflexivity.
      + intros k. reflexivity.
      + intros k c seq flags. simpl. lia. }
    split; vm_compute; reflexivity.
Defined.

(** C3 (as stated, refuted).  Caller and replier run as the same user.  The
    replier sends its reply twice: both sends return 0, and the caller's
    queue ends up with two messages. *)
Lemma second_reply_is_delivered :
  ∃ k1 d1 b1 k2 d2 b2 caller,
    kdbus_conn_kmsg_send (sample_task 1000) sample_domain
      (sample_bus_one_call 1000 false) 1 (Some 2) sample_reply_kmsg
      = Return (SendReturned 0, k1, d1, b1)
    ∧ kdbus_conn_kmsg_send (sample_task 1000) d1 b1 1 (Some 2)
        sample_reply_kmsg
      = Return (SendReturned 0, k2, d2, b2)
    ∧ b_conns b2 !! 1 = Some caller
    ∧ e_cookie <$> c_msg_list caller = [8; 8].
Proof.
  do 7 eexists. split; [vm_compute; reflexivity|].
  split; [vm_compute; reflexivity|].
  split; [vm_compute; reflexivity|].
  vm_compute; reflexivity.
Qed.

(** ** Disconnect (connection.c) *)

Section DisconnectProperties.
Context `{Limits, Uapi, Collaborators}.

Lemma queue_entry_remove_fields i entry c :
  let c' := kdbus_queue_entry_remove i entry c in
  c_id c' = c_id c ∧ c_active c' = c_active c
  ∧ c_reply_list c' = c_reply_list c ∧ c_ep c' = c_ep c
  ∧ c_flags c' = c_flags c.
Proof. unfold kdbus_queue_entry_remove. by destruct (0 <=? e_user entry). Qed.

Lemma conn_disconnect_drain_fields l : ∀ c c' evs,
  conn_disconnect_drain c l = (c', evs) →
  c_id c' = c_id c ∧ c_active c' = c_active c
  ∧ c_reply_list c' = c_reply_list c ∧ c_ep c' = c_ep c
  ∧ c_flags c' = c_flags c ∧ c_msg_list c' = drop (length l) (c_msg_list c).
Proof.
  induction l as [|entry l IH]; intros c c' evs; cbn [conn_disconnect_drain].
  - intros [= <- _]. by split_and!.
  - destruct (conn_disconnect_drain _ l) as [c1 evs1] eqn:Hd.
    intros [= <- _].
    destruct (IH _ _ _ Hd) as (-> & -> & -> & -> & -> & ->).
    destruct (queue_entry_remove_fields 0 entry c) as (-> & -> & -> & -> & ->).
    split_and!; try done.
    unfold kdbus_queue_entry_remove.
    destruct (0 <=? e_user entry); simpl;
      (destruct (c_msg_list c); simpl; [by rewrite drop_nil|done]).
Qed.

Lemma conn_disconnect_replies_returns conn l : ∀ bus,
  replies_loop_inv conn bus l →
  ∃ bus', conn_disconnect_replies bus l = Return bus'
          ∧ replies_loop_inv conn bus' [].
Proof.
  induction l as [|a l IH]; intros bus Hinv; cbn [conn_disconnect_replies].
  { eauto. }
  destruct Hinv as (Hid & Hdst & Hex & Hnodup & c & Hc & Hact & Hrl & Hml).
  apply NoDup_cons in Hnodup as [Hnotin Hnodup].
  destruct (Hex a) as [t Ht]; [rewrite elem_of_cons; auto|].
  unfold reply_deref at 1. rewrite Ht, bind_Return.
  destruct (r_sync t) eqn:Hsync.
  - unfold kdbus_conn_reply_sync, reply_deref.
    rewrite Ht, bind_Return, Hsync. cbn [negb]. rewrite bind_Return.
    apply IH. split_and!.
    + intros k c0. simpl. rewrite lookup_fmap.
      destruct (b_conns bus !! k) as [c1|] eqn:Hc1; [|done].
      intros [= <-]. simpl. by apply Hid.
    + intros a0 t0. simpl. rewrite lookup_fmap.
      destruct (decide (a0 = a)) as [->|Hne].
      * rewrite lookup_insert_eq. intros [= <-]. simpl.
        destruct (Hdst _ _ Ht) as [d ->]. by eexists.
      * rewrite lookup_insert_ne by done. intros Ht0.
        destruct (Hdst _ _ Ht0) as [d ->]. by eexists.
    + intros a0 Ha0. simpl.
      destruct (decide (a0 = a)) as [->|Hne].
      * rewrite lookup_insert_eq. by eexists.
      * rewrite lookup_insert_ne by done. apply Hex. rewrite elem_of_cons; auto.
    + done.
    + simpl. rewrite lookup_fmap, Hc. simpl. eexists. split; [done|]. simpl.
      rewrite Hrl. done.
  - destruct (Hdst _ _ Ht) as [d Hd].
    unfold conn_deref at 1. rewrite Hd, bind_Return.
    unfold kdbus_conn_reply_unref, reply_deref.
    change (b_replies (bus_log _ bus)) with (b_replies bus).
    rewrite Ht, bind_Return.
    destruct (r_kref t =? 1).
    + unfold conn_deref. change (b_conns (bus_log _ bus)) with (b_conns bus).
      rewrite Hd, !bind_Return.
      apply IH.
      pose proof (Hid _ _ Hd) as Hdid.
      split_and!.
      * intros k c0. simpl. rewrite Hdid.
        destruct (decide (k = r_reply_dst t)) as [->|Hne].
        -- rewrite lookup_insert_eq. intros [= <-]. done.
        -- rewrite lookup_insert_ne by done. apply Hid.
      * intros a0 t0. simpl. rewrite Hdid.
        destruct (decide (a0 = a)) as [->|Hne].
        -- by rewrite lookup_delete_eq.
        -- rewrite lookup_delete_ne by done. intros Ht0.
           destruct (decide (r_reply_dst t0 = r_reply_dst t)) as [->|Hne'].
           ++ rewrite lookup_insert_eq. by eexists.
           ++ rewrite lookup_insert_ne by done. by eapply Hdst.
      * intros a0 Ha0. simpl. rewrite lookup_delete_ne.
        -- apply Hex. rewrite elem_of_cons; auto.
        -- intros ->. done.
      * done.
      * simpl. rewrite Hdid.
        destruct (decide (conn = r_reply_dst t)) as [->|Hne].
        -- rewrite lookup_insert_eq. eexists. split; [done|].
           assert (d = c) as -> by congruence. done.
        -- rewrite lookup_insert_ne by done. eauto.
    + rewrite !bind_Return. apply IH. split_and!.
      * intros k c0. simpl. apply Hid.
      * intros a0 t0. simpl.
        destruct (decide (a0 = a)) as [->|Hne].
        -- rewrite lookup_insert_eq. intros [= <-]. simpl. by eexists.
        -- rewrite lookup_insert_ne by done. apply Hdst.
      * intros a0 Ha0. simpl.
        destruct (decide (a0 = a)) as [->|Hne].
        -- rewrite lookup_insert_eq. by eexists.
        -- rewrite lookup_insert_ne by done. apply Hex. rewrite elem_of_cons; auto.
      * done.
      * simpl. eauto.
Qed.

Lemma kdbus_conn_disconnect_inactive bus conn c ensure :
  b_conns bus !! conn = Some c → kdbus_conn_active c = false →
  kdbus_conn_disconnect bus conn ensure
  = Return (DisconnectReturned (- EALREADY), bus).
Proof.
  intros Hc Hact. unfold kdbus_conn_disconnect, conn_deref.
  by rewrite Hc, bind_Return, Hact.
Qed.

Lemma kdbus_conn_disconnect_busy bus conn c :
  b_conns bus !! conn = Some c → kdbus_conn_active c = true →
  c_msg_list c ≠ [] →
  kdbus_conn_disconnect bus conn true
  = Return (DisconnectReturned (- EBUSY), bus).
Proof.
  intros Hc Hact Hq. unfold kdbus_conn_disconnect, conn_deref.
  rewrite Hc, bind_Return, Hact. cbn [negb andb].
  by rewrite bool_decide_eq_false_2.
Qed.

Lemma conn_disconnect_finish_errno bus conn ret bus' :
  conn_disconnect_finish bus conn = Return (ret, bus') → ret = 0.
Proof.
  unfold conn_disconnect_finish. intros Hd.
  apply bind_Return_inv in Hd as (c & _ & Hd).
  apply bind_Return_inv in Hd as (e & _ & Hd).
  apply bind_Return_inv in Hd as (c2 & _ & Hd).
  destruct (conn_disconnect_drain c2 (c_msg_list c2)) as [c3 evs].
  apply bind_Return_inv in Hd as (b4 & _ & Hd).
  by injection Hd as <- _.
Qed.

Lemma kdbus_conn_disconnect_errno bus conn ensure st bus' :
  kdbus_conn_disconnect bus conn ensure = Return (st, bus') →
  st = DisconnectWaiting ∨ st = DisconnectReturned 0
  ∨ st = DisconnectReturned (- EBUSY) ∨ st = DisconnectReturned (- EALREADY).
Proof.
  unfold kdbus_conn_disconnect. intros Hd.
  apply bind_Return_inv in Hd as (c & _ & Hd).
  destruct (negb (kdbus_conn_active c)); [injection Hd as <- _; auto|].
  destruct (_ && _); [injection Hd as <- _; auto|].
  destruct (negb (_ =? _)); [injection Hd as <- _; auto|].
  apply bind_Return_inv in Hd as ([ret b1] & Hf & Hd).
  apply conn_disconnect_finish_errno in Hf as ->.
  injection Hd as <- _. auto.
Qed.

(** The stores stay consistent when an active counter changes and when a
    request is logged. *)
Lemma bus_wf_set_active bus conn c v ev :
  bus_wf bus → b_conns bus !! conn = Some c →
  bus_wf (bus_log ev (bus_put_conn (conn_set_active v c) bus)).
Proof.
  intros Hwf Hc. pose proof (wf_conn_id _ Hwf _ _ Hc) as Hcid.
  split; simpl; rewrite ?Hcid.
  - intros k c0. destruct (decide (k = conn)) as [->|Hne].
    + rewrite lookup_insert_eq. by intros [= <-].
    + rewrite lookup_insert_ne by done. by apply wf_conn_id.
  - intros k c0. destruct (decide (k = conn)) as [->|Hne].
    + rewrite lookup_insert_eq. intros [= <-]. simpl.
      by apply (wf_conn_ep _ Hwf conn).
    + rewrite lookup_insert_ne by done. by apply wf_conn_ep.
  - intros k c0. destruct (decide (k = conn)) as [->|Hne].
    + rewrite lookup_insert_eq. intros [= <-]. simpl.
      by apply (wf_reply_list _ Hwf conn).
    + rewrite lookup_insert_ne by done. by apply wf_reply_list.
  - intros a t Ht. destruct (wf_reply_dst _ Hwf _ _ Ht) as [d Hd].
    destruct (decide (r_reply_dst t = conn)) as [->|Hne].
    + rewrite lookup_insert_eq. by eexists.
    + rewrite lookup_insert_ne by done. by eexists.
Qed.

Lemma bus_wf_put_active bus conn c v :
  bus_wf bus → b_conns bus !! conn = Some c →
  bus_wf (bus_put_conn (conn_set_active v c) bus).
Proof.
  intros Hwf Hc.
  destruct (bus_wf_set_active bus conn c v EvNotifyFlush Hwf Hc)
    as [W1 W2 W3 W4].
  by split.
Qed.

(** What kdbus_conn_disconnect() does once wait_event() has returned: it
    succeeds and leaves the connection inactive, with an empty queue. *)
Lemma conn_disconnect_finish_succeeds bus conn c :
  b_conns bus !! conn = Some c → c_active c = KDBUS_CONN_ACTIVE_BIAS →
  bus_wf bus → name_remove_by_conn_ok →
  ∃ bus' c',
    conn_disconnect_finish bus conn = Return (0, bus')
    ∧ b_conns bus' !! conn = Some c'
    ∧ kdbus_conn_active c' = false ∧ c_msg_list c' = [].
Proof.
  intros Hc Hact Hwf [Hnwf Hnact].
  unfold conn_disconnect_finish, conn_deref.
  rewrite Hc, bind_Return.
  pose proof (wf_conn_id _ Hwf _ _ Hc) as Hcid.
  destruct (wf_conn_ep _ Hwf _ _ Hc) as [e He].
  unfold ep_deref. cbn [b_eps bus_log bus_set_events].
  rewrite He, bind_Return.
  set (bus1 := bus_put_ep _ _).
  assert (Hwf1 : bus_wf bus1).
  { subst bus1. split; simpl.
    - by apply wf_conn_id.
    - intros k c0 Hc0.
      destruct (wf_conn_ep _ Hwf _ _ Hc0) as [e0 He0].
      destruct (decide (ep_id e = c_ep c0)) as [->|Hne].
      + rewrite lookup_insert_eq. by eexists.
      + rewrite lookup_insert_ne by done. by eexists.
    - by apply wf_reply_list.
    - by apply wf_reply_dst. }
  assert (Hc1 : b_conns bus1 !! conn = Some c) by done.
  destruct (Hnact bus1 conn conn _ Hc1) as (c2 & Hc2 & Hact2).
  pose proof (Hnwf bus1 conn Hwf1) as Hwf2.
  rewrite Hc2, bind_Return.
  destruct (conn_disconnect_drain c2 (c_msg_list c2)) as [c3 evs] eqn:Hdrain.
  destruct (conn_disconnect_drain_fields _ _ _ _ Hdrain)
    as (Hid3 & Hact3 & Hrl3 & Hep3 & Hfl3 & Hml3).
  rewrite drop_all in Hml3.
  pose proof (wf_conn_id _ Hwf2 _ _ Hc2) as Hcid2.
  destruct (wf_reply_list _ Hwf2 _ _ Hc2) as [Hnodup Hexist].
  set (bus3 := bus_set_events _ _).
  destruct (conn_disconnect_replies_returns conn (c_reply_list c3) bus3)
    as (bus4 & -> & Hinv).
  { subst bus3. split_and!; simpl; rewrite ?Hid3, ?Hcid2.
    - intros k c0. destruct (decide (k = conn)) as [->|Hne].
      + rewrite lookup_insert_eq. intros [= <-]. simpl. congruence.
      + rewrite lookup_insert_ne by done. by apply wf_conn_id.
    - intros a t Ht. destruct (wf_reply_dst _ Hwf2 _ _ Ht) as [d Hd].
      destruct (decide (r_reply_dst t = conn)) as [->|Hne].
      + rewrite lookup_insert_eq. by eexists.
      + rewrite lookup_insert_ne by done. by eexists.
    - intros a Ha. apply Hexist. by rewrite <- Hrl3.
    - by rewrite Hrl3.
    - rewrite lookup_insert_eq. eexists. split; [done|]. simpl.
      split_and!; try done. by rewrite Hact3, Hact2. }
  rewrite bind_Return.
  destruct Hinv as (_ & _ & _ & _ & c' & Hc' & Hact' & _ & Hml').
  eexists _, c'. split; [done|]. split; [done|].
  unfold kdbus_conn_active. by rewrite Hact'.
Qed.

(** A disconnect that finds no active reference outstanding. *)
Lemma kdbus_conn_disconnect_succeeds bus conn c ensure :
  b_conns bus !! conn = Some c → c_active c = 0 →
  ensure = false ∨ c_msg_list c = [] →
  bus_wf bus → name_remove_by_conn_ok →
  ∃ bus' c',
    kdbus_conn_disconnect bus conn ensure = Return (DisconnectReturned 0, bus')
    ∧ b_conns bus' !! conn = Some c'
    ∧ kdbus_conn_active c' = false ∧ c_msg_list c' = [].
Proof.
  intros Hc Hact Hq Hwf Hn.
  pose proof (wf_conn_id _ Hwf _ _ Hc) as Hcid.
  unfold kdbus_conn_disconnect, conn_deref.
  rewrite Hc, bind_Return. unfold kdbus_conn_active at 1. rewrite Hact.
  cbn [Z.leb Z.compare negb].
  replace (ensure && negb (bool_decide (c_msg_list c = []))) with false.
  2: { destruct Hq as [->| ->]; [done|]. by rewrite andb_false_r. }
  assert (Hbias : c_active (conn_add_active_bias c) = KDBUS_CONN_ACTIVE_BIAS).
  { unfold conn_add_active_bias. cbn [c_active conn_set_active].
    rewrite Hact, int_wrap_small; [done|].
    unfold KDBUS_CONN_ACTIVE_BIAS, INT_MIN.
    change (2 ^ 31) with 2147483648. lia. }
  rewrite Hbias, Z.eqb_refl. cbn [negb].
  destruct (conn_disconnect_finish_succeeds
              (bus_log (EvWakeUp conn) (bus_put_conn (conn_add_active_bias c) bus))
              conn (conn_add_active_bias c))
    as (bus' & c' & -> & Hc' & Hact' & Hml'); try done.
  - simpl. by rewrite Hcid, lookup_insert_eq.
  - by apply (bus_wf_set_active bus conn c).
  - rewrite bind_Return. by exists bus', c'.
Qed.

(** The holders of [n] active references of a connection that is being
    disconnected release them: the counter is down at the bias, and the
    last release has woken the waiter. *)
Lemma conn_release_n_spec conn n : ∀ bus c,
  bus_wf bus → b_conns bus !! conn = Some c →
  c_active c = KDBUS_CONN_ACTIVE_BIAS + Z.of_nat n →
  Z.of_nat n < 2 ^ 31 →
  ∃ bus' c',
    conn_release_n n bus conn = Return bus'
    ∧ bus_wf bus'
    ∧ b_conns bus' !! conn = Some c'
    ∧ c_active c' = KDBUS_CONN_ACTIVE_BIAS
    ∧ ((0 < n)%nat → last (b_events bus') = Some (EvWakeUp conn)).
Proof.
  induction n as [|n IH]; intros bus c Hwf Hc Hact Hn;
    cbn [conn_release_n].
  { exists bus, c. split_and!; try done; try lia. }
  pose proof (wf_conn_id _ Hwf _ _ Hc) as Hcid.
  unfold kdbus_conn_release, conn_deref. rewrite Hc, bind_Return.
  cbv zeta.
  assert (Hv : atomic_dec_return (c_active c)
               = KDBUS_CONN_ACTIVE_BIAS + Z.of_nat n).
  { unfold atomic_dec_return. rewrite Hact, int_wrap_small.
    - lia.
    - unfold KDBUS_CONN_ACTIVE_BIAS, INT_MIN in *.
      change (2 ^ 31) with 2147483648 in *. lia. }
  rewrite Hv.
  destruct n as [|n].
  - (* the last holder *)
    replace (KDBUS_CONN_ACTIVE_BIAS + Z.of_nat 0 =? KDBUS_CONN_ACTIVE_BIAS)
      with true by (symmetry; apply Z.eqb_eq; lia).
    cbn [negb]. rewrite bind_Return. cbn [conn_release_n].
    eexists _, _. split; [reflexivity|]. split_and!.
    + by apply (bus_wf_set_active bus conn c).
    + simpl. by rewrite Hcid, lookup_insert_eq.
    + simpl. lia.
    + intros _. simpl. by rewrite last_snoc.
  - replace (KDBUS_CONN_ACTIVE_BIAS + Z.of_nat (S n) =? KDBUS_CONN_ACTIVE_BIAS)
      with false by (symmetry; apply Z.eqb_neq; lia).
    cbn [negb]. rewrite bind_Return.
    destruct (IH (bus_put_conn
                    (conn_set_active (KDBUS_CONN_ACTIVE_BIAS + Z.of_nat (S n)) c)
                    bus)
                 (conn_set_active (KDBUS_CONN_ACTIVE_BIAS + Z.of_nat (S n)) c))
      as (bus' & c' & Hr & Hwf' & Hc' & Hact' & Hev').
    + by apply (bus_wf_put_active bus conn c).
    + simpl. by rewrite Hcid, lookup_insert_eq.
    + done.
    + lia.
    + exists bus', c'. split_and!; try done. intros _. apply Hev'. lia.
Qed.

(** A disconnect that finds active references outstanding: the connection
    is closed at once, the caller sleeps, and when the holders have released
    their references the disconnect is completed. *)
Lemma kdbus_conn_disconnect_waits bus conn c ensure :
  b_conns bus !! conn = Some c → 0 < c_active c < 2 ^ 31 - 1 →
  ensure = false ∨ c_msg_list c = [] →
  bus_wf bus → name_remove_by_conn_ok →
  ∃ bus1 c1,
    kdbus_conn_disconnect bus conn ensure = Return (DisconnectWaiting, bus1)
    ∧ b_conns bus1 !! conn = Some c1
    ∧ kdbus_conn_active c1 = false
    ∧ ∃ bus2 bus' c',
        conn_release_n (Z.to_nat (c_active c)) bus1 conn = Return bus2
        ∧ last (b_events bus2) = Some (EvWakeUp conn)
        ∧ conn_disconnect_finish bus2 conn = Return (0, bus')
        ∧ b_conns bus' !! conn = Some c'
        ∧ kdbus_conn_active c' = false ∧ c_msg_list c' = [].
Proof.
  intros Hc Hact Hq Hwf Hn.
  pose proof (wf_conn_id _ Hwf _ _ Hc) as Hcid.
  assert (Hbias : c_active (conn_add_active_bias c)
                  = KDBUS_CONN_ACTIVE_BIAS + c_active c).
  { unfold conn_add_active_bias. cbn [c_active conn_set_active].
    rewrite int_wrap_small; [lia|].
    unfold KDBUS_CONN_ACTIVE_BIAS, INT_MIN.
    change (2 ^ 31) with 2147483648 in *. lia. }
  set (bus1 := bus_log (EvWakeUp conn)
                 (bus_put_conn (conn_add_active_bias c) bus)).
  assert (Hc1 : b_conns bus1 !! conn = Some (conn_add_active_bias c)).
  { subst bus1. simpl. by rewrite Hcid, lookup_insert_eq. }
  assert (Hwf1 : bus_wf bus1) by (by apply (bus_wf_set_active bus conn c)).
  exists bus1, (conn_add_active_bias c). split.
  { unfold kdbus_conn_disconnect, conn_deref.
    rewrite Hc, bind_Return.
    replace (kdbus_conn_active c) with true
      by (symmetry; apply Z.leb_le; lia).
    cbn [negb].
    replace (ensure && negb (bool_decide (c_msg_list c = []))) with false.
    2: { destruct Hq as [->| ->]; [done|]. by rewrite andb_false_r. }
    rewrite Hbias.
    replace (KDBUS_CONN_ACTIVE_BIAS + c_active c =? KDBUS_CONN_ACTIVE_BIAS)
      with false by (symmetry; apply Z.eqb_neq; lia).
    done. }
  split; [done|]. split.
  { unfold kdbus_conn_active. rewrite Hbias. apply Z.leb_gt.
    unfold KDBUS_CONN_ACTIVE_BIAS, INT_MIN.
    change (2 ^ 31) with 2147483648 in *. lia. }
  destruct (conn_release_n_spec conn (Z.to_nat (c_active c)) bus1
              (conn_add_active_bias c) Hwf1 Hc1)
    as (bus2 & c2 & Hr & Hwf2 & Hc2 & Hact2 & Hev2).
  { rewrite Hbias. lia. }
  { change (2 ^ 31) with 2147483648 in *. lia. }
  destruct (conn_disconnect_finish_succeeds bus2 conn c2 Hc2 Hact2 Hwf2 Hn)
    as (bus' & c' & Hf & Hc' & Hact' & Hml').
  exists bus2, bus', c'. split_and!; try done. apply Hev2. lia.
Qed.

(** C7.  On an active connection with a non-empty queue, disconnect with
    the ensure-queue-empty option returns -EBUSY and changes nothing, so the
    connection stays active.  On an active connection whose queue is empty
    (or without the option) disconnect closes the connection.  When no
    active reference is outstanding it returns 0 at once.  When active
    references are outstanding it sleeps in wait_event(), with the
    connection inactive already; once their holders have released them,
    the last release wakes the caller, and the rest of the disconnect ends
    with 0.  In both cases the connection is inactive afterwards, and every
    further disconnect returns -EALREADY.  A disconnect that returns, at
    once or after the wait, returns 0, -EBUSY or -EALREADY. *)
Theorem kdbus_conn_disconnect_results bus conn c :
  b_conns bus !! conn = Some c →
  (kdbus_conn_active c = true → c_msg_list c ≠ [] →
   kdbus_conn_disconnect bus conn true
   = Return (DisconnectReturned (- EBUSY), bus))
  ∧ (c_active c = 0 → bus_wf bus → name_remove_by_conn_ok →
     ∀ ensure, ensure = false ∨ c_msg_list c = [] →
       ∃ bus' c',
         kdbus_conn_disconnect bus conn ensure
         = Return (DisconnectReturned 0, bus')
         ∧ b_conns bus' !! conn = Some c'
         ∧ kdbus_conn_active c' = false
         ∧ ∀ ensure', kdbus_conn_disconnect bus' conn ensure'
                      = Return (DisconnectReturned (- EALREADY), bus'))
  ∧ (0 < c_active c < 2 ^ 31 - 1 → bus_wf bus → name_remove_by_conn_ok →
     ∀ ensure, ensure = false ∨ c_msg_list c = [] →
       ∃ bus1 c1,
         kdbus_conn_disconnect bus conn ensure
         = Return (DisconnectWaiting, bus1)
         ∧ b_conns bus1 !! conn = Some c1
         ∧ kdbus_conn_active c1 = false
         ∧ (∀ ensure', kdbus_conn_disconnect bus1 conn ensure'
                       = Return (DisconnectReturned (- EALREADY), bus1))
         ∧ ∃ bus2 bus' c',
             conn_release_n (Z.to_nat (c_active c)) bus1 conn = Return bus2
             ∧ last (b_events bus2) = Some (EvWakeUp conn)
             ∧ conn_disconnect_finish bus2 conn = Return (0, bus')
             ∧ b_conns bus' !! conn = Some c'
             ∧ kdbus_conn_active c' = false
             ∧ ∀ ensure', kdbus_conn_disconnect bus' conn ensure'
                          = Return (DisconnectReturned (- EALREADY), bus'))
  ∧ (kdbus_conn_active c = false →
     ∀ ensure, kdbus_conn_disconnect bus conn ensure
               = Return (DisconnectReturned (- EALREADY), bus))
  ∧ (∀ ensure st bus',
       kdbus_conn_disconnect bus conn ensure = Return (st, bus') →
       st = DisconnectWaiting ∨ st = DisconnectReturned 0
       ∨ st = DisconnectReturned (- EBUSY)
       ∨ st = DisconnectReturned (- EALREADY))
  ∧ (∀ bus0 ret bus',
       conn_disconnect_finish bus0 conn = Return (ret, bus') → ret = 0).
Proof.
  intros Hc. split_and!.
  - intros. by eapply kdbus_conn_disconnect_busy.
  - intros Hact Hwf Hn ensure Hq.
    destruct (kdbus_conn_disconnect_succeeds bus conn c ensure)
      as (bus' & c' & Hd & Hc' & Hact' & _); try done.
    exists bus', c'. split_and!; try done.
    intros ensure'. by eapply kdbus_conn_disconnect_inactive.
  - intros Hact Hwf Hn ensure Hq.
    destruct (kdbus_conn_disconnect_waits bus conn c ensure)
      as (bus1 & c1 & Hd & Hc1 & Hact1 & bus2 & bus' & c' & Hr & Hev & Hf
          & Hc' & Hact' & _); try done.
    exists bus1, c1. split_and!; try done.
    { intros ensure'. by eapply kdbus_conn_disconnect_inactive. }
    exists bus2, bus', c'. split_and!; try done.
    intros ensure'. by eapply kdbus_conn_disconnect_inactive.
  - intros. by eapply kdbus_conn_disconnect_inactive.
  - intros. by eapply kdbus_conn_disconnect_errno.
  - intros. by eapply conn_disconnect_finish_errno.
Qed.

End DisconnectProperties.

(** ** Receive (connection.c) *)

Section RecvProperties.
Context `{Limits, Uapi, Collaborators}.

(** Without USE_PRIORITY the head of a non-empty queue is the next entry. *)
Lemma queue_entry_peek_head c e l priority :
  c_msg_list c = e :: l →
  kdbus_queue_entry_peek c priority false = (0, Some (0%nat, e)).
Proof. intros Hl. unfold kdbus_queue_entry_peek. by rewrite Hl. Qed.

(** With USE_PRIORITY the next entry is one of the queue, and no entry of
    the queue has a higher priority (a lower number). *)
Lemma queue_highest_spec l : ∀ pre j b,
  pre !! j = Some b →
  (∀ x, x ∈ pre → e_priority b ≤ e_priority x) →
  ∃ j' b',
    queue_highest (length pre) (j, b) l = (j', b')
    ∧ (pre ++ l) !! j' = Some b'
    ∧ ∀ x, x ∈ pre ++ l → e_priority b' ≤ e_priority x.
Proof.
  induction l as [|e l IH]; intros pre j b Hj Hmin; cbn [queue_highest].
  { exists j, b. rewrite app_nil_r. done. }
  cbn [snd].
  replace (pre ++ e :: l) with ((pre ++ [e]) ++ l) by (by rewrite <- app_assoc).
  replace (S (length pre)) with (length (pre ++ [e]))
    by (rewrite length_app; simpl; lia).
  destruct (e_priority e <? e_priority b) eqn:E.
  - apply Z.ltb_lt in E. apply IH.
    + rewrite lookup_app_r by lia. by rewrite Nat.sub_diag.
    + intros x Hx. apply elem_of_app in Hx as [Hx|Hx].
      * specialize (Hmin x Hx). lia.
      * apply list_elem_of_singleton in Hx as ->. lia.
  - apply Z.ltb_ge in E. apply IH.
    + rewrite lookup_app_l; [done|]. by apply lookup_lt_Some in Hj.
    + intros x Hx. apply elem_of_app in Hx as [Hx|Hx].
      * by apply Hmin.
      * by apply list_elem_of_singleton in Hx as ->.
Qed.

(** A peek at the entry [entry] that kdbus_queue_entry_peek() selects, and
    the receive that follows. *)
Lemma recv_peek_selected bus conn c recv i entry :
  b_conns bus !! conn = Some c → c_id c = conn →
  recv_offset recv = 0 →
  has_flag (recv_flags recv) KDBUS_RECV_DROP = false →
  has_flag (recv_flags recv) KDBUS_RECV_PEEK = true →
  kdbus_queue_entry_peek c (recv_priority recv)
    (has_flag (recv_flags recv) KDBUS_RECV_USE_PRIORITY)
    = (0, Some (i, entry)) →
  ∃ recv' bus',
    kdbus_cmd_msg_recv bus conn recv = Return (0, recv', bus')
    ∧ recv_offset recv' = e_slice entry
    ∧ recv_flags recv' = recv_flags recv
    ∧ recv_priority recv' = recv_priority recv
    ∧ b_conns bus' = b_conns bus
    ∧ b_replies bus' = b_replies bus
    ∧ b_events bus'
      = b_events bus ++ [EvSliceFlush (e_slice entry); EvNotifyFlush]
    ∧ ∀ recv2,
        recv_offset recv2 = 0 →
        recv_priority recv2 = recv_priority recv →
        has_flag (recv_flags recv2) KDBUS_RECV_USE_PRIORITY
          = has_flag (recv_flags recv) KDBUS_RECV_USE_PRIORITY →
        has_flag (recv_flags recv2) KDBUS_RECV_DROP = false →
        has_flag (recv_flags recv2) KDBUS_RECV_PEEK = false →
        ∃ recv2' bus2 c2,
          kdbus_cmd_msg_recv bus' conn recv2
            = Return (kdbus_queue_entry_install entry, recv2', bus2)
          ∧ recv_offset recv2' = e_slice entry
          ∧ recv_flags recv2' = recv_flags recv2
          ∧ recv_priority recv2' = recv_priority recv2
          ∧ EvEntryInstall conn entry ∈ b_events bus2
          ∧ b_conns bus2 !! conn = Some c2
          ∧ c_msg_list c2 = delete i (c_msg_list c).
Proof.
  intros Hc Hcid Hoff Hdrop Hpeek Hq.
  eexists _, _. split.
  { unfold kdbus_cmd_msg_recv, conn_deref.
    rewrite Hoff, Hc, bind_Return, Hq. cbn [recv_flags recv_set_offset].
    repeat zcmp. rewrite Hdrop, Hpeek. reflexivity. }
  split; [done|]. split; [done|]. split; [done|].
  split; [done|]. split; [done|]. split.
  { simpl. by rewrite <- app_assoc. }
  intros recv2 Hoff2 Hprio Huse Hdrop2 Hpeek2.
  eexists _, _, _. split.
  { unfold kdbus_cmd_msg_recv, conn_deref.
    change (b_conns (bus_log _ (bus_log _ bus))) with (b_conns bus).
    rewrite Hoff2, Hc, bind_Return, Hprio, Huse, Hq.
    cbn [recv_flags recv_set_offset].
    repeat zcmp. rewrite Hdrop2, Hpeek2. reflexivity. }
  split; [done|]. split; [done|]. split; [done|]. split.
  { simpl. rewrite !elem_of_app, !elem_of_cons. tauto. }
  cbn [b_conns bus_log bus_set_events bus_put_conn bus_set_conns].
  destruct (queue_entry_remove_fields i entry c) as (Hid & _).
  cbv zeta in Hid. rewrite Hid, Hcid, lookup_insert_eq. split; [done|].
  unfold kdbus_queue_entry_remove.
  by destruct (0 <=? e_user entry).
Qed.

(** C8 (amended).  kdbus_cmd_msg_recv() refuses a non-zero input offset
    with -EINVAL and leaves everything as it was.  In PEEK mode (PEEK set
    and DROP not set) on a non-empty queue the call looks at the next
    entry: the head of the queue, or with USE_PRIORITY an entry of the
    highest priority in the queue.  Without USE_PRIORITY, or when the
    priority of that entry is within the bound of the caller, the call
    returns 0 with the offset of the slice of that entry, flushes the
    slice, installs nothing and leaves every connection, hence the queue,
    unchanged; a receive that follows with the same priority setting gets
    that very entry: it returns the same offset, installs the entry and
    unlinks it.  With USE_PRIORITY and the priority of that entry beyond
    the bound, the call returns -ENOMSG, no offset, and the queue is
    unchanged. *)
Theorem kdbus_cmd_msg_recv_offset_and_peek bus conn c recv :
  b_conns bus !! conn = Some c → c_id c = conn →
  (0 < recv_offset recv →
   kdbus_cmd_msg_recv bus conn recv = Return (- EINVAL, recv, bus))
  ∧ (∀ e l,
       c_msg_list c = e :: l →
       recv_offset recv = 0 →
       has_flag (recv_flags recv) KDBUS_RECV_PEEK = true →
       has_flag (recv_flags recv) KDBUS_RECV_DROP = false →
       let use_priority :=
         has_flag (recv_flags recv) KDBUS_RECV_USE_PRIORITY in
       ∃ i entry,
         c_msg_list c !! i = Some entry
         ∧ (use_priority = false → i = 0%nat)
         ∧ (use_priority = true →
            ∀ x, x ∈ c_msg_list c → e_priority entry ≤ e_priority x)
         ∧ (use_priority = false ∨ e_priority entry ≤ recv_priority recv →
            ∃ recv' bus',
              kdbus_cmd_msg_recv bus conn recv = Return (0, recv', bus')
              ∧ recv_offset recv' = e_slice entry
              ∧ recv_flags recv' = recv_flags recv
              ∧ recv_priority recv' = recv_priority recv
              ∧ b_conns bus' = b_conns bus
              ∧ b_replies bus' = b_replies bus
              ∧ b_events bus'
                = b_events bus ++ [EvSliceFlush (e_slice entry); EvNotifyFlush]
              ∧ ∀ recv2,
                  recv_offset recv2 = 0 →
                  recv_priority recv2 = recv_priority recv →
                  has_flag (recv_flags recv2) KDBUS_RECV_USE_PRIORITY
                    = use_priority →
                  has_flag (recv_flags recv2) KDBUS_RECV_DROP = false →
                  has_flag (recv_flags recv2) KDBUS_RECV_PEEK = false →
                  ∃ recv2' bus2 c2,
                    kdbus_cmd_msg_recv bus' conn recv2
                      = Return (kdbus_queue_entry_install entry, recv2', bus2)
                    ∧ recv_offset recv2' = e_slice entry
                    ∧ recv_flags recv2' = recv_flags recv2
                    ∧ recv_priority recv2' = recv_priority recv2
                    ∧ EvEntryInstall conn entry ∈ b_events bus2
                    ∧ b_conns bus2 !! conn = Some c2
                    ∧ c_msg_list c2 = delete i (c_msg_list c))
         ∧ (use_priority = true →
            recv_priority recv < e_priority entry →
            ∃ bus',
              kdbus_cmd_msg_recv bus conn recv = Return (- ENOMSG, recv, bus')
              ∧ b_conns bus' = b_conns bus
              ∧ b_replies bus' = b_replies bus
              ∧ b_events bus' = b_events bus ++ [EvNotifyFlush])).
Proof.
  intros Hc Hcid. split.
  { intros Hoff. unfold kdbus_cmd_msg_recv. by zcmp. }
  intros e l Hl Hoff Hpeek Hdrop use_priority.
  destruct use_priority eqn:Huse; subst use_priority.
  - (* with USE_PRIORITY *)
    destruct (queue_highest_spec l [e] 0%nat e eq_refl)
      as (i & entry & Hbest & Hi & Hmin).
    { intros x Hx. apply list_elem_of_singleton in Hx as ->. lia. }
    cbn [length app] in Hbest, Hi, Hmin.
    assert (Hq : kdbus_queue_entry_peek c (recv_priority recv) true
                 = if e_priority entry >? recv_priority recv
                   then (- ENOMSG, None) else (0, Some (i, entry))).
    { unfold kdbus_queue_entry_peek. by rewrite Hl, Hbest. }
    pose proof (recv_peek_selected bus conn c recv i entry
                  Hc Hcid Hoff Hdrop Hpeek) as Hsel.
    rewrite Huse in Hsel.
    exists i, entry. rewrite Hl. split; [done|]. split; [done|].
    split; [by intros _|]. split.
    + intros [?|Hle]; [done|].
      rewrite <- Hl. apply Hsel. rewrite Hq. by zcmp.
    + intros _ Hgt. eexists. split.
      { unfold kdbus_cmd_msg_recv, conn_deref.
        rewrite Hoff, Hc, bind_Return, Huse, Hq. repeat zcmp.
        unfold ENOMSG. simpl. reflexivity. }
      done.
  - (* the head of the queue *)
    pose proof (recv_peek_selected bus conn c recv 0%nat e
                  Hc Hcid Hoff Hdrop Hpeek) as Hsel.
    rewrite Huse in Hsel.
    exists 0%nat, e. rewrite Hl. split; [done|]. split; [done|].
    split; [done|]. split; [|done].
    intros _. rewrite <- Hl. apply Hsel.
    by apply queue_entry_peek_head with l.
Qed.

End RecvProperties.

(** ** Disconnect and receive on the sample bus *)

(** A decidable form of [bus_wf]. *)
Lemma bus_wf_decide bus :
  map_Forall (λ k c, c_id c = k ∧ is_Some (b_eps bus !! c_ep c)
                     ∧ NoDup (c_reply_list c)
                     ∧ Forall (λ a, is_Some (b_replies bus !! a)) (c_reply_list c))
    (b_conns bus) →
  map_Forall (λ _ t, is_Some (b_conns bus !! r_reply_dst t)) (b_replies bus) →
  bus_wf bus.
Proof.
  intros Hc Hr. split.
  - intros k c Hk. by destruct (Hc k c Hk).
  - intros k c Hk. by destruct (Hc k c Hk) as (_ & ? & _).
  - intros k c Hk. destruct (Hc k c Hk) as (_ & _ & ? & Hall). split; [done|].
    by apply Forall_forall.
  - intros a t Ha. by apply (Hr a t).
Qed.

(** The sample states are consistent, and the sample registry meets what
    disconnect relies on. *)
Lemma sample_bus_queued_wf : bus_wf sample_bus_queued.
Proof.
  apply bus_wf_decide.
  - apply (bool_decide_unpack _). vm_compute. reflexivity.
  - apply (bool_decide_unpack _). vm_compute. reflexivity.
Defined.

Lemma sample_name_remove_by_conn_ok : name_remove_by_conn_ok.
Proof.
  split.
  - intros bus conn [H1 H2 H3 H4]. by split.
  - intros bus conn k c Hc. by exists c.
Defined.

Lemma sample_bus_held_wf : bus_wf sample_bus_held.
Proof.
  apply bus_wf_decide.
  - apply (bool_decide_unpack _). vm_compute. reflexivity.
  - apply (bool_decide_unpack _). vm_compute. reflexivity.
Defined.

(** Connection 2 of the sample bus holds one message: BYEBYE is refused,
    and a disconnect that does not ask for an empty queue returns 0.  With
    two active references of connection 2 outstanding the disconnect
    sleeps; after two releases it is completed. *)
Lemma kdbus_conn_disconnect_results_witness :
  kdbus_conn_disconnect sample_bus_queued 2 true
    = Return (DisconnectReturned (- EBUSY), sample_bus_queued)
  ∧ (∃ bus' c',
       kdbus_conn_disconnect sample_bus_queued 2 false
         = Return (DisconnectReturned 0, bus')
       ∧ b_conns bus' !! 2 = Some c'
       ∧ kdbus_conn_active c' = false
       ∧ ∀ ensure', kdbus_conn_disconnect bus' 2 ensure'
                    = Return (DisconnectReturned (- EALREADY), bus'))
  ∧ ∃ bus1 bus2 bus' c',
      kdbus_conn_disconnect sample_bus_held 2 true
        = Return (DisconnectWaiting, bus1)
      ∧ conn_release_n 2 bus1 2 = Return bus2
      ∧ last (b_events bus2) = Some (EvWakeUp 2)
      ∧ conn_disconnect_finish bus2 2 = Return (0, bus')
      ∧ b_conns bus' !! 2 = Some c'
      ∧ kdbus_conn_active c' = false.
Proof.
  pose proof (kdbus_conn_disconnect_results sample_bus_queued 2
                sample_conn_queued) as Hw.
  destruct Hw as (Hbusy & Hok & _); [vm_compute; reflexivity|].
  split; [|split].
  - apply Hbusy; [vm_compute; reflexivity|discriminate].
  - apply Hok; [reflexivity|apply sample_bus_queued_wf
                |apply sample_name_remove_by_conn_ok|by left].
  - pose proof (kdbus_conn_disconnect_results sample_bus_held 2
                  (conn_set_active 2 (sample_conn 2 1 1 1000))) as Hw.
    destruct Hw as (_ & _ & Hwait & _); [vm_compute; reflexivity|].
    destruct (Hwait (conj eq_refl eq_refl) sample_bus_held_wf
                sample_name_remove_by_conn_ok true (or_intror eq_refl))
      as (bus1 & c1 & Hd & _ & _ & _ & bus2 & bus' & c' & Hr & Hev & Hf
          & Hc' & Hact' & _).
    exists bus1, bus2, bus', c'. by split_and!.
Defined.

(** The hello/byebye scenario: BYEBYE is refused while a message is queued,
    MSG_RECV takes the message, BYEBYE succeeds, and a second BYEBYE finds
    the connection gone. *)
Lemma byebye_scenario :
  ∃ recv b1 b2,
    kdbus_conn_disconnect sample_bus_queued 2 true
      = Return (DisconnectReturned (- EBUSY), sample_bus_queued)
    ∧ kdbus_cmd_msg_recv sample_bus_queued 2 (sample_recv 0)
      = Return (0, recv, b1)
    ∧ recv_offset recv = 128
    ∧ kdbus_conn_disconnect b1 2 true = Return (DisconnectReturned 0, b2)
    ∧ kdbus_conn_disconnect b2 2 true
      = Return (DisconnectReturned (- EALREADY), b2).
Proof.
  do 3 eexists. split; [vm_compute; reflexivity|].
  split; [vm_compute; reflexivity|].
  split; [vm_compute; reflexivity|].
  split; [vm_compute; reflexivity|].
  vm_compute; reflexivity.
Qed.

(** A peek at the queue of connection 2, then a receive. *)
Lemma kdbus_cmd_msg_recv_offset_and_peek_witness :
  ∃ recv' bus',
    kdbus_cmd_msg_recv sample_bus_queued 2 (sample_recv KDBUS_RECV_PEEK)
      = Return (0, recv', bus')
    ∧ recv_offset recv' = 128
    ∧ b_conns bus' = b_conns sample_bus_queued
    ∧ b_events bus' = [EvSliceFlush 128; EvNotifyFlush]
    ∧ ∃ recv2' bus2 c2,
        kdbus_cmd_msg_recv bus' 2 (sample_recv 0) = Return (0, recv2', bus2)
        ∧ recv_offset recv2' = 128
        ∧ EvEntryInstall 2 sample_entry ∈ b_events bus2
        ∧ b_conns bus2 !! 2 = Some c2
        ∧ c_msg_list c2 = [].
Proof.
  pose proof (kdbus_cmd_msg_recv_offset_and_peek sample_bus_queued 2
                sample_conn_queued (sample_recv KDBUS_RECV_PEEK)) as Hw.
  destruct Hw as (_ & Hpeek); [vm_compute; reflexivity..|].
  destruct (Hpeek sample_entry [] eq_refl eq_refl eq_refl eq_refl)
    as (i & entry & Hi & Hhead & _ & Hsel & _).
  rewrite (Hhead eq_refl) in *.
  injection Hi as <-.
  destruct (Hsel (or_introl eq_refl))
    as (recv' & bus' & Hr & Hoff & _ & _ & Hconns & _ & Hev & Hnext).
  exists recv', bus'. split; [exact Hr|]. split; [exact Hoff|].
  split; [exact Hconns|]. split; [exact Hev|].
  destruct (Hnext (sample_recv 0))
    as (recv2' & bus2 & c2 & Hr2 & Hoff2 & _ & _ & Hin & Hc2 & Hl2);
    [vm_compute; reflexivity..|].
  exists recv2', bus2, c2. split; [exact Hr2|]. split; [exact Hoff2|].
  split; [exact Hin|]. split; [exact Hc2|exact Hl2].
Defined.

(** C8 (as stated, refuted).  The queue of connection 2 holds one message,
    of priority 0.  A receive with PEEK and USE_PRIORITY and the bound -1
    returns -ENOMSG and no offset; a receive with PEEK and DROP drops the
    message and returns no offset. *)
Lemma peek_on_a_non_empty_queue_returns_no_offset :
  c_msg_list sample_conn_queued = [sample_entry]
  ∧ has_flag 5 KDBUS_RECV_PEEK = true
  ∧ has_flag 5 KDBUS_RECV_DROP = false
  ∧ (∃ bus',
       kdbus_cmd_msg_recv sample_bus_queued 2
         {| recv_flags := 5; recv_priority := -1; recv_offset := 0 |}
         = Return (- ENOMSG,
                   {| recv_flags := 5; recv_priority := -1; recv_offset := 0 |},
                   bus')
       ∧ b_conns bus' = b_conns sample_bus_queued)
  ∧ has_flag 3 KDBUS_RECV_PEEK = true
  ∧ ∃ bus' c',
      kdbus_cmd_msg_recv sample_bus_queued 2 (sample_recv 3)
        = Return (0, sample_recv 3, bus')
      ∧ recv_offset (sample_recv 3) = 0
      ∧ b_conns bus' !! 2 = Some c'
      ∧ c_msg_list c' = [].
Proof.
  split; [reflexivity|]. split; [reflexivity|]. split; [reflexivity|]. split.
  { eexists. split; [vm_compute; reflexivity|]. vm_compute; reflexivity. }
  split; [reflexivity|].
  do 2 eexists. split; [vm_compute; reflexivity|].
  split; [reflexivity|]. split; [vm_compute; reflexivity|].
  vm_compute; reflexivity.
Qed.

(** * Properties of the further parts *)

(** A decidable form of [conns_by_id]. *)
Lemma conns_by_id_decide bus :
  bool_decide (map_Forall (λ k c, c_id c = k) (b_conns bus)) = true →
  conns_by_id bus.
Proof. intros Hd k c Hk. by apply (bool_decide_eq_true_1 _ Hd k c). Qed.

(** ** Reply trackers: creation, references, lookup (connection.c) *)

Section TrackerProperties.
Context `{Limits, Uapi, Collaborators}.

Lemma conn_set_reply_count_id c : conn_set_reply_count (c_reply_count c) c = c.
Proof. by destruct c. Qed.

Lemma bus_set_conns_replies_id bus :
  bus_set_replies (b_replies bus) (bus_set_conns (b_conns bus) bus) = bus.
Proof. by destruct bus. Qed.

(** What kdbus_conn_reply_new() answers: an error and the bus as it was, or
    a fresh tracker holding one reference, with the pending count of
    [reply_dst] incremented. *)
Lemma reply_new_inv bus reply_dst msg name_entry p bus1 d :
  b_conns bus !! reply_dst = Some d →
  kdbus_conn_reply_new bus reply_dst msg name_entry = Return (p, bus1) →
  (bus1 = bus ∧ ∀ a, p ≠ Ptr a)
  ∨ (∃ a t,
       p = Ptr a ∧ b_replies bus !! a = None
       ∧ bus1 = bus_put_reply a t
                  (bus_put_conn
                     (conn_set_reply_count
                        (atomic_inc_return (c_reply_count d)) d) bus)
       ∧ r_kref t = 1 ∧ r_reply_dst t = reply_dst
       ∧ r_cookie t = m_cookie msg).
Proof.
  intros Hd. unfold kdbus_conn_reply_new, conn_deref. rewrite Hd, bind_Return.
  destruct (_ >? _).
  { intros Heq. injection Heq as <- <-. left. split; [reflexivity|].
    intros a Ha. discriminate Ha. }
  destruct (negb _).
  { intros Heq. injection Heq as <- <-. left. split; [reflexivity|].
    intros a Ha. discriminate Ha. }
  intros [= <- <-]. right. eexists _, _. split; [reflexivity|].
  split; [apply not_elem_of_dom, is_fresh|]. split; [reflexivity|]. done.
Qed.

(** X1.  kdbus_conn_reply_new() bounds the replies a connection may wait
    for.  With KDBUS_CONN_MAX_REQUESTS_PENDING replies pending it returns
    ERR_PTR(-EMLINK), and when the allocation fails ERR_PTR(-ENOMEM); in both
    cases the bus is as it was, the counter included.  Otherwise it returns a
    tracker at an address that was free, with one reference, which carries
    the destination, the cookie, the timeout and the SYNC_REPLY flag of the
    message; the reply counter of the connection is one higher and within the
    limit, and its reply list is untouched. *)
Theorem kdbus_conn_reply_new_pending_limit bus reply_dst d msg name_entry :
  b_conns bus !! reply_dst = Some d → c_id d = reply_dst →
  0 ≤ c_reply_count d < 2 ^ 31 - 1 →
  (KDBUS_CONN_MAX_REQUESTS_PENDING ≤ c_reply_count d →
   kdbus_conn_reply_new bus reply_dst msg name_entry
     = Return (ERR_PTR (- EMLINK), bus))
  ∧ (c_reply_count d < KDBUS_CONN_MAX_REQUESTS_PENDING →
     kzalloc_ok bus = false →
     kdbus_conn_reply_new bus reply_dst msg name_entry
       = Return (ERR_PTR (- ENOMEM), bus))
  ∧ (c_reply_count d < KDBUS_CONN_MAX_REQUESTS_PENDING →
     kzalloc_ok bus = true →
     ∃ a bus' d' t,
       kdbus_conn_reply_new bus reply_dst msg name_entry = Return (Ptr a, bus')
       ∧ b_replies bus !! a = None
       ∧ b_replies bus' = <[a := t]> (b_replies bus)
       ∧ r_kref t = 1 ∧ r_reply_dst t = reply_dst
       ∧ r_cookie t = m_cookie msg
       ∧ r_deadline_ns t = m_timeout_ns msg
       ∧ r_sync t = has_flag (m_flags msg) KDBUS_MSG_FLAGS_SYNC_REPLY
       ∧ r_waiting t = r_sync t
       ∧ b_conns bus' = <[reply_dst := d']> (b_conns bus)
       ∧ c_reply_count d' = c_reply_count d + 1
       ∧ c_reply_count d' ≤ KDBUS_CONN_MAX_REQUESTS_PENDING
       ∧ c_reply_list d' = c_reply_list d).
Proof.
  intros Hd Hid Hcount.
  assert (Hinc : atomic_inc_return (c_reply_count d) = c_reply_count d + 1).
  { unfold atomic_inc_return. apply int_wrap_small. unfold INT_MIN. change (2 ^ 31) with 2147483648 in *. lia. }
  unfold kdbus_conn_reply_new, conn_deref. rewrite Hd, bind_Return, Hinc.
  split_and!.
  - intros Hmax. by zcmp.
  - intros Hmax Hk. zcmp. by rewrite Hk.
  - intros Hmax Hk. zcmp. rewrite Hk. cbn [negb].
    eexists _, _, _, _. split; [reflexivity|].
    split.
    { apply not_elem_of_dom. apply is_fresh. }
    simpl. rewrite Hid. split_and!; try done. simpl. lia.
Qed.


(** X2.  A reference taken with kdbus_conn_reply_ref() and dropped with
    kdbus_conn_reply_unref() leaves the bus as it was.  Dropping the last
    reference frees the tracker and decrements the reply counter of the
    connection that waits for the reply; dropping one of several references
    decrements the reference count and nothing else. *)
Theorem kdbus_conn_reply_ref_unref_round_trips bus a t d :
  b_replies bus !! a = Some t →
  b_conns bus !! r_reply_dst t = Some d → c_id d = r_reply_dst t →
  0 < r_kref t →
  (* a reference taken and dropped again *)
  (bus1 ← kdbus_conn_reply_ref bus a; kdbus_conn_reply_unref bus1 (Some a))
    = Return bus
  (* the last reference dropped *)
  ∧ (r_kref t = 1 →
     ∃ bus' d',
       kdbus_conn_reply_unref bus (Some a) = Return bus'
       ∧ b_replies bus' = delete a (b_replies bus)
       ∧ b_conns bus' = <[r_reply_dst t := d']> (b_conns bus)
       ∧ c_reply_count d' = atomic_dec_return (c_reply_count d)
       ∧ c_reply_list d' = c_reply_list d)
  (* one of several references dropped *)
  ∧ (1 < r_kref t →
     ∃ bus' t',
       kdbus_conn_reply_unref bus (Some a) = Return bus'
       ∧ b_replies bus' = <[a := t']> (b_replies bus)
       ∧ r_kref t' = r_kref t - 1
       ∧ b_conns bus' = b_conns bus).
Proof.
  intros Ht Hd Hid Hk. split_and!.
  - unfold kdbus_conn_reply_ref, reply_deref. rewrite Ht, !bind_Return.
    unfold kdbus_conn_reply_unref, reply_deref. simpl.
    rewrite lookup_insert_eq, bind_Return. simpl. zcmp.
    unfold bus_put_reply. simpl. rewrite insert_insert_eq.
    assert (reply_set_kref (r_kref t + 1 - 1) (reply_set_kref (r_kref t + 1) t)
            = t) as ->.
    { clear. destruct t. unfold reply_set_kref. simpl. f_equal. lia. }
    rewrite insert_id by done. by destruct bus.
  - intros Hone. unfold kdbus_conn_reply_unref, reply_deref, conn_deref.
    rewrite Ht, bind_Return, Hone. simpl. rewrite Hd, bind_Return.
    eexists _, _. split; [reflexivity|]. simpl. by rewrite Hid.
  - intros Hmore. unfold kdbus_conn_reply_unref, reply_deref.
    rewrite Ht, bind_Return. zcmp.
    eexists _, _. split; [reflexivity|]. by simpl.
Qed.

(** X3.  A tracker that kdbus_conn_reply_new() created and that is
    released with kdbus_conn_reply_unref() before anything else happened
    leaves the bus exactly as it was before the tracker was created. *)
Theorem kdbus_conn_reply_new_unref_restores bus reply_dst d msg name_entry a bus1 :
  b_conns bus !! reply_dst = Some d → c_id d = reply_dst →
  0 ≤ c_reply_count d < 2 ^ 31 - 1 →
  kdbus_conn_reply_new bus reply_dst msg name_entry = Return (Ptr a, bus1) →
  kdbus_conn_reply_unref bus1 (Some a) = Return bus.
Proof.
  intros Hd Hid Hcount.
  assert (Hinc : atomic_inc_return (c_reply_count d) = c_reply_count d + 1).
  { unfold atomic_inc_return. apply int_wrap_small. unfold INT_MIN.
    change (2 ^ 31) with 2147483648 in *. lia. }
  assert (Hdec : atomic_dec_return (c_reply_count d + 1) = c_reply_count d).
  { unfold atomic_dec_return.
    replace (c_reply_count d + 1 - 1) with (c_reply_count d) by lia.
    apply int_wrap_small. unfold INT_MIN.
    change (2 ^ 31) with 2147483648 in *. lia. }
  unfold kdbus_conn_reply_new, conn_deref. rewrite Hd, bind_Return, Hinc.
  destruct (_ >? _); [done|]. destruct (negb _); [done|].
  intros [= <- <-].
  pose proof (is_fresh (dom (b_replies bus))) as Hfresh.
  apply not_elem_of_dom in Hfresh.
  unfold kdbus_conn_reply_unref, reply_deref, conn_deref. simpl.
  rewrite lookup_insert_eq, bind_Return. simpl.
  subst reply_dst.
  rewrite lookup_insert_eq, bind_Return. simpl.
  rewrite Hdec, delete_insert_id by done.
  unfold bus_put_conn, bus_put_reply. simpl.
  rewrite insert_insert_eq.
  replace (conn_set_reply_count (c_reply_count d)
             (conn_set_reply_count (c_reply_count d + 1) d)) with d
    by (by destruct d).
  rewrite insert_id by done. by destruct bus.
Qed.

Lemma find_reply_loop_None m l dst cookie :
  (∀ a, a ∈ l → is_Some (m !! a)) →
  find_reply_loop m l dst cookie = Return None
  ↔ ∀ a t, a ∈ l → m !! a = Some t →
           ¬ (r_reply_dst t = dst ∧ r_cookie t = cookie).
Proof.
  induction l as [|b l IH]; intros Hex; cbn [find_reply_loop].
  { split; [|done]. intros _ a t Ha. by apply elem_of_nil in Ha. }
  destruct (Hex b) as [r Hr]; [rewrite elem_of_cons; auto|]. rewrite Hr.
  destruct (_ && _) eqn:E.
  - split; [done|]. intros Hno. exfalso.
    apply andb_true_iff in E as [E1 E2].
    apply (Hno b r); [rewrite elem_of_cons; auto|done|]. split; lia.
  - rewrite IH by (intros a Ha; apply Hex; rewrite elem_of_cons; auto).
    split.
    + intros Hno a t Ha Hat. apply elem_of_cons in Ha as [->|Ha]; [|by eapply Hno].
      rewrite Hr in Hat. injection Hat as <-.
      apply andb_false_iff in E. intros [E1 E2]. destruct E; lia.
    + intros Hno a t Ha. apply Hno. rewrite elem_of_cons; auto.
Qed.

Lemma find_reply_loop_first m l dst cookie a :
  (∀ x, x ∈ l → is_Some (m !! x)) →
  find_reply_loop m l dst cookie = Return (Some a)
  ↔ ∃ l1 l2 t, l = l1 ++ a :: l2 ∧ m !! a = Some t
       ∧ r_reply_dst t = dst ∧ r_cookie t = cookie
       ∧ ∀ x u, x ∈ l1 → m !! x = Some u →
                ¬ (r_reply_dst u = dst ∧ r_cookie u = cookie).
Proof.
  revert a. induction l as [|b l IH]; intros a Hex; cbn [find_reply_loop].
  { split; [done|]. intros (l1 & l2 & t & Hl & _). by destruct l1. }
  destruct (Hex b) as [r Hr]; [rewrite elem_of_cons; auto|]. rewrite Hr.
  destruct (_ && _) eqn:E.
  - apply andb_true_iff in E as [E1 E2]. split.
    + intros [= <-]. exists [], l, r. split_and!; try done; try lia.
      intros x u Hx. by apply elem_of_nil in Hx.
    + intros (l1 & l2 & t & Hl & Ht & Hd & Hc & Hno).
      destruct l1 as [|b' l1]; simpl in Hl.
      * by injection Hl as -> _.
      * injection Hl as <- _. exfalso.
        apply (Hno b r); [rewrite elem_of_cons; auto|done|]. split; lia.
  - rewrite IH by (intros x Hx; apply Hex; rewrite elem_of_cons; auto).
    apply andb_false_iff in E. split.
    + intros (l1 & l2 & t & -> & Ht & Hd & Hc & Hno).
      exists (b :: l1), l2, t. split_and!; try done.
      intros x u Hx Hu. apply elem_of_cons in Hx as [->|Hx]; [|by eapply Hno].
      rewrite Hr in Hu. injection Hu as <-. intros [E1 E2]. destruct E; lia.
    + intros (l1 & l2 & t & Hl & Ht & Hd & Hc & Hno).
      destruct l1 as [|b' l1]; simpl in Hl.
      * injection Hl as <- _. rewrite Hr in Ht. injection Ht as <-.
        destruct E; lia.
      * injection Hl as <- ->. exists l1, l2, t. split_and!; try done.
        intros x u Hx. apply Hno. rewrite elem_of_cons; auto.
Qed.

(** X4.  kdbus_conn_find_reply() answers -ENOENT without a look at the
    list when the connection that would wait for the reply has no reply
    pending.  Otherwise it returns the first tracker on the list of the
    replying connection whose destination and cookie match, and -ENOENT
    exactly when no tracker on the list matches. *)
Theorem kdbus_conn_find_reply_first_match bus src dst cookie s d :
  b_conns bus !! src = Some s → b_conns bus !! dst = Some d →
  (∀ a, a ∈ c_reply_list s → is_Some (b_replies bus !! a)) →
  (c_reply_count d = 0 →
   kdbus_conn_find_reply bus src dst cookie = Return (- ENOENT, None))
  ∧ (c_reply_count d ≠ 0 →
     (∀ a, kdbus_conn_find_reply bus src dst cookie = Return (0, Some a)
           ↔ ∃ l1 l2, c_reply_list s = l1 ++ a :: l2
                ∧ reply_matches bus dst cookie a
                ∧ ∀ x, x ∈ l1 → ¬ reply_matches bus dst cookie x)
     ∧ (kdbus_conn_find_reply bus src dst cookie = Return (- ENOENT, None)
        ↔ ∀ x, x ∈ c_reply_list s → ¬ reply_matches bus dst cookie x)).
Proof.
  intros Hs Hd Hex. unfold kdbus_conn_find_reply, conn_deref.
  rewrite Hd, Hs, !bind_Return. split.
  { intros ->. done. }
  intros Hcnt. zcmp. split.
  - intros a.
    split.
    + destruct (find_reply_loop _ _ _ _) as [[b|]|] eqn:Hl; try done.
      rewrite bind_Return. intros [= <-].
      apply find_reply_loop_first in Hl as (l1 & l2 & t & Hl & Ht & Htd & Htc & Hno);
        [|done].
      exists l1, l2. split_and!; [done|by exists t|].
      intros x Hx (u & Hu & Hm). by apply (Hno x u).
    + intros (l1 & l2 & Hl & (t & Ht & Htd & Htc) & Hno).
      assert (find_reply_loop (b_replies bus) (c_reply_list s) dst cookie
              = Return (Some a)) as ->; [|done].
      apply find_reply_loop_first; [done|].
      exists l1, l2, t. split_and!; try done.
      intros x u Hx Hu Hm. apply (Hno x Hx). by exists u.
  - split.
    + destruct (find_reply_loop _ _ _ _) as [[b|]|] eqn:Hl; try done.
      intros _ x Hx (u & Hu & Hm).
      pose proof (proj1 (find_reply_loop_None _ _ _ _ Hex) Hl) as Hno.
      by apply (Hno x u).
    + intros Hno.
      assert (find_reply_loop (b_replies bus) (c_reply_list s) dst cookie
              = Return None) as ->; [|done].
      apply (proj2 (find_reply_loop_None _ _ _ _ Hex)).
      intros a t Ha Ht Hm. apply (Hno a Ha). by exists t.
Qed.

End TrackerProperties.

(** Connection 1 of the sample bus, with no reply pending, is given a tracker. *)
Lemma kdbus_conn_reply_new_pending_limit_witness :
  ∃ a bus',
    kdbus_conn_reply_new sample_bus_two_peers 1 (sample_msg 1 2 1 7 0) None
      = Return (Ptr a, bus')
    ∧ b_replies sample_bus_two_peers !! a = None.
Proof.
  destruct (kdbus_conn_reply_new_pending_limit sample_bus_two_peers 1
              (sample_conn 1 1 0 1000) (sample_msg 1 2 1 7 0) None)
    as (_ & _ & Hok); [vm_compute; reflexivity|reflexivity|simpl; lia|].
  destruct Hok as (a & bus' & d' & t & Hr & Hfresh & _);
    [simpl; lia|reflexivity|].
  exists a, bus'. split; [exact Hr|exact Hfresh].
Defined.

(** The tracker at address 100 of the sample call. *)
Lemma kdbus_conn_reply_ref_unref_round_trips_witness :
  (bus1 ← kdbus_conn_reply_ref (sample_bus_one_call 1000 false) 100;
   kdbus_conn_reply_unref bus1 (Some 100))
  = Return (sample_bus_one_call 1000 false).
Proof.
  destruct (kdbus_conn_reply_ref_unref_round_trips
              (sample_bus_one_call 1000 false) 100 (sample_reply 1 7 false)
              sample_caller) as (Hrt & _);
    [vm_compute; reflexivity|vm_compute; reflexivity|reflexivity|simpl; lia|].
  exact Hrt.
Defined.

(** A tracker for connection 1 of the sample bus, created and released. *)
Lemma kdbus_conn_reply_new_unref_restores_witness :
  ∃ a bus1,
    kdbus_conn_reply_new sample_bus_two_peers 1 (sample_msg 1 2 1 7 0) None
      = Return (Ptr a, bus1)
    ∧ kdbus_conn_reply_unref bus1 (Some a) = Return sample_bus_two_peers.
Proof.
  eexists _, _. split; [vm_compute; reflexivity|].
  apply (kdbus_conn_reply_new_unref_restores sample_bus_two_peers 1
           (sample_conn 1 1 0 1000) (sample_msg 1 2 1 7 0) None);
    [vm_compute; reflexivity|reflexivity|simpl; lia|vm_compute; reflexivity].
Defined.

(** The sample call: connection 2 owes connection 1 the reply to cookie 7. *)
Lemma kdbus_conn_find_reply_first_match_witness :
  kdbus_conn_find_reply (sample_bus_one_call 1000 false) 2 1 7
  = Return (0, Some 100).
Proof.
  destruct (kdbus_conn_find_reply_first_match (sample_bus_one_call 1000 false)
              2 1 7 (sample_replier 1000) sample_caller) as (_ & Hfound);
    [vm_compute; reflexivity|vm_compute; reflexivity| |].
  { intros a Ha. apply list_elem_of_singleton in Ha as ->.
    vm_compute. eexists. reflexivity. }
  destruct Hfound as [Hfirst _]; [discriminate|].
  apply Hfirst. exists [], []. split; [reflexivity|]. split.
  - eexists. split; [vm_compute; reflexivity|]. split; reflexivity.
  - intros x Hx. by apply elem_of_nil in Hx.
Defined.

(** ** The array of per-user counters (connection.c) *)

Section QuotaSafety.
Context `{Limits, Uapi, Collaborators}.

Lemma length_krealloc old n :
  Z.of_nat (length old) ≤ n → length (krealloc old n) = Z.to_nat n.
Proof.
  intros Hn. unfold krealloc.
  rewrite length_app, length_take, length_fmap, length_seqZ. lia.
Qed.

Lemma array_load_in_bounds a i :
  0 ≤ i → (Z.to_nat i < length a)%nat → ∃ v, array_load a i = Return v.
Proof.
  intros Hi Hlen. unfold array_load.
  destruct (lookup_lt_is_Some_2 a (Z.to_nat i) Hlen) as [v ->]. eauto.
Qed.

Lemma array_store_length a i v a' :
  array_store a i v = Return a' → length a' = length a.
Proof.
  unfold array_store. destruct (decide _); [|done].
  intros [= <-]. by rewrite length_insert.
Qed.

(** X5.  When the array of counters has [msg_users_max] cells, the
    user id of the sender is below 2^32 - 16 and krealloc() succeeds,
    kdbus_conn_queue_user_quota() accesses the array within its bounds: it
    returns, with 0 or -ENOBUFS, the array again has [msg_users_max] cells,
    [msg_users_max] has not shrunk and the queue is untouched.  -ENOBUFS
    leaves the entry as it was; an entry that was accounted carries the user
    id of the sender, which is an index of the array. *)
Theorem kdbus_conn_queue_user_quota_in_bounds current conn src entry :
  msg_users_ok conn →
  0 ≤ c_user_idr src < 2 ^ 32 - 16 →
  krealloc_ok conn = true →
  ∃ ret conn' entry',
    kdbus_conn_queue_user_quota current conn (Some src) entry
      = Return (ret, conn', entry')
    ∧ (ret = 0 ∨ ret = - ENOBUFS)
    ∧ msg_users_ok conn'
    ∧ c_msg_users_max conn ≤ c_msg_users_max conn'
    ∧ c_msg_list conn' = c_msg_list conn
    ∧ c_msg_count conn' = c_msg_count conn
    ∧ (ret = - ENOBUFS → entry' = entry)
    ∧ (e_user entry' ≠ e_user entry →
       e_user entry' = c_user_idr src
       ∧ c_user_idr src < c_msg_users_max conn').
Proof.
  intros [Hmax Hlen] Hu Hre. unfold kdbus_conn_queue_user_quota.
  destruct (t_cap_ipc_owner current).
  { eexists _, _, _. split; [reflexivity|]. split_and!; try done; auto; lia. }
  destruct (c_msg_count conn <? _).
  { eexists _, _, _. split; [reflexivity|]. split_and!; try done; auto; lia. }
  pose proof (KDBUS_ALIGN8_bounds (c_user_idr src)) as Hal.
  assert (Hi : (8 + KDBUS_ALIGN8 (c_user_idr src)) `mod` UINT_MOD
               = 8 + KDBUS_ALIGN8 (c_user_idr src)).
  { apply Z.mod_small. unfold UINT_MOD.
    change (2 ^ 32) with 4294967296 in *. lia. }
  assert (Htail : ∀ conn1,
    msg_users_ok conn1 → c_msg_users_max conn ≤ c_msg_users_max conn1 →
    c_user_idr src < c_msg_users_max conn1 →
    c_msg_list conn1 = c_msg_list conn → c_msg_count conn1 = c_msg_count conn →
    ∃ ret conn' entry',
      (n ← array_load (c_msg_users conn1) (c_user_idr src);
       if n >? KDBUS_CONN_MAX_MSGS_PER_USER
       then Return (- ENOBUFS, conn1, entry)
       else
         arr ← array_store (c_msg_users conn1) (c_user_idr src)
                 ((n + 1) `mod` UINT_MOD);
         Return (0, conn_set_msg_users arr (c_msg_users_max conn1) conn1,
                 entry_set_user (c_user_idr src) entry))
      = Return (ret, conn', entry')
      ∧ (ret = 0 ∨ ret = - ENOBUFS)
      ∧ msg_users_ok conn'
      ∧ c_msg_users_max conn ≤ c_msg_users_max conn'
      ∧ c_msg_list conn' = c_msg_list conn
      ∧ c_msg_count conn' = c_msg_count conn
      ∧ (ret = - ENOBUFS → entry' = entry)
      ∧ (e_user entry' ≠ e_user entry →
         e_user entry' = c_user_idr src
         ∧ c_user_idr src < c_msg_users_max conn')).
  { intros conn1 [Hmax1 Hlen1] Hge Hlt Hl1 Hc1.
    destruct (array_load_in_bounds (c_msg_users conn1) (c_user_idr src))
      as [n ->]; [lia|lia|].
    rewrite bind_Return.
    destruct (n >? _).
    { eexists _, _, _. split; [reflexivity|].
      unfold msg_users_ok. split_and!; try done; auto. }
    destruct (array_store_load (c_msg_users conn1) (c_user_idr src)
                ((n + 1) `mod` UINT_MOD)) as (arr & Hst & _ & Hal2); [lia|lia|].
    rewrite Hst, bind_Return.
    eexists _, _, _. split; [reflexivity|].
    unfold msg_users_ok. simpl. split_and!; try done; auto; try lia. }
  destruct (c_user_idr src >=? c_msg_users_max conn) eqn:Hgrow.
  - rewrite Hre. cbv zeta. rewrite Hi.
    assert (Hklen : length (krealloc (c_msg_users conn)
                              (8 + KDBUS_ALIGN8 (c_user_idr src)))
                    = Z.to_nat (8 + KDBUS_ALIGN8 (c_user_idr src))).
    { apply length_krealloc. lia. }
    destruct (c_msg_users_max conn =? 0).
    + destruct (array_store_load
                  (krealloc (c_msg_users conn) (8 + KDBUS_ALIGN8 (c_user_idr src)))
                  (c_user_idr src) (c_msg_count conn `mod` UINT_MOD))
        as (arr & -> & _ & Hal2); [lia|lia|].
      rewrite !bind_Return. apply Htail; simpl; try done; try lia.
      unfold msg_users_ok. simpl. lia.
    + rewrite !bind_Return. apply Htail; simpl; try done; try lia.
      unfold msg_users_ok. simpl. lia.
  - rewrite bind_Return. apply Htail; try done; try lia.
Qed.

(** X6.  When krealloc() fails, kdbus_conn_queue_user_quota() returns
    -ENOMEM and leaves [conn->msg_users] NULL (the empty array here) while
    [msg_users_max] keeps its value.  The next message of a user whose id is
    below [msg_users_max] is then counted through the NULL pointer: the call
    faults. *)
Theorem kdbus_conn_queue_user_quota_enomem_then_fault
  current conn src1 src2 entry1 entry2 :
  t_cap_ipc_owner current = false →
  KDBUS_CONN_MAX_MSGS_PER_USER ≤ c_msg_count conn →
  0 < c_msg_users_max conn ≤ c_user_idr src1 →
  krealloc_ok conn = false →
  0 ≤ c_user_idr src2 < c_msg_users_max conn →
  ∃ conn1,
    kdbus_conn_queue_user_quota current conn (Some src1) entry1
      = Return (- ENOMEM, conn1, entry1)
    ∧ c_msg_users conn1 = []
    ∧ c_msg_users_max conn1 = c_msg_users_max conn
    ∧ c_msg_count conn1 = c_msg_count conn
    ∧ ∃ f, kdbus_conn_queue_user_quota current conn1 (Some src2) entry2
           = Oops f.
Proof.
  intros Hcap Hcount Hgrow Hre Hsmall.
  eexists. split.
  { unfold kdbus_conn_queue_user_quota. rewrite Hcap. repeat zcmp.
    rewrite Hre. cbv zeta. rewrite bind_Return. reflexivity. }
  split_and!; try done.
  unfold kdbus_conn_queue_user_quota. rewrite Hcap. simpl. repeat zcmp.
  rewrite bind_Return. unfold array_load. simpl. by eexists.
Qed.

End QuotaSafety.

(** Sixteen queued messages and counters for the users 0 to 7: a message
    of user 8 makes the array grow to 16 cells and is counted in cell 8; a
    message of user 3 is counted in the array as it is. *)
Lemma kdbus_conn_queue_user_quota_in_bounds_witness :
  (∃ conn' entry',
     kdbus_conn_queue_user_quota (sample_task 1000) sample_conn_counted
       (Some (sample_conn 1 1 8 1000)) sample_entry
       = Return (0, conn', entry')
     ∧ msg_users_ok conn'
     ∧ c_msg_users_max conn' = 16
     ∧ c_msg_users conn' !! 8%nat = Some 1
     ∧ e_user entry' = 8
     ∧ 8 < c_msg_users_max conn')
  ∧ ∃ conn' entry',
      kdbus_conn_queue_user_quota (sample_task 1000) sample_conn_counted
        (Some (sample_conn 1 1 3 1000)) sample_entry
        = Return (0, conn', entry')
      ∧ msg_users_ok conn'
      ∧ c_msg_users conn' = [0; 0; 0; 1; 0; 0; 0; 0]
      ∧ e_user entry' = 3
      ∧ 3 < c_msg_users_max conn'.
Proof.
  split.
  - destruct (kdbus_conn_queue_user_quota_in_bounds (sample_task 1000)
                sample_conn_counted (sample_conn 1 1 8 1000) sample_entry)
      as (ret & conn' & entry' & Hr & _ & Hok & _ & _ & _ & _ & Huser).
    { split; [simpl; lia|reflexivity]. }
    { simpl; lia. }
    { reflexivity. }
    assert (Hrun : kdbus_conn_queue_user_quota (sample_task 1000)
                     sample_conn_counted (Some (sample_conn 1 1 8 1000))
                     sample_entry = Return (0, _, _))
      by (vm_compute; reflexivity).
    rewrite Hr in Hrun. injection Hrun as -> -> ->.
    eexists _, _. split; [exact Hr|]. split; [exact Hok|].
    split; [reflexivity|]. split; [reflexivity|].
    destruct Huser as [Hu Hlt]; [discriminate|]. split; [exact Hu|exact Hlt].
  - destruct (kdbus_conn_queue_user_quota_in_bounds (sample_task 1000)
                sample_conn_counted (sample_conn 1 1 3 1000) sample_entry)
      as (ret & conn' & entry' & Hr & _ & Hok & _ & _ & _ & _ & Huser).
    { split; [simpl; lia|reflexivity]. }
    { simpl; lia. }
    { reflexivity. }
    assert (Hrun : kdbus_conn_queue_user_quota (sample_task 1000)
                     sample_conn_counted (Some (sample_conn 1 1 3 1000))
                     sample_entry = Return (0, _, _))
      by (vm_compute; reflexivity).
    rewrite Hr in Hrun. injection Hrun as -> -> ->.
    eexists _, _. split; [exact Hr|]. split; [exact Hok|].
    split; [reflexivity|].
    destruct Huser as [Hu Hlt]; [discriminate|]. split; [exact Hu|exact Hlt].
Defined.

(** Sixteen queued messages, counters for the users 0 to 7, a sender with user id 8 and no memory left; then a sender with user id 0. *)
Lemma kdbus_conn_queue_user_quota_enomem_then_fault_witness :
  ∃ conn1,
    @kdbus_conn_queue_user_quota sample_limits sample_collaborators_no_memory
      (sample_task 1000) sample_conn_counted
      (Some (sample_conn 1 1 8 1000)) sample_entry
      = Return (- ENOMEM, conn1, sample_entry)
    ∧ ∃ f,
        @kdbus_conn_queue_user_quota sample_limits sample_collaborators_no_memory
          (sample_task 1000) conn1 (Some (sample_conn 3 1 0 1001)) sample_entry
        = Oops f.
Proof.
  destruct (@kdbus_conn_queue_user_quota_enomem_then_fault sample_limits
              sample_collaborators_no_memory
              (sample_task 1000) sample_conn_counted (sample_conn 1 1 8 1000)
              (sample_conn 3 1 0 1001) sample_entry sample_entry)
    as (conn1 & Hr & _ & _ & _ & Hfault).
  - reflexivity.
  - simpl; lia.
  - simpl; lia.
  - reflexivity.
  - simpl; lia.
  - exists conn1. split; [exact Hr|exact Hfault].
Defined.

(** ** What an enqueue touches (connection.c) *)

Section EnqueueProperties.
Context `{Limits, Uapi, Collaborators}.

(** The fields of the receiver that the quota check leaves alone. *)
Lemma quota_fields current conn src entry ret conn' entry' :
  kdbus_conn_queue_user_quota current conn src entry
    = Return (ret, conn', entry') →
  c_id conn' = c_id conn ∧ c_active conn' = c_active conn
  ∧ c_flags conn' = c_flags conn ∧ c_ep conn' = c_ep conn
  ∧ c_msg_list conn' = c_msg_list conn ∧ c_msg_count conn' = c_msg_count conn
  ∧ c_reply_list conn' = c_reply_list conn
  ∧ c_reply_count conn' = c_reply_count conn
  ∧ e_reply entry' = e_reply entry ∧ e_slice entry' = e_slice entry
  ∧ e_cookie entry' = e_cookie entry ∧ e_src_id entry' = e_src_id entry.
Proof.
  unfold kdbus_conn_queue_user_quota.
  destruct src as [src|]; [|by intros [= <- <- <-]].
  destruct (t_cap_ipc_owner current); [by intros [= <- <- <-]|].
  destruct (_ <? _); [by intros [= <- <- <-]|].
  intros Hq. apply bind_Return_inv in Hq as ([c1|c1] & Hgrow & Hq).
  - assert (c_id c1 = c_id conn ∧ c_active c1 = c_active conn
            ∧ c_flags c1 = c_flags conn ∧ c_ep c1 = c_ep conn
            ∧ c_msg_list c1 = c_msg_list conn ∧ c_msg_count c1 = c_msg_count conn
            ∧ c_reply_list c1 = c_reply_list conn
            ∧ c_reply_count c1 = c_reply_count conn)
      as (E1 & E2 & E3 & E4 & E5 & E6 & E7 & E8).
    { destruct (_ >=? _); [|by injection Hgrow as <-].
      cbv zeta in Hgrow. destruct (krealloc_ok conn); [|done].
      apply bind_Return_inv in Hgrow as (arr & _ & Hgrow).
      by injection Hgrow as <-. }
    apply bind_Return_inv in Hq as (n & _ & Hq).
    destruct (_ >? _); [injection Hq as <- <- <-; by split_and!|].
    apply bind_Return_inv in Hq as (arr & _ & Hq).
    injection Hq as <- <- <-. by split_and!.
  - injection Hq as <- <- <-.
    destruct (_ >=? _); [|done]. cbv zeta in Hgrow.
    destruct (krealloc_ok conn).
    + apply bind_Return_inv in Hgrow as (arr & _ & Hgrow). done.
    + injection Hgrow as <-. by split_and!.
Qed.

(** What one call of kdbus_conn_entry_insert() changes. *)
Lemma entry_insert_inv current bus conn conn_src kmsg reply ret bus' c :
  b_conns bus !! conn = Some c → c_id c = conn →
  kdbus_conn_entry_insert current bus conn conn_src kmsg reply
    = Return (ret, bus') →
  ∃ c',
    b_conns bus' = <[conn := c']> (b_conns bus)
    ∧ b_replies bus' = b_replies bus ∧ b_eps bus' = b_eps bus
    ∧ b_conn_hash bus' = b_conn_hash bus
    ∧ b_monitors_list bus' = b_monitors_list bus
    ∧ b_name_registry bus' = b_name_registry bus
    ∧ b_uid_owner bus' = b_uid_owner bus
    ∧ c_id c' = conn ∧ c_active c' = c_active c ∧ c_flags c' = c_flags c
    ∧ c_ep c' = c_ep c ∧ c_reply_count c' = c_reply_count c
    ∧ (ret < 0 → c_msg_list c' = c_msg_list c
                 ∧ c_reply_list c' = c_reply_list c)
    ∧ (0 ≤ ret →
       ret = 0
       ∧ kdbus_conn_active c = true
       ∧ (∃ e, c_msg_list c' = c_msg_list c ++ [e] ∧ e_reply e = reply)
       ∧ c_reply_list c' = from_option (λ a, [a]) [] reply ++ c_reply_list c
       ∧ ∃ evs, b_events bus' = b_events bus ++ evs ++ [EvWakeUp conn]).
Proof.
  intros Hc Hid. unfold kdbus_conn_entry_insert, conn_deref.
  rewrite Hc, bind_Return.
  assert (Hsame : ∀ e, e < 0 →
            ∃ c', b_conns bus = <[conn := c']> (b_conns bus)
              ∧ b_replies bus = b_replies bus ∧ b_eps bus = b_eps bus
              ∧ b_conn_hash bus = b_conn_hash bus
              ∧ b_monitors_list bus = b_monitors_list bus
              ∧ b_name_registry bus = b_name_registry bus
              ∧ b_uid_owner bus = b_uid_owner bus
              ∧ c_id c' = conn ∧ c_active c' = c_active c
              ∧ c_flags c' = c_flags c
              ∧ c_ep c' = c_ep c ∧ c_reply_count c' = c_reply_count c
              ∧ (e < 0 → c_msg_list c' = c_msg_list c
                         ∧ c_reply_list c' = c_reply_list c)
              ∧ (0 ≤ e →
                 e = 0
                 ∧ kdbus_conn_active c = true
                 ∧ (∃ e0, c_msg_list c' = c_msg_list c ++ [e0] ∧ e_reply e0 = reply)
                 ∧ c_reply_list c'
                   = from_option (λ a, [a]) [] reply ++ c_reply_list c
                 ∧ ∃ evs, b_events bus = b_events bus ++ evs ++ [EvWakeUp conn])).
  { intros e He. exists c. rewrite insert_id by done.
    split_and!; try done. lia. }
  destruct (_ && _).
  { intros [= <- <-]. apply Hsame. unfold ENOBUFS. lia. }
  destruct (kdbus_conn_active c) eqn:Hact; cbn [negb].
  2: { intros [= <- <-]. apply Hsame. unfold ECONNRESET. lia. }
  destruct (_ && _).
  { intros [= <- <-]. apply Hsame. unfold ECOMM. lia. }
  destruct (kdbus_queue_entry_alloc c kmsg) as [r0 entry].
  destruct (r0 <? 0) eqn:Hr0.
  { intros [= <- <-]. apply Hsame. lia. }
  intros Hins. apply bind_Return_inv in Hins as (src & _ & Hins).
  apply bind_Return_inv in Hins as ([[r1 c1] entry1] & Hq & Hins).
  destruct (quota_fields _ _ _ _ _ _ _ Hq)
    as (E1 & E2 & E3 & E4 & E5 & E6 & E7 & E8 & E9 & _).
  destruct (r1 <? 0) eqn:Hr1.
  - injection Hins as <- <-. exists c1. simpl. rewrite E1, Hid.
    split_and!; try done. lia.
  - apply bind_Return_inv in Hins as ([c2 evs] & Hlink & Hins).
    injection Hins as <- <-.
    assert (c_id c2 = conn ∧ c_active c2 = c_active c ∧ c_flags c2 = c_flags c
            ∧ c_ep c2 = c_ep c ∧ c_reply_count c2 = c_reply_count c
            ∧ c_msg_list c2 = c_msg_list c ∧ c_msg_count c2 = c_msg_count c
            ∧ c_reply_list c2
              = from_option (λ a, [a]) [] reply ++ c_reply_list c)
      as (F1 & F2 & F3 & F4 & F5 & F6 & F7 & F8).
    { destruct reply as [a|].
      - apply bind_Return_inv in Hlink as (r & _ & Hlink).
        injection Hlink as <- _. simpl. rewrite E7. split_and!; congruence.
      - injection Hlink as <- _. simpl. split_and!; congruence. }
    eexists. simpl. rewrite F1. split; [reflexivity|]. simpl.
    split_and!; try done.
    intros _. split_and!; try done.
    + eexists. rewrite F6. split; [reflexivity|]. done.
    + by exists evs.
Qed.

(** X7.  kdbus_conn_entry_insert() changes the receiving connection
    only: the other connections, the trackers, the endpoints and the hash of
    connections are as before, and the receiver keeps its active counter.  A
    failure leaves the queue and the reply list of the receiver as they were.
    Success is the result 0, on an active receiver: one entry that carries
    the given tracker is appended to the queue, the tracker is put at the
    head of the reply list, and the last thing done is to wake the
    receiver. *)
Theorem kdbus_conn_entry_insert_touches_receiver_only
  current bus conn conn_src kmsg reply ret bus' c :
  b_conns bus !! conn = Some c → c_id c = conn →
  kdbus_conn_entry_insert current bus conn conn_src kmsg reply
    = Return (ret, bus') →
  (∀ k, k ≠ conn → b_conns bus' !! k = b_conns bus !! k)
  ∧ b_replies bus' = b_replies bus
  ∧ b_eps bus' = b_eps bus
  ∧ b_conn_hash bus' = b_conn_hash bus
  ∧ ∃ c',
      b_conns bus' !! conn = Some c'
      ∧ c_active c' = c_active c
      ∧ (ret < 0 → c_msg_list c' = c_msg_list c
                   ∧ c_reply_list c' = c_reply_list c)
      ∧ (0 ≤ ret →
         ret = 0
         ∧ kdbus_conn_active c = true
         ∧ (∃ e, c_msg_list c' = c_msg_list c ++ [e] ∧ e_reply e = reply)
         ∧ c_reply_list c' = from_option (λ a, [a]) [] reply ++ c_reply_list c
         ∧ last (b_events bus') = Some (EvWakeUp conn)).
Proof.
  intros Hc Hid Hins.
  destruct (entry_insert_inv _ _ _ _ _ _ _ _ _ Hc Hid Hins)
    as (c' & Hconns & Hrep & Heps & Hhash & _ & _ & _ & _ & Hact & _ & _ & _
        & Hfail & Hok).
  split_and!; try done.
  - intros k Hk. by rewrite Hconns, lookup_insert_ne.
  - exists c'. rewrite Hconns, lookup_insert_eq. split_and!; try done.
    intros Hret. destruct (Hok Hret) as (-> & Ha & He & Hl & evs & Hev).
    split_and!; try done.
    rewrite Hev, !app_assoc. apply last_snoc.
Qed.

End EnqueueProperties.

(** A message of connection 1 for connection 2 of the sample bus. *)
Lemma kdbus_conn_entry_insert_touches_receiver_only_witness :
  ∃ bus' c',
    kdbus_conn_entry_insert (sample_task 1000) sample_bus_two_peers 2 (Some 1)
      sample_plain_kmsg None = Return (0, bus')
    ∧ b_conns bus' !! 1 = b_conns sample_bus_two_peers !! 1
    ∧ b_replies bus' = b_replies sample_bus_two_peers
    ∧ b_conns bus' !! 2 = Some c'
    ∧ ∃ e, c_msg_list c' = [e] ∧ e_reply e = None.
Proof.
  eexists _.
  assert (Hrun : kdbus_conn_entry_insert (sample_task 1000) sample_bus_two_peers
                   2 (Some 1) sample_plain_kmsg None = Return (0, _))
    by (vm_compute; reflexivity).
  destruct (kdbus_conn_entry_insert_touches_receiver_only (sample_task 1000)
              sample_bus_two_peers 2 (Some 1) sample_plain_kmsg None _ _
              (sample_conn 2 1 1 1000) eq_refl eq_refl Hrun)
    as (Hothers & Hreplies & _ & _ & c' & Hc' & _ & _ & Hok).
  destruct Hok as (_ & _ & He & _); [lia|].
  exists c'. split; [exact Hrun|]. split; [apply Hothers; lia|].
  split; [exact Hreplies|]. split; [exact Hc'|exact He].
Defined.

(** ** Destinations that cannot be resolved (connection.c) *)

Section ResolveProperties.
Context `{Limits, Uapi, Collaborators}.

(** X8.  A message sent to an id alone gets -ENXIO when no connection
    in the hash of the bus has that id, and also when the connection that
    has it is not an ordinary one (an activator, a policy holder or a
    monitor).  The bus is unchanged, but the message has taken the next
    sequence number of the domain. *)
Theorem kdbus_conn_kmsg_send_by_id_enxio current dom bus ep conn_src kmsg :
  k_seq kmsg ≤ 0 →
  (∀ s, conn_src = Some s → is_Some (b_conns bus !! s)) →
  (∀ k, kdbus_meta_new_ok k = true) →
  (∀ k c, b_conns bus !! k = Some c → c_id c = k) →
  (∀ p, p ∈ b_conn_hash bus → is_Some (b_conns bus !! p)) →
  k_dst_name kmsg = None →
  m_dst_id (k_msg kmsg) ≠ KDBUS_DST_ID_BROADCAST →
  m_dst_id (k_msg kmsg) ∉ b_conn_hash bus
  ∨ (∃ c, b_conns bus !! m_dst_id (k_msg kmsg) = Some c
          ∧ kdbus_conn_is_ordinary c = false) →
  ∃ kmsg' dom',
    kdbus_conn_kmsg_send current dom bus ep conn_src kmsg
      = Return (SendReturned (- ENXIO), kmsg', dom', bus)
    ∧ d_msg_seq_last dom' = atomic64_inc_return (d_msg_seq_last dom).
Proof.
  intros Hseq Hsrc Hmeta Hids Hex Hname Hb Hcase.
  destruct (kmsg_send_until_resolve current dom bus ep conn_src kmsg
              Hseq Hsrc Hmeta Hb) as (kmsg1 & _ & _ & ->).
  assert (kmsg_send_resolve bus kmsg = Return (inl (- ENXIO))) as ->.
  { unfold kmsg_send_resolve, kdbus_bus_find_conn_by_id. rewrite Hname.
    destruct (decide (m_dst_id (k_msg kmsg) ∈ b_conn_hash bus)) as [Hin|Hnotin].
    - rewrite find_conn_by_id_loop_Some by done. rewrite bind_Return.
      destruct Hcase as [Hno|(c & Hc & Hord)]; [done|].
      unfold conn_deref. by rewrite Hc, bind_Return, Hord.
    - rewrite find_conn_by_id_loop_None; [done|].
      intros p Hp. destruct (Hex p Hp) as [c Hc]. exists c. split; [done|].
      intros Hid. rewrite (Hids _ _ Hc) in Hid. by subst p. }
  rewrite bind_Return. eauto.
Qed.

(** X9.  A message sent to a well-known name gets -ESRCH when the name
    is not registered.  With KDBUS_MSG_FLAGS_NO_AUTO_START a message
    sent to the name alone gets -EADDRNOTAVAIL when the connection the name
    resolves to (its owner, or its activator when it has no owner) is an
    activator.  In both cases the bus is unchanged. *)
Theorem kdbus_conn_kmsg_send_by_name_errors
  current dom bus ep conn_src kmsg name :
  k_seq kmsg ≤ 0 →
  (∀ s, conn_src = Some s → is_Some (b_conns bus !! s)) →
  (∀ k, kdbus_meta_new_ok k = true) →
  k_dst_name kmsg = Some name →
  m_dst_id (k_msg kmsg) ≠ KDBUS_DST_ID_BROADCAST →
  (kdbus_name_lock bus name = None →
   ∃ kmsg' dom',
     kdbus_conn_kmsg_send current dom bus ep conn_src kmsg
       = Return (SendReturned (- ESRCH), kmsg', dom', bus))
  ∧ (∀ entry holder c,
       kdbus_name_lock bus name = Some entry →
       m_dst_id (k_msg kmsg) = KDBUS_DST_ID_NAME →
       n_conn entry = Some holder
       ∨ (n_conn entry = None ∧ n_activator entry = Some holder) →
       b_conns bus !! holder = Some c →
       kdbus_conn_is_activator c = true →
       has_flag (m_flags (k_msg kmsg)) KDBUS_MSG_FLAGS_NO_AUTO_START = true →
       ∃ kmsg' dom',
         kdbus_conn_kmsg_send current dom bus ep conn_src kmsg
           = Return (SendReturned (- EADDRNOTAVAIL), kmsg', dom', bus)).
Proof.
  intros Hseq Hsrc Hmeta Hname Hb.
  destruct (kmsg_send_until_resolve current dom bus ep conn_src kmsg
              Hseq Hsrc Hmeta Hb) as (kmsg1 & _ & _ & ->).
  split.
  - intros Hlock. unfold kmsg_send_resolve. rewrite Hname, Hlock, bind_Return.
    eauto.
  - intros entry holder c Hlock Hid Hholder Hc Hact Hflag.
    assert (kmsg_send_resolve bus kmsg = Return (inl (- EADDRNOTAVAIL))) as ->.
    { unfold kmsg_send_resolve, conn_deref. rewrite Hname, Hlock. zcmp.
      cbn [negb]. rewrite bind_Return.
      destruct Hholder as [->|[-> ->]];
        by rewrite !bind_Return, Hc, bind_Return, Hflag, Hact. }
    rewrite bind_Return. eauto.
Qed.

End ResolveProperties.

(** Connection 1 sends to the id 5, which nobody has. *)
Lemma kdbus_conn_kmsg_send_by_id_enxio_witness :
  ∃ kmsg' dom',
    kdbus_conn_kmsg_send (sample_task 1000) sample_domain sample_bus_two_peers
      1 (Some 1) sample_stray_kmsg
    = Return (SendReturned (- ENXIO), kmsg', dom', sample_bus_two_peers).
Proof.
  destruct (kdbus_conn_kmsg_send_by_id_enxio (sample_task 1000) sample_domain
              sample_bus_two_peers 1 (Some 1) sample_stray_kmsg)
    as (kmsg' & dom' & Hr & _).
  - simpl; lia.
  - intros s [= <-]. vm_compute. eexists. reflexivity.
  - intros k. reflexivity.
  - apply conns_by_id_decide. vm_compute. reflexivity.
  - apply Forall_forall. apply (bool_decide_unpack _). vm_compute. reflexivity.
  - reflexivity.
  - vm_compute. discriminate.
  - left. apply (bool_decide_unpack _). vm_compute. reflexivity.
  - exists kmsg', dom'. exact Hr.
Defined.

(** Connection 1 sends to com.example.service on a bus without names. *)
Lemma kdbus_conn_kmsg_send_by_name_errors_witness :
  ∃ kmsg' dom',
    kdbus_conn_kmsg_send (sample_task 1000) sample_domain sample_bus_two_peers
      1 (Some 1) (sample_named_kmsg 0)
    = Return (SendReturned (- ESRCH), kmsg', dom', sample_bus_two_peers).
Proof.
  destruct (kdbus_conn_kmsg_send_by_name_errors (sample_task 1000) sample_domain
              sample_bus_two_peers 1 (Some 1) (sample_named_kmsg 0)
              "com.example.service") as (Hsrch & _).
  - simpl; lia.
  - intros s [= <-]. vm_compute. eexists. reflexivity.
  - intros k. reflexivity.
  - reflexivity.
  - vm_compute. discriminate.
  - apply Hsrch. vm_compute. reflexivity.
Defined.

(** ** Sends that fail (connection.c) *)

Section DispatchProperties.
Context `{Limits, Uapi, Collaborators}.

(** Without a place for [reply_wake], or for a message that answers
    nothing, the access check consumes no tracker. *)
Lemma check_access_policy_only current bus ep msg src dst want_wake s d e :
  want_wake = false ∨ m_cookie_reply msg ≤ 0 →
  b_conns bus !! src = Some s → b_conns bus !! dst = Some d →
  b_eps bus !! ep = Some e →
  kdbus_conn_check_access current bus ep msg src dst want_wake
  = Return (let ret := kdbus_ep_policy_check_talk_access current bus e s d in
            if ret <? 0 then ret else 0, None, bus).
Proof.
  intros Hw Hs Hd He. unfold kdbus_conn_check_access.
  assert ((want_wake && (m_cookie_reply msg >? 0)) = false) as ->.
  { destruct Hw as [->|Hc]; [done|]. rewrite andb_false_iff. right.
    rewrite Z.gtb_ltb. apply Z.ltb_ge. lia. }
  rewrite bind_Return. unfold ep_deref, conn_deref.
  rewrite He, Hs, Hd, !bind_Return. cbv zeta. by destruct (_ <? 0).
Qed.

(** X10.  A unicast message that is no synchronous call and no reply
    (it expects a reply, or carries no reply cookie) and that the policy does
    not let pass is answered with the result of
    kdbus_ep_policy_check_talk_access(), and the bus is exactly as before the
    call: nothing is queued, no tracker is left, nobody is woken. *)
Theorem kdbus_conn_kmsg_send_denied_leaves_no_trace
  current dom bus ep s kmsg conn_dst name_entry src d e :
  k_seq kmsg ≤ 0 →
  (∀ k, kdbus_meta_new_ok k = true) →
  (∀ k c seq flags, 0 ≤ kdbus_meta_append k c seq flags) →
  m_dst_id (k_msg kmsg) ≠ KDBUS_DST_ID_BROADCAST →
  kmsg_send_resolve bus kmsg = Return (inr (conn_dst, name_entry)) →
  b_conns bus !! s = Some src → b_conns bus !! conn_dst = Some d →
  b_eps bus !! ep = Some e →
  has_flag (m_flags (k_msg kmsg)) KDBUS_MSG_FLAGS_SYNC_REPLY = false →
  has_flag (m_flags (k_msg kmsg)) KDBUS_MSG_FLAGS_EXPECT_REPLY = true
  ∨ m_cookie_reply (k_msg kmsg) ≤ 0 →
  kdbus_ep_policy_check_talk_access current bus e src d < 0 →
  ∃ kmsg' dom',
    kdbus_conn_kmsg_send current dom bus ep (Some s) kmsg
      = Return (SendReturned
                  (kdbus_ep_policy_check_talk_access current bus e src d),
                kmsg', dom', bus).
Proof.
  intros Hseq Hmeta Happ Hb Hres Hs Hd He Hsync Hkind Hdeny.
  destruct (kmsg_send_until_resolve current dom bus ep (Some s) kmsg
              Hseq) as (kmsg1 & Hmsg1 & _ & ->); try done.
  { intros s0 [= <-]. by eexists. }
  rewrite Hres, bind_Return.
  set (kmsg2 := match name_entry with
                | Some n => kmsg_set_dst_name_id (n_name_id n) kmsg1
                | None => kmsg1
                end).
  assert (Hmsg2 : k_msg kmsg2 = k_msg kmsg).
  { subst kmsg2. by destruct name_entry. }
  cbv zeta. fold kmsg2.
  unfold kmsg_send_dispatch. rewrite Hmsg2, Hsync, bind_Return.
  unfold conn_deref at 1 2. rewrite Hs, Hd, !bind_Return.
  assert ((kdbus_kmsg_attach_metadata kmsg2 src d <? 0) = false) as ->.
  { apply Z.ltb_ge. unfold kdbus_kmsg_attach_metadata. apply Happ. }
  destruct (has_flag (m_flags (k_msg kmsg)) KDBUS_MSG_FLAGS_EXPECT_REPLY).
  - rewrite (check_access_policy_only _ _ _ _ _ _ _ src d e) by auto.
    cbv zeta. zcmp. rewrite bind_Return. zcmp. rewrite bind_Return. eauto.
  - destruct Hkind as [|Hc]; [done|].
    rewrite (check_access_policy_only _ _ _ _ _ _ _ src d e) by auto.
    cbv zeta. zcmp. rewrite bind_Return. zcmp. rewrite bind_Return. eauto.
Qed.


Lemma check_access_no_wake current bus ep msg src dst ret w bus' :
  kdbus_conn_check_access current bus ep msg src dst false
    = Return (ret, w, bus') →
  bus' = bus.
Proof.
  unfold kdbus_conn_check_access. cbn [andb]. rewrite bind_Return.
  intros Hca.
  apply bind_Return_inv in Hca as (e & _ & Hca).
  apply bind_Return_inv in Hca as (s & _ & Hca).
  apply bind_Return_inv in Hca as (d & _ & Hca).
  cbv zeta in Hca. destruct (_ <? 0); by injection Hca as _ _ <-.
Qed.

(** X11.  When an asynchronous call (EXPECT_REPLY without SYNC_REPLY)
    fails with a negative result, the tracker made for its reply is released
    again: the trackers of the bus are as before the call, the sender has its
    reply counter and reply list back, and the queue and reply list of the
    destination are untouched. *)
Theorem kdbus_conn_kmsg_send_failed_call_releases_tracker
  current dom bus ep s kmsg conn_dst name_entry src ret kmsg' dom' bus' :
  k_seq kmsg ≤ 0 →
  (∀ k, kdbus_meta_new_ok k = true) →
  (∀ k c, b_conns bus !! k = Some c → c_id c = k) →
  m_dst_id (k_msg kmsg) ≠ KDBUS_DST_ID_BROADCAST →
  kmsg_send_resolve bus kmsg = Return (inr (conn_dst, name_entry)) →
  b_conns bus !! s = Some src →
  0 ≤ c_reply_count src < 2 ^ 31 - 1 →
  has_flag (m_flags (k_msg kmsg)) KDBUS_MSG_FLAGS_EXPECT_REPLY = true →
  has_flag (m_flags (k_msg kmsg)) KDBUS_MSG_FLAGS_SYNC_REPLY = false →
  kdbus_conn_kmsg_send current dom bus ep (Some s) kmsg
    = Return (SendReturned ret, kmsg', dom', bus') →
  ret < 0 →
  b_replies bus' = b_replies bus
  ∧ (∃ src', b_conns bus' !! s = Some src'
             ∧ c_reply_count src' = c_reply_count src
             ∧ c_reply_list src' = c_reply_list src)
  ∧ (∃ d d', b_conns bus !! conn_dst = Some d
             ∧ b_conns bus' !! conn_dst = Some d'
             ∧ c_msg_list d' = c_msg_list d
             ∧ c_reply_list d' = c_reply_list d).
Proof.
  intros Hseq Hmeta Hids Hb Hres Hs Hcount Hexpect Hsync Hsend Hret.
  destruct (kmsg_send_until_resolve current dom bus ep (Some s) kmsg
              Hseq) as (kmsg1 & Hmsg1 & _ & Hunf); try done.
  { intros s0 [= <-]. by eexists. }
  rewrite Hunf, Hres, bind_Return in Hsend. clear Hunf.
  set (kmsg2 := match name_entry with
                | Some n => kmsg_set_dst_name_id (n_name_id n) kmsg1
                | None => kmsg1
                end) in *.
  assert (Hmsg2 : k_msg kmsg2 = k_msg kmsg).
  { subst kmsg2. by destruct name_entry. }
  cbv zeta in Hsend.
  apply bind_Return_inv in Hsend as ([st1 b1] & Hdisp & Heq).
  injection Heq as -> _ _ ->.
  unfold kmsg_send_dispatch in Hdisp.
  rewrite Hmsg2, Hsync, Hexpect, bind_Return in Hdisp.
  unfold conn_deref at 1 2 in Hdisp. rewrite Hs, bind_Return in Hdisp.
  destruct (b_conns bus !! conn_dst) as [d|] eqn:Hd; [|done].
  rewrite bind_Return in Hdisp.
  assert (Hunchanged :
    b_replies bus = b_replies bus
    ∧ (∃ src', b_conns bus !! s = Some src'
               ∧ c_reply_count src' = c_reply_count src
               ∧ c_reply_list src' = c_reply_list src)
    ∧ (∃ d0 d', Some d = Some d0
               ∧ b_conns bus !! conn_dst = Some d'
               ∧ c_msg_list d' = c_msg_list d0
               ∧ c_reply_list d' = c_reply_list d0)).
  { split_and!; [done|by exists src|by exists d, d]. }
  destruct (_ <? 0); [by injection Hdisp as _ <-|].
  apply bind_Return_inv in Hdisp as ([[r w] b2] & Hca & Hdisp).
  apply check_access_no_wake in Hca as ->.
  destruct (r <? 0); [by injection Hdisp as _ <-|].
  apply bind_Return_inv in Hdisp as ([p b3] & Hnew & Hdisp).
  destruct (reply_new_inv _ _ _ _ _ _ _ Hs Hnew)
    as [[-> Hnone]|(a & t & -> & Hfresh & -> & Hkref & Hdst & _)].
  { destruct p as [| |a]; [by injection Hdisp as _ <-..|]. by destruct (Hnone a). }
  (* a tracker has been allocated *)
  assert (Hinc : atomic_inc_return (c_reply_count src) = c_reply_count src + 1).
  { unfold atomic_inc_return. apply int_wrap_small. unfold INT_MIN.
    change (2 ^ 31) with 2147483648 in *. lia. }
  assert (Hdec : atomic_dec_return (c_reply_count src + 1) = c_reply_count src).
  { unfold atomic_dec_return.
    replace (c_reply_count src + 1 - 1) with (c_reply_count src) by lia.
    apply int_wrap_small. unfold INT_MIN.
    change (2 ^ 31) with 2147483648 in *. lia. }
  rewrite Hinc in Hdisp.
  pose proof (Hids _ _ Hs) as Hsid. pose proof (Hids _ _ Hd) as Hdid.
  set (src1 := conn_set_reply_count (c_reply_count src + 1) src) in *.
  set (bus1 := bus_put_reply a t (bus_put_conn src1 bus)) in *.
  assert (Hs1 : b_conns bus1 !! s = Some src1).
  { subst bus1 src1. simpl. by rewrite Hsid, lookup_insert_eq. }
  assert (∃ d1, b_conns bus1 !! conn_dst = Some d1 ∧ c_id d1 = conn_dst
                ∧ c_msg_list d1 = c_msg_list d
                ∧ c_reply_list d1 = c_reply_list d)
    as (d1 & Hd1 & Hd1id & Hd1q & Hd1r).
  { destruct (decide (conn_dst = s)) as [->|Hne].
    - exists src1. rewrite Hs in Hd. injection Hd as <-. by split_and!.
    - exists d. subst bus1 src1. simpl. rewrite Hsid.
      by rewrite lookup_insert_ne. }
  unfold kmsg_send_enqueue in Hdisp.
  apply bind_Return_inv in Hdisp as ([r2 b4] & Henq & Hdisp).
  apply bind_Return_inv in Henq as ([r5 b5] & Hins & Henq).
  destruct (entry_insert_inv _ _ _ _ _ _ _ _ _ Hd1 Hd1id Hins)
    as (c' & Hconns & Hrep & _ & _ & _ & _ & _ & Hc'id & _ & _ & _ & Hc'cnt
        & Hfail & Hok).
  destruct (r5 <? 0) eqn:Hr5.
  2: { injection Henq as <- <-. rewrite Hr5 in Hdisp.
       apply bind_Return_inv in Hdisp as (b6 & _ & Hdisp).
       unfold kmsg_send_wait_sync in Hdisp. rewrite Hmsg2, Hsync in Hdisp.
       injection Hdisp as <- _. lia. }
  destruct Hfail as [Hc'q Hc'r]; [lia|].
  apply bind_Return_inv in Henq as (b6 & Hunref & Henq).
  injection Henq as <- <-. rewrite Hr5 in Hdisp. injection Hdisp as _ <-.
  (* the tracker is dropped again *)
  unfold kdbus_conn_reply_unref, reply_deref in Hunref.
  rewrite Hrep in Hunref. subst bus1. simpl in Hunref.
  rewrite lookup_insert_eq, bind_Return, Hkref in Hunref. simpl in Hunref.
  rewrite Hdst in Hunref. unfold conn_deref in Hunref.
  assert (∃ sx, b_conns b5 !! s = Some sx
                ∧ c_id sx = s
                ∧ c_reply_count sx = c_reply_count src + 1
                ∧ c_reply_list sx = c_reply_list src
                ∧ c_msg_list sx = c_msg_list src)
    as (sx & Hsx & Hsxid & Hsxcnt & Hsxr & Hsxq).
  { rewrite Hconns. destruct (decide (conn_dst = s)) as [->|Hne].
    - rewrite lookup_insert_eq. exists c'.
      rewrite Hs1 in Hd1. injection Hd1 as <-.
      rewrite Hc'cnt, Hc'r, Hc'q. by split_and!.
    - rewrite lookup_insert_ne by done. exists src1. simpl.
      rewrite Hsid, lookup_insert_eq. by split_and!. }
  rewrite Hsx, bind_Return in Hunref. injection Hunref as <-.
  simpl. rewrite Hsxid, Hsxcnt, Hdec.
  split_and!.
  - by rewrite delete_insert_id.
  - eexists. rewrite lookup_insert_eq. split; [done|]. by split_and!.
  - exists d. destruct (decide (conn_dst = s)) as [->|Hne].
    + eexists. rewrite lookup_insert_eq. split; [done|]. split; [done|]. simpl.
      rewrite Hs in Hd. injection Hd as <-. by split_and!.
    + exists c'. rewrite lookup_insert_ne by done.
      rewrite Hconns, lookup_insert_eq. split_and!; congruence.
Qed.

End DispatchProperties.

(** Connection 1 (uid 1000) sends to connection 2 (uid 1001); the sample policy holds no rule. *)
Lemma kdbus_conn_kmsg_send_denied_leaves_no_trace_witness :
  ∃ kmsg' dom',
    kdbus_conn_kmsg_send (sample_task 1000) sample_domain
      (sample_bus_one_call 1001 false) 1 (Some 1) sample_plain_kmsg
    = Return (SendReturned (- EPERM), kmsg', dom',
              sample_bus_one_call 1001 false).
Proof.
  destruct (kdbus_conn_kmsg_send_denied_leaves_no_trace (sample_task 1000)
              sample_domain (sample_bus_one_call 1001 false) 1 1
              sample_plain_kmsg 2 None sample_caller (sample_replier 1001)
              (sample_ep [sample_caller; sample_replier 1001]))
    as (kmsg' & dom' & Hr).
  - simpl; lia.
  - intros k. reflexivity.
  - intros k c seq flags. simpl. lia.
  - vm_compute. discriminate.
  - vm_compute. reflexivity.
  - vm_compute. reflexivity.
  - vm_compute. reflexivity.
  - vm_compute. reflexivity.
  - vm_compute. reflexivity.
  - right. simpl. lia.
  - vm_compute. reflexivity.
  - exists kmsg', dom'. exact Hr.
Defined.

(** The same two connections, and a call that expects a reply. *)
Lemma kdbus_conn_kmsg_send_failed_call_releases_tracker_witness :
  ∃ kmsg' dom' bus',
    kdbus_conn_kmsg_send (sample_task 1000) sample_domain
      (sample_bus_one_call 1001 false) 1 (Some 1) sample_call_async
    = Return (SendReturned (- EPERM), kmsg', dom', bus')
    ∧ b_replies bus' = b_replies (sample_bus_one_call 1001 false)
    ∧ ∃ src', b_conns bus' !! 1 = Some src' ∧ c_reply_count src' = 1.
Proof.
  eexists _, _, _.
  assert (Hrun : kdbus_conn_kmsg_send (sample_task 1000) sample_domain
                   (sample_bus_one_call 1001 false) 1 (Some 1) sample_call_async
                 = Return (SendReturned (- EPERM), _, _, _))
    by (vm_compute; reflexivity).
  split; [exact Hrun|].
  edestruct (kdbus_conn_kmsg_send_failed_call_releases_tracker
               (sample_task 1000) sample_domain (sample_bus_one_call 1001 false)
               1 1 sample_call_async 2 None sample_caller (- EPERM))
    as (Hreplies & (src' & Hs & Hcount & _) & _).
  - simpl; lia.
  - intros k. reflexivity.
  - apply conns_by_id_decide. vm_compute. reflexivity.
  - vm_compute. discriminate.
  - vm_compute. reflexivity.
  - vm_compute. reflexivity.
  - simpl; lia.
  - vm_compute. reflexivity.
  - vm_compute. reflexivity.
  - exact Hrun.
  - vm_compute. reflexivity.
  - split; [exact Hreplies|]. exists src'. split; [exact Hs|exact Hcount].
Defined.

(** ** An interrupted synchronous call (connection.c) *)

Section SyncProperties.
Context `{Limits, Uapi, Collaborators}.

(** The lookup reads the destination and the cookie of a tracker only. *)
Lemma find_reply_loop_update m a t t' l dst cookie :
  m !! a = Some t →
  r_reply_dst t' = r_reply_dst t → r_cookie t' = r_cookie t →
  find_reply_loop (<[a := t']> m) l dst cookie = find_reply_loop m l dst cookie.
Proof.
  intros Ha Hd Hc. induction l as [|b l IH]; [done|].
  cbn [find_reply_loop]. destruct (decide (b = a)) as [->|Hne].
  - rewrite lookup_insert_eq, Ha, Hd, Hc. by rewrite IH.
  - rewrite lookup_insert_ne by done. by rewrite IH.
Qed.

Lemma reply_set_interrupted_twice t :
  r_interrupted t = false →
  reply_set_interrupted false (reply_set_interrupted true t) = t.
Proof. intros Hi. destruct t. simpl in Hi. by subst. Qed.

(** X12.  A synchronous call whose wait is interrupted by a signal
    (a negative result of the wait) returns that result and leaves its
    tracker marked interrupted.  When the call is issued again, the send path
    finds the tracker, clears the mark and goes back to waiting on it
    without queueing the message a second time: connections and trackers are
    as they were before the interruption, and the only request made is to
    schedule the timeout worker of the destination. *)
Theorem kdbus_conn_wait_reply_interrupted_then_restarted
  current bus ep s kmsg conn_dst name_entry reply_wait t r :
  has_flag (m_flags (k_msg kmsg)) KDBUS_MSG_FLAGS_SYNC_REPLY = true →
  kdbus_conn_find_reply bus conn_dst s (m_cookie (k_msg kmsg))
    = Return (0, Some reply_wait) →
  b_replies bus !! reply_wait = Some t →
  r_interrupted t = false →
  r < 0 →
  ∃ bus1 bus2,
    kdbus_conn_wait_reply bus s conn_dst (k_msg kmsg) reply_wait r
      = Return (r, k_msg kmsg, bus1)
    ∧ (∃ t1, b_replies bus1 !! reply_wait = Some t1 ∧ r_interrupted t1 = true)
    ∧ b_conns bus1 = b_conns bus
    ∧ kmsg_send_dispatch current bus1 ep (Some s) kmsg conn_dst name_entry
      = Return (SendWaiting reply_wait conn_dst
                  (if m_timeout_ns (k_msg kmsg) <=? ktime_get_ns bus2 then 0
                   else m_timeout_ns (k_msg kmsg) - ktime_get_ns bus2),
                bus2)
    ∧ b_conns bus2 = b_conns bus
    ∧ b_replies bus2 = b_replies bus
    ∧ b_events bus2 = b_events bus ++ [EvScheduleWork conn_dst].
Proof.
  intros Hsync Hfind Ht Hint Hr.
  eexists _, _. split.
  { unfold kdbus_conn_wait_reply, reply_deref. zcmp.
    rewrite Ht, bind_Return. reflexivity. }
  split.
  { eexists. simpl. rewrite lookup_insert_eq. split; [reflexivity|done]. }
  split; [done|].
  unfold kmsg_send_dispatch. rewrite Hsync.
  assert (kdbus_conn_find_reply
            (bus_log (EvScheduleWork conn_dst)
               (bus_put_reply reply_wait (reply_set_interrupted true t) bus))
            conn_dst s (m_cookie (k_msg kmsg)) = Return (0, Some reply_wait))
    as ->.
  { rewrite <- Hfind. unfold kdbus_conn_find_reply, conn_deref.
    cbn [b_conns b_replies bus_log bus_set_events bus_put_reply bus_set_replies].
    destruct (b_conns bus !! s) as [c0|]; [|done]. rewrite !bind_Return.
    destruct (_ =? 0); [done|].
    destruct (b_conns bus !! conn_dst) as [c1|]; [|done]. rewrite !bind_Return.
    by rewrite (find_reply_loop_update _ _ t). }
  rewrite bind_Return. unfold reply_deref.
  cbn [b_conns b_replies bus_log bus_set_events bus_put_reply bus_set_replies].
  rewrite lookup_insert_eq, bind_Return.
  cbn [r_interrupted reply_set_interrupted]. rewrite bind_Return.
  unfold kmsg_send_wait_sync. rewrite Hsync.
  split; [reflexivity|]. simpl.
  rewrite insert_insert_eq, reply_set_interrupted_twice by done.
  by rewrite insert_id.
Qed.

End SyncProperties.

(** The synchronous sample call, interrupted with -EINTR and issued again. *)
Lemma kdbus_conn_wait_reply_interrupted_then_restarted_witness :
  ∃ bus1 bus2,
    kdbus_conn_wait_reply (sample_bus_one_call 1000 true) 1 2
      (k_msg sample_call_sync) 100 (- 4)
      = Return (- 4, k_msg sample_call_sync, bus1)
    ∧ kmsg_send_dispatch (sample_task 1000) bus1 1 (Some 1) sample_call_sync
        2 None
      = Return (SendWaiting 100 2 0, bus2)
    ∧ b_conns bus2 = b_conns (sample_bus_one_call 1000 true).
Proof.
  destruct (kdbus_conn_wait_reply_interrupted_then_restarted (sample_task 1000)
              (sample_bus_one_call 1000 true) 1 1 sample_call_sync 2 None 100
              (sample_reply 1 7 true) (- 4))
    as (bus1 & bus2 & Hwait & _ & _ & Hagain & Hconns & _).
  - vm_compute. reflexivity.
  - vm_compute. reflexivity.
  - vm_compute. reflexivity.
  - reflexivity.
  - lia.
  - exists bus1, bus2. split; [exact Hwait|]. split; [exact Hagain|exact Hconns].
Defined.

(** ** Broadcasts (connection.c) *)

Section BroadcastProperties.
Context `{Limits, Uapi, Collaborators}.

Lemma entry_insert_grows current bus conn conn_src kmsg bus' ret :
  conns_by_id bus →
  kdbus_conn_entry_insert current bus conn conn_src kmsg None
    = Return (ret, bus') →
  conns_by_id bus'
  ∧ b_replies bus' = b_replies bus
  ∧ b_conn_hash bus' = b_conn_hash bus
  ∧ (∀ k, k ≠ conn → b_conns bus' !! k = b_conns bus !! k)
  ∧ (∀ k c, b_conns bus !! k = Some c →
       ∃ c', b_conns bus' !! k = Some c'
             ∧ c_id c' = c_id c ∧ c_flags c' = c_flags c
             ∧ c_reply_list c' = c_reply_list c
             ∧ ∃ l, c_msg_list c' = c_msg_list c ++ l).
Proof.
  intros Hids Hins.
  assert (∃ c, b_conns bus !! conn = Some c) as [c Hc].
  { unfold kdbus_conn_entry_insert, conn_deref in Hins.
    destruct (b_conns bus !! conn); [eauto|done]. }
  pose proof (Hids _ _ Hc) as Hcid.
  destruct (entry_insert_inv _ _ _ _ _ _ _ _ _ Hc Hcid Hins)
    as (c' & Hconns & Hrep & _ & Hhash & _ & _ & _ & Hc'id & _ & Hfl & _ & _
        & Hfail & Hok).
  assert (Hq : c_reply_list c' = c_reply_list c
               ∧ ∃ l, c_msg_list c' = c_msg_list c ++ l).
  { destruct (decide (ret < 0)) as [Hneg|Hpos].
    - destruct (Hfail Hneg) as [-> ->]. split; [done|]. exists [].
      by rewrite app_nil_r.
    - destruct Hok as (_ & _ & (e & -> & _) & -> & _); [lia|]. eauto. }
  destruct Hq as [Hrl Hml].
  split_and!; try done.
  - intros k c0. rewrite Hconns. destruct (decide (k = conn)) as [->|Hne].
    + rewrite lookup_insert_eq. by intros [= <-].
    + rewrite lookup_insert_ne by done. apply Hids.
  - intros k Hk. by rewrite Hconns, lookup_insert_ne.
  - intros k c0 Hc0. rewrite Hconns. destruct (decide (k = conn)) as [->|Hne].
    + rewrite lookup_insert_eq. exists c'.
      rewrite Hc in Hc0. injection Hc0 as <-. split_and!; try done. congruence.
    + rewrite lookup_insert_ne by done. exists c0. split_and!; try done.
      exists []. by rewrite app_nil_r.
Qed.

Lemma conn_broadcast_loop_inv current conn_src kmsg hash : ∀ bus bus',
  conns_by_id bus →
  conn_broadcast_loop current bus conn_src kmsg hash = Return bus' →
  conns_by_id bus'
  ∧ b_replies bus' = b_replies bus
  ∧ b_conn_hash bus' = b_conn_hash bus
  ∧ (∀ k c, b_conns bus !! k = Some c →
       broadcast_skips kmsg c ∨ k ∉ hash → b_conns bus' !! k = Some c)
  ∧ (∀ k c, b_conns bus !! k = Some c →
       ∃ c', b_conns bus' !! k = Some c'
             ∧ c_id c' = c_id c ∧ c_flags c' = c_flags c
             ∧ c_reply_list c' = c_reply_list c
             ∧ ∃ l, c_msg_list c' = c_msg_list c ++ l).
Proof.
  induction hash as [|d hash IH]; intros bus bus' Hids; cbn [conn_broadcast_loop].
  { intros [= <-]. split_and!; try done. intros k c Hc. exists c.
    split_and!; try done. exists []. by rewrite app_nil_r. }
  intros Hloop.
  apply bind_Return_inv in Hloop as (cd & Hcd & Hloop).
  unfold conn_deref in Hcd.
  destruct (b_conns bus !! d) as [cd'|] eqn:Hd; [|done]. injection Hcd as ->.
  (* the step that leaves the bus alone *)
  assert (Hskip :
    conn_broadcast_loop current bus conn_src kmsg hash = Return bus' →
    conns_by_id bus'
    ∧ b_replies bus' = b_replies bus
    ∧ b_conn_hash bus' = b_conn_hash bus
    ∧ (∀ k c, b_conns bus !! k = Some c →
         broadcast_skips kmsg c ∨ k ∉ hash → b_conns bus' !! k = Some c)
    ∧ (∀ k c, b_conns bus !! k = Some c →
         ∃ c', b_conns bus' !! k = Some c'
               ∧ c_id c' = c_id c ∧ c_flags c' = c_flags c
               ∧ c_reply_list c' = c_reply_list c
               ∧ ∃ l, c_msg_list c' = c_msg_list c ++ l)).
  { intros Hrec. by apply IH. }
  assert (Hweak : ∀ k, k ∉ d :: hash → k ∉ hash).
  { intros k Hk Hin. apply Hk. rewrite elem_of_cons; auto. }
  (* the step that enqueues for [d] *)
  assert (Hput : ∀ ret bus1,
    kdbus_conn_entry_insert current bus d conn_src kmsg None
      = Return (ret, bus1) →
    c_id cd ≠ m_src_id (k_msg kmsg) →
    ¬ (kdbus_conn_is_ordinary cd = false ∧ kdbus_conn_is_monitor cd = false) →
    conn_broadcast_loop current bus1 conn_src kmsg hash = Return bus' →
    conns_by_id bus'
    ∧ b_replies bus' = b_replies bus
    ∧ b_conn_hash bus' = b_conn_hash bus
    ∧ (∀ k c, b_conns bus !! k = Some c →
         broadcast_skips kmsg c ∨ k ∉ d :: hash → b_conns bus' !! k = Some c)
    ∧ (∀ k c, b_conns bus !! k = Some c →
         ∃ c', b_conns bus' !! k = Some c'
               ∧ c_id c' = c_id c ∧ c_flags c' = c_flags c
               ∧ c_reply_list c' = c_reply_list c
               ∧ ∃ l, c_msg_list c' = c_msg_list c ++ l)).
  { intros ret bus1 Hins Hnsrc Hnspec Hrec.
    destruct (entry_insert_grows _ _ _ _ _ _ _ Hids Hins)
      as (Hids1 & Hrep1 & Hhash1 & Hframe1 & Hgrow1).
    destruct (IH _ _ Hids1 Hrec) as (Hids' & Hrep' & Hhash' & Hkeep' & Hgrow').
    split_and!; try done; try congruence.
    - intros k c Hc Hcase.
      assert (k ≠ d) as Hne.
      { intros ->. rewrite Hd in Hc. injection Hc as <-.
        destruct Hcase as [[Hs|Hs]|Hn]; [by apply Hnsrc|by apply Hnspec|].
        apply Hn. rewrite elem_of_cons; auto. }
      apply Hkeep'; [by rewrite Hframe1|].
      destruct Hcase as [Hs|Hn]; [by left|right; by apply Hweak].
    - intros k c Hc.
      destruct (Hgrow1 _ _ Hc) as (c1 & Hc1 & E1 & E2 & E3 & l1 & E4).
      destruct (Hgrow' _ _ Hc1) as (c2 & Hc2 & F1 & F2 & F3 & l2 & F4).
      exists c2. split_and!; try congruence.
      exists (l1 ++ l2). by rewrite F4, E4, app_assoc. }
  assert (Hskip' :
    conn_broadcast_loop current bus conn_src kmsg hash = Return bus' →
    conns_by_id bus'
    ∧ b_replies bus' = b_replies bus
    ∧ b_conn_hash bus' = b_conn_hash bus
    ∧ (∀ k c, b_conns bus !! k = Some c →
         broadcast_skips kmsg c ∨ k ∉ d :: hash → b_conns bus' !! k = Some c)
    ∧ (∀ k c, b_conns bus !! k = Some c →
         ∃ c', b_conns bus' !! k = Some c'
               ∧ c_id c' = c_id c ∧ c_flags c' = c_flags c
               ∧ c_reply_list c' = c_reply_list c
               ∧ ∃ l, c_msg_list c' = c_msg_list c ++ l)).
  { intros Hrec. destruct (Hskip Hrec) as (? & ? & ? & Hkeep & ?).
    split_and!; try done. intros k c Hc [Hs|Hn]; apply Hkeep; auto. }
  destruct (c_id cd =? m_src_id (k_msg kmsg)) eqn:Esrc; [by apply Hskip'|].
  destruct (negb (kdbus_conn_is_ordinary cd) && negb (kdbus_conn_is_monitor cd))
    eqn:Espec; [by apply Hskip'|].
  assert (Hnsrc : c_id cd ≠ m_src_id (k_msg kmsg)) by lia.
  assert (Hnspec : ¬ (kdbus_conn_is_ordinary cd = false
                      ∧ kdbus_conn_is_monitor cd = false)).
  { intros [E1 E2]. by rewrite E1, E2 in Espec. }
  destruct (negb (kdbus_match_db_match_kmsg _ _ _)); [by apply Hskip'|].
  apply bind_Return_inv in Hloop as (dst_ep & _ & Hloop).
  destruct (_ <? 0); [by apply Hskip'|].
  destruct conn_src as [s|].
  - apply bind_Return_inv in Hloop as (src & _ & Hloop).
    destruct (_ <? 0); [by apply Hskip'|].
    destruct (_ <? 0); [by apply Hskip'|].
    destruct (_ <? 0).
    { injection Hloop as <-. split_and!; try done.
      intros k c Hc. exists c. split_and!; try done. exists [].
      by rewrite app_nil_r. }
    apply bind_Return_inv in Hloop as ([ret bus1] & Hins & Hloop).
    by eapply Hput.
  - apply bind_Return_inv in Hloop as ([ret bus1] & Hins & Hloop).
    by eapply Hput.
Qed.

(** X13.  A broadcast never changes the connection it comes from, nor an
    activator or policy holder, nor a connection that is not in the hash of
    the bus.  It creates and releases no tracker, leaves every reply list
    alone, and can only append to the queues it reaches. *)
Theorem kdbus_conn_broadcast_spares_sender current bus conn_src kmsg bus' :
  conns_by_id bus →
  kdbus_conn_broadcast current bus conn_src kmsg = Return bus' →
  (∀ k c, b_conns bus !! k = Some c →
     broadcast_skips kmsg c ∨ k ∉ b_conn_hash bus →
     b_conns bus' !! k = Some c)
  ∧ b_replies bus' = b_replies bus
  ∧ (∀ k c, b_conns bus !! k = Some c →
       ∃ c', b_conns bus' !! k = Some c'
             ∧ c_reply_list c' = c_reply_list c
             ∧ ∃ l, c_msg_list c' = c_msg_list c ++ l).
Proof.
  intros Hids Hb. unfold kdbus_conn_broadcast in Hb.
  destruct (conn_broadcast_loop_inv _ _ _ _ _ _ Hids Hb)
    as (_ & Hrep & _ & Hkeep & Hgrow).
  split_and!; try done.
  intros k c Hc. destruct (Hgrow _ _ Hc) as (c' & Hc' & _ & _ & Hrl & Hml).
  eauto.
Qed.

End BroadcastProperties.

(** A broadcast of connection 1 on the sample bus. *)
Lemma kdbus_conn_broadcast_spares_sender_witness :
  ∃ bus' c2,
    kdbus_conn_broadcast (sample_task 1000) sample_bus_two_peers (Some 1)
      sample_broadcast_kmsg = Return bus'
    ∧ b_conns bus' !! 1 = Some (sample_conn 1 1 0 1000)
    ∧ b_conns bus' !! 2 = Some c2
    ∧ ∃ l, c_msg_list c2 = l.
Proof.
  eexists _.
  assert (Hrun : kdbus_conn_broadcast (sample_task 1000) sample_bus_two_peers
                   (Some 1) sample_broadcast_kmsg = Return _)
    by (vm_compute; reflexivity).
  assert (Hids : conns_by_id sample_bus_two_peers)
    by (apply conns_by_id_decide; vm_compute; reflexivity).
  destruct (kdbus_conn_broadcast_spares_sender (sample_task 1000)
              sample_bus_two_peers (Some 1) sample_broadcast_kmsg _ Hids Hrun)
    as (Hskip & _ & Hgrow).
  destruct (Hgrow 2 (sample_conn 2 1 1 1000) eq_refl) as (c2 & Hc2 & _ & Hl).
  exists c2. split; [exact Hrun|]. split.
  - apply Hskip; [reflexivity|]. left. left. reflexivity.
  - split; [exact Hc2|exact Hl].
Defined.

(** ** Policy checks of an endpoint (endpoint.c) *)

Section PolicyProperties.
Context `{Limits, Uapi, Collaborators}.

Lemma see_access_not_eperm ep conn name :
  kdbus_ep_policy_check_see_access_unlocked ep conn name ≠ - EPERM.
Proof.
  unfold kdbus_ep_policy_check_see_access_unlocked.
  destruct (negb _); [done|]. cbv zeta.
  destruct (_ =? - EPERM) eqn:E; [done|]. lia.
Qed.

Lemma check_src_names_loop_not_eperm ep conn names ret :
  ret ≠ - EPERM → check_src_names_loop ep conn names ret ≠ - EPERM.
Proof.
  revert ret. induction names as [|n names IH]; intros ret Hret; [done|].
  cbn [check_src_names_loop]. cbv zeta.
  destruct (_ =? 0); [apply see_access_not_eperm|].
  apply IH, see_access_not_eperm.
Qed.

(** X14.  The checks of a custom endpoint never answer -EPERM, whatever
    the policy database says: not kdbus_ep_policy_check_see_access(), not
    kdbus_ep_policy_check_notification(), not
    kdbus_ep_policy_check_src_names() and not
    kdbus_custom_ep_check_talk_access().  (The code answers -ENOENT in place
    of -EPERM, so that what an endpoint hides looks as if it did not
    exist.) *)
Theorem kdbus_ep_policy_checks_never_answer_eperm ep conn conn_src kmsg name :
  kdbus_ep_policy_check_see_access ep conn name ≠ - EPERM
  ∧ kdbus_ep_policy_check_notification ep conn kmsg ≠ - EPERM
  ∧ kdbus_ep_policy_check_src_names ep conn_src conn ≠ - EPERM
  ∧ kdbus_custom_ep_check_talk_access ep conn_src conn ≠ - EPERM.
Proof.
  split_and!.
  - apply see_access_not_eperm.
  - unfold kdbus_ep_policy_check_notification.
    destruct (_ || _); [done|]. destruct (_ || _); [|done].
    apply see_access_not_eperm.
  - unfold kdbus_ep_policy_check_src_names. destruct (negb _); [done|].
    by apply check_src_names_loop_not_eperm.
  - unfold kdbus_custom_ep_check_talk_access. destruct (negb _); [done|].
    cbv zeta. destruct (_ =? - EPERM) eqn:E; [done|]. lia.
Qed.

Lemma check_src_names_loop_spec ep conn names ret :
  (check_src_names_loop ep conn names ret = 0
   ↔ Exists (λ n, kdbus_ep_policy_check_see_access_unlocked ep conn n = 0) names
     ∨ (names = [] ∧ ret = 0))
  ∧ (Forall (λ n, kdbus_ep_policy_check_see_access_unlocked ep conn n ≠ 0) names →
     check_src_names_loop ep conn names ret
     = from_option (kdbus_ep_policy_check_see_access_unlocked ep conn) ret
         (last names)).
Proof.
  revert ret. induction names as [|n names IH]; intros ret.
  { cbn. split; [|done]. split; [auto|]. intros [Hex|[_ ?]]; [|done].
    by apply Exists_nil in Hex. }
  cbn [check_src_names_loop]. cbv zeta.
  destruct (kdbus_ep_policy_check_see_access_unlocked ep conn n =? 0) eqn:E.
  - apply Z.eqb_eq in E. split.
    + split; [|done]. intros _. left. by constructor.
    + intros Hall. inversion_clear Hall as [|? ? Hn _]. lia.
  - apply Z.eqb_neq in E.
    destruct (IH (kdbus_ep_policy_check_see_access_unlocked ep conn n))
      as [IH1 IH2].
    split.
    + rewrite IH1. split.
      * intros [Hex|[-> ?]]; [left; by constructor|done].
      * intros [Hex|[? _]]; [|done].
        apply Exists_cons in Hex as [?|Hex]; [done|by left].
    + intros Hall. inversion_clear Hall as [|? ? _ Hall'].
      rewrite IH2 by done. destruct names as [|m ns]; [done|].
      change (last (n :: m :: ns)) with (last (m :: ns)).
      destruct (last (m :: ns)) eqn:El; [done|]. by apply last_None in El.
Qed.

(** X15.  On an endpoint without a policy of its own
    kdbus_ep_policy_check_src_names() returns 0.  On a custom endpoint it
    returns 0 exactly when the destination may see at least one name of the
    sender; a sender without names gets -ENOENT, and when no name is visible
    the result is that of the check of the last name. *)
Theorem kdbus_ep_policy_check_src_names_some_name_visible ep conn_src conn_dst :
  (ep_has_policy ep = false →
   kdbus_ep_policy_check_src_names ep conn_src conn_dst = 0)
  ∧ (ep_has_policy ep = true →
     (kdbus_ep_policy_check_src_names ep conn_src conn_dst = 0
      ↔ ∃ n, n ∈ c_names_list conn_src
             ∧ kdbus_ep_policy_check_see_access_unlocked ep conn_dst n = 0)
     ∧ (c_names_list conn_src = [] →
        kdbus_ep_policy_check_src_names ep conn_src conn_dst = - ENOENT)
     ∧ (∀ n, last (c_names_list conn_src) = Some n →
        (∀ m, m ∈ c_names_list conn_src →
              kdbus_ep_policy_check_see_access_unlocked ep conn_dst m ≠ 0) →
        kdbus_ep_policy_check_src_names ep conn_src conn_dst
        = kdbus_ep_policy_check_see_access_unlocked ep conn_dst n)).
Proof.
  unfold kdbus_ep_policy_check_src_names. split.
  { by intros ->. }
  intros ->. cbn [negb].
  destruct (check_src_names_loop_spec ep conn_dst (c_names_list conn_src)
              (- ENOENT)) as [Hzero Hlast].
  split_and!.
  - rewrite Hzero, Exists_exists. split.
    + intros [Hex|[_ ?]]; [done|done].
    + intros Hex. by left.
  - by intros ->.
  - intros n Hn Hall. rewrite Hlast, Hn; [done|]. by apply Forall_forall.
Qed.

(** X16.  kdbus_ep_policy_check_talk_access(): a denial by the policy of
    a custom endpoint is final, whoever asks.  Past the endpoint, a thread
    with CAP_IPC_OWNER, a sender with the uid of the bus owner and a sender
    with the uid of the destination may talk without a look at the policy of
    the bus; everybody else gets the answer of the bus policy when it is
    negative, and 0 otherwise.  An endpoint without a policy denies
    nothing. *)
Theorem kdbus_ep_policy_check_talk_access_implicit
  current bus ep conn_src conn_dst :
  let custom := kdbus_custom_ep_check_talk_access ep conn_src conn_dst in
  let talk := kdbus_ep_policy_check_talk_access current bus ep conn_src conn_dst in
  (custom < 0 → talk = custom)
  ∧ (0 ≤ custom →
     t_cap_ipc_owner current = true
     ∨ b_uid_owner bus = c_cred_fsuid conn_src
     ∨ c_cred_fsuid conn_src = c_cred_uid conn_dst →
     talk = 0)
  ∧ (0 ≤ custom →
     t_cap_ipc_owner current = false →
     b_uid_owner bus ≠ c_cred_fsuid conn_src →
     c_cred_fsuid conn_src ≠ c_cred_uid conn_dst →
     talk = Z.min 0 (kdbus_policy_check_talk_access BusPolicyDb conn_src conn_dst))
  ∧ (ep_has_policy ep = false → custom = 0).
Proof.
  intros custom talk. subst custom talk.
  unfold kdbus_ep_policy_check_talk_access. cbv zeta.
  split_and!.
  - intros Hc. by zcmp.
  - intros Hc Hwho. zcmp.
    unfold kdbus_ep_has_default_talk_access, kdbus_bus_cred_is_privileged.
    destruct Hwho as [->|[Ho|Hu]]; [done| |].
    + destruct (t_cap_ipc_owner current); [done|]. by zcmp.
    + destruct (if t_cap_ipc_owner current then true else _); [done|]. by zcmp.
  - intros Hc Hcap Ho Hu. zcmp.
    unfold kdbus_ep_has_default_talk_access, kdbus_bus_cred_is_privileged.
    rewrite Hcap. repeat zcmp.
    destruct (_ <? 0) eqn:E; lia.
  - intros Hp. unfold kdbus_custom_ep_check_talk_access. by rewrite Hp.
Qed.

End PolicyProperties.

(** ** Endpoint names (endpoint.c) *)

Section EndpointProperties.
Context `{Limits, Uapi, Collaborators}.

Lemma kdbus_ep_new_failure_before_link env bus name mode uid gid policy :
  kdbus_ep_find bus name = true →
  ∃ err, kdbus_ep_new env bus name mode uid gid policy
         = Return (ERR_PTR err, bus).
Proof.
  intros Hfind. unfold kdbus_ep_new.
  destruct (negb _); [eauto|]. destruct (negb _); [eauto|].
  destruct (_ <? 0); [eauto|]. destruct (_ <? 0); [eauto|].
  destruct (b_disconnected bus); [eauto|]. rewrite Hfind. eauto.
Qed.

(** X17.  kdbus_ep_new(), when no allocation and no call into the device
    model fails: on a disconnected bus it returns ERR_PTR(-ESHUTDOWN) and on
    a bus that has an endpoint of that name ERR_PTR(-EEXIST), and the bus is
    unchanged.  Otherwise the endpoint is linked at the end of the list of
    the bus under the next id of the bus, with no connection, the
    connections of the bus are untouched, and from then on every
    kdbus_ep_new() with that name fails and leaves the bus as it is. *)
Theorem kdbus_ep_new_name_is_unique env bus name mode uid gid policy :
  ep_new_env_ok env →
  (b_disconnected bus = true →
   kdbus_ep_new env bus name mode uid gid policy
     = Return (ERR_PTR (- ESHUTDOWN), bus))
  ∧ (b_disconnected bus = false → kdbus_ep_find bus name = true →
     kdbus_ep_new env bus name mode uid gid policy
       = Return (ERR_PTR (- EEXIST), bus))
  ∧ (b_disconnected bus = false → kdbus_ep_find bus name = false →
     ∃ bus' e,
       let id := (b_ep_seq_last bus + 1) `mod` U64_MOD in
       kdbus_ep_new env bus name mode uid gid policy = Return (Ptr id, bus')
       ∧ b_eps bus' = <[id := e]> (b_eps bus)
       ∧ ep_id e = id ∧ ep_name e = name ∧ ep_conn_list e = []
       ∧ ep_disconnected e = false ∧ ep_has_policy e = policy
       ∧ b_ep_list bus' = b_ep_list bus ++ [id]
       ∧ b_ep_seq_last bus' = id
       ∧ b_conns bus' = b_conns bus
       ∧ kdbus_ep_find bus' name = true
       ∧ ∀ env' mode' uid' gid' policy',
           ∃ err, kdbus_ep_new env' bus' name mode' uid' gid' policy'
                  = Return (ERR_PTR err, bus')).
Proof.
  intros (Hk & Hs & Hd & Hm & Ha). unfold kdbus_ep_new at 1 2 3.
  rewrite Hk, Hs. cbn [negb]. repeat zcmp.
  split_and!.
  - by intros ->.
  - by intros -> ->.
  - intros -> ->. eexists _, _. cbv zeta. split; [reflexivity|].
    cbn [b_eps bus_put_ep bus_set_eps bus_set_ep_list ep_id b_ep_list
         b_ep_seq_last b_conns].
    assert (Hfind : kdbus_ep_find
              (bus_put_ep
                 {| ep_name := name;
                    ep_id := (b_ep_seq_last bus + 1) `mod` U64_MOD;
                    ep_mode := mode; ep_uid := uid; ep_gid := gid;
                    ep_conn_list := []; ep_disconnected := false;
                    ep_has_policy := policy |}
                 (bus_set_ep_list
                    (b_ep_list bus ++ [(b_ep_seq_last bus + 1) `mod` U64_MOD])
                    ((b_ep_seq_last bus + 1) `mod` U64_MOD) bus)) name = true).
    { unfold kdbus_ep_find. apply bool_decide_eq_true.
      apply Exists_exists. exists ((b_ep_seq_last bus + 1) `mod` U64_MOD).
      split; [simpl; rewrite elem_of_app, list_elem_of_singleton; auto|].
      simpl. by rewrite lookup_insert_eq. }
    split_and!; try done.
    intros env' mode' uid' gid' policy'.
    by apply kdbus_ep_new_failure_before_link.
Qed.

End EndpointProperties.

(** A custom endpoint on the sample bus. *)
Lemma kdbus_ep_new_name_is_unique_witness :
  ∃ bus' e,
    kdbus_ep_new sample_ep_new_env sample_bus_two_peers "custom" 384 1000 1000
      true = Return (Ptr 2, bus')
    ∧ b_eps bus' !! 2 = Some e
    ∧ ∀ env' mode' uid' gid' policy',
        ∃ err, kdbus_ep_new env' bus' "custom" mode' uid' gid' policy'
               = Return (ERR_PTR err, bus').
Proof.
  destruct (kdbus_ep_new_name_is_unique sample_ep_new_env sample_bus_two_peers
              "custom" 384 1000 1000 true) as (_ & _ & Hnew).
  - repeat split; simpl; lia.
  - destruct Hnew as (bus' & e & Hr & Heps & _ & _ & _ & _ & _ & _ & _ & _
                      & _ & Hagain);
      [reflexivity|vm_compute; reflexivity|].
    exists bus', e. split; [exact Hr|]. split; [|exact Hagain].
    rewrite Heps. apply lookup_insert_eq.
Defined.

(** ** Bus names and the buses of a user (bus.c) *)

Section BusNewProperties.
Context `{Limits, Uapi, Collaborators}.

(** The default endpoint of a bus under construction. *)
Lemma kdbus_ep_new_default env flags name bloom mode uid gid :
  ep_new_env_ok env →
  ∃ b', kdbus_ep_new env (bus_new_init flags name bloom uid)
          "bus" mode uid gid false = Return (Ptr 1, b')
        ∧ b_name b' = name ∧ b_uid_owner b' = uid
        ∧ (∃ e, b_eps b' !! 1 = Some e ∧ ep_disconnected e = false
                ∧ ep_conn_list e = [] ∧ ep_id e = 1).
Proof.
  intros (Hk & Hs & Hd & Hm & Ha). unfold kdbus_ep_new.
  rewrite Hk, Hs. simpl.
  destruct (epn_dev_set_name env <? 0) eqn:E1; [lia|].
  destruct (epn_minor_alloc env <? 0) eqn:E2; [lia|].
  destruct (epn_device_add env <? 0) eqn:E3; [lia|].
  eexists. split; [reflexivity|]. simpl. split_and!; try done.
  eexists. by rewrite lookup_insert_eq.
Qed.

Lemma get_user_lookup_list domain uid :
  ∃ domain' rec,
    kdbus_domain_get_user_unlocked true domain uid = (Ptr uid, domain')
    ∧ d_users domain' !! uid = Some rec
    ∧ u_buses rec = from_option u_buses 0 (d_users domain !! uid)
    ∧ d_bus_seq_last domain' = d_bus_seq_last domain
    ∧ d_bus_list domain' = d_bus_list domain
    ∧ d_msg_seq_last domain' = d_msg_seq_last domain
    ∧ d_disconnected domain' = d_disconnected domain.
Proof.
  unfold kdbus_domain_get_user_unlocked. simpl.
  destruct (d_users domain !! uid) as [rec|] eqn:E.
  - exists domain, rec. by rewrite E.
  - eexists _, _. split; [done|]. simpl. by rewrite lookup_insert_eq.
Qed.

Lemma bus_find_linked id name dom :
  kdbus_bus_find (domain_link_bus id name dom) name = true.
Proof.
  unfold kdbus_bus_find. apply bool_decide_eq_true. simpl.
  rewrite elem_of_app, list_elem_of_singleton. auto.
Qed.

(** kdbus_bus_new() up to the accounting, when nothing fails before. *)
Lemma kdbus_bus_new_until_accounting env domain flags name bloom mode uid gid :
  strncmp name (snprintf_u_dash 16 uid) 1 = 0 →
  kdbus_bus_find domain name = false →
  bus_new_env_ok_before_ep env → ep_new_env_ok (bn_ep_new env) →
  d_disconnected domain = false → bn_get_user_ok env = true →
  ∃ b bus1 domain1 rec e,
    b_name b = name ∧ b_uid_owner b = uid ∧ b_ep b = Ptr 1
    ∧ b_eps b !! 1 = Some e ∧ ep_disconnected e = false ∧ ep_conn_list e = []
    ∧ ep_id e = 1
    ∧ d_users domain1 !! uid = Some rec
    ∧ u_buses rec = from_option u_buses 0 (d_users domain !! uid)
    ∧ d_bus_seq_last domain1 = d_bus_seq_last domain
    ∧ d_bus_list domain1 = d_bus_list domain
    ∧ bus1 = bus_set_user_id (Ptr uid) (b_id b) b
    ∧ kdbus_bus_new env domain flags name bloom mode uid gid
      = (let buses := atomic_inc_return (u_buses rec) in
         if negb (bn_capable env) && (buses >? KDBUS_USER_MAX_BUSES)
         then bus_new_exit_unref_user bus1 domain1 (- EMFILE)
         else
           let domain2 :=
             if bn_capable env then domain1
             else domain_set_users
                    (<[uid := user_set_buses buses rec]> (d_users domain1))
                    domain1 in
           let id := (d_bus_seq_last domain2 + 1) `mod` U64_MOD in
           Return (Ptr (bus_set_user_id (Ptr uid) id bus1),
                   domain_link_bus id name domain2)).
Proof.
  intros Hcmp Hfind (Hk & Hm & Ha & Hs & Hr) Hep Hd Hu.
  destruct (kdbus_ep_new_default (bn_ep_new env) flags name bloom mode uid gid Hep)
    as (b' & Hnew & Hname & Hown & e & He & Hedis & Hel & Heid).
  destruct (get_user_lookup_list domain uid)
    as (domain1 & rec & Hget & Hrec & Hb & Hseq & Hlist & _ & _).
  exists (bus_set_ep (Ptr 1) b'), (bus_set_user_id (Ptr uid) (b_id b') (bus_set_ep (Ptr 1) b')),
    domain1, rec, e.
  split_and!; try done.
  unfold kdbus_bus_new.
  rewrite bus_new_strncmp_count, Hcmp, Hfind, Hk, Hm, Hs, Hr. simpl.
  destruct (bn_meta_append env <? 0) eqn:E; [lia|].
  rewrite Hnew. simpl. rewrite Hd, Hu, Hget, Hrec. simpl. done.
Qed.

(** X18.  kdbus_bus_new() with a name that passes the check of the uid
    prefix: when the domain has a bus of that name it returns
    ERR_PTR(-EEXIST) and the domain is unchanged.  When it has none and
    nothing else fails, the bus is created with that name, the given owner
    and the next bus id of the domain, it is linked at the end of the list of
    the domain, and from then on every kdbus_bus_new() of that name for that
    uid returns ERR_PTR(-EEXIST). *)
Theorem kdbus_bus_new_name_is_unique env domain flags name bloom mode uid gid :
  strncmp name (snprintf_u_dash 16 uid) 1 = 0 →
  (kdbus_bus_find domain name = true →
   kdbus_bus_new env domain flags name bloom mode uid gid
     = Return (ERR_PTR (- EEXIST), domain))
  ∧ (kdbus_bus_find domain name = false →
     bus_new_env_ok_before_ep env → ep_new_env_ok (bn_ep_new env) →
     bus_new_accounting_ok env domain uid →
     ∃ b domain',
       kdbus_bus_new env domain flags name bloom mode uid gid
         = Return (Ptr b, domain')
       ∧ b_name b = name ∧ b_uid_owner b = uid
       ∧ b_id b = (d_bus_seq_last domain + 1) `mod` U64_MOD
       ∧ d_bus_seq_last domain' = b_id b
       ∧ d_bus_list domain' = d_bus_list domain ++ [name]
       ∧ kdbus_bus_find domain' name = true
       ∧ ∀ env' flags' bloom' mode' gid',
           kdbus_bus_new env' domain' flags' name bloom' mode' uid gid'
           = Return (ERR_PTR (- EEXIST), domain')).
Proof.
  intros Hcmp.
  assert (Hdup : ∀ env0 dom0 flags0 bloom0 mode0 gid0,
            kdbus_bus_find dom0 name = true →
            kdbus_bus_new env0 dom0 flags0 name bloom0 mode0 uid gid0
            = Return (ERR_PTR (- EEXIST), dom0)).
  { intros * Hf. unfold kdbus_bus_new.
    by rewrite bus_new_strncmp_count, Hcmp, Hf. }
  split; [apply Hdup|].
  intros Hfind Henv Hep (Hd & Hu & Hq).
  destruct (kdbus_bus_new_until_accounting env domain flags name bloom mode uid gid)
    as (b & bus1 & domain1 & rec & e & Hname & Hown & _ & _ & _ & _ & _ & Hrec
        & Hb & Hseq & Hlist & -> & ->); try done.
  cbv zeta.
  assert ((negb (bn_capable env)
           && (atomic_inc_return (u_buses rec) >? KDBUS_USER_MAX_BUSES)) = false)
    as ->.
  { destruct Hq as [->|Hq]; [done|]. rewrite Hb. apply andb_false_iff. right.
    rewrite Z.gtb_ltb. apply Z.ltb_ge. lia. }
  set (domain2 := if bn_capable env then domain1
                  else domain_set_users
                         (<[uid := user_set_buses
                                     (atomic_inc_return (u_buses rec)) rec]>
                            (d_users domain1)) domain1).
  assert (Hseq2 : d_bus_seq_last domain2 = d_bus_seq_last domain).
  { subst domain2. by destruct (bn_capable env). }
  assert (Hlist2 : d_bus_list domain2 = d_bus_list domain).
  { subst domain2. by destruct (bn_capable env). }
  eexists _, _. split; [reflexivity|].
  split_and!; try done.
  - simpl. by rewrite Hseq2.
  - simpl. by rewrite Hlist2.
  - apply bus_find_linked.
  - intros. apply Hdup, bus_find_linked.
Qed.

(** X19.  kdbus_bus_new() for a creator without CAP_IPC_OWNER who owns
    [n] buses: below KDBUS_USER_MAX_BUSES the bus is created and the creator
    is accounted n + 1 buses, still within the limit.  At the limit the call
    returns ERR_PTR(-EMFILE); the creator is still accounted n buses, and the
    bus list and the bus sequence number of the domain are as before. *)
Theorem kdbus_bus_new_user_bus_limit env domain flags name bloom mode uid gid :
  strncmp name (snprintf_u_dash 16 uid) 1 = 0 →
  kdbus_bus_find domain name = false →
  bus_new_env_ok_before_ep env → ep_new_env_ok (bn_ep_new env) →
  d_disconnected domain = false → bn_get_user_ok env = true →
  bn_capable env = false →
  let n := from_option u_buses 0 (d_users domain !! uid) in
  0 ≤ n < 2 ^ 31 - 1 →
  (n < KDBUS_USER_MAX_BUSES →
   ∃ b domain' rec',
     kdbus_bus_new env domain flags name bloom mode uid gid
       = Return (Ptr b, domain')
     ∧ d_users domain' !! uid = Some rec'
     ∧ u_buses rec' = n + 1
     ∧ u_buses rec' ≤ KDBUS_USER_MAX_BUSES)
  ∧ (KDBUS_USER_MAX_BUSES ≤ n →
     ∃ domain' rec',
       kdbus_bus_new env domain flags name bloom mode uid gid
         = Return (ERR_PTR (- EMFILE), domain')
       ∧ d_users domain' !! uid = Some rec'
       ∧ u_buses rec' = n
       ∧ d_bus_list domain' = d_bus_list domain
       ∧ d_bus_seq_last domain' = d_bus_seq_last domain).
Proof.
  intros Hcmp Hfind Henv Hep Hd Hu Hcap n Hn.
  destruct (kdbus_bus_new_until_accounting env domain flags name bloom mode uid gid)
    as (b & bus1 & domain1 & rec & e & Hname & Hown & Hbep & He & Hedis & Hel
        & Heid & Hrec & Hb & Hseq & Hlist & -> & ->); try done.
  cbv zeta. rewrite Hcap. cbn [negb andb].
  assert (Hinc : atomic_inc_return (u_buses rec) = n + 1).
  { rewrite Hb. unfold atomic_inc_return. apply int_wrap_small. unfold INT_MIN.
    subst n. change (2 ^ 31) with 2147483648 in *. lia. }
  rewrite Hinc. split.
  - intros Hlt. zcmp. eexists _, _, _. split; [reflexivity|]. simpl.
    rewrite lookup_insert_eq. split; [reflexivity|]. simpl. lia.
  - intros Hge. zcmp. unfold bus_new_exit_unref_user. simpl. rewrite Hbep.
    unfold kdbus_ep_disconnect, ep_deref. simpl. rewrite He, bind_Return, Hedis.
    rewrite Hel. simpl. exists domain1, rec. by split_and!.
Qed.

End BusNewProperties.

(** The first bus of uid 1000 in the sample domain. *)
Lemma kdbus_bus_new_name_is_unique_witness :
  ∃ b domain',
    kdbus_bus_new sample_bus_new_env sample_domain 0 "1000-session" (64, 1)
      384 1000 1000 = Return (Ptr b, domain')
    ∧ b_name b = "1000-session"
    ∧ ∀ env' flags' bloom' mode' gid',
        kdbus_bus_new env' domain' flags' "1000-session" bloom' mode' 1000 gid'
        = Return (ERR_PTR (- EEXIST), domain').
Proof.
  destruct (kdbus_bus_new_name_is_unique sample_bus_new_env sample_domain 0
              "1000-session" (64, 1) 384 1000 1000) as (_ & Hnew).
  - vm_compute. reflexivity.
  - destruct Hnew as (b & domain' & Hr & Hname & _ & _ & _ & _ & _ & Hagain).
    + vm_compute. reflexivity.
    + repeat split; simpl; lia.
    + repeat split; simpl; lia.
    + split; [reflexivity|]. split; [reflexivity|]. right. vm_compute.
      discriminate.
    + exists b, domain'. split; [exact Hr|]. split; [exact Hname|exact Hagain].
Defined.

(** The first bus of uid 1000 is accounted to its creator. *)
Lemma kdbus_bus_new_user_bus_limit_witness :
  ∃ b domain' rec',
    kdbus_bus_new sample_bus_new_env sample_domain 0 "1000-session" (64, 1)
      384 1000 1000 = Return (Ptr b, domain')
    ∧ d_users domain' !! 1000 = Some rec'
    ∧ u_buses rec' = 1.
Proof.
  destruct (kdbus_bus_new_user_bus_limit sample_bus_new_env sample_domain 0
              "1000-session" (64, 1) 384 1000 1000) as (Hok & _).
  - vm_compute. reflexivity.
  - vm_compute. reflexivity.
  - repeat split; simpl; lia.
  - repeat split; simpl; lia.
  - reflexivity.
  - reflexivity.
  - reflexivity.
  - vm_compute. split; [discriminate|reflexivity].
  - destruct Hok as (b & domain' & rec' & Hr & Hrec & Hn & _);
      [vm_compute; reflexivity|].
    exists b, domain', rec'. split; [exact Hr|]. split; [exact Hrec|exact Hn].
Defined.

(** ** Active references (connection.c) *)

Section ActiveReferenceProperties.
Context `{Limits, Uapi, Collaborators}.

Lemma conn_set_active_id c : conn_set_active (c_active c) c = c.
Proof. by destruct c. Qed.

Lemma bus_put_conn_id bus k c :
  b_conns bus !! k = Some c → c_id c = k → bus_put_conn c bus = bus.
Proof.
  intros Hc Hid. unfold bus_put_conn. rewrite Hid, insert_id by done.
  by destruct bus.
Qed.

(** X20.  Active references.  kdbus_conn_acquire() refuses a connection
    whose active counter is negative with -ECONNRESET and changes nothing.
    On an active connection it takes a reference, and kdbus_conn_release()
    gives it back: the bus is as before.  Once kdbus_conn_disconnect() has
    added KDBUS_CONN_ACTIVE_BIAS the counter is negative, so that no further
    reference is handed out; the holders then release one by one, and
    exactly the release that brings the counter down to the bias wakes the
    waiter. *)
Theorem kdbus_conn_acquire_release_protocol bus conn c :
  b_conns bus !! conn = Some c → c_id c = conn →
  (* a connection that is being, or has been, disconnected *)
  (c_active c < 0 → kdbus_conn_acquire bus conn = Return (- ECONNRESET, bus))
  (* a reference taken and released *)
  ∧ (0 ≤ c_active c < 2 ^ 31 - 1 →
     ∃ bus1 c1,
       kdbus_conn_acquire bus conn = Return (0, bus1)
       ∧ b_conns bus1 !! conn = Some c1
       ∧ c_active c1 = c_active c + 1
       ∧ kdbus_conn_release bus1 conn = Return bus)
  (* once the bias is added, no reference can be taken *)
  ∧ (0 ≤ c_active c < 2 ^ 31 - 1 →
     c_active (conn_add_active_bias c) = c_active c + KDBUS_CONN_ACTIVE_BIAS
     ∧ c_active (conn_add_active_bias c) < 0)
  (* the holders leave one by one; the last one wakes the waiter *)
  ∧ (∀ n, 1 ≤ n < 2 ^ 31 - 1 →
     c_active c = KDBUS_CONN_ACTIVE_BIAS + n →
     ∃ bus' c',
       kdbus_conn_release bus conn = Return bus'
       ∧ b_conns bus' !! conn = Some c'
       ∧ c_active c' = KDBUS_CONN_ACTIVE_BIAS + (n - 1)
       ∧ b_events bus'
         = b_events bus ++ (if n =? 1 then [EvWakeUp conn] else [])).
Proof.
  intros Hc Hid.
  assert (Hw : ∀ v, INT_MIN ≤ v < 2 ^ 31 → int_wrap v = v)
    by apply int_wrap_small.
  unfold INT_MIN, KDBUS_CONN_ACTIVE_BIAS in *.
  change (2 ^ 31) with 2147483648 in *.
  split_and!.
  - intros Hneg. unfold kdbus_conn_acquire, conn_deref.
    rewrite Hc, bind_Return. by zcmp.
  - intros Hact.
    assert (Hinc : atomic_inc_return (c_active c) = c_active c + 1).
    { unfold atomic_inc_return. apply Hw. lia. }
    eexists _, _. split.
    { unfold kdbus_conn_acquire, conn_deref. rewrite Hc, bind_Return. zcmp.
      rewrite Hinc. reflexivity. }
    simpl. rewrite Hid, lookup_insert_eq. split; [reflexivity|].
    split; [done|].
    unfold kdbus_conn_release, conn_deref. simpl.
    rewrite Hid, lookup_insert_eq, bind_Return. simpl.
    assert (Hdec : atomic_dec_return (c_active c + 1) = c_active c).
    { unfold atomic_dec_return.
      replace (c_active c + 1 - 1) with (c_active c) by lia. apply Hw. lia. }
    rewrite Hdec. unfold KDBUS_CONN_ACTIVE_BIAS, INT_MIN. change (2 ^ 31) with 2147483648. zcmp.
    cbn [negb]. f_equal. unfold bus_put_conn. simpl.
    rewrite Hid, insert_insert_eq.
    replace (conn_set_active (c_active c) (conn_set_active (c_active c + 1) c))
      with c by (by destruct c).
    rewrite insert_id by done. by destruct bus.
  - intros Hact. unfold conn_add_active_bias, KDBUS_CONN_ACTIVE_BIAS, INT_MIN.
    cbn [c_active conn_set_active]. change (2 ^ 31) with 2147483648.
    rewrite Hw by lia. lia.
  - intros n Hn Hact. unfold KDBUS_CONN_ACTIVE_BIAS, INT_MIN in Hact.
    change (2 ^ 31) with 2147483648 in *.
    assert (Hdec : atomic_dec_return (c_active c) = -2147483648 + 1 + (n - 1)).
    { unfold atomic_dec_return. rewrite Hw by lia. lia. }
    unfold kdbus_conn_release, conn_deref. rewrite Hc, bind_Return. cbv zeta.
    rewrite Hdec. unfold KDBUS_CONN_ACTIVE_BIAS, INT_MIN. change (2 ^ 31) with 2147483648.
    destruct (n =? 1) eqn:E.
    + zcmp. cbn [negb]. eexists _, _. split; [reflexivity|]. simpl.
      rewrite Hid, lookup_insert_eq. by split_and!.
    + zcmp. cbn [negb]. eexists _, _. split; [reflexivity|]. simpl.
      rewrite Hid, lookup_insert_eq, app_nil_r. by split_and!.
Qed.

End ActiveReferenceProperties.

(** An active reference on connection 1 of the sample bus. *)
Lemma kdbus_conn_acquire_release_protocol_witness :
  ∃ bus1 c1,
    kdbus_conn_acquire sample_bus_two_peers 1 = Return (0, bus1)
    ∧ b_conns bus1 !! 1 = Some c1
    ∧ c_active c1 = 1
    ∧ kdbus_conn_release bus1 1 = Return sample_bus_two_peers.
Proof.
  destruct (kdbus_conn_acquire_release_protocol sample_bus_two_peers 1
              (sample_conn 1 1 0 1000)) as (_ & Hpair & _);
    [vm_compute; reflexivity|reflexivity|].
  destruct Hpair as (bus1 & c1 & Ha & Hc1 & Hact & Hr); [simpl; lia|].
  exists bus1, c1. split; [exact Ha|]. split; [exact Hc1|].
  split; [exact Hact|exact Hr].
Defined.

(** ** The timeout worker (connection.c) *)

Section WorkProperties.
Context `{Limits, Uapi, Collaborators}.

Lemma list_del_init_replies a bus : b_replies (list_del_init a bus) = b_replies bus.
Proof. done. Qed.

Lemma list_del_init_lookup a bus k c :
  b_conns bus !! k = Some c →
  b_conns (list_del_init a bus) !! k
  = Some (conn_set_reply_list (filter (λ y, y ≠ a) (c_reply_list c)) c).
Proof. intros Hc. by rewrite list_del_init_conns, Hc. Qed.

(** One tracker unlinked and unreferenced. *)
Lemma unlink_unref bus a t :
  conns_by_id bus →
  b_replies bus !! a = Some t → is_Some (b_conns bus !! r_reply_dst t) →
  ∃ bus',
    kdbus_conn_reply_unref (list_del_init a bus) (Some a) = Return bus'
    ∧ conns_by_id bus'
    ∧ (∀ x, x ≠ a → b_replies bus' !! x = b_replies bus !! x)
    ∧ (∀ k c, b_conns bus !! k = Some c →
         ∃ c', b_conns bus' !! k = Some c'
               ∧ c_id c' = c_id c ∧ c_active c' = c_active c
               ∧ c_msg_list c' = c_msg_list c
               ∧ c_reply_list c' = filter (λ y, y ≠ a) (c_reply_list c))
    ∧ (∀ k, is_Some (b_conns bus' !! k) → is_Some (b_conns bus !! k))
    ∧ b_events bus' = b_events bus.
Proof.
  intros Hids Ht [d Hd].
  unfold kdbus_conn_reply_unref, reply_deref.
  rewrite list_del_init_replies, Ht, bind_Return.
  destruct (r_kref t =? 1).
  - unfold conn_deref. rewrite (list_del_init_lookup _ _ _ _ Hd), bind_Return.
    eexists. split; [reflexivity|]. unfold conns_by_id. simpl.
    rewrite (Hids _ _ Hd). split_and!.
    + intros k c. destruct (decide (k = r_reply_dst t)) as [->|Hne].
      * rewrite lookup_insert_eq. intros [= <-]. simpl. by apply Hids.
      * rewrite lookup_insert_ne, lookup_fmap by done.
        destruct (b_conns bus !! k) as [c0|] eqn:Hc0; [|done].
        intros [= <-]. simpl. by apply Hids.
    + intros x Hx. by rewrite lookup_delete_ne.
    + intros k c Hc. destruct (decide (k = r_reply_dst t)) as [->|Hne].
      * rewrite lookup_insert_eq. eexists. split; [reflexivity|].
        rewrite Hd in Hc. injection Hc as <-. by split_and!.
      * rewrite lookup_insert_ne, lookup_fmap, Hc by done. simpl.
        eexists. split; [reflexivity|]. by split_and!.
    + intros k. destruct (decide (k = r_reply_dst t)) as [->|Hne].
      * by rewrite Hd.
      * rewrite lookup_insert_ne, lookup_fmap by done.
        destruct (b_conns bus !! k); [done|]. by intros [? ?].
    + done.
  - eexists. split; [reflexivity|]. unfold conns_by_id. simpl. split_and!.
    + intros k c. rewrite lookup_fmap.
      destruct (b_conns bus !! k) as [c0|] eqn:Hc0; [|done].
      intros [= <-]. simpl. by apply Hids.
    + intros x Hx. by rewrite lookup_insert_ne.
    + intros k c Hc. rewrite lookup_fmap, Hc. simpl.
      eexists. split; [reflexivity|]. by split_and!.
    + intros k. rewrite lookup_fmap.
      destruct (b_conns bus !! k); [done|]. by intros [? ?].
    + done.
Qed.


Lemma conn_work_loop_spec now l : ∀ bus deadline,
  conns_by_id bus → NoDup l →
  (∀ a, a ∈ l → ∃ t, b_replies bus !! a = Some t
                     ∧ is_Some (b_conns bus !! r_reply_dst t)) →
  ∃ dl evs bus',
    conn_work_loop bus now deadline l = Return (dl, evs, bus')
    ∧ conns_by_id bus'
    ∧ (∀ x, x ∉ l → b_replies bus' !! x = b_replies bus !! x)
    ∧ (∀ x t, b_replies bus !! x = Some t → reply_expired now t = false →
              b_replies bus' !! x = Some t)
    ∧ (∀ k c, b_conns bus !! k = Some c →
         ∃ c', b_conns bus' !! k = Some c'
               ∧ c_id c' = c_id c ∧ c_active c' = c_active c
               ∧ c_msg_list c' = c_msg_list c
               ∧ ∀ x, x ∈ c_reply_list c'
                      ↔ x ∈ c_reply_list c
                        ∧ ¬ (x ∈ l ∧ ∃ t, b_replies bus !! x = Some t
                                          ∧ reply_expired now t = true))
    ∧ (∀ k, is_Some (b_conns bus' !! k) → is_Some (b_conns bus !! k))
    ∧ b_events bus' = b_events bus
    ∧ (∀ id cookie,
         WorkNotifyReplyTimeout id cookie ∈ evs
         ↔ ∃ a t, a ∈ l ∧ b_replies bus !! a = Some t
                  ∧ reply_expired now t = true
                  ∧ r_deadline_ns t ≠ 0 ∧ r_interrupted t = false
                  ∧ r_reply_dst t = id ∧ r_cookie t = cookie)
    ∧ (∀ d, WorkScheduleDelayed d ∉ evs)
    ∧ dl ≤ deadline
    ∧ (∀ a t, a ∈ l → b_replies bus !! a = Some t →
              reply_pending now t = true → dl ≤ r_deadline_ns t)
    ∧ (dl = deadline
       ∨ ∃ a t, a ∈ l ∧ b_replies bus !! a = Some t
                ∧ reply_pending now t = true ∧ dl = r_deadline_ns t).
Proof.
  induction l as [|a l IH]; intros bus deadline Hids Hnodup Hex.
  { exists deadline, [], bus. cbn [conn_work_loop].
    split_and!; try done.
    - intros k c Hc. exists c. split_and!; try done. intros x. split.
      + intros Hx. split; [done|]. intros [Hin _]. by apply elem_of_nil in Hin.
      + by intros [? _].
    - intros id cookie. split.
      + intros Hin. by apply elem_of_nil in Hin.
      + intros (a & t & Hin & _). by apply elem_of_nil in Hin.
    - intros d Hin. by apply elem_of_nil in Hin.
    - intros a t Hin. by apply elem_of_nil in Hin.
    - by left. }
  apply NoDup_cons in Hnodup as [Hnotin Hnodup].
  destruct (Hex a) as (t & Ht & Hdst); [rewrite elem_of_cons; auto|].
  cbn [conn_work_loop]. unfold reply_deref at 1. rewrite Ht, bind_Return.
  assert (Hex' : ∀ x, x ∈ l → ∃ u, b_replies bus !! x = Some u
                                   ∧ is_Some (b_conns bus !! r_reply_dst u)).
  { intros x Hx. apply Hex. rewrite elem_of_cons; auto. }
  destruct (r_sync t && negb (r_interrupted t)) eqn:Hwaiter.
  { (* the caller sleeps on it *)
    destruct (IH bus deadline Hids Hnodup Hex')
      as (dl & evs & bus' & -> & Hids' & Hrep & Hkeep & Hconns & Hsome & Hev
          & Hnote & Hnore & Hle & Hmin & Hwit).
    assert (Hne : reply_expired now t = false).
    { unfold reply_expired, reply_sync_waiter. by rewrite Hwaiter. }
    assert (Hnp : reply_pending now t = false).
    { unfold reply_pending, reply_sync_waiter. by rewrite Hwaiter. }
    exists dl, evs, bus'. split_and!; try done.
    - intros x Hx. apply Hrep. intros Hin. apply Hx. rewrite elem_of_cons; auto.
    - intros k c Hc. destruct (Hconns k c Hc) as (c' & Hc' & E1 & E2 & E3 & Hl).
      exists c'. split_and!; try done. intros x. rewrite Hl. split.
      + intros [Hx Hno]. split; [done|]. intros [Hin (u & Hu & Hexp)].
        apply elem_of_cons in Hin as [->|Hin]; [|apply Hno; eauto].
        rewrite Ht in Hu. injection Hu as <-. congruence.
      + intros [Hx Hno]. split; [done|]. intros [Hin Hu]. apply Hno.
        split; [rewrite elem_of_cons; auto|done].
    - intros id cookie. rewrite Hnote. split.
      + intros (b & u & Hin & Hrest). exists b, u.
        split; [rewrite elem_of_cons; auto|done].
      + intros (b & u & Hin & Hu & Hexp & Hrest).
        apply elem_of_cons in Hin as [->|Hin]; [|by exists b, u].
        rewrite Ht in Hu. injection Hu as <-. congruence.
    - intros b u Hin Hu Hp.
      apply elem_of_cons in Hin as [->|Hin]; [|by eapply Hmin].
      rewrite Ht in Hu. injection Hu as <-. congruence.
    - destruct Hwit as [->|(b & u & Hin & Hrest)]; [by left|].
      right. exists b, u. split; [rewrite elem_of_cons; auto|done]. }
  destruct (r_deadline_ns t >? now) eqn:Hlater.
  { (* its deadline lies ahead *)
    set (deadline1 := if deadline >? r_deadline_ns t then r_deadline_ns t
                      else deadline).
    destruct (IH bus deadline1 Hids Hnodup Hex')
      as (dl & evs & bus' & -> & Hids' & Hrep & Hkeep & Hconns & Hsome & Hev
          & Hnote & Hnore & Hle & Hmin & Hwit).
    assert (Hne : reply_expired now t = false).
    { unfold reply_expired, reply_sync_waiter.
      rewrite Hwaiter, Hlater. done. }
    assert (Hp : reply_pending now t = true).
    { unfold reply_pending, reply_sync_waiter. by rewrite Hwaiter, Hlater. }
    assert (Hd1 : deadline1 ≤ deadline ∧ deadline1 ≤ r_deadline_ns t
                  ∧ (deadline1 = deadline ∨ deadline1 = r_deadline_ns t)).
    { subst deadline1. destruct (deadline >? r_deadline_ns t) eqn:E; lia. }
    exists dl, evs, bus'. split_and!; try done.
    - intros x Hx. apply Hrep. intros Hin. apply Hx. rewrite elem_of_cons; auto.
    - intros k c Hc. destruct (Hconns k c Hc) as (c' & Hc' & E1 & E2 & E3 & Hl).
      exists c'. split_and!; try done. intros x. rewrite Hl. split.
      + intros [Hx Hno]. split; [done|]. intros [Hin (u & Hu & Hexp)].
        apply elem_of_cons in Hin as [->|Hin]; [|apply Hno; eauto].
        rewrite Ht in Hu. injection Hu as <-. congruence.
      + intros [Hx Hno]. split; [done|]. intros [Hin Hu]. apply Hno.
        split; [rewrite elem_of_cons; auto|done].
    - intros id cookie. rewrite Hnote. split.
      + intros (b & u & Hin & Hrest). exists b, u.
        split; [rewrite elem_of_cons; auto|done].
      + intros (b & u & Hin & Hu & Hexp & Hrest).
        apply elem_of_cons in Hin as [->|Hin]; [|by exists b, u].
        rewrite Ht in Hu. injection Hu as <-. congruence.
    - lia.
    - intros b u Hin Hu Hpu.
      apply elem_of_cons in Hin as [->|Hin]; [|by eapply Hmin].
      rewrite Ht in Hu. injection Hu as <-. lia.
    - destruct Hwit as [->|(b & u & Hin & Hrest)].
      + destruct Hd1 as (_ & _ & [->| ->]); [by left|].
        right. exists a, t. split; [rewrite elem_of_cons; auto|done].
      + right. exists b, u. split; [rewrite elem_of_cons; auto|done]. }
  (* it has expired *)
  assert (Hexp : reply_expired now t = true).
  { unfold reply_expired, reply_sync_waiter. by rewrite Hwaiter, Hlater. }
  assert (Hnp : reply_pending now t = false).
  { unfold reply_pending, reply_sync_waiter. by rewrite Hwaiter, Hlater. }
  destruct Hdst as [d Hd]. pose proof (Hids _ _ Hd) as Hdid.
  set (notes := if negb (r_deadline_ns t =? 0) && negb (r_interrupted t)
                then [WorkNotifyReplyTimeout (r_reply_dst t) (r_cookie t)]
                else []).
  assert ((if negb (r_deadline_ns t =? 0) && negb (r_interrupted t)
           then dst ← conn_deref bus (r_reply_dst t);
                Return [WorkNotifyReplyTimeout (c_id dst) (r_cookie t)]
           else Return []) = Return notes) as ->.
  { subst notes.
    destruct (negb (r_deadline_ns t =? 0) && negb (r_interrupted t));
      [|reflexivity].
    unfold conn_deref. rewrite Hd, bind_Return, Hdid. reflexivity. }
  rewrite bind_Return.
  destruct (unlink_unref bus a t Hids Ht (ex_intro _ d Hd))
    as (bus1 & -> & Hids1 & Hrep1 & Hconns1 & Hsome1 & Hev1).
  rewrite bind_Return.
  assert (Hex1 : ∀ x, x ∈ l → ∃ u, b_replies bus1 !! x = Some u
                                   ∧ is_Some (b_conns bus1 !! r_reply_dst u)).
  { intros x Hx. destruct (Hex' x Hx) as (u & Hu & [du Hdu]).
    exists u. rewrite Hrep1 by (intros ->; done). split; [done|].
    destruct (Hconns1 _ _ Hdu) as (c' & -> & _). by eexists. }
  destruct (IH bus1 deadline Hids1 Hnodup Hex1)
    as (dl & evs & bus' & -> & Hids' & Hrep & Hkeep & Hconns & Hsome & Hev
        & Hnote & Hnore & Hle & Hmin & Hwit).
  rewrite bind_Return.
  exists dl, (notes ++ evs), bus'. split_and!; try done.
  - intros x Hx. rewrite Hrep, Hrep1; [done| |].
    + intros ->. apply Hx. rewrite elem_of_cons; auto.
    + intros Hin. apply Hx. rewrite elem_of_cons; auto.
  - intros x u Hu Hne. apply Hkeep; [|done].
    rewrite Hrep1; [done|]. intros ->. congruence.
  - intros k c Hc.
    destruct (Hconns1 k c Hc) as (c1 & Hc1 & E1 & E2 & E3 & Hl1).
    destruct (Hconns k c1 Hc1) as (c' & Hc' & F1 & F2 & F3 & Hl).
    exists c'. split_and!; try congruence. intros x.
    rewrite Hl, Hl1, list_elem_of_filter. split.
    + intros [[Hxa Hx] Hno]. split; [done|]. intros [Hin (u & Hu & Hue)].
      apply elem_of_cons in Hin as [->|Hin]; [done|].
      apply Hno. split; [done|]. exists u. by rewrite Hrep1.
    + intros [Hx Hno].
      assert (x ≠ a) as Hxa.
      { intros ->. apply Hno. split; [rewrite elem_of_cons; auto|eauto]. }
      split; [done|]. intros [Hin (u & Hu & Hue)]. apply Hno.
      split; [rewrite elem_of_cons; auto|]. exists u.
      by rewrite <- (Hrep1 x Hxa).
  - intros k Hk. by apply Hsome1, Hsome.
  - congruence.
  - intros id cookie. rewrite elem_of_app, Hnote. split.
    + intros [Hin|(b & u & Hin & Hu & Hrest)].
      * subst notes. destruct (negb (r_deadline_ns t =? 0)) eqn:E0;
          [|by apply elem_of_nil in Hin].
        destruct (r_interrupted t) eqn:Ei; [by apply elem_of_nil in Hin|].
        apply list_elem_of_singleton in Hin. injection Hin as -> ->.
        exists a, t. split; [rewrite elem_of_cons; auto|].
        split_and!; try done. apply negb_true_iff in E0. lia.
      * exists b, u. split; [rewrite elem_of_cons; auto|].
        rewrite <- Hrep1; [done|]. intros ->. done.
    + intros (b & u & Hin & Hu & Hue & Hd0 & Hi & Hrd & Hck).
      apply elem_of_cons in Hin as [->|Hin].
      * left. rewrite Ht in Hu. injection Hu as <-. subst notes.
        rewrite Hi. replace (r_deadline_ns t =? 0) with false
          by (symmetry; apply Z.eqb_neq; lia).
        simpl. rewrite Hrd, Hck. apply list_elem_of_singleton. done.
      * right. exists b, u. rewrite Hrep1 by (intros ->; done). by split_and!.
  - intros d0. rewrite elem_of_app. intros [Hin|Hin]; [|by eapply Hnore].
    subst notes.
    destruct (negb (r_deadline_ns t =? 0) && negb (r_interrupted t));
      [|by apply elem_of_nil in Hin].
    by apply list_elem_of_singleton in Hin.
  - intros b u Hin Hu Hp.
    apply elem_of_cons in Hin as [->|Hin].
    + rewrite Ht in Hu. injection Hu as <-. congruence.
    + apply (Hmin b u); [done| |done]. rewrite Hrep1; [done|]. intros ->. done.
  - destruct Hwit as [->|(b & u & Hin & Hu & Hrest)]; [by left|].
    right. exists b, u. split; [rewrite elem_of_cons; auto|].
    rewrite <- Hrep1; [done|]. intros ->. done.
Qed.

End WorkProperties.

Section WorkTheorem.
Context `{Limits, Uapi, Collaborators}.

(** X21.  kdbus_conn_work() on a connection whose reply list is
    consistent.  On an inactive connection it does nothing.  On an active one
    it returns and keeps on the reply list exactly the trackers that have not
    expired: those a synchronous caller sleeps on, and those whose deadline
    lies ahead; these trackers are untouched, and no queue and no active
    counter changes.  A reply-timeout notification is sent for exactly the
    expired trackers with a non-zero deadline that are not interrupted.  The
    worker is rearmed exactly when a deadline other than ~0 lies ahead, with
    the time until the earliest such deadline.  The last thing done is to
    flush the notifications. *)
Theorem kdbus_conn_work_expires_trackers bus conn c :
  conns_by_id bus →
  b_conns bus !! conn = Some c →
  NoDup (c_reply_list c) →
  (∀ a, a ∈ c_reply_list c →
        ∃ t, b_replies bus !! a = Some t
             ∧ is_Some (b_conns bus !! r_reply_dst t)
             ∧ r_deadline_ns t < U64_MOD) →
  let now := ktime_get_ns bus in
  (kdbus_conn_active c = false → kdbus_conn_work bus conn = Return ([], bus))
  ∧ (kdbus_conn_active c = true →
     ∃ evs bus' c',
       kdbus_conn_work bus conn = Return (evs, bus')
       ∧ b_conns bus' !! conn = Some c'
       ∧ (∀ x, x ∈ c_reply_list c'
               ↔ x ∈ c_reply_list c
                 ∧ ∃ t, b_replies bus !! x = Some t
                        ∧ reply_expired now t = false)
       ∧ (∀ x t, b_replies bus !! x = Some t → reply_expired now t = false →
                 b_replies bus' !! x = Some t)
       ∧ (∀ k d, b_conns bus !! k = Some d →
            ∃ d', b_conns bus' !! k = Some d'
                  ∧ c_active d' = c_active d ∧ c_msg_list d' = c_msg_list d)
       ∧ (∀ id cookie,
            WorkNotifyReplyTimeout id cookie ∈ evs
            ↔ ∃ a t, a ∈ c_reply_list c ∧ b_replies bus !! a = Some t
                     ∧ reply_expired now t = true
                     ∧ r_deadline_ns t ≠ 0 ∧ r_interrupted t = false
                     ∧ r_reply_dst t = id ∧ r_cookie t = cookie)
       ∧ (∀ delay,
            WorkScheduleDelayed delay ∈ evs
            ↔ ∃ a t, a ∈ c_reply_list c ∧ b_replies bus !! a = Some t
                     ∧ reply_pending now t = true
                     ∧ r_deadline_ns t ≠ U64_MOD - 1
                     ∧ delay = r_deadline_ns t - now
                     ∧ ∀ b u, b ∈ c_reply_list c → b_replies bus !! b = Some u →
                              reply_pending now u = true →
                              r_deadline_ns t ≤ r_deadline_ns u)
       ∧ b_events bus' = b_events bus ++ [EvNotifyFlush]).
Proof.
  intros Hids Hc Hnodup Hex now. unfold kdbus_conn_work, conn_deref.
  rewrite Hc, bind_Return. fold now. split.
  { by intros ->. }
  intros ->. cbn [negb].
  assert (Hex' : ∀ a, a ∈ c_reply_list c →
                      ∃ t, b_replies bus !! a = Some t
                           ∧ is_Some (b_conns bus !! r_reply_dst t)).
  { intros a Ha. destruct (Hex a Ha) as (t & ? & ? & _). eauto. }
  destruct (conn_work_loop_spec now (c_reply_list c) bus (U64_MOD - 1)
              Hids Hnodup Hex')
    as (dl & evs & bus' & -> & Hids' & Hrep & Hkeep & Hconns & Hsome & Hev
        & Hnote & Hnore & Hle & Hmin & Hwit).
  rewrite bind_Return.
  destruct (Hconns conn c Hc) as (c' & Hc' & _ & _ & _ & Hl).
  eexists _, _, c'. split; [reflexivity|]. split_and!.
  - done.
  - intros x. rewrite Hl. split.
    + intros [Hx Hno]. split; [done|].
      destruct (Hex x Hx) as (t & Ht & _). exists t. split; [done|].
      destruct (reply_expired now t) eqn:E; [|done].
      exfalso. apply Hno. eauto.
    + intros [Hx (t & Ht & Hne)]. split; [done|].
      intros [_ (u & Hu & Hue)]. congruence.
  - done.
  - intros k d Hd. destruct (Hconns k d Hd) as (d' & Hd' & _ & E2 & E3 & _).
    by exists d'.
  - intros id cookie. rewrite elem_of_app, <- Hnote. split; [|by left].
    intros [Hin|Hin]; [done|].
    destruct (negb (dl =? U64_MOD - 1)); [|by apply elem_of_nil in Hin].
    by apply list_elem_of_singleton in Hin.
  - intros delay. rewrite elem_of_app. split.
    + intros [Hin|Hin]; [by apply Hnore in Hin|].
      destruct (negb (dl =? U64_MOD - 1)) eqn:E;
        [|by apply elem_of_nil in Hin].
      apply list_elem_of_singleton in Hin. injection Hin as ->.
      apply negb_true_iff, Z.eqb_neq in E.
      destruct Hwit as [->|(a & t & Hin & Ht & Hp & ->)]; [done|].
      exists a, t. split_and!; try done.
    + intros (a & t & Hin & Ht & Hp & Hne & -> & Hleast). right.
      assert (dl = r_deadline_ns t) as ->.
      { pose proof (Hmin a t Hin Ht Hp) as Hdl.
        destruct Hwit as [->|(b & u & Hb & Hu & Hpu & ->)].
        - destruct (Hex a Hin) as (t' & Ht' & _ & Hrange).
          rewrite Ht in Ht'. injection Ht' as <-. lia.
        - pose proof (Hleast b u Hb Hu Hpu). lia. }
      replace (r_deadline_ns t =? U64_MOD - 1) with false
        by (symmetry; apply Z.eqb_neq; lia).
      apply list_elem_of_singleton. done.
  - simpl. by rewrite Hev.
Qed.

End WorkTheorem.

(** At 100 ns the call due at 50 ns has timed out and the call due at 500 ns is waited for. *)
Lemma kdbus_conn_work_expires_trackers_witness :
  ∃ evs bus' c',
    @kdbus_conn_work sample_collaborators_later sample_bus_two_calls 2
      = Return (evs, bus')
    ∧ b_conns bus' !! 2 = Some c'
    ∧ 101 ∈ c_reply_list c'
    ∧ (100 ∉ c_reply_list c')
    ∧ WorkNotifyReplyTimeout 1 7 ∈ evs
    ∧ WorkScheduleDelayed 400 ∈ evs.
Proof.
  destruct (@kdbus_conn_work_expires_trackers sample_collaborators_later
              sample_bus_two_calls 2
              (conn_set_reply_list [100; 101] (sample_conn 2 1 1 1000)))
    as (_ & Hactive).
  - apply conns_by_id_decide. vm_compute. reflexivity.
  - vm_compute. reflexivity.
  - apply (bool_decide_unpack _). vm_compute. reflexivity.
  - intros a Ha. apply elem_of_cons in Ha as [->|Ha].
    + exists (sample_reply_due 1 7 50). split; [vm_compute; reflexivity|].
      split; [vm_compute; eexists; reflexivity|vm_compute; reflexivity].
    + apply list_elem_of_singleton in Ha as ->.
      exists (sample_reply_due 1 8 500). split; [vm_compute; reflexivity|].
      split; [vm_compute; eexists; reflexivity|vm_compute; reflexivity].
  - destruct Hactive as (evs & bus' & c' & Hr & Hc' & Hlist & _ & _ & Hnote
                         & Hrearm & _); [reflexivity|].
    exists evs, bus', c'. split; [exact Hr|]. split; [exact Hc'|]. split_and!.
    + apply Hlist. split; [apply (bool_decide_unpack _); vm_compute; reflexivity|].
      exists (sample_reply_due 1 8 500). split; vm_compute; reflexivity.
    + intros Hin. apply Hlist in Hin as [_ (t & Ht & Hexp)].
      vm_compute in Ht. injection Ht as <-. vm_compute in Hexp. discriminate.
    + apply Hnote. exists 100, (sample_reply_due 1 7 50).
      split; [apply (bool_decide_unpack _); vm_compute; reflexivity|].
      split; [vm_compute; reflexivity|]. split; [vm_compute; reflexivity|].
      split; [vm_compute; discriminate|]. split_and!; reflexivity.
    + apply Hrearm. exists 101, (sample_reply_due 1 8 500).
      split; [apply (bool_decide_unpack _); vm_compute; reflexivity|].
      split; [vm_compute; reflexivity|]. split; [vm_compute; reflexivity|].
      split; [vm_compute; discriminate|]. split; [reflexivity|].
      intros b u Hb Hu Hp.
      apply elem_of_cons in Hb as [->|Hb].
      * vm_compute in Hu. injection Hu as <-. vm_compute in Hp. discriminate.
      * apply list_elem_of_singleton in Hb as ->.
        vm_compute in Hu. injection Hu as <-. simpl. lia.
Defined.

(** ** The parameters of a new bus (bus.c) *)

Lemma bus_make_user_loop_spec items : ∀ n bl,
  let names := from_option (λ s, [s]) [] n ++ make_item_names items in
  let blooms := from_option (λ b, [b]) [] bl ++ make_item_blooms items in
  match bus_make_user_loop items n bl with
  | inl ret => ret = - EEXIST
               ∧ ((2 ≤ length names)%nat ∨ (2 ≤ length blooms)%nat)
  | inr (n', bl') =>
      names = from_option (λ s, [s]) [] n'
      ∧ blooms = from_option (λ b, [b]) [] bl'
  end.
Proof.
  induction items as [|i items IH]; intros n bl; cbn zeta.
  { simpl. by rewrite !app_nil_r. }
  destruct i as [str|size n_hash|type]; cbn [bus_make_user_loop].
  - destruct n as [s|].
    + split; [done|]. left. simpl. lia.
    + specialize (IH (Some str) bl). cbn zeta in IH. exact IH.
  - destruct bl as [b|].
    + split; [done|]. right. simpl. lia.
    + specialize (IH n (Some (size, n_hash))). cbn zeta in IH. exact IH.
  - specialize (IH n bl). cbn zeta in IH. exact IH.
Qed.

Section MakeUserProperties.
Variable KDBUS_BUS_BLOOM_MAX_SIZE : Z.
Variable KDBUS_IS_ALIGNED8 : Z → bool.

(** X22.  kdbus_bus_make_user() accepts exactly the commands with one
    name item and one bloom parameter item whose size lies between 8 and
    KDBUS_BUS_BLOOM_MAX_SIZE and is 8-aligned (KDBUS_IS_ALIGNED8) and whose
    number of hash functions is at least 1, and then hands out that name and
    that parameter.  A second
    name or a second bloom parameter gives -EEXIST, a missing name or
    parameter -EBADMSG, a parameter out of range -EINVAL; there is no other
    result, and a failure hands out nothing.  Items of other types are
    passed over. *)
Theorem kdbus_bus_make_user_one_name_one_bloom items :
  let names := make_item_names items in
  let blooms := make_item_blooms items in
  let '(ret, out) := kdbus_bus_make_user KDBUS_BUS_BLOOM_MAX_SIZE KDBUS_IS_ALIGNED8 items in
  (ret = - EEXIST ↔ (2 ≤ length names)%nat ∨ (2 ≤ length blooms)%nat)
  ∧ (ret = - EBADMSG
     ↔ (length names ≤ 1)%nat ∧ (length blooms ≤ 1)%nat
       ∧ (names = [] ∨ blooms = []))
  ∧ (ret = 0
     ↔ ∃ n size n_hash,
         names = [n] ∧ blooms = [(size, n_hash)]
         ∧ 8 ≤ size ≤ KDBUS_BUS_BLOOM_MAX_SIZE ∧ KDBUS_IS_ALIGNED8 size = true
         ∧ 1 ≤ n_hash)
  ∧ (ret = 0 ∨ ret = - EEXIST ∨ ret = - EBADMSG ∨ ret = - EINVAL)
  ∧ out = (if ret =? 0
           then match names, blooms with
                | [n], [b] => Some (n, b)
                | _, _ => None
                end
           else None).
Proof.
  cbn zeta. unfold kdbus_bus_make_user.
  pose proof (bus_make_user_loop_spec items None None) as Hloop.
  cbn zeta in Hloop. simpl in Hloop.
  destruct (bus_make_user_loop items None None) as [ret|[n bl]].
  { destruct Hloop as [-> Hdup]. unfold EEXIST, EBADMSG, EINVAL.
    split_and!.
    - done.
    - split; [done|]. intros (? & ? & _). lia.
    - split; [done|]. intros (n & size & n_hash & E1 & E2 & _).
      rewrite E1, E2 in Hdup. simpl in Hdup. lia.
    - auto.
    - done. }
  destruct Hloop as [-> ->].
  assert (Hinval : ∀ n size n_hash,
    ¬ (8 ≤ size ≤ KDBUS_BUS_BLOOM_MAX_SIZE ∧ KDBUS_IS_ALIGNED8 size = true ∧ 1 ≤ n_hash) →
    (- EINVAL = - EEXIST ↔ (2 ≤ length [n])%nat ∨ (2 ≤ length [(size, n_hash)])%nat)
    ∧ (- EINVAL = - EBADMSG
       ↔ (length [n] ≤ 1)%nat ∧ (length [(size, n_hash)] ≤ 1)%nat
         ∧ ([n] = [] ∨ [(size, n_hash)] = []))
    ∧ (- EINVAL = 0
       ↔ ∃ n0 size0 n_hash0,
           [n] = [n0] ∧ [(size, n_hash)] = [(size0, n_hash0)]
           ∧ 8 ≤ size0 ≤ KDBUS_BUS_BLOOM_MAX_SIZE ∧ KDBUS_IS_ALIGNED8 size0 = true
           ∧ 1 ≤ n_hash0)
    ∧ (- EINVAL = 0 ∨ - EINVAL = - EEXIST ∨ - EINVAL = - EBADMSG
       ∨ - EINVAL = - EINVAL)
    ∧ @None (string * (Z * Z)) = (if - EINVAL =? 0 then Some (n, (size, n_hash)) else None)).
  { intros n0 size n_hash Hbad. unfold EEXIST, EBADMSG, EINVAL. split_and!.
    - split; [done|]. simpl. lia.
    - split; [done|]. intros (_ & _ & [?|?]); done.
    - split; [done|]. intros (? & ? & ? & _ & [= <- <-] & ? & ? & ?).
      exfalso. apply Hbad. done.
    - auto.
    - done. }
  destruct n as [n|], bl as [[size n_hash]|]; simpl.
  2-4: unfold EEXIST, EBADMSG, EINVAL; split_and!;
       [ split; [done|]; simpl; lia
       | split; [intros _; simpl; split_and!; auto; lia|done]
       | split; [done|]; by intros (? & ? & ? & ? & ? & _)
       | auto
       | done ].
  destruct (size <? 8) eqn:E1; simpl.
  { apply Hinval. apply Z.ltb_lt in E1. lia. }
  destruct (size >? KDBUS_BUS_BLOOM_MAX_SIZE) eqn:E2; simpl.
  { apply Hinval. apply Z.gtb_lt in E2. lia. }
  destruct (KDBUS_IS_ALIGNED8 size) eqn:E3; simpl.
  2: { apply Hinval. intros (_ & Hm & _). congruence. }
  destruct (n_hash <? 1) eqn:E4; simpl.
  { apply Hinval. apply Z.ltb_lt in E4. lia. }
  apply Z.ltb_ge in E1, E4. rewrite Z.gtb_ltb in E2. apply Z.ltb_ge in E2.
  unfold EEXIST, EBADMSG, EINVAL. split_and!.
  - split; [done|]. lia.
  - split; [done|]. intros (_ & _ & [?|?]); done.
  - split; [|done]. intros _. exists n, size, n_hash. split_and!; try done; lia.
  - auto.
  - done.
Qed.

End MakeUserProperties.

(** ** Moving messages between connections (connection.c) *)

Section MoveProperties.
Context `{Limits, Uapi, Collaborators}.
Variable kdbus_pool_move_slice : kdbus_queue_entry → Z * Z.

Lemma move_replies_loop_spec bus name_id l :
  (∀ a, a ∈ l → is_Some (b_replies bus !! a)) →
  move_replies_loop bus name_id l
  = Return (filter (λ a, reply_passes bus name_id a = false) l,
            filter (λ a, reply_passes bus name_id a = true) l).
Proof.
  induction l as [|a l IH]; intros Hex; cbn [move_replies_loop]; [done|].
  destruct (Hex a) as [t Ht]; [rewrite elem_of_cons; auto|].
  unfold reply_deref at 1. rewrite Ht, bind_Return.
  rewrite IH by (intros x Hx; apply Hex; rewrite elem_of_cons; auto).
  rewrite bind_Return. rewrite !filter_cons.
  assert (Hp : reply_passes bus name_id a
               = negb ((name_id >? 0) && negb (r_name_id t =? name_id))).
  { unfold reply_passes. by rewrite Ht. }
  destruct ((name_id >? 0) && negb (r_name_id t =? name_id)); simpl in Hp;
    simpl.
  - rewrite decide_True by done. by rewrite decide_False by congruence.
  - rewrite decide_False by congruence. by rewrite decide_True by done.
Qed.

Lemma queue_entry_remove_more i entry c :
  let c' := kdbus_queue_entry_remove i entry c in
  c_msg_list c' = delete i (c_msg_list c)
  ∧ c_reply_count c' = c_reply_count c.
Proof. unfold kdbus_queue_entry_remove. by destruct (0 <=? e_user entry). Qed.

Lemma move_msgs_loop_spec name_id l : ∀ pre src src' moved,
  c_msg_list src = pre ++ l →
  move_msgs_loop name_id (length pre) l src = (src', moved) →
  c_msg_list src'
  = pre ++ filter (λ q, move_passes name_id (e_dst_name_id q) = false) l
  ∧ moved = filter (λ q, move_passes name_id (e_dst_name_id q) = true) l
  ∧ c_id src' = c_id src ∧ c_active src' = c_active src
  ∧ c_reply_list src' = c_reply_list src
  ∧ c_reply_count src' = c_reply_count src.
Proof.
  induction l as [|q l IH]; intros pre src src' moved Hl;
    cbn [move_msgs_loop].
  { intros [= <- <-]. by rewrite Hl. }
  rewrite !filter_cons.
  assert (Hp : move_passes name_id (e_dst_name_id q)
               = negb ((name_id >? 0) && negb (e_dst_name_id q =? name_id)))
    by done.
  destruct ((name_id >? 0) && negb (e_dst_name_id q =? name_id)); simpl in Hp.
  - rewrite decide_True by done. rewrite decide_False by congruence.
    intros Hm. destruct (IH (pre ++ [q]) src src' moved) as (-> & Hrest).
    + by rewrite <- app_assoc.
    + rewrite length_app. simpl. by rewrite Nat.add_1_r.
    + split; [|done]. by rewrite <- app_assoc.
  - rewrite decide_False by congruence. rewrite decide_True by done.
    destruct (move_msgs_loop name_id (length pre) l _) as [src1 moved1] eqn:Hm.
    intros [= <- <-].
    destruct (queue_entry_remove_fields (length pre) q src)
      as (E1 & E2 & E3 & _).
    destruct (queue_entry_remove_more (length pre) q src) as (E4 & E5).
    cbn zeta in *.
    destruct (IH pre _ _ _ ltac:(rewrite E4, Hl; by rewrite delete_middle) Hm)
      as (-> & -> & -> & -> & -> & ->).
    by rewrite E1, E2, E3, E5.
Qed.

Lemma move_insert_loop_spec l : ∀ ret dst ret' dst' evs,
  move_insert_loop kdbus_pool_move_slice ret dst l = (ret', dst', evs) →
  ret' = from_option (λ q, fst (kdbus_pool_move_slice q)) ret (last l)
  ∧ c_msg_list dst' = c_msg_list dst ++ moved_entries kdbus_pool_move_slice l
  ∧ c_msg_count dst'
    = c_msg_count dst + Z.of_nat (length (moved_entries kdbus_pool_move_slice l))
  ∧ evs = (λ q, EvEntryFree (e_slice q))
          <$> filter (λ q, fst (kdbus_pool_move_slice q) < 0) l
  ∧ c_id dst' = c_id dst ∧ c_active dst' = c_active dst
  ∧ c_reply_list dst' = c_reply_list dst
  ∧ c_reply_count dst' = c_reply_count dst.
Proof.
  induction l as [|q l IH]; intros ret dst ret' dst' evs;
    cbn [move_insert_loop].
  { intros [= <- <- <-]. simpl. rewrite app_nil_r. split_and!; try done. lia. }
  assert (Hlast : ∀ r, from_option (λ q, fst (kdbus_pool_move_slice q)) r
                         (last (q :: l))
                       = from_option (λ q, fst (kdbus_pool_move_slice q))
                           (fst (kdbus_pool_move_slice q)) (last l)).
  { intros r. destruct l as [|q' l']; [done|].
    change (last (q :: q' :: l')) with (last (q' :: l')).
    destruct (last (q' :: l')) eqn:El; [done|]. by apply last_None in El. }
  rewrite Hlast. unfold moved_entries. cbn [omap list_omap]. rewrite filter_cons.
  destruct (kdbus_pool_move_slice q) as [r off] eqn:Hq. cbn [fst snd].
  destruct (r <? 0) eqn:Hr.
  - destruct (move_insert_loop _ r dst l) as [[r1 d1] evs1] eqn:Hm.
    intros [= <- <- <-].
    destruct (IH _ _ _ _ _ Hm) as (-> & -> & -> & -> & ? & ? & ? & ?).
    apply Z.ltb_lt in Hr. rewrite decide_True by done.
    by split_and!.
  - intros Hm.
    destruct (IH _ _ _ _ _ Hm) as (-> & -> & -> & -> & ? & ? & ? & ?).
    apply Z.ltb_ge in Hr. rewrite decide_False by lia.
    unfold kdbus_queue_entry_add in *. simpl in *.
    rewrite <- app_assoc. split_and!; try done.
    fold (moved_entries kdbus_pool_move_slice l). lia.
Qed.

End MoveProperties.

Section MoveTheorems.
Context `{Limits, Uapi, Collaborators}.
Variable kdbus_pool_move_slice : kdbus_queue_entry → Z * Z.

Lemma reply_unref_frame bus a t :
  conns_by_id bus →
  b_replies bus !! a = Some t → is_Some (b_conns bus !! r_reply_dst t) →
  ∃ bus',
    kdbus_conn_reply_unref bus (Some a) = Return bus'
    ∧ conns_by_id bus'
    ∧ (∀ x, x ≠ a → b_replies bus' !! x = b_replies bus !! x)
    ∧ b_replies bus' !! a = reply_after_unref t
    ∧ (∀ k c, b_conns bus !! k = Some c →
         ∃ c', b_conns bus' !! k = Some c'
               ∧ c_id c' = c_id c ∧ c_active c' = c_active c
               ∧ c_msg_list c' = c_msg_list c
               ∧ c_reply_list c' = c_reply_list c)
    ∧ b_events bus' = b_events bus.
Proof.
  intros Hids Ht [d Hd].
  unfold kdbus_conn_reply_unref, reply_deref, reply_after_unref.
  rewrite Ht, bind_Return.
  destruct (r_kref t =? 1).
  - unfold conn_deref. rewrite Hd, bind_Return.
    eexists. split; [reflexivity|]. unfold conns_by_id. simpl.
    rewrite (Hids _ _ Hd). split_and!.
    + intros k c. destruct (decide (k = r_reply_dst t)) as [->|Hne].
      * rewrite lookup_insert_eq. intros [= <-]. simpl. by apply Hids.
      * rewrite lookup_insert_ne by done. by apply Hids.
    + intros x Hx. by rewrite lookup_delete_ne.
    + by rewrite lookup_delete_eq.
    + intros k c Hc. destruct (decide (k = r_reply_dst t)) as [->|Hne].
      * rewrite lookup_insert_eq. eexists. split; [reflexivity|].
        rewrite Hd in Hc. injection Hc as <-. by split_and!.
      * rewrite lookup_insert_ne by done. by exists c.
    + done.
  - eexists. split; [reflexivity|]. unfold conns_by_id. simpl. split_and!.
    + done.
    + intros x Hx. by rewrite lookup_insert_ne.
    + by rewrite lookup_insert_eq.
    + intros k c Hc. by exists c.
    + done.
Qed.

Lemma move_unref_loop_spec l : ∀ bus,
  conns_by_id bus → NoDup l →
  (∀ a, a ∈ l → is_Some (b_replies bus !! a)) →
  (∀ a t, b_replies bus !! a = Some t → is_Some (b_conns bus !! r_reply_dst t)) →
  ∃ bus',
    move_unref_loop bus l = Return bus'
    ∧ (∀ x, x ∉ l → b_replies bus' !! x = b_replies bus !! x)
    ∧ (∀ x t, x ∈ l → b_replies bus !! x = Some t →
              b_replies bus' !! x = reply_after_unref t)
    ∧ (∀ k c, b_conns bus !! k = Some c →
         ∃ c', b_conns bus' !! k = Some c'
               ∧ c_id c' = c_id c ∧ c_active c' = c_active c
               ∧ c_msg_list c' = c_msg_list c
               ∧ c_reply_list c' = c_reply_list c)
    ∧ b_events bus' = b_events bus.
Proof.
  induction l as [|a l IH]; intros bus Hids Hnodup Hex Hdst;
    cbn [move_unref_loop].
  { exists bus. split_and!; try done.
    - intros x t Hin. by apply elem_of_nil in Hin.
    - intros k c Hc. by exists c. }
  apply NoDup_cons in Hnodup as [Hnotin Hnodup].
  destruct (Hex a) as [t Ht]; [rewrite elem_of_cons; auto|].
  destruct (reply_unref_frame bus a t Hids Ht (Hdst _ _ Ht))
    as (bus1 & -> & Hids1 & Hrep1 & Ha1 & Hconns1 & Hev1).
  rewrite bind_Return.
  destruct (IH bus1) as (bus' & -> & Hrep & Hin & Hconns & Hev); try done.
  { intros x Hx. rewrite Hrep1 by (intros ->; done).
    apply Hex. rewrite elem_of_cons; auto. }
  { intros x u. destruct (decide (x = a)) as [->|Hne].
    - rewrite Ha1. unfold reply_after_unref.
      destruct (r_kref t =? 1); [done|]. intros [= <-]. simpl.
      destruct (Hdst _ _ Ht) as [d Hd].
      destruct (Hconns1 _ _ Hd) as (d' & -> & _). by eexists.
    - rewrite Hrep1 by done. intros Hu.
      destruct (Hdst _ _ Hu) as [d Hd].
      destruct (Hconns1 _ _ Hd) as (d' & -> & _). by eexists. }
  exists bus'. split; [done|]. split_and!.
  - intros x Hx. rewrite Hrep, Hrep1; [done| |].
    + intros ->. apply Hx. rewrite elem_of_cons; auto.
    + intros Hl. apply Hx. rewrite elem_of_cons; auto.
  - intros x u Hx Hu. apply elem_of_cons in Hx as [->|Hx].
    + rewrite Hrep by done. rewrite Ht in Hu. injection Hu as <-. done.
    + apply Hin; [done|]. rewrite Hrep1; [done|]. intros ->. done.
  - intros k c Hc.
    destruct (Hconns1 k c Hc) as (c1 & Hc1 & E1 & E2 & E3 & E4).
    destruct (Hconns k c1 Hc1) as (c' & Hc' & F1 & F2 & F3 & F4).
    exists c'. split_and!; congruence.
  - congruence.
Qed.

(** X23.  kdbus_conn_move_messages() to an active destination: the
    messages and trackers that pass the name filter leave the source, the
    others stay in their order.  The trackers are put in front of the reply
    list of the destination; a message whose slice could be moved is appended
    to the queue of the destination, and a message whose slice could not be
    moved is freed, so it is in neither queue afterwards.  The result is that
    of the last slice moved (0 when no message passes) whatever happened to
    the messages before it.  No tracker and no other connection changes, and
    the destination is woken at the end. *)
Theorem kdbus_conn_move_messages_to_active_destination
  bus conn_dst conn_src name_id src dst :
  conn_src ≠ conn_dst →
  b_conns bus !! conn_src = Some src → c_id src = conn_src →
  b_conns bus !! conn_dst = Some dst → c_id dst = conn_dst →
  (∀ a, a ∈ c_reply_list src → is_Some (b_replies bus !! a)) →
  kdbus_conn_active dst = true →
  let passing := filter (λ q, move_passes name_id (e_dst_name_id q) = true)
                   (c_msg_list src) in
  ∃ ret bus' src' dst',
    kdbus_conn_move_messages kdbus_pool_move_slice bus conn_dst conn_src name_id
    = Return (ret, bus')
    ∧ ret = from_option (λ q, fst (kdbus_pool_move_slice q)) 0 (last passing)
    ∧ b_conns bus' !! conn_src = Some src'
    ∧ b_conns bus' !! conn_dst = Some dst'
    ∧ c_msg_list src'
      = filter (λ q, move_passes name_id (e_dst_name_id q) = false)
          (c_msg_list src)
    ∧ c_reply_list src'
      = filter (λ a, reply_passes bus name_id a = false) (c_reply_list src)
    ∧ c_msg_list dst'
      = c_msg_list dst ++ moved_entries kdbus_pool_move_slice passing
    ∧ c_reply_list dst'
      = filter (λ a, reply_passes bus name_id a = true) (c_reply_list src)
        ++ c_reply_list dst
    ∧ b_replies bus' = b_replies bus
    ∧ (∀ k, k ≠ conn_src → k ≠ conn_dst →
            b_conns bus' !! k = b_conns bus !! k)
    ∧ b_events bus'
      = b_events bus
        ++ ((λ q, EvEntryFree (e_slice q))
            <$> filter (λ q, fst (kdbus_pool_move_slice q) < 0) passing)
        ++ [EvWakeUp conn_dst].
Proof.
  intros Hne Hs Hsid Hd Hdid Hex Hact passing.
  unfold kdbus_conn_move_messages.
  replace (conn_src =? conn_dst) with false by (symmetry; by apply Z.eqb_neq).
  unfold conn_deref. rewrite Hs, bind_Return.
  rewrite (move_replies_loop_spec _ _ _ Hex), bind_Return. cbv zeta.
  set (src0 := conn_set_reply_list _ src).
  destruct (move_msgs_loop name_id 0 (c_msg_list src0) src0)
    as [src1 msg_list] eqn:Hm.
  destruct (move_msgs_loop_spec name_id (c_msg_list src0) [] src0 src1 msg_list
              eq_refl Hm) as (Hl1 & -> & Hid1 & Hact1 & Hrl1 & Hrc1).
  subst src0. simpl in Hl1, Hid1, Hrl1, Hm |- *. fold passing in Hm |- *.
  unfold bus_put_conn. simpl.
  rewrite Hid1, Hsid, lookup_insert_ne, Hd, bind_Return by done.
  rewrite Hact. cbn [negb].
  destruct (move_insert_loop kdbus_pool_move_slice 0 dst passing)
    as [[ret dst1] evs] eqn:Hi.
  destruct (move_insert_loop_spec kdbus_pool_move_slice _ _ _ _ _ _ Hi)
    as (-> & Hl2 & _ & -> & Hid2 & Hact2 & Hrl2 & _).
  eexists _, _, src1, _. split; [reflexivity|]. split; [done|].
  split.
  { simpl. rewrite Hid2, Hdid, lookup_insert_ne by congruence.
    by rewrite lookup_insert_eq. }
  split.
  { simpl. rewrite Hid2, Hdid. by rewrite lookup_insert_eq. }
  simpl. rewrite Hid2, Hdid. split_and!; try done.
  - by rewrite Hrl2.
  - intros k Hk1 Hk2. by rewrite !lookup_insert_ne by congruence.
  - by rewrite <- app_assoc.
Qed.

(** X24.  kdbus_conn_move_messages() to a destination that is no
    longer active returns -ECONNRESET.  The messages and trackers that pass
    the name filter have left the source all the same: each such message is
    freed and each such tracker loses one reference.  The queue and the
    reply list of the destination are as they were. *)
Theorem kdbus_conn_move_messages_to_dead_destination
  bus conn_dst conn_src name_id src dst :
  conn_src ≠ conn_dst →
  conns_by_id bus →
  b_conns bus !! conn_src = Some src →
  b_conns bus !! conn_dst = Some dst →
  NoDup (c_reply_list src) →
  (∀ a, a ∈ c_reply_list src → is_Some (b_replies bus !! a)) →
  (∀ a t, b_replies bus !! a = Some t → is_Some (b_conns bus !! r_reply_dst t)) →
  kdbus_conn_active dst = false →
  ∃ bus' src' dst',
    kdbus_conn_move_messages kdbus_pool_move_slice bus conn_dst conn_src name_id
    = Return (- ECONNRESET, bus')
    ∧ b_conns bus' !! conn_src = Some src'
    ∧ b_conns bus' !! conn_dst = Some dst'
    ∧ c_msg_list src'
      = filter (λ q, move_passes name_id (e_dst_name_id q) = false)
          (c_msg_list src)
    ∧ c_reply_list src'
      = filter (λ a, reply_passes bus name_id a = false) (c_reply_list src)
    ∧ c_msg_list dst' = c_msg_list dst
    ∧ c_reply_list dst' = c_reply_list dst
    ∧ (∀ a t, a ∈ c_reply_list src → b_replies bus !! a = Some t →
              reply_passes bus name_id a = true →
              b_replies bus' !! a = reply_after_unref t)
    ∧ b_events bus'
      = b_events bus
        ++ ((λ q, EvEntryFree (e_slice q))
            <$> filter (λ q, move_passes name_id (e_dst_name_id q) = true)
                  (c_msg_list src)).
Proof.
  intros Hne Hids Hs Hd Hnodup Hex Hdst Hact.
  pose proof (Hids _ _ Hs) as Hsid. pose proof (Hids _ _ Hd) as Hdid.
  unfold kdbus_conn_move_messages.
  replace (conn_src =? conn_dst) with false by (symmetry; by apply Z.eqb_neq).
  unfold conn_deref. rewrite Hs, bind_Return.
  rewrite (move_replies_loop_spec _ _ _ Hex), bind_Return. cbv zeta.
  set (src0 := conn_set_reply_list _ src).
  destruct (move_msgs_loop name_id 0 (c_msg_list src0) src0)
    as [src1 msg_list] eqn:Hm.
  destruct (move_msgs_loop_spec name_id (c_msg_list src0) [] src0 src1 msg_list
              eq_refl Hm) as (Hl1 & -> & Hid1 & Hact1 & Hrl1 & Hrc1).
  subst src0. simpl in Hl1, Hid1, Hrl1, Hm |- *.
  unfold bus_put_conn. simpl.
  rewrite Hid1, Hsid, lookup_insert_ne, Hd, bind_Return by done.
  rewrite Hact. cbn [negb].
  set (bus1 := bus_set_events _ _).
  assert (Hc1 : ∀ k c, b_conns bus !! k = Some c →
                       ∃ c', b_conns bus1 !! k = Some c' ∧ c_id c' = c_id c).
  { intros k c Hc. subst bus1. simpl.
    destruct (decide (k = conn_src)) as [->|Hk].
    - rewrite lookup_insert_eq. exists src1. split; [done|]. congruence.
    - rewrite lookup_insert_ne by done. by exists c. }
  destruct (move_unref_loop_spec
              (filter (λ a, reply_passes bus name_id a = true) (c_reply_list src))
              bus1)
    as (bus' & -> & Hrep & Hin & Hconns & Hev).
  { intros k c. subst bus1. simpl.
    destruct (decide (k = conn_src)) as [->|Hk].
    - rewrite lookup_insert_eq. intros [= <-]. congruence.
    - rewrite lookup_insert_ne by done. apply Hids. }
  { by apply NoDup_filter. }
  { intros a Ha. apply list_elem_of_filter in Ha as [_ Ha]. by apply Hex. }
  { intros a t Ht. destruct (Hdst a t Ht) as [d0 Hd0].
    destruct (Hc1 _ _ Hd0) as (c' & -> & _). by eexists. }
  rewrite bind_Return.
  destruct (Hconns conn_src src1) as (src' & Hs' & _ & _ & E1 & E2).
  { subst bus1. simpl. by rewrite lookup_insert_eq. }
  destruct (Hconns conn_dst dst) as (dst' & Hd' & _ & _ & F1 & F2).
  { subst bus1. simpl. by rewrite lookup_insert_ne. }
  exists bus', src', dst'. split; [done|]. split_and!; try done.
  - congruence.
  - congruence.
  - intros a t Ha Ht Hp. apply Hin; [|done].
    apply list_elem_of_filter. done.
Qed.

End MoveTheorems.

(** The queued message of connection 2 moves to connection 1. *)
Lemma kdbus_conn_move_messages_to_active_destination_witness :
  ∃ bus' src' dst',
    kdbus_conn_move_messages sample_pool_move_slice sample_bus_queued 1 2 0
      = Return (0, bus')
    ∧ b_conns bus' !! 2 = Some src'
    ∧ b_conns bus' !! 1 = Some dst'
    ∧ c_msg_list src' = []
    ∧ c_msg_list dst' = [sample_entry].
Proof.
  destruct (kdbus_conn_move_messages_to_active_destination
              sample_pool_move_slice sample_bus_queued 1 2 0
              sample_conn_queued (sample_conn 1 1 0 1000))
    as (ret & bus' & src' & dst' & Hr & -> & Hs & Hd & Hsl & _ & Hdl & _).
  - lia.
  - vm_compute. reflexivity.
  - reflexivity.
  - vm_compute. reflexivity.
  - reflexivity.
  - intros a Ha. by apply elem_of_nil in Ha.
  - reflexivity.
  - exists bus', src', dst'. split; [exact Hr|]. split; [exact Hs|].
    split; [exact Hd|]. split; [exact Hsl|exact Hdl].
Defined.

(** The same move after connection 1 has been disconnected. *)
Lemma kdbus_conn_move_messages_to_dead_destination_witness :
  ∃ bus' src' dst',
    kdbus_conn_move_messages sample_pool_move_slice sample_bus_dead_peer 1 2 0
      = Return (- ECONNRESET, bus')
    ∧ b_conns bus' !! 2 = Some src'
    ∧ b_conns bus' !! 1 = Some dst'
    ∧ c_msg_list src' = []
    ∧ c_msg_list dst' = []
    ∧ b_events bus' = [EvEntryFree 128].
Proof.
  destruct (kdbus_conn_move_messages_to_dead_destination
              sample_pool_move_slice sample_bus_dead_peer 1 2 0
              sample_conn_queued
              (conn_set_active KDBUS_CONN_ACTIVE_BIAS (sample_conn 1 1 0 1000)))
    as (bus' & src' & dst' & Hr & Hs & Hd & Hsl & _ & Hdl & _ & _ & Hev).
  - lia.
  - apply conns_by_id_decide. vm_compute. reflexivity.
  - vm_compute. reflexivity.
  - vm_compute. reflexivity.
  - apply NoDup_nil_2.
  - intros a Ha. by apply elem_of_nil in Ha.
  - intros a t Ht. vm_compute in Ht. discriminate.
  - reflexivity.
  - exists bus', src', dst'. split; [exact Hr|]. split; [exact Hs|].
    split; [exact Hd|]. split; [exact Hsl|]. split; [exact Hdl|exact Hev].
Defined.
